(** * nmt/model.py: the adversarial cross-lingual sequence-to-sequence model

    A shallow embedding of [BaseModel] and [Model] of [nmt/model.py].

    The TensorFlow 1.x program has two phases and the embedding keeps both:
    - graph construction ([__init__], [build_graph], ...) is sequential Python
      that raises exceptions, opens variable scopes, creates variables and
      binds attributes on [self]; it is a state-and-exception monad over the
      TensorFlow graph, producing symbolic tensors and operations;
    - execution ([sess.run]) gives the symbolic scalars a value for a fed
      batch and applies the update operations to the session state.

    float32 is idealised as the real numbers; int32 tensors are integers with
    their wrap-around written out.  Console output, the initializer set on
    the root scope, device placement and the files of the [Saver] have no
    part in what follows and are left out. *)

From Stdlib Require Import List String Ascii ZArith Reals Bool Lia Lra.
Import ListNotations.
Set Warnings "-register-all".
Open Scope string_scope.
Open Scope Z_scope.

(** ** Python exceptions and results *)

Inductive exn : Type :=
| ValueError (msg : string)
| AttributeError (attr : string)
| AssertionError
| IndexError
| TypeError
| UnboundLocalError (name : string).

Inductive res (A : Type) : Type :=
| Ok (a : A)
| Raise (e : exn).
Arguments Ok {A} a.
Arguments Raise {A} e.

Definition is_ValueError {A} (r : res A) : bool :=
  match r with Raise (ValueError _) => true | _ => false end.

Definition is_Ok {A} (r : res A) : bool :=
  match r with Ok _ => true | Raise _ => false end.

(** ** Hyperparameters (the fields [model.py] reads) *)

Record HParams : Type := {
  src_vocab_size : Z;
  tgt_vocab_size : Z;
  num_gpus : Z;
  time_major : bool;
  num_encoder_layers : Z;
  num_decoder_layers : Z;
  (* [hasattr(hparams, "num_residual_layers")] is [Some] *)
  num_residual_layers : option Z;
  num_encoder_residual_layers : Z;
  num_decoder_residual_layers : Z;
  encoder_type : string;
  attention : bool;
  optimizer : string;
  learning_rate : R;
  warmup_steps : Z;
  warmup_scheme : string;
  decay_scheme : string;
  num_train_steps : Z;
  beam_width : Z;
  sampling_temperature : R;
  (* [0] stands for the falsy values [None] and [0] *)
  tgt_max_len_infer : Z;
  sos_2src : string;
  sos_2tgt : string;
  eos : string
}.

(** ** int32 tensors *)

Definition wrap32 (x : Z) : Z := (x + 2 ^ 31) mod 2 ^ 32 - 2 ^ 31.

(** [int(a / b)] under [from __future__ import division]: the quotient is a
    float and [int] truncates it toward zero. *)
Definition py_int_div (a b : Z) : Z := Z.quot a b.

(** ** The learning-rate schedule

    The learning rate is a scalar tensor that depends on the variable
    [global_step]: a function of the value of the step.  [None] is NaN. *)

Definition rate := Z -> option R.

(** [tf.train.exponential_decay(lr, step, decay_steps, decay_rate,
    staircase=True)]: [lr * decay_rate ^ floor(step / decay_steps)], the
    division being done on floats.  With [decay_steps = 0] the quotient is
    [inf] (or NaN at step 0); [pow(1, _)] is 1, [pow(r, inf)] is 0 for
    [0 <= r < 1] and NaN is kept otherwise. *)
Definition exponential_decay (lr : R) (step decay_steps : Z) (decay_rate : R)
  : option R :=
  if decay_steps =? 0 then
    if Req_EM_T decay_rate 1 then Some lr
    else if (0 <? step) && (if Rlt_dec decay_rate 1 then true else false)
            && (if Rle_dec 0 decay_rate then true else false)
         then Some (lr * 0)%R
         else None
  else Some (lr * powerRZ decay_rate (step / decay_steps))%R.

Definition _get_learning_rate_warmup (hparams : HParams) (learning_rate : rate)
  : res rate :=
  let warmup_steps := warmup_steps hparams in
  let warmup_scheme := warmup_scheme hparams in
  if (warmup_scheme =? "t2t")%string then
    (* 0.01^(1/warmup_steps); [inv_decay] is only selected when
       [global_step < warmup_steps], where its exponent is positive, so for
       [warmup_steps = 0] it is [exp(-inf) ** positive = 0]. *)
    let inv_decay (global_step : Z) : R :=
      if warmup_steps =? 0 then 0%R
      else Rpower (exp (ln 0.01 / IZR warmup_steps))
                  (IZR (wrap32 (warmup_steps - global_step))) in
    Ok (fun global_step =>
          if global_step <? warmup_steps
          then option_map (Rmult (inv_decay global_step)) (learning_rate global_step)
          else learning_rate global_step)
  else Raise (ValueError ("Unknown warmup scheme " ++ warmup_scheme)).

(** The three values the first branch of [_get_learning_rate_decay] sets. *)
Record decay_plan : Type := {
  start_decay_step : Z;
  decay_steps : Z;
  decay_factor : R
}.

Definition decay_plan_of (hparams : HParams) : res decay_plan :=
  let scheme := decay_scheme hparams in
  let n := num_train_steps hparams in
  if existsb (String.eqb scheme) ["luong5"; "luong10"; "luong234"] then
    let '(start, decay_times) :=
      if (scheme =? "luong5")%string then (py_int_div n 2, 5)
      else if (scheme =? "luong10")%string then (py_int_div n 2, 10)
      else (py_int_div (n * 2) 3, 4) in
    let remain_steps := n - start in
    Ok {| start_decay_step := start;
          decay_steps := py_int_div remain_steps decay_times;
          decay_factor := 0.5 |}
  else if (scheme =? "")%string then
    Ok {| start_decay_step := n; decay_steps := 0; decay_factor := 1 |}
  else Raise (ValueError ("Unknown decay scheme " ++ scheme)).

Definition _get_learning_rate_decay (hparams : HParams) (learning_rate : rate)
  : res rate :=
  match decay_plan_of hparams with
  | Raise e => Raise e
  | Ok p =>
      Ok (fun global_step =>
            if global_step <? start_decay_step p
            then learning_rate global_step
            else match learning_rate global_step with
                 | None => None
                 | Some lr =>
                     exponential_decay lr
                       (wrap32 (global_step - start_decay_step p))
                       (decay_steps p) (decay_factor p)
                 end)
  end.

(** The three assignments to [self.learning_rate] in [__init__]. *)
Definition learning_rate_schedule (hparams : HParams) : res rate :=
  let lr0 : rate := fun _ => Some (learning_rate hparams) in
  match _get_learning_rate_warmup hparams lr0 with
  | Raise e => Raise e
  | Ok lr1 => _get_learning_rate_decay hparams lr1
  end.

(** ** The TensorFlow graph: tensors, variables, scopes *)

Inductive ModeKeys : Type := TRAIN | EVAL | INFER.

Definition mode_eqb (a b : ModeKeys) : bool :=
  match a, b with
  | TRAIN, TRAIN | EVAL, EVAL | INFER, INFER => true
  | _, _ => false
  end.

(** [iterator_utils.BatchedInput]: a named tuple of tensors produced by one
    dataset iterator. *)
Inductive BatchedInput : Type := Iterator (id : nat).

Inductive field : Type :=
| source | target_input | target_output
| source_sequence_length | target_sequence_length.

(** Graph nodes.  The operations of [_compute_loss] and the sums of
    [build_graph] have constructors of their own (they are given a value
    below); every other TensorFlow operation is an [Op] node, kept by name
    with its inputs. *)
Inductive tensor : Type :=
| Field (it : BatchedInput) (f : field)
| Var (name : string)
| Const (z : Z)
| Op (name : string) (args : list tensor)
| Transpose (t : tensor)
| MaxTime (time_axis : nat) (t : tensor)
| SparseXentWithLogits (labels logits : tensor)
| SequenceMask (lengths maxlen : tensor)
| Mul (a b : tensor)
| ReduceSum (t : tensor)
| ToFloat (t : tensor)
| Size (t : tensor)
| Div (a b : tensor)
| Add (a b : tensor)
| AddN (ts : list tensor).

(** Nested Python tuples of state tensors (RNN states). *)
Inductive structure : Type :=
| Leaf (t : tensor)
| Tuple (items : list structure).

Record TfVariable : Type := {
  v_name : string;
  v_trainable : bool
}.

Inductive reuse_mode : Type := NO_REUSE | REUSE | AUTO_REUSE.

(** The [scope] argument of the constructor: [None], a string or a
    [VariableScope] object (which carries its full name). *)
Inductive scope_arg : Type :=
| ScopeNone
| ScopeStr (s : string)
| ScopeObject (full_name : string).

(** A [tf.layers.Dense] object: its variables are created, under the scope
    current at that moment, the first time the layer is called. *)
Record DenseLayer : Type := {
  layer_name : string;
  layer_units : Z;
  layer_built : option string
}.

(** An optimizer update: [opt.apply_gradients(grads_and_vars, global_step)]. *)
Record UpdateOp : Type := {
  upd_optimizer : string;
  upd_loss : tensor;
  upd_vars : list TfVariable;
  upd_global_step : option string
}.

(** Values bound to attributes of [self]. *)
Inductive pyval : Type :=
| VNone
| VBool (b : bool)
| VInt (z : Z)
| VMode (m : ModeKeys)
| VIter (it : BatchedInput)
| VTensor (t : tensor)
| VStructure (s : structure)
| VLayer (l : DenseLayer)
| VRate (lr : rate)
| VUpdate (u : UpdateOp)
| VVariable (v : TfVariable)
| VTable (name : string).

(** [self.__dict__], most recent binding first. *)
Definition object := list (string * pyval).

Record Graph : Type := {
  g_scope : string;
  g_reuse : reuse_mode;
  g_vars : list TfVariable
}.

Record State : Type := {
  graph : Graph;
  self : object
}.

(** Graph construction: state and exceptions. *)
Definition M (A : Type) : Type := State -> res (A * State).

Definition ret {A} (a : A) : M A := fun st => Ok (a, st).
Definition raise {A} (e : exn) : M A := fun _ => Raise e.
Definition bind {A B} (m : M A) (k : A -> M B) : M B :=
  fun st => match m st with
            | Ok (a, st') => k a st'
            | Raise e => Raise e
            end.

Declare Scope py_scope.
Delimit Scope py_scope with py.
Notation "x <- m ;; k" := (bind m (fun x => k))
  (at level 100, m at next level, right associativity) : py_scope.
Notation "' p <- m ;; k" := (bind m (fun p => k))
  (at level 100, p pattern, m at next level, right associativity) : py_scope.
Notation "m ;;; k" := (bind m (fun _ => k))
  (at level 100, right associativity) : py_scope.
Open Scope py_scope.

Definition get_graph : M Graph := fun st => Ok (graph st, st).
Definition put_graph (g : Graph) : M unit :=
  fun st => Ok (tt, {| graph := g; self := self st |}).

(** *** Attributes *)

Fixpoint lookup (attr : string) (o : object) : option pyval :=
  match o with
  | [] => None
  | (k, v) :: o' => if (k =? attr)%string then Some v else lookup attr o'
  end.

Definition getattr (attr : string) : M pyval :=
  fun st => match lookup attr (self st) with
            | Some v => Ok (v, st)
            | None => Raise (AttributeError attr)
            end.

Definition setattr (attr : string) (v : pyval) : M unit :=
  fun st => Ok (tt, {| graph := graph st; self := (attr, v) :: self st |}).

Definition as_tensor (v : pyval) : M tensor :=
  match v with VTensor t => ret t | _ => raise TypeError end.
Definition as_iter (v : pyval) : M BatchedInput :=
  match v with VIter it => ret it | _ => raise TypeError end.
Definition as_mode (v : pyval) : M ModeKeys :=
  match v with VMode m => ret m | _ => raise TypeError end.
Definition as_int (v : pyval) : M Z :=
  match v with VInt z => ret z | _ => raise TypeError end.
Definition as_bool (v : pyval) : M bool :=
  match v with VBool b => ret b | _ => raise TypeError end.
Definition as_layer (v : pyval) : M DenseLayer :=
  match v with VLayer l => ret l | _ => raise TypeError end.

Definition as_rate (v : pyval) : M rate :=
  match v with VRate r => ret r | _ => raise TypeError end.
Definition as_update (v : pyval) : M UpdateOp :=
  match v with VUpdate u => ret u | _ => raise TypeError end.
Definition as_variable (v : pyval) : M TfVariable :=
  match v with VVariable x => ret x | _ => raise TypeError end.
Definition as_table (v : pyval) : M string :=
  match v with VTable n => ret n | _ => raise TypeError end.

Definition get_tensor (attr : string) : M tensor := v <- getattr attr ;; as_tensor v.
Definition get_iter (attr : string) : M BatchedInput := v <- getattr attr ;; as_iter v.
Definition get_mode : M ModeKeys := v <- getattr "mode" ;; as_mode v.
Definition get_int (attr : string) : M Z := v <- getattr attr ;; as_int v.
Definition get_bool (attr : string) : M bool := v <- getattr attr ;; as_bool v.

(** [assert b], with assertions enabled (the interpreter's default). *)
Definition py_assert (b : bool) : M unit :=
  if b then ret tt else raise AssertionError.

(** *** Variable scopes and [get_variable] *)

Definition scope_join (prefix name : string) : string :=
  if (prefix =? "")%string then name else prefix ++ "/" ++ name.

(** [with tf.variable_scope(name, reuse=r): body].  The reuse flag is
    inherited when [r] is [None]; the enclosing scope is restored on exit. *)
Definition with_variable_scope {A} (name : string) (r : option reuse_mode)
  (body : M A) : M A :=
  g <- get_graph ;;
  put_graph {| g_scope := scope_join (g_scope g) name;
               g_reuse := match r with Some r' => r' | None => g_reuse g end;
               g_vars := g_vars g |} ;;;
  a <- body ;;
  g' <- get_graph ;;
  put_graph {| g_scope := g_scope g; g_reuse := g_reuse g; g_vars := g_vars g' |} ;;;
  ret a.

(** [with tf.variable_scope(scope or default): body]: a [VariableScope]
    object re-enters its own scope, whatever the current one is; [None] and
    the empty string are falsy and give the default name. *)
Definition with_scope_or {A} (scope : scope_arg) (default : string)
  (body : M A) : M A :=
  match scope with
  | ScopeObject full =>
      g <- get_graph ;;
      put_graph {| g_scope := full; g_reuse := g_reuse g; g_vars := g_vars g |} ;;;
      a <- body ;;
      g' <- get_graph ;;
      put_graph {| g_scope := g_scope g; g_reuse := g_reuse g; g_vars := g_vars g' |} ;;;
      ret a
  | ScopeStr s =>
      with_variable_scope (if (s =? "")%string then default else s) None body
  | ScopeNone => with_variable_scope default None body
  end.

Definition has_variable (name : string) (vars : list TfVariable) : bool :=
  existsb (fun v => (v_name v =? name)%string) vars.

(** [tf.get_variable(name)] for a trainable variable, in the current scope. *)
Definition get_variable (name : string) : M tensor :=
  g <- get_graph ;;
  let full := scope_join (g_scope g) name in
  let create :=
    put_graph {| g_scope := g_scope g; g_reuse := g_reuse g;
                 g_vars := g_vars g ++ [{| v_name := full; v_trainable := true |}] |} ;;;
    ret (Var full) in
  match g_reuse g, has_variable full (g_vars g) with
  | AUTO_REUSE, true | REUSE, true => ret (Var full)
  | AUTO_REUSE, false | NO_REUSE, false => create
  | REUSE, false => raise (ValueError ("Variable " ++ full ++ " does not exist"))
  | NO_REUSE, true => raise (ValueError ("Variable " ++ full ++ " already exists"))
  end.

(** [tf.layers.dense(inputs, units, activation=tf.nn.tanh, name=name)]: the
    layer opens the variable scope [name] and gets [kernel] and [bias]. *)
Definition layers_dense (inputs : tensor) (units : Z) (name : string) : M tensor :=
  with_variable_scope name None
    (kernel <- get_variable "kernel" ;;
     bias <- get_variable "bias" ;;
     ret (Op "dense/tanh" [inputs; kernel; bias])).

(** ** What [BaseModel] leaves to others *)

(** An RNN cell object, known by a description of how it was built. *)
Definition RNNCell := string.

(** The two abstract methods a subclass implements. *)
Class Subclass : Type := {
  _build_encoder :
    HParams -> BatchedInput -> tensor -> M (tensor * structure);
  _build_decoder_cell :
    HParams -> tensor -> structure -> tensor -> M (RNNCell * structure)
}.

(** [model_helper.create_emb_for_encoder_and_decoder], which is not part of
    this file: it returns the two embedding tables. *)
Class ModelHelper : Type := {
  create_emb_for_encoder_and_decoder : HParams -> scope_arg -> M (tensor * tensor)
}.

(** ** BaseModel *)

Section BaseModel.

Context {subclass : Subclass} {model_helper : ModelHelper}.

Definition init_embeddings (hparams : HParams) (scope : scope_arg) : M unit :=
  '(emb_src, emb_tgt) <- create_emb_for_encoder_and_decoder hparams scope ;;
  setattr "embedding_src" (VTensor emb_src) ;;;
  setattr "embedding_tgt" (VTensor emb_tgt).

Definition _get_infer_maximum_iterations (hparams : HParams)
  (source_sequence_length : tensor) : tensor :=
  if negb (tgt_max_len_infer hparams =? 0) then Const (tgt_max_len_infer hparams)
  else
    let max_encoder_length := Op "reduce_max" [source_sequence_length] in
    Op "to_int32" [Op "round" [Op "mul" [ToFloat max_encoder_length; Op "2.0" []]]].

(** [output_layer(x)] for one of the two projection layers of [self]
    ([use_bias=False]): the first call builds the layer. *)
Definition call_output_layer (attr : string) (x : tensor) : M tensor :=
  v <- getattr attr ;;
  l <- as_layer v ;;
  match layer_built l with
  | Some s => ret (Op "dense" [x; Var (scope_join s "kernel")])
  | None =>
      g <- get_graph ;;
      kernel <- with_variable_scope (layer_name l) None (get_variable "kernel") ;;
      setattr attr (VLayer {| layer_name := layer_name l;
                              layer_units := layer_units l;
                              layer_built := Some (scope_join (g_scope g) (layer_name l)) |}) ;;;
      ret (Op "dense" [x; kernel])
  end.

Fixpoint map_structure (f : tensor -> tensor) (s : structure) : structure :=
  match s with
  | Leaf t => Leaf (f t)
  | Tuple items => Tuple (map (map_structure f) items)
  end.

Fixpoint flatten (s : structure) : list tensor :=
  match s with
  | Leaf t => [t]
  | Tuple items => flat_map flatten items
  end.

Definition _build_decoder (encoder_outputs : tensor) (encoder_state : structure)
  (hparams : HParams) (iterator : BatchedInput) (embedding : tensor)
  (vocab_table : string) (output_layer : string) (sos : string)
  : M (tensor * tensor * structure) :=
  let lookup_id w := Op "cast" [Op "lookup" [Op vocab_table []; Op ("constant " ++ w) []]] in
  let tgt_sos_id := lookup_id sos in
  let tgt_eos_id := lookup_id (eos hparams) in
  let maximum_iterations :=
    _get_infer_maximum_iterations hparams (Field iterator source_sequence_length) in
  with_variable_scope "decoder" (Some AUTO_REUSE)
    ('(cell, decoder_initial_state) <-
        _build_decoder_cell hparams encoder_outputs encoder_state
          (Field iterator source_sequence_length) ;;
     mode <- get_mode ;;
     if negb (mode_eqb mode INFER) then
       time_major <- get_bool "time_major" ;;
       let target_input := Field iterator target_input in
       let target_input := if time_major then Transpose target_input else target_input in
       let decoder_emb_inp := Op "embedding_lookup" [embedding; target_input] in
       let outputs :=
         Op "dynamic_decode/BasicDecoder/TrainingHelper"
            (Op cell [] :: decoder_emb_inp :: Field iterator target_sequence_length
               :: flatten decoder_initial_state) in
       let sample_id := Op "sample_id" [outputs] in
       logits <- call_output_layer output_layer (Op "rnn_output" [outputs]) ;;
       ret (logits, sample_id, Leaf (Op "final_state" [outputs]))
     else
       batch_size <- get_tensor "batch_size" ;;
       let start_tokens := Op "fill" [batch_size; tgt_sos_id] in
       let end_token := tgt_eos_id in
       if 0 <? beam_width hparams then
         projected <- call_output_layer output_layer (Op "cell_output" [Op cell []]) ;;
         let outputs :=
           Op "dynamic_decode/BeamSearchDecoder"
              (Op cell [] :: embedding :: start_tokens :: end_token :: projected
                 :: maximum_iterations :: flatten decoder_initial_state) in
         ret (Op "no_op" [], Op "predicted_ids" [outputs], Leaf (Op "final_state" [outputs]))
       else
         let helper :=
           if Rlt_dec 0 (sampling_temperature hparams)
           then "SampleEmbeddingHelper" else "GreedyEmbeddingHelper" in
         projected <- call_output_layer output_layer (Op "cell_output" [Op cell []]) ;;
         let outputs :=
           Op ("dynamic_decode/BasicDecoder/" ++ helper)
              (Op cell [] :: embedding :: start_tokens :: end_token :: projected
                 :: maximum_iterations :: flatten decoder_initial_state) in
         ret (Op "rnn_output" [outputs], Op "sample_id" [outputs],
              Leaf (Op "final_state" [outputs]))).

Definition get_max_time (t : tensor) : M tensor :=
  time_major <- get_bool "time_major" ;;
  let time_axis := if time_major then 0%nat else 1%nat in
  ret (MaxTime time_axis t).

Definition _compute_loss (logits : tensor) (iterator : BatchedInput) : M tensor :=
  let target_output := Field iterator target_output in
  time_major <- get_bool "time_major" ;;
  let target_output := if time_major then Transpose target_output else target_output in
  max_time <- get_max_time target_output ;;
  let crossent := SparseXentWithLogits target_output logits in
  let target_weights :=
    SequenceMask (Field iterator target_sequence_length) max_time in
  let target_weights := if time_major then Transpose target_weights else target_weights in
  batch_size <- get_tensor "batch_size" ;;
  ret (Div (ReduceSum (Mul crossent target_weights)) (ToFloat batch_size)).

Definition _build_discriminator (outputs : tensor) : M (tensor * tensor) :=
  outputs <- with_variable_scope "discriminator" (Some AUTO_REUSE)
    (outputs <- layers_dense outputs 1024 "dense1_D" ;;
     outputs <- layers_dense outputs 1024 "dense2_D" ;;
     layers_dense outputs 2 "dense_last_D") ;;
  ret (outputs, Op "softmax" [outputs]).

Definition _compute_discriminator_loss (logits labels : tensor) : tensor :=
  Op "sparse_softmax_cross_entropy" [logits; labels].

(** The three values [build_graph] returns for one pass:
    [(logits, final_context_state, sample_id)]. *)
Definition pass_result : Type := tensor * structure * tensor.

(** One encoder, its discriminator head and one decoder; [build_graph]
    writes this out four times. *)
Record branch : Type := {
  br_encoder_outputs : tensor;
  br_encoder_state : structure;
  br_discriminator_logits : tensor;
  br_logits : tensor;
  br_sample_id : tensor;
  br_final_context_state : structure
}.

Definition zeros_like (t : tensor) : tensor := Op "zeros_like" [t].
Definition ones_like (t : tensor) : tensor := Op "ones_like" [t].
(** [1 - labels] *)
Definition one_minus (t : tensor) : tensor := Op "sub" [Const 1; t].

(** [build_graph], lines 364-387: the body of the scope "auto". *)
Definition build_graph_auto (hparams : HParams) : M (branch * branch) :=
  (iterator_s2s <- get_iter "iterator_s2s" ;;
   embedding_src <- get_tensor "embedding_src" ;;
   '(encoder_outputs_s2s, encoder_state_s2s) <-
      _build_encoder hparams iterator_s2s embedding_src ;;
   iterator_t2t <- get_iter "iterator_t2t" ;;
   embedding_tgt <- get_tensor "embedding_tgt" ;;
   '(encoder_outputs_t2t, encoder_state_t2t) <-
      _build_encoder hparams iterator_t2t embedding_tgt ;;
   '(discriminator_logits_s2s, _) <- _build_discriminator encoder_outputs_s2s ;;
   '(discriminator_logits_t2t, _) <- _build_discriminator encoder_outputs_t2t ;;
   src_vocab_table <- (v <- getattr "src_vocab_table" ;; as_table v) ;;
   '(logits_s2s, sample_id_s2s, final_context_state_s2s) <-
      _build_decoder encoder_outputs_s2s encoder_state_s2s hparams
        iterator_s2s embedding_src src_vocab_table "output_layer_src"
        (sos_2src hparams) ;;
   tgt_vocab_table <- (v <- getattr "tgt_vocab_table" ;; as_table v) ;;
   '(logits_t2t, sample_id_t2t, final_context_state_t2t) <-
      _build_decoder encoder_outputs_t2t encoder_state_t2t hparams
        iterator_t2t embedding_tgt tgt_vocab_table "output_layer_tgt"
        (sos_2tgt hparams) ;;
   ret ({| br_encoder_outputs := encoder_outputs_s2s;
           br_encoder_state := encoder_state_s2s;
           br_discriminator_logits := discriminator_logits_s2s;
           br_logits := logits_s2s; br_sample_id := sample_id_s2s;
           br_final_context_state := final_context_state_s2s |},
        {| br_encoder_outputs := encoder_outputs_t2t;
           br_encoder_state := encoder_state_t2t;
           br_discriminator_logits := discriminator_logits_t2t;
           br_logits := logits_t2t; br_sample_id := sample_id_t2t;
           br_final_context_state := final_context_state_t2t |})).

(** [build_graph], lines 393-415: the body of the scope "cross". *)
Definition build_graph_cross (hparams : HParams) : M (branch * branch) :=
  (iterator_s2t <- get_iter "iterator_s2t" ;;
   embedding_src <- get_tensor "embedding_src" ;;
   '(encoder_outputs_s2t, encoder_state_s2t) <-
      _build_encoder hparams iterator_s2t embedding_src ;;
   iterator_t2s <- get_iter "iterator_t2s" ;;
   embedding_tgt <- get_tensor "embedding_tgt" ;;
   '(encoder_outputs_t2s, encoder_state_t2s) <-
      _build_encoder hparams iterator_t2s embedding_tgt ;;
   '(discriminator_logits_s2t, _) <- _build_discriminator encoder_outputs_s2t ;;
   '(discriminator_logits_t2s, _) <- _build_discriminator encoder_outputs_t2s ;;
   tgt_vocab_table <- (v <- getattr "tgt_vocab_table" ;; as_table v) ;;
   '(logits_s2t, sample_id_s2t, final_context_state_s2t) <-
      _build_decoder encoder_outputs_s2t encoder_state_s2t hparams
        iterator_s2t embedding_tgt tgt_vocab_table "output_layer_tgt"
        (sos_2tgt hparams) ;;
   src_vocab_table <- (v <- getattr "src_vocab_table" ;; as_table v) ;;
   '(logits_t2s, sample_id_t2s, final_context_state_t2s) <-
      _build_decoder encoder_outputs_t2s encoder_state_t2s hparams
        iterator_t2s embedding_src src_vocab_table "output_layer_src"
        (sos_2src hparams) ;;
   ret ({| br_encoder_outputs := encoder_outputs_s2t;
           br_encoder_state := encoder_state_s2t;
           br_discriminator_logits := discriminator_logits_s2t;
           br_logits := logits_s2t; br_sample_id := sample_id_s2t;
           br_final_context_state := final_context_state_s2t |},
        {| br_encoder_outputs := encoder_outputs_t2s;
           br_encoder_state := encoder_state_t2s;
           br_discriminator_logits := discriminator_logits_t2s;
           br_logits := logits_t2s; br_sample_id := sample_id_t2s;
           br_final_context_state := final_context_state_t2s |})).

(** [build_graph], lines 418-456: the losses.  ([tf.device] places the
    operations on a device and changes neither the graph nor its values.) *)
Definition build_graph_loss (s2s t2t s2t t2s : branch)
  : M (option tensor * option tensor) :=
  mode <- get_mode ;;
    (if negb (mode_eqb mode INFER) then
       iterator_s2s <- get_iter "iterator_s2s" ;;
       loss_auto_s2s <- _compute_loss (br_logits s2s) iterator_s2s ;;
       iterator_t2t <- get_iter "iterator_t2t" ;;
       loss_auto_t2t <- _compute_loss (br_logits t2t) iterator_t2t ;;
       iterator_s2t <- get_iter "iterator_s2t" ;;
       loss_cross_s2t <- _compute_loss (br_logits s2t) iterator_s2t ;;
       iterator_t2s <- get_iter "iterator_t2s" ;;
       loss_cross_t2s <- _compute_loss (br_logits t2s) iterator_t2s ;;
       let D_labels_s2s := zeros_like (Field iterator_s2s source) in
       let loss_D_s2s :=
         _compute_discriminator_loss (br_discriminator_logits s2s) D_labels_s2s in
       let D_labels_s2t := zeros_like (Field iterator_s2t source) in
       let loss_D_s2t :=
         _compute_discriminator_loss (br_discriminator_logits s2t) D_labels_s2t in
       let D_labels_t2t := ones_like (Field iterator_t2t source) in
       let loss_D_t2t :=
         _compute_discriminator_loss (br_discriminator_logits t2t) D_labels_t2t in
       let D_labels_t2s := ones_like (Field iterator_t2s source) in
       let loss_D_t2s :=
         _compute_discriminator_loss (br_discriminator_logits t2s) D_labels_t2s in
       let loss_adv_s2s :=
         _compute_discriminator_loss (br_discriminator_logits s2s)
           (one_minus D_labels_s2s) in
       let loss_adv_s2t :=
         _compute_discriminator_loss (br_discriminator_logits s2t)
           (one_minus D_labels_s2t) in
       let loss_adv_t2t :=
         _compute_discriminator_loss (br_discriminator_logits t2t)
           (one_minus D_labels_t2t) in
       let loss_adv_t2s :=
         _compute_discriminator_loss (br_discriminator_logits t2s)
           (one_minus D_labels_t2s) in
       let loss_adv := AddN [loss_adv_s2s; loss_adv_s2t; loss_adv_t2t; loss_adv_t2s] in
       let loss_auto_total := Add loss_auto_s2s loss_auto_t2t in
       let loss_cross_total := Add loss_cross_s2t loss_cross_t2s in
       let loss_D_total := AddN [loss_D_s2s; loss_D_s2t; loss_D_t2t; loss_D_t2s] in
       let loss := AddN [loss_auto_total; loss_D_total; loss_cross_total] in
       ret (Some loss, Some loss_adv)
     else ret (None, None)).

Definition build_graph (hparams : HParams) (scope : scope_arg)
  : M (pass_result * pass_result * pass_result * pass_result
       * option tensor * option tensor) :=
  with_scope_or scope "dynamic_seq2seq"
    ('(s2s, t2t) <- with_scope_or scope "auto" (build_graph_auto hparams) ;;
     '(s2t, t2s) <- with_scope_or scope "cross" (build_graph_cross hparams) ;;
     '(loss, loss_adv) <- build_graph_loss s2s t2t s2t t2s ;;
     ret ((br_logits s2s, br_final_context_state s2s, br_sample_id s2s),
          (br_logits t2t, br_final_context_state t2t, br_sample_id t2t),
          (br_logits s2t, br_final_context_state s2t, br_sample_id s2t),
          (br_logits t2s, br_final_context_state t2s, br_sample_id t2s),
          loss, loss_adv)).

(** [tf.trainable_variables()] *)
Definition trainable_variables (g : Graph) : list TfVariable :=
  filter v_trainable (g_vars g).

(** [re.match(".*" + lit + ".*", s)]: the match is anchored at the start of
    [s] and [.] matches every character but a newline. *)
Fixpoint re_match_dotstar (lit s : string) : bool :=
  if prefix lit s then true
  else match s with
       | EmptyString => false
       | String c s' =>
           if Ascii.eqb c "010"%char then false else re_match_dotstar lit s'
       end.

(** [tf.trainable_variables(scope=".*discriminator.*")] filters the
    collection by [re.match(scope, item.name)]. *)
Definition trainable_variables_scope_discriminator (g : Graph) : list TfVariable :=
  filter (fun v => re_match_dotstar "discriminator" (v_name v))
         (trainable_variables g).

Definition TfVariable_eq_dec (a b : TfVariable) : {a = b} + {a <> b}.
Proof. decide equality; [apply bool_dec | apply string_dec]. Defined.

Definition mem_variable (v : TfVariable) (l : list TfVariable) : bool :=
  if in_dec TfVariable_eq_dec v l then true else false.

(** [list(set(xs) - set(ys))]; the iteration order of a Python set is not
    specified, the list order is kept here. *)
Definition py_set_difference (xs ys : list TfVariable) : list TfVariable :=
  nodup TfVariable_eq_dec (filter (fun v => negb (mem_variable v ys)) xs).

(** The local function [train_params] of [__init__]. *)
Definition train_params (hparams : HParams) (train_vars : list TfVariable)
  (train_loss : tensor) : M (tensor * UpdateOp * tensor) :=
  let opt :=
    if (optimizer hparams =? "sgd")%string then Some "GradientDescentOptimizer"
    else if (optimizer hparams =? "adam")%string then Some "AdamOptimizer"
    else None in
  let gradients := Op "gradients" (train_loss :: map (fun v => Var (v_name v)) train_vars) in
  let clipped_grads := Op "clip_by_global_norm" [gradients] in
  let grad_norm := Op "global_norm" [gradients] in
  match opt with
  | None => raise (UnboundLocalError "opt")
  | Some opt =>
      global_step <- (v <- getattr "global_step" ;; as_variable v) ;;
      (* [apply_gradients] refuses an empty list of variables *)
      match train_vars with
      | [] => raise (ValueError "No variables provided.")
      | _ =>
          let update := {| upd_optimizer := opt;
                           upd_loss := train_loss;
                           upd_vars := train_vars;
                           upd_global_step := Some (v_name global_step) |} in
          let train_summary := Op "summary/merge" [train_loss; grad_norm] in
          ret (grad_norm, update, train_summary)
      end
  end.

(** [tf.Variable(0, trainable=False)] *)
Definition new_global_step : M TfVariable :=
  g <- get_graph ;;
  let v := {| v_name := "Variable"; v_trainable := false |} in
  put_graph {| g_scope := g_scope g; g_reuse := g_reuse g;
               g_vars := g_vars g ++ [v] |} ;;;
  ret v.

(** [table.lookup(ids)] on a reverse vocabulary table that may be [None]. *)
Definition reverse_lookup (table : option string) (ids : tensor) : M tensor :=
  match table with
  | Some t => ret (Op "lookup" [Op t []; Op "to_int64" [ids]])
  | None => raise (AttributeError "lookup")
  end.

(** [__init__], lines 67-129: the attributes bound before the graph is
    built. *)
Definition init_attributes (hparams : HParams) (mode : ModeKeys)
  (iterator_s2s iterator_t2t iterator_s2t iterator_t2s : BatchedInput)
  (source_vocab_table target_vocab_table : string)
  (scope : scope_arg) : M unit :=
  setattr "iterator_s2s" (VIter iterator_s2s) ;;;
  setattr "iterator_t2t" (VIter iterator_t2t) ;;;
  setattr "iterator_s2t" (VIter iterator_s2t) ;;;
  setattr "iterator_t2s" (VIter iterator_t2s) ;;;
  setattr "mode" (VMode mode) ;;;
  setattr "src_vocab_table" (VTable source_vocab_table) ;;;
  setattr "tgt_vocab_table" (VTable target_vocab_table) ;;;
  setattr "src_vocab_size" (VInt (src_vocab_size hparams)) ;;;
  setattr "tgt_vocab_size" (VInt (tgt_vocab_size hparams)) ;;;
  setattr "num_gpus" (VInt (num_gpus hparams)) ;;;
  setattr "time_major" (VBool (time_major hparams)) ;;;
  setattr "single_cell_fn" VNone ;;;
  setattr "num_encoder_layers" (VInt (num_encoder_layers hparams)) ;;;
  setattr "num_decoder_layers" (VInt (num_decoder_layers hparams)) ;;;
  py_assert (negb (num_encoder_layers hparams =? 0)) ;;;
  py_assert (negb (num_decoder_layers hparams =? 0)) ;;;
  match num_residual_layers hparams with
  | Some n =>
      setattr "num_encoder_residual_layers" (VInt n) ;;;
      setattr "num_decoder_residual_layers" (VInt n)
  | None =>
      setattr "num_encoder_residual_layers" (VInt (num_encoder_residual_layers hparams)) ;;;
      setattr "num_decoder_residual_layers" (VInt (num_decoder_residual_layers hparams))
  end ;;;
  init_embeddings hparams scope ;;;
  iterator_s2s <- get_iter "iterator_s2s" ;;
  setattr "batch_size" (VTensor (Size (Field iterator_s2s source_sequence_length))) ;;;
  with_scope_or scope "build_network"
    (with_variable_scope "decoder/output_projection" None
       (setattr "output_layer_src"
          (VLayer {| layer_name := "output_projection_src";
                     layer_units := src_vocab_size hparams;
                     layer_built := None |}) ;;;
        setattr "output_layer_tgt"
          (VLayer {| layer_name := "output_projection_tgt";
                     layer_units := tgt_vocab_size hparams;
                     layer_built := None |}))).

Definition tensor_or_None (t : option tensor) : pyval :=
  match t with Some t => VTensor t | None => VNone end.

(** [__init__], lines 135-159: what is kept of the results of
    [build_graph]. *)
Definition init_outputs (src2src tgt2tgt src2tgt tgt2src : pass_result)
  (train_loss_ae train_loss_D : option tensor)
  (reverse_source_vocab_table reverse_target_vocab_table : option string)
  : M unit :=
  mode <- get_mode ;;
  match mode with
  | TRAIN =>
      setattr "train_loss_ae" (tensor_or_None train_loss_ae) ;;;
      setattr "train_loss_D" (tensor_or_None train_loss_D) ;;;
      iterator_s2s <- get_iter "iterator_s2s" ;;
      setattr "word_count_s2s"
        (VTensor (Add (ReduceSum (Field iterator_s2s source_sequence_length))
                      (ReduceSum (Field iterator_s2s target_sequence_length))))
  | EVAL => setattr "eval_loss" (tensor_or_None train_loss_ae)
  | INFER =>
      let '(infer_logits_src, final_context_state_src, sample_id_src) := src2src in
      let '(infer_logits_tgt, final_context_state_tgt, sample_id_tgt) := tgt2tgt in
      let '(infer_cross_logits_src, final_context_state_cross_src, sample_id_cross_src) :=
        tgt2src in
      let '(infer_cross_logits_tgt, final_context_state_cross_tgt, sample_id_cross_tgt) :=
        src2tgt in
      setattr "infer_logits_src" (VTensor infer_logits_src) ;;;
      setattr "final_context_state_src" (VStructure final_context_state_src) ;;;
      setattr "sample_id_src" (VTensor sample_id_src) ;;;
      setattr "infer_logits_tgt" (VTensor infer_logits_tgt) ;;;
      setattr "final_context_state_tgt" (VStructure final_context_state_tgt) ;;;
      setattr "sample_id_tgt" (VTensor sample_id_tgt) ;;;
      setattr "infer_cross_logits_src" (VTensor infer_cross_logits_src) ;;;
      setattr "final_context_state_cross_src" (VStructure final_context_state_cross_src) ;;;
      setattr "sample_id_cross_src" (VTensor sample_id_cross_src) ;;;
      setattr "infer_cross_logits_tgt" (VTensor infer_cross_logits_tgt) ;;;
      setattr "final_context_state_cross_tgt" (VStructure final_context_state_cross_tgt) ;;;
      setattr "sample_id_cross_tgt" (VTensor sample_id_cross_tgt) ;;;
      w <- reverse_lookup reverse_source_vocab_table sample_id_src ;;
      setattr "sample_words_src" (VTensor w) ;;;
      w <- reverse_lookup reverse_target_vocab_table sample_id_tgt ;;
      setattr "sample_words_tgt" (VTensor w) ;;;
      w <- reverse_lookup reverse_source_vocab_table sample_id_cross_src ;;
      setattr "sample_words_src_cross" (VTensor w) ;;;
      w <- reverse_lookup reverse_target_vocab_table sample_id_cross_tgt ;;
      setattr "sample_words_tgt_cross" (VTensor w)
  end ;;;
  mode <- get_mode ;;
  if negb (mode_eqb mode INFER) then
    iterator_s2s <- get_iter "iterator_s2s" ;;
    setattr "predict_count_s2s"
      (VTensor (ReduceSum (Field iterator_s2s target_sequence_length))) ;;;
    iterator_t2t <- get_iter "iterator_t2t" ;;
    setattr "predict_count_t2t"
      (VTensor (ReduceSum (Field iterator_t2t target_sequence_length)))
  else ret tt.

(** [__init__], lines 169-173: the learning rate, its warm-up and its
    decay. *)
Definition init_learning_rate (hparams : HParams) : M unit :=
  setattr "learning_rate" (VRate (fun _ => Some (learning_rate hparams))) ;;;
  lr <- (v <- getattr "learning_rate" ;; as_rate v) ;;
  lr <- (fun st => match _get_learning_rate_warmup hparams lr with
                   | Ok r => Ok (r, st) | Raise e => Raise e end) ;;
  setattr "learning_rate" (VRate lr) ;;;
  lr <- (v <- getattr "learning_rate" ;; as_rate v) ;;
  lr <- (fun st => match _get_learning_rate_decay hparams lr with
                   | Ok r => Ok (r, st) | Raise e => Raise e end) ;;
  setattr "learning_rate" (VRate lr).

(** [__init__], lines 203-205: the two calls of [train_params]. *)
Definition init_updates (hparams : HParams) (params_ae params_D : list TfVariable)
  : M unit :=
  train_loss_ae <- get_tensor "train_loss_ae" ;;
  '(grad_norm_ae, update_ae, train_summary) <-
     train_params hparams params_ae train_loss_ae ;;
  setattr "grad_norm_ae" (VTensor grad_norm_ae) ;;;
  setattr "update_ae" (VUpdate update_ae) ;;;
  setattr "train_summary" (VTensor train_summary) ;;;
  train_loss_D <- get_tensor "train_loss_D" ;;
  '(grad_norm_D, update_D, train_summary_D) <-
     train_params hparams params_D train_loss_D ;;
  setattr "grad_norm_D" (VTensor grad_norm_D) ;;;
  setattr "update_D" (VUpdate update_D) ;;;
  setattr "train_summary_D" (VTensor train_summary_D) ;;;
  setattr "train_summary" (VTensor (Op "summary/merge" [train_summary; train_summary_D])).

(** [__init__], lines 161-212: the global step, the two parameter sets and,
    in TRAIN mode, the learning rate and the two updates. *)
Definition init_training (hparams : HParams) : M unit :=
  global_step <- new_global_step ;;
  setattr "global_step" (VVariable global_step) ;;;
  g <- get_graph ;;
  let params_D := trainable_variables_scope_discriminator g in
  let params_ae := py_set_difference (trainable_variables g) params_D in
  mode <- get_mode ;;
  (if mode_eqb mode TRAIN then
     init_learning_rate hparams ;;;
     init_updates hparams params_ae params_D
   else ret tt) ;;;
  mode <- get_mode ;;
  (if mode_eqb mode INFER then
     setattr "infer_summary_src" (VTensor (Op "no_op" [])) ;;;
     setattr "infer_summary_tgt" (VTensor (Op "no_op" [])) ;;;
     setattr "infer_summary_src_cross" (VTensor (Op "no_op" [])) ;;;
     setattr "infer_summary_tgt_cross" (VTensor (Op "no_op" []))
   else ret tt) ;;;
  g <- get_graph ;;
  setattr "saver" (VTensor (Op "Saver" (map (fun v => Var (v_name v)) (g_vars g)))).

Definition __init__ (hparams : HParams) (mode : ModeKeys)
  (iterator_s2s iterator_t2t iterator_s2t iterator_t2s : BatchedInput)
  (source_vocab_table target_vocab_table : string)
  (reverse_source_vocab_table reverse_target_vocab_table : option string)
  (scope : scope_arg) : M unit :=
  init_attributes hparams mode iterator_s2s iterator_t2t iterator_s2t iterator_t2s
    source_vocab_table target_vocab_table scope ;;;
  '(src2src, tgt2tgt, src2tgt, tgt2src, train_loss_ae, train_loss_D) <-
     build_graph hparams scope ;;
  init_outputs src2src tgt2tgt src2tgt tgt2src train_loss_ae train_loss_D
    reverse_source_vocab_table reverse_target_vocab_table ;;;
  init_training hparams.

(** A new instance: [__init__] on an object without attributes, in the
    graph [g]. *)
Definition new_model (g : Graph) (hparams : HParams) (mode : ModeKeys)
  (iterator_s2s iterator_t2t iterator_s2t iterator_t2s : BatchedInput)
  (source_vocab_table target_vocab_table : string)
  (reverse_source_vocab_table reverse_target_vocab_table : option string)
  (scope : scope_arg) : res State :=
  match __init__ hparams mode iterator_s2s iterator_t2t iterator_s2t iterator_t2s
          source_vocab_table target_vocab_table
          reverse_source_vocab_table reverse_target_vocab_table scope
          {| graph := g; self := [] |} with
  | Ok (_, st) => Ok st
  | Raise e => Raise e
  end.

End BaseModel.

(** ** Running the graph: [sess.run] *)

(** The part of a session [model.py] can observe: the values of the integer
    variables (the global step). *)
Record Session : Type := {
  int_value : string -> Z
}.

(** Running an update operation applies the gradients (not modelled) and,
    when [apply_gradients] was given a [global_step], adds one to it. *)
Definition run_update (u : UpdateOp) (sess : Session) : Session :=
  match upd_global_step u with
  | Some gs =>
      {| int_value := fun n =>
           if (n =? gs)%string then wrap32 (int_value sess n + 1)
           else int_value sess n |}
  | None => sess
  end.

(** [train]: the two [sess.run] calls, in order.  The fetched values are not
    modelled; each fetched attribute is read. *)
Definition train (sess : Session) : M Session :=
  mode <- get_mode ;;
  py_assert (mode_eqb mode TRAIN) ;;;
  update_ae <- (v <- getattr "update_ae" ;; as_update v) ;;
  getattr "train_loss_ae" ;;;
  getattr "predict_count_s2s" ;;;
  getattr "train_summary" ;;;
  getattr "global_step" ;;;
  getattr "word_count_s2s" ;;;
  getattr "batch_size" ;;;
  getattr "grad_norm_ae" ;;;
  getattr "learning_rate" ;;;
  let sess := run_update update_ae sess in
  update_D <- (v <- getattr "update_D" ;; as_update v) ;;
  getattr "train_loss_D" ;;;
  getattr "train_summary_D" ;;;
  ret (run_update update_D sess).

Definition eval (sess : Session) : M Session :=
  mode <- get_mode ;;
  py_assert (mode_eqb mode EVAL) ;;;
  getattr "eval_loss" ;;;
  getattr "predict_count_s2s" ;;;
  getattr "batch_size" ;;;
  ret sess.

Definition infer (sess : Session) : M Session :=
  mode <- get_mode ;;
  py_assert (mode_eqb mode INFER) ;;;
  getattr "infer_logits_src" ;;;
  getattr "infer_summary_src" ;;;
  getattr "sample_id_src" ;;;
  getattr "sample_words_src" ;;;
  getattr "infer_logits_tgt" ;;;
  getattr "infer_summary_tgt" ;;;
  getattr "sample_id_tgt" ;;;
  getattr "sample_words_tgt" ;;;
  ret sess.

Definition infer_and_source (sess : Session) : M Session :=
  mode <- get_mode ;;
  py_assert (mode_eqb mode INFER) ;;;
  getattr "iterator_src" ;;;
  getattr "infer_logits_src" ;;;
  getattr "infer_summary_src" ;;;
  getattr "sample_id_src" ;;;
  getattr "sample_words_src" ;;;
  getattr "iterator_tgt" ;;;
  getattr "infer_logits_tgt" ;;;
  getattr "infer_summary_tgt" ;;;
  getattr "sample_id_tgt" ;;;
  getattr "sample_words_tgt" ;;;
  ret sess.

(** ** Model: the basic subclass *)

(** [model_helper.create_rnn_cell] and the two [tf.nn] recurrences, none of
    which is part of this file.  A stack of [n] layers has a state of [n]
    per-layer states. *)
Class RNNLibrary : Type := {
  create_rnn_cell : HParams -> Z -> Z -> ModeKeys -> Z -> M RNNCell;
  dynamic_rnn : RNNCell -> tensor -> tensor -> M (tensor * structure);
  bidirectional_dynamic_rnn :
    RNNCell -> RNNCell -> tensor -> tensor -> M (tensor * tensor * structure)
}.

(** [t[i]] on a Python tuple. *)
Definition py_index (s : structure) (i : nat) : M structure :=
  match s with
  | Tuple items =>
      match nth_error items i with
      | Some x => ret x
      | None => raise IndexError
      end
  | Leaf _ => raise TypeError
  end.

Module Model.
Section Model.

Context {rnn : RNNLibrary}.

(** [_build_encoder_cell] is inherited from [BaseModel] (line 478); it is
    placed here with its only callers because it needs the RNN library. *)
Definition _build_encoder_cell (hparams : HParams)
  (num_layers num_residual_layers base_gpu : Z) : M RNNCell :=
  mode <- get_mode ;;
  getattr "single_cell_fn" ;;;
  create_rnn_cell hparams num_layers num_residual_layers mode base_gpu.

Definition _build_bidirectional_rnn (inputs sequence_length : tensor)
  (hparams : HParams) (num_bi_layers num_bi_residual_layers base_gpu : Z)
  : M (tensor * structure) :=
  fw_cell <- _build_encoder_cell hparams num_bi_layers num_bi_residual_layers base_gpu ;;
  bw_cell <- _build_encoder_cell hparams num_bi_layers num_bi_residual_layers
               (base_gpu + num_bi_layers) ;;
  get_bool "time_major" ;;;
  '(out_fw, out_bw, bi_state) <-
     bidirectional_dynamic_rnn fw_cell bw_cell inputs sequence_length ;;
  ret (Op "concat" [out_fw; out_bw], bi_state).

(** The loop [for layer_id in range(num_bi_layers)] that alternates forward
    and backward states. *)
Fixpoint interleave (bi_encoder_state : structure) (layer_ids : list nat)
  (encoder_state : list structure) : M (list structure) :=
  match layer_ids with
  | [] => ret encoder_state
  | layer_id :: rest =>
      fw <- py_index bi_encoder_state 0 ;;
      fw_l <- py_index fw layer_id ;;
      bw <- py_index bi_encoder_state 1 ;;
      bw_l <- py_index bw layer_id ;;
      interleave bi_encoder_state rest (encoder_state ++ [fw_l] ++ [bw_l])
  end.

Definition _build_encoder (hparams : HParams) (iterator : BatchedInput)
  (embedding : tensor) : M (tensor * structure) :=
  num_layers <- get_int "num_encoder_layers" ;;
  num_residual_layers <- get_int "num_encoder_residual_layers" ;;
  let source := Field iterator source in
  time_major <- get_bool "time_major" ;;
  let source := if time_major then Transpose source else source in
  with_variable_scope "encoder" None
    (embedding_encoder <- get_tensor "embedding_encoder" ;;
     let encoder_emb_inp := Op "embedding_lookup" [embedding_encoder; source] in
     if (encoder_type hparams =? "uni")%string then
       cell <- _build_encoder_cell hparams num_layers num_residual_layers 0 ;;
       get_bool "time_major" ;;;
       dynamic_rnn cell encoder_emb_inp (Field iterator source_sequence_length)
     else if (encoder_type hparams =? "bi")%string then
       let num_bi_layers := py_int_div num_layers 2 in
       let num_bi_residual_layers := py_int_div num_residual_layers 2 in
       '(encoder_outputs, bi_encoder_state) <-
          _build_bidirectional_rnn encoder_emb_inp
            (Field iterator source_sequence_length) hparams
            num_bi_layers num_bi_residual_layers 0 ;;
       if num_bi_layers =? 1 then ret (encoder_outputs, bi_encoder_state)
       else
         encoder_state <-
           interleave bi_encoder_state (seq 0 (Z.to_nat num_bi_layers)) [] ;;
         ret (encoder_outputs, Tuple encoder_state)
     else raise (ValueError ("Unknown encoder_type " ++ encoder_type hparams))).

Definition _build_decoder_cell (hparams : HParams) (encoder_outputs : tensor)
  (encoder_state : structure) (source_sequence_length : tensor)
  : M (RNNCell * structure) :=
  if attention hparams then raise (ValueError "BasicModel doesn't support attention.")
  else
    num_decoder_layers <- get_int "num_decoder_layers" ;;
    num_decoder_residual_layers <- get_int "num_decoder_residual_layers" ;;
    getattr "num_gpus" ;;;
    mode <- get_mode ;;
    getattr "single_cell_fn" ;;;
    cell <- create_rnn_cell hparams num_decoder_layers num_decoder_residual_layers mode 0 ;;
    mode <- get_mode ;;
    if mode_eqb mode INFER && (0 <? beam_width hparams) then
      ret (cell, map_structure
                   (fun t => Op "tile_batch" [t; Const (beam_width hparams)])
                   encoder_state)
    else ret (cell, encoder_state).

End Model.
End Model.

(** [class Model(BaseModel)] *)
Definition Model_subclass {rnn : RNNLibrary} : Subclass := {|
  _build_encoder := Model._build_encoder;
  _build_decoder_cell := Model._build_decoder_cell
|}.

(** ** The value of a tensor for a fed batch *)

Record array1 (A : Type) : Type := {
  len : nat;
  item1 : nat -> A
}.
Arguments len {A} _.
Arguments item1 {A} _ _.

Record array2 (A : Type) : Type := {
  dim0 : nat;
  dim1 : nat;
  item : nat -> nat -> A
}.
Arguments dim0 {A} _.
Arguments dim1 {A} _.
Arguments item {A} _ _ _.

(** What one [BatchedInput] yields at a step.  Every field is batch-major
    and all share the batch dimension. *)
Record Batch : Type := {
  batch : nat;
  src_max_time : nat;
  tgt_max_time : nat;
  b_source : nat -> nat -> Z;
  b_target_input : nat -> nat -> Z;
  b_target_output : nat -> nat -> Z;
  b_source_sequence_length : nat -> Z;
  b_target_sequence_length : nat -> Z
}.

Inductive value : Type :=
| Scalar (r : R)
| IntScalar (z : Z)
| IntVector (v : array1 Z)
| IntMatrix (a : array2 Z)
| Matrix (a : array2 R)
| Logits (a : array2 (list R)).

(** A run of the graph: the batches the iterators yield and the values of
    the nodes this file does not compute (the networks, the variables). *)
Record Feed : Type := {
  fed_batch : BatchedInput -> Batch;
  op_value : string -> list tensor -> option value;
  variable_value : string -> option value
}.

Definition transpose {A} (a : array2 A) : array2 A :=
  {| dim0 := dim1 a; dim1 := dim0 a; item := fun i j => item a j i |}.

Fixpoint rsum (n : nat) (f : nat -> R) : R :=
  match n with
  | O => 0%R
  | S k => (rsum k f + f k)%R
  end.

Fixpoint zsum (n : nat) (f : nat -> Z) : Z :=
  match n with
  | O => 0
  | S k => zsum k f + f k
  end.

Fixpoint all_below (n : nat) (p : nat -> bool) : bool :=
  match n with
  | O => true
  | S k => all_below k p && p k
  end.

Definition reduce_sum (a : array2 R) : R :=
  rsum (dim0 a) (fun i => rsum (dim1 a) (fun j => item a i j)).

(** [-log(softmax(logits)[label])]; a label outside the classes has no
    value. *)
Definition sparse_softmax_cross_entropy (logits : list R) (label : Z) : option R :=
  if (0 <=? label) && (label <? Z.of_nat (List.length logits))
  then Some (ln (fold_right Rplus 0 (map exp logits))
             - nth (Z.to_nat label) logits 0)%R
  else None.

Definition crossent_item (labels : array2 Z) (logits : array2 (list R))
  (i j : nat) : R :=
  match sparse_softmax_cross_entropy (item logits i j) (item labels i j) with
  | Some r => r
  | None => 0%R
  end.

(** [tf.nn.sparse_softmax_cross_entropy_with_logits]: the leading
    dimensions of labels and logits must agree and every label be a class. *)
Definition sparse_xent_with_logits (labels : array2 Z) (logits : array2 (list R))
  : option (array2 R) :=
  if (dim0 labels =? dim0 logits)%nat && (dim1 labels =? dim1 logits)%nat
     && all_below (dim0 labels) (fun i =>
          all_below (dim1 labels) (fun j =>
            match sparse_softmax_cross_entropy (item logits i j) (item labels i j) with
            | Some _ => true
            | None => false
            end))
  then Some {| dim0 := dim0 labels; dim1 := dim1 labels;
               item := crossent_item labels logits |}
  else None.

(** [tf.sequence_mask(lengths, maxlen, dtype=float32)] *)
Definition sequence_mask (lengths : array1 Z) (maxlen : Z) : array2 R :=
  {| dim0 := len lengths; dim1 := Z.to_nat maxlen;
     item := fun b t => if Z.of_nat t <? item1 lengths b then 1%R else 0%R |}.

(** Element-wise product of two tensors of one shape (the shapes that meet
    in [_compute_loss] agree; broadcasting is not modelled). *)
Definition multiply (a b : array2 R) : option (array2 R) :=
  if (dim0 a =? dim0 b)%nat && (dim1 a =? dim1 b)%nat
  then Some {| dim0 := dim0 a; dim1 := dim1 a;
               item := fun i j => (item a i j * item b i j)%R |}
  else None.

Definition batch_field (b : Batch) (f : field) : value :=
  match f with
  | source =>
      IntMatrix {| dim0 := batch b; dim1 := src_max_time b; item := b_source b |}
  | target_input =>
      IntMatrix {| dim0 := batch b; dim1 := tgt_max_time b; item := b_target_input b |}
  | target_output =>
      IntMatrix {| dim0 := batch b; dim1 := tgt_max_time b; item := b_target_output b |}
  | source_sequence_length =>
      IntVector {| len := batch b; item1 := b_source_sequence_length b |}
  | target_sequence_length =>
      IntVector {| len := batch b; item1 := b_target_sequence_length b |}
  end.

Definition scalar_add (a b : option value) : option value :=
  match a, b with
  | Some (Scalar x), Some (Scalar y) => Some (Scalar (x + y))
  | Some (IntScalar x), Some (IntScalar y) => Some (IntScalar (wrap32 (x + y)))
  | _, _ => None
  end.

(** [None]: the node has no finite value (an error, NaN or an infinity). *)
Fixpoint value_of (feed : Feed) (t : tensor) : option value :=
  match t with
  | Field it f => Some (batch_field (fed_batch feed it) f)
  | Var name => variable_value feed name
  | Const z => Some (IntScalar z)
  | Op name args => op_value feed name args
  | Transpose t =>
      match value_of feed t with
      | Some (IntMatrix a) => Some (IntMatrix (transpose a))
      | Some (Matrix a) => Some (Matrix (transpose a))
      | _ => None
      end
  | MaxTime time_axis t =>
      let dim {A} (a : array2 A) :=
        match time_axis with O => dim0 a | _ => dim1 a end in
      match value_of feed t with
      | Some (IntMatrix a) => Some (IntScalar (Z.of_nat (dim a)))
      | Some (Matrix a) => Some (IntScalar (Z.of_nat (dim a)))
      | _ => None
      end
  | SparseXentWithLogits labels logits =>
      match value_of feed labels, value_of feed logits with
      | Some (IntMatrix y), Some (Logits l) =>
          option_map Matrix (sparse_xent_with_logits y l)
      | _, _ => None
      end
  | SequenceMask lengths maxlen =>
      match value_of feed lengths, value_of feed maxlen with
      | Some (IntVector l), Some (IntScalar m) => Some (Matrix (sequence_mask l m))
      | _, _ => None
      end
  | Mul a b =>
      match value_of feed a, value_of feed b with
      | Some (Matrix x), Some (Matrix y) => option_map Matrix (multiply x y)
      | _, _ => None
      end
  | ReduceSum t =>
      match value_of feed t with
      | Some (Matrix a) => Some (Scalar (reduce_sum a))
      | Some (IntVector v) => Some (IntScalar (wrap32 (zsum (len v) (item1 v))))
      | _ => None
      end
  | ToFloat t =>
      match value_of feed t with
      | Some (IntScalar z) => Some (Scalar (IZR z))
      | _ => None
      end
  | Size t =>
      match value_of feed t with
      | Some (IntVector v) => Some (IntScalar (Z.of_nat (len v)))
      | Some (IntMatrix a) => Some (IntScalar (Z.of_nat (dim0 a * dim1 a)))
      | _ => None
      end
  | Div a b =>
      match value_of feed a, value_of feed b with
      | Some (Scalar x), Some (Scalar y) =>
          if Req_EM_T y 0 then None else Some (Scalar (x / y))
      | _, _ => None
      end
  | Add a b => scalar_add (value_of feed a) (value_of feed b)
  | AddN ts =>
      match map (value_of feed) ts with
      | [] => None
      | v :: vs => fold_left scalar_add vs v
      end
  end.

Definition scalar_value (feed : Feed) (t : tensor) : option R :=
  match value_of feed t with
  | Some (Scalar r) => Some r
  | _ => None
  end.

(** ** A small concrete subclass

    [BaseModel] is abstract; to exhibit constructed models the two hooks and
    the embedding helper are given the simplest implementations: an encoder
    with one weight, a decoder cell without the attention check, and two
    embedding variables. *)

Definition empty_graph : Graph :=
  {| g_scope := ""; g_reuse := NO_REUSE; g_vars := [] |}.

Definition tiny_subclass : Subclass := {|
  _build_encoder := fun hparams iterator embedding =>
    with_variable_scope "encoder" (Some AUTO_REUSE)
      (w <- get_variable "kernel" ;;
       let outputs :=
         Op "rnn" [Op "embedding_lookup" [embedding; Field iterator source]; w] in
       ret (outputs, Tuple [Leaf (Op "state" [outputs])]));
  _build_decoder_cell := fun hparams encoder_outputs encoder_state _ =>
    ret ("cell", encoder_state)
|}.

Definition tiny_helper : ModelHelper := {|
  create_emb_for_encoder_and_decoder := fun hparams scope =>
    with_variable_scope "embeddings" None
      (e <- get_variable "embedding_encoder" ;;
       d <- get_variable "embedding_decoder" ;;
       ret (e, d))
|}.

Definition small_hparams (enc : string) (layers : Z) (att : bool)
  (warmup decay : string) (lr : R) : HParams := {|
  src_vocab_size := 2; tgt_vocab_size := 2; num_gpus := 0; time_major := false;
  num_encoder_layers := layers; num_decoder_layers := 2;
  num_residual_layers := None;
  num_encoder_residual_layers := 0; num_decoder_residual_layers := 0;
  encoder_type := enc; attention := att; optimizer := "sgd";
  learning_rate := lr; warmup_steps := 100; warmup_scheme := warmup;
  decay_scheme := decay; num_train_steps := 1000; beam_width := 0;
  sampling_temperature := 0; tgt_max_len_infer := 0;
  sos_2src := "<s2src>"; sos_2tgt := "<s2tgt>"; eos := "</s>"
|}.

Definition tiny_hparams (lr : R) : HParams :=
  small_hparams "uni" 2 false "t2t" "luong5" lr.

(** A recurrent library for the basic subclass: a cell is known by its
    number of layers (one letter per layer); the state of a stack of one
    layer is the state of that cell, the state of a deeper stack is the tuple
    of the states of its layers. *)
Fixpoint layers_name (n : nat) : string :=
  match n with
  | O => ""
  | S k => String "l" (layers_name k)
  end.

Definition stack_state (direction : string) (cell : RNNCell) : structure :=
  match String.length cell with
  | 1%nat => Leaf (Op direction [Const 0])
  | n => Tuple (map (fun i => Leaf (Op direction [Const (Z.of_nat i)])) (seq 0 n))
  end.

Definition tiny_rnn : RNNLibrary := {|
  create_rnn_cell := fun hparams num_layers num_residual_layers mode base_gpu =>
    if num_layers <=? 0 then raise (ValueError "Must specify at least one cell")
    else ret (layers_name (Z.to_nat num_layers));
  dynamic_rnn := fun cell inputs lengths =>
    ret (Op "dynamic_rnn" [inputs; lengths], stack_state "state" cell);
  bidirectional_dynamic_rnn := fun fw_cell bw_cell inputs lengths =>
    ret (Op "fw_outputs" [inputs; lengths], Op "bw_outputs" [inputs; lengths],
         Tuple [stack_state "fw" fw_cell; stack_state "bw" bw_cell])
|}.

(** A subclass with the small encoder and the decoder cell of [Model]. *)
Definition basic_decoder_subclass : Subclass := {|
  _build_encoder := @_build_encoder tiny_subclass;
  _build_decoder_cell := @Model._build_decoder_cell tiny_rnn
|}.

(** An object on which the attributes [Model._build_encoder] reads are all
    bound, [embedding_encoder] included. *)
Definition encoder_ready (layers : Z) : State := {|
  graph := empty_graph;
  self := [("embedding_encoder", VTensor (Var "embedding_encoder"));
           ("num_encoder_layers", VInt layers);
           ("num_encoder_residual_layers", VInt 0);
           ("time_major", VBool false);
           ("mode", VMode TRAIN);
           ("single_cell_fn", VNone)]
|}.

Abbreviation tiny_model mode scope :=
  (@new_model tiny_subclass tiny_helper empty_graph (tiny_hparams 1) mode
     (Iterator 0) (Iterator 1) (Iterator 2) (Iterator 3)
     "src_vocab" "tgt_vocab" (Some "reverse_src_vocab") (Some "reverse_tgt_vocab")
     scope).

(** ** Quantities the statements are about *)

(** The node [_compute_loss] returns, as a function of the two attributes
    it reads. *)
Definition loss_tensor (time_major : bool) (batch_size logits : tensor)
  (iterator : BatchedInput) : tensor :=
  let orient t := if time_major then Transpose t else t in
  let target_output := orient (Field iterator target_output) in
  let max_time := MaxTime (if time_major then 0%nat else 1%nat) target_output in
  Div (ReduceSum
         (Mul (SparseXentWithLogits target_output logits)
              (orient (SequenceMask (Field iterator target_sequence_length) max_time))))
      (ToFloat batch_size).

(** The labels as [_compute_loss] lays them out for the logits: time-major
    logits are compared with the transposed targets. *)
Definition oriented_labels (time_major : bool) (b : Batch) : array2 Z :=
  let y := {| dim0 := batch b; dim1 := tgt_max_time b; item := b_target_output b |} in
  if time_major then transpose y else y.

(** Cross-entropy of example [i] at position [t]. *)
Definition token_crossent (time_major : bool) (b : Batch) (logits : array2 (list R))
  (i t : nat) : R :=
  if time_major then crossent_item (oriented_labels true b) logits t i
  else crossent_item (oriented_labels false b) logits i t.

(** The sequence-masked sum: positions below the true target length. *)
Definition masked_sum (b : Batch) (xe : nat -> nat -> R) : R :=
  rsum (batch b) (fun i =>
    rsum (tgt_max_time b) (fun t =>
      (xe i t * (if Z.of_nat t <? b_target_sequence_length b i then 1 else 0))%R)).

(** The number of unmasked tokens, by which the loss is not divided. *)
Definition unmasked_tokens (b : Batch) : R :=
  masked_sum b (fun _ _ => 1%R).

(** The same batch twice, along the batch axis. *)
Definition wrap_index (n i : nat) : nat := if (i <? n)%nat then i else (i - n)%nat.

Definition tile_batch (b : Batch) : Batch := {|
  batch := batch b + batch b;
  src_max_time := src_max_time b;
  tgt_max_time := tgt_max_time b;
  b_source := fun i => b_source b (wrap_index (batch b) i);
  b_target_input := fun i => b_target_input b (wrap_index (batch b) i);
  b_target_output := fun i => b_target_output b (wrap_index (batch b) i);
  b_source_sequence_length := fun i => b_source_sequence_length b (wrap_index (batch b) i);
  b_target_sequence_length := fun i => b_target_sequence_length b (wrap_index (batch b) i)
|}.

(** Logits of the duplicated batch: [batch] is axis 1 when time-major. *)
Definition tile_logits (time_major : bool) (l : array2 (list R)) : array2 (list R) :=
  if time_major
  then {| dim0 := dim0 l; dim1 := dim1 l + dim1 l;
          item := fun t i => item l t (wrap_index (dim1 l) i) |}
  else {| dim0 := dim0 l + dim0 l; dim1 := dim1 l;
          item := fun i t => item l (wrap_index (dim0 l) i) t |}.

(** ** A small batch *)

(** Two examples of target lengths 1 and 2, padded to two positions; two
    classes with equal logits everywhere. *)
Definition tiny_batch : Batch := {|
  batch := 2; src_max_time := 1; tgt_max_time := 2;
  b_source := fun _ _ => 0;
  b_target_input := fun _ _ => 0;
  b_target_output := fun _ _ => 0;
  b_source_sequence_length := fun _ => 1;
  b_target_sequence_length := fun i => match i with O => 1 | _ => 2 end
|}.

Definition tiny_logits : array2 (list R) :=
  {| dim0 := 2; dim1 := 2; item := fun _ _ => [0%R; 0%R] |}.

Definition tiny_feed : Feed := {|
  fed_batch := fun _ => tiny_batch;
  op_value := fun name _ =>
    if (name =? "logits")%string then Some (Logits tiny_logits) else None;
  variable_value := fun _ => None
|}.

Definition tiny_feed_twice : Feed := {|
  fed_batch := fun _ => tile_batch tiny_batch;
  op_value := fun name _ =>
    if (name =? "logits")%string then Some (Logits (tile_logits false tiny_logits))
    else None;
  variable_value := fun _ => None
|}.

Definition tiny_state : State := {|
  graph := empty_graph;
  self := [("batch_size", VTensor (Size (Field (Iterator 0) source_sequence_length)));
           ("time_major", VBool false)]
|}.

(** ** What a subclass may do

    The hooks and the embedding helper build graph nodes.  They may create
    variables; they bind no attribute of [self], and every scope they open
    is closed when they return (a [with] block).  [frame st st'] relates a
    state to a later one under these rules. *)

Definition frame (st st' : State) : Prop :=
  self st' = self st
  /\ g_scope (graph st') = g_scope (graph st)
  /\ g_reuse (graph st') = g_reuse (graph st)
  /\ incl (g_vars (graph st)) (g_vars (graph st')).

Definition framed {A} (m : M A) : Prop :=
  forall st a st', m st = Ok (a, st') -> frame st st'.

Class Disciplined (subclass : Subclass) (model_helper : ModelHelper) : Prop := {
  encoder_framed : forall hparams iterator embedding,
    framed (_build_encoder hparams iterator embedding);
  decoder_cell_framed : forall hparams outputs state lengths,
    framed (_build_decoder_cell hparams outputs state lengths);
  create_emb_framed : forall hparams scope,
    framed (create_emb_for_encoder_and_decoder hparams scope)
}.

(** [BaseModel]'s own code, between two points of [build_graph], rebinds
    only the two projection layers (when they are first called). *)
Definition advances (st st' : State) : Prop :=
  (forall a, a <> "output_layer_src" -> a <> "output_layer_tgt" ->
             lookup a (self st') = lookup a (self st))
  /\ g_scope (graph st') = g_scope (graph st)
  /\ g_reuse (graph st') = g_reuse (graph st)
  /\ incl (g_vars (graph st)) (g_vars (graph st')).

(** The name of the scope [with tf.variable_scope(scope or default)] enters
    from the scope [current]. *)
Definition entered_scope (scope : scope_arg) (default current : string) : string :=
  match scope with
  | ScopeObject full => full
  | ScopeStr s => scope_join current (if (s =? "")%string then default else s)
  | ScopeNone => scope_join current default
  end.

(** The three dense layers of the discriminator with the weights found
    under the scope [sc]. *)
Definition discriminator_weights (sc : string) : list string :=
  [sc ++ "/dense1_D/kernel"; sc ++ "/dense1_D/bias";
   sc ++ "/dense2_D/kernel"; sc ++ "/dense2_D/bias";
   sc ++ "/dense_last_D/kernel"; sc ++ "/dense_last_D/bias"].

Definition discriminator_net (sc : string) (outputs : tensor) : tensor :=
  let dense x k b := Op "dense/tanh" [x; Var (sc ++ "/" ++ k); Var (sc ++ "/" ++ b)] in
  dense (dense (dense outputs "dense1_D/kernel" "dense1_D/bias")
               "dense2_D/kernel" "dense2_D/bias")
        "dense_last_D/kernel" "dense_last_D/bias".

(** The state inside a [with tf.variable_scope(...)] block and the state
    after it. *)
Definition inside (name : string) (r : reuse_mode) (st : State) : State :=
  {| graph := {| g_scope := name; g_reuse := r; g_vars := g_vars (graph st) |};
     self := self st |}.

Definition outside (st st_out : State) : State :=
  {| graph := {| g_scope := g_scope (graph st); g_reuse := g_reuse (graph st);
                 g_vars := g_vars (graph st_out) |};
     self := self st_out |}.

(** A computation that, whenever it returns, has only advanced the state. *)
Definition advancing {A} (m : M A) : Prop :=
  forall st a st', m st = Ok (a, st') -> advances st st'.

(** ** The losses of the four passes *)

Inductive pass : Type := s2s | t2t | s2t | t2s.

(** The four values of one kind, by pass. *)
Definition by_pass {A} (a b c d : A) (p : pass) : A :=
  match p with s2s => a | t2t => b | s2t => c | t2s => d end.

(** Labels: zeros for the passes that encode language A (the source side),
    ones for those that encode language B. *)
Definition D_labels (its : pass -> BatchedInput) (p : pass) : tensor :=
  match p with
  | s2s | s2t => zeros_like (Field (its p) source)
  | t2t | t2s => ones_like (Field (its p) source)
  end.

Definition loss_recon (time_major : bool) (batch_size : tensor)
  (its : pass -> BatchedInput) (logits : pass -> tensor) (p : pass) : tensor :=
  loss_tensor time_major batch_size (logits p) (its p).

Definition loss_D (its : pass -> BatchedInput) (dlogits : pass -> tensor)
  (p : pass) : tensor :=
  _compute_discriminator_loss (dlogits p) (D_labels its p).

Definition loss_adv (its : pass -> BatchedInput) (dlogits : pass -> tensor)
  (p : pass) : tensor :=
  _compute_discriminator_loss (dlogits p) (one_minus (D_labels its p)).

(** The two sums [build_graph] returns when the mode is not INFER. *)
Definition total_loss (time_major : bool) (batch_size : tensor)
  (its : pass -> BatchedInput) (logits dlogits : pass -> tensor) : tensor :=
  AddN [Add (loss_recon time_major batch_size its logits s2s)
            (loss_recon time_major batch_size its logits t2t);
        AddN [loss_D its dlogits s2s; loss_D its dlogits s2t;
              loss_D its dlogits t2t; loss_D its dlogits t2s];
        Add (loss_recon time_major batch_size its logits s2t)
            (loss_recon time_major batch_size its logits t2s)].

Definition total_loss_adv (its : pass -> BatchedInput) (dlogits : pass -> tensor)
  : tensor :=
  AddN [loss_adv its dlogits s2s; loss_adv its dlogits s2t;
        loss_adv its dlogits t2t; loss_adv its dlogits t2s].

(** Sum of scalars that may be missing. *)
Definition oplus (a b : option R) : option R :=
  match a, b with
  | Some x, Some y => Some (x + y)%R
  | _, _ => None
  end.

(** A computation that, whenever it returns, has left the attribute [a] as
    it was. *)
Definition keeps (a : string) {A} (m : M A) : Prop :=
  forall st x st', m st = Ok (x, st') -> lookup a (self st') = lookup a (self st).

(** The attributes [__init__] binds once the graph is built: lines 135-159
    and lines 161-212. *)
Definition outputs_attributes : list string :=
  ["train_loss_ae"; "train_loss_D"; "word_count_s2s"; "eval_loss";
   "infer_logits_src"; "final_context_state_src"; "sample_id_src";
   "infer_logits_tgt"; "final_context_state_tgt"; "sample_id_tgt";
   "infer_cross_logits_src"; "final_context_state_cross_src"; "sample_id_cross_src";
   "infer_cross_logits_tgt"; "final_context_state_cross_tgt"; "sample_id_cross_tgt";
   "sample_words_src"; "sample_words_tgt"; "sample_words_src_cross";
   "sample_words_tgt_cross"; "predict_count_s2s"; "predict_count_t2t"].

Definition training_attributes : list string :=
  ["global_step"; "learning_rate"; "grad_norm_ae"; "update_ae"; "train_summary";
   "grad_norm_D"; "update_D"; "train_summary_D";
   "infer_summary_src"; "infer_summary_tgt"; "infer_summary_src_cross";
   "infer_summary_tgt_cross"; "saver"].

Definition late_attributes : list string :=
  outputs_attributes ++ training_attributes.

(** A session in which every integer variable is 0. *)
Definition fresh_session : Session := {| int_value := fun _ => 0 |}.

(** A computation that, whenever it returns, has removed no variable from
    the graph. *)
Definition growing {A} (m : M A) : Prop :=
  forall st x st', m st = Ok (x, st') -> incl (g_vars (graph st)) (g_vars (graph st')).

(** The scope in which the discriminator of a pass is built: the two
    same-language passes are built under "auto", the two cross passes under
    "cross", both under "dynamic_seq2seq" (each name gives way to the
    [scope] argument when there is one). *)
Definition discriminator_scope (scope : scope_arg) (current : string) (p : pass)
  : string :=
  let top := entered_scope scope "dynamic_seq2seq" current in
  let block := match p with s2s | t2t => "auto" | s2t | t2s => "cross" end in
  scope_join (entered_scope scope block top) "discriminator".

Definition scalar_of (v : option value) : option R :=
  match v with
  | Some (Scalar r) => Some r
  | _ => None
  end.

(** [tf.add_n] of four scalars, in the order it adds them. *)
Definition oplus4 (a b c d : option R) : option R :=
  oplus (oplus (oplus a b) c) d.

(** The value of the first sum [build_graph] returns, from the values of
    its twelve terms taken by pass. *)
Definition total_loss_value (recon D : pass -> option R) : option R :=
  oplus (oplus (oplus (recon s2s) (recon t2t))
               (oplus4 (D s2s) (D s2t) (D t2t) (D t2s)))
        (oplus (recon s2t) (recon t2s)).

(** Is the constructor's [scope] argument truthy? *)
Definition scope_given (scope : scope_arg) : bool :=
  match scope with
  | ScopeNone => false
  | ScopeStr s => negb (s =? "")%string
  | ScopeObject _ => true
  end.

(** A run in which every discriminator loss against the plain labels is 1
    and every discriminator loss against the flipped labels [1 - labels]
    is 10. *)
Definition adversarial_feed : Feed := {|
  fed_batch := fun _ => tiny_batch;
  op_value := fun name args =>
    if (name =? "sparse_softmax_cross_entropy")%string then
      match args with
      | [_; Op "sub" _] => Some (Scalar 10)
      | [_; _] => Some (Scalar 1)
      | _ => None
      end
    else None;
  variable_value := fun _ => None
|}.

(** A run in which the iterator of the first same-language pass yields two
    examples and every other iterator yields one. *)
Definition single_batch : Batch := {|
  batch := 1; src_max_time := 1; tgt_max_time := 2;
  b_source := fun _ _ => 0;
  b_target_input := fun _ _ => 0;
  b_target_output := fun _ _ => 0;
  b_source_sequence_length := fun _ => 1;
  b_target_sequence_length := fun _ => 2
|}.

Definition single_logits : array2 (list R) :=
  {| dim0 := 1; dim1 := 2; item := fun _ _ => [0%R; 0%R] |}.

Definition uneven_feed : Feed := {|
  fed_batch := fun it =>
    match it with Iterator O => tiny_batch | _ => single_batch end;
  op_value := fun name _ =>
    if (name =? "logits")%string then Some (Logits single_logits) else None;
  variable_value := fun _ => None
|}.

(** Forward and backward states taken in turn. *)
Fixpoint alternate (fw bw : list structure) : list structure :=
  match fw, bw with
  | f :: fw', b :: bw' => f :: b :: alternate fw' bw'
  | _, _ => []
  end.

(** The schedules [__init__] refuses: a warm-up scheme other than "t2t", or
    a decay scheme that is neither empty nor one of the three it knows. *)
Definition bad_schedule (hparams : HParams) : bool :=
  negb (warmup_scheme hparams =? "t2t")%string
  || (negb (existsb (String.eqb (decay_scheme hparams))
                    ["luong5"; "luong10"; "luong234"])
      && negb (decay_scheme hparams =? "")%string).

(** Hyperparameters for a schedule: the warm-up length, the number of
    training steps and the decay scheme are given, the rest is as in
    [small_hparams]. *)
Definition schedule_hparams (warmup_steps num_train_steps : Z) (decay : string)
  (lr : R) : HParams := {|
  src_vocab_size := 2; tgt_vocab_size := 2; num_gpus := 0; time_major := false;
  num_encoder_layers := 2; num_decoder_layers := 2;
  num_residual_layers := None;
  num_encoder_residual_layers := 0; num_decoder_residual_layers := 0;
  encoder_type := "uni"; attention := false; optimizer := "sgd";
  learning_rate := lr; warmup_steps := warmup_steps; warmup_scheme := "t2t";
  decay_scheme := decay; num_train_steps := num_train_steps; beam_width := 0;
  sampling_temperature := 0; tgt_max_len_infer := 0;
  sos_2src := "<s2src>"; sos_2tgt := "<s2tgt>"; eos := "</s>"
|}.

(** The number of halvings a "luong" scheme spreads over the steps that
    remain: [decay_times] of [_get_learning_rate_decay]. *)
Definition luong_decay_times (scheme : string) : Z :=
  if (scheme =? "luong5")%string then 5
  else if (scheme =? "luong10")%string then 10
  else 4.

(** The step at which a "luong" scheme starts to decay. *)
Definition luong_start (scheme : string) (num_train_steps : Z) : Z :=
  if (scheme =? "luong234")%string then py_int_div (num_train_steps * 2) 3
  else py_int_div num_train_steps 2.

(** The small batch with other content at its one padded position (example
    0, position 1): another target id and other logits. *)
Definition padded_batch : Batch := {|
  batch := 2; src_max_time := 1; tgt_max_time := 2;
  b_source := fun _ _ => 0;
  b_target_input := fun _ _ => 0;
  b_target_output := fun i t => match i, t with O, S _ => 1 | _, _ => 0 end;
  b_source_sequence_length := fun _ => 1;
  b_target_sequence_length := fun i => match i with O => 1 | _ => 2 end
|}.

Definition padded_logits : array2 (list R) :=
  {| dim0 := 2; dim1 := 2;
     item := fun i t =>
       match i, t with O, S _ => [5%R; 7%R] | _, _ => [0%R; 0%R] end |}.

Definition padded_feed : Feed := {|
  fed_batch := fun _ => padded_batch;
  op_value := fun name _ =>
    if (name =? "logits")%string then Some (Logits padded_logits) else None;
  variable_value := fun _ => None
|}.

(** The small state with the time-major layout, and a run that yields the
    small logits in both layouts. *)
Definition tiny_state_tm : State := {|
  graph := empty_graph;
  self := [("batch_size", VTensor (Size (Field (Iterator 0) source_sequence_length)));
           ("time_major", VBool true)]
|}.

Definition layout_feed : Feed := {|
  fed_batch := fun _ => tiny_batch;
  op_value := fun name _ =>
    if (name =? "logits")%string then Some (Logits tiny_logits)
    else if (name =? "logits_tm")%string then Some (Logits (transpose tiny_logits))
    else None;
  variable_value := fun _ => None
|}.

(** ** The projection layers *)

(** The layer as its first call leaves it, built under the scope [cur]; a
    layer that is built stays as it is. *)
Definition built_layer (cur : string) (l : DenseLayer) : DenseLayer :=
  match layer_built l with
  | Some _ => l
  | None => {| layer_name := layer_name l; layer_units := layer_units l;
               layer_built := Some (scope_join cur (layer_name l)) |}
  end.

(** The name of the kernel of a built layer. *)
Definition layer_kernel (l : DenseLayer) : string :=
  match layer_built l with
  | Some s => scope_join s "kernel"
  | None => ""
  end.

(** The attributes after a call of the layer bound to [attr]: the first call
    rebinds [attr] to the built layer. *)
Definition push_layer (attr cur : string) (l : DenseLayer) (o : object) : object :=
  match layer_built l with
  | Some _ => o
  | None => (attr, VLayer (built_layer cur l)) :: o
  end.

(** The scope of the block "auto" of [build_graph], entered from the scope
    [current], and the two projection layers as that block builds them. *)
Definition auto_scope (scope : scope_arg) (current : string) : string :=
  entered_scope scope "auto" (entered_scope scope "dynamic_seq2seq" current).

Definition projection_src (hparams : HParams) (scope : scope_arg) (current : string)
  : DenseLayer :=
  {| layer_name := "output_projection_src";
     layer_units := src_vocab_size hparams;
     layer_built :=
       Some (scope_join (scope_join (auto_scope scope current) "decoder")
                        "output_projection_src") |}.

Definition projection_tgt (hparams : HParams) (scope : scope_arg) (current : string)
  : DenseLayer :=
  {| layer_name := "output_projection_tgt";
     layer_units := tgt_vocab_size hparams;
     layer_built :=
       Some (scope_join (scope_join (auto_scope scope current) "decoder")
                        "output_projection_tgt") |}.

(** The projection a pass decodes with: the source-language layer for the
    passes that produce language A, the target-language layer for the
    others. *)
Definition projection_of (hparams : HParams) (scope : scope_arg) (current : string)
  (p : pass) : DenseLayer :=
  match p with
  | s2s | t2s => projection_src hparams scope current
  | t2t | s2t => projection_tgt hparams scope current
  end.

(** ** The attributes of a constructed model *)

(** The logits among the three values of a pass. *)
Definition pass_logits (r : pass_result) : tensor := fst (fst r).

(** [num_residual_layers], when [hparams] has it, stands for both residual
    counts (lines 105-110). *)
Definition residual_layers (hparams : HParams) (own : Z) : Z :=
  match num_residual_layers hparams with
  | Some n => n
  | None => own
  end.

(** [self.__dict__] when [__init__] calls [build_graph] (lines 71-129). *)
Definition early_self (hparams : HParams) (mode : ModeKeys)
  (it1 it2 it3 it4 : BatchedInput) (tab1 tab2 : string)
  (emb_src emb_tgt : tensor) : object :=
  [("output_layer_tgt",
    VLayer {| layer_name := "output_projection_tgt";
              layer_units := tgt_vocab_size hparams; layer_built := None |});
   ("output_layer_src",
    VLayer {| layer_name := "output_projection_src";
              layer_units := src_vocab_size hparams; layer_built := None |});
   ("batch_size", VTensor (Size (Field it1 source_sequence_length)));
   ("embedding_tgt", VTensor emb_tgt);
   ("embedding_src", VTensor emb_src);
   ("num_decoder_residual_layers",
    VInt (residual_layers hparams (num_decoder_residual_layers hparams)));
   ("num_encoder_residual_layers",
    VInt (residual_layers hparams (num_encoder_residual_layers hparams)));
   ("num_decoder_layers", VInt (num_decoder_layers hparams));
   ("num_encoder_layers", VInt (num_encoder_layers hparams));
   ("single_cell_fn", VNone);
   ("time_major", VBool (time_major hparams));
   ("num_gpus", VInt (num_gpus hparams));
   ("tgt_vocab_size", VInt (tgt_vocab_size hparams));
   ("src_vocab_size", VInt (src_vocab_size hparams));
   ("tgt_vocab_table", VTable tab2);
   ("src_vocab_table", VTable tab1);
   ("mode", VMode mode);
   ("iterator_t2s", VIter it4);
   ("iterator_s2t", VIter it3);
   ("iterator_t2t", VIter it2);
   ("iterator_s2s", VIter it1)].

(** The variable [tf.Variable(0, trainable=False)] adds to the graph. *)
Definition global_step_variable : TfVariable :=
  {| v_name := "Variable"; v_trainable := false |}.

Definition with_global_step (g : Graph) : Graph :=
  {| g_scope := g_scope g; g_reuse := g_reuse g;
     g_vars := g_vars g ++ [global_step_variable] |}.

(** The attributes bound in every mode before the graph is built. *)
Definition early_attributes : list string :=
  ["iterator_s2s"; "iterator_t2t"; "iterator_s2t"; "iterator_t2s"; "mode";
   "src_vocab_table"; "tgt_vocab_table"; "src_vocab_size"; "tgt_vocab_size";
   "num_gpus"; "time_major"; "single_cell_fn"; "num_encoder_layers";
   "num_decoder_layers"; "num_encoder_residual_layers";
   "num_decoder_residual_layers"; "embedding_src"; "embedding_tgt";
   "batch_size"; "output_layer_src"; "output_layer_tgt"].

(** The attributes that depend on the mode. *)
Definition mode_attributes (mode : ModeKeys) : list string :=
  match mode with
  | TRAIN =>
      ["train_loss_ae"; "train_loss_D"; "word_count_s2s";
       "predict_count_s2s"; "predict_count_t2t"; "learning_rate";
       "grad_norm_ae"; "update_ae"; "train_summary";
       "grad_norm_D"; "update_D"; "train_summary_D"]
  | EVAL => ["eval_loss"; "predict_count_s2s"; "predict_count_t2t"]
  | INFER =>
      ["infer_logits_src"; "final_context_state_src"; "sample_id_src";
       "infer_logits_tgt"; "final_context_state_tgt"; "sample_id_tgt";
       "infer_cross_logits_src"; "final_context_state_cross_src";
       "sample_id_cross_src";
       "infer_cross_logits_tgt"; "final_context_state_cross_tgt";
       "sample_id_cross_tgt";
       "sample_words_src"; "sample_words_tgt"; "sample_words_src_cross";
       "sample_words_tgt_cross";
       "infer_summary_src"; "infer_summary_tgt"; "infer_summary_src_cross";
       "infer_summary_tgt_cross"]
  end.

Definition model_attributes (mode : ModeKeys) : list string :=
  early_attributes ++ mode_attributes mode ++ ["global_step"; "saver"].

(** Do two lists of names hold the same names? *)
Definition same_names (l1 l2 : list string) : bool :=
  forallb (fun x => existsb (String.eqb x) l2) l1
  && forallb (fun x => existsb (String.eqb x) l1) l2.

(** [infer_cross], lines 670-675. *)
Definition infer_cross (sess : Session) : M Session :=
  mode <- get_mode ;;
  py_assert (mode_eqb mode INFER) ;;;
  getattr "infer_cross_logits_src" ;;;
  getattr "infer_summary_src_cross" ;;;
  getattr "sample_id_cross_src" ;;;
  getattr "sample_words_src_cross" ;;;
  getattr "infer_cross_logits_tgt" ;;;
  getattr "infer_summary_tgt_cross" ;;;
  getattr "sample_id_cross_tgt" ;;;
  getattr "sample_words_tgt_cross" ;;;
  ret sess.

(** [self.__dict__] when [build_graph] has returned: the two projection
    layers are rebound, built. *)
Definition built_self (hparams : HParams) (mode : ModeKeys)
  (it1 it2 it3 it4 : BatchedInput) (tab1 tab2 : string)
  (scope : scope_arg) (current : string) (emb_src emb_tgt : tensor) : object :=
  ("output_layer_tgt", VLayer (projection_tgt hparams scope current))
  :: ("output_layer_src", VLayer (projection_src hparams scope current))
  :: early_self hparams mode it1 it2 it3 it4 tab1 tab2 emb_src emb_tgt.

(** The node [tf.train.Saver(tf.global_variables())] stands for. *)
Definition saver_of (g : Graph) : pyval :=
  VTensor (Op "Saver" (map (fun v => Var (v_name v)) (g_vars g))).

(** The optimizer class [train_params] instantiates. *)
Definition optimizer_class (hparams : HParams) : option string :=
  if (optimizer hparams =? "sgd")%string then Some "GradientDescentOptimizer"
  else if (optimizer hparams =? "adam")%string then Some "AdamOptimizer"
  else None.

(** ** Decoding: the arrays [sess.run] returns *)

(** A numpy array: its shape and its items by index (only the indices
    within the shape matter). *)
Record ndarray (A : Type) : Type := {
  nd_shape : list nat;
  nd_item : list nat -> A
}.
Arguments nd_shape {A} _.
Arguments nd_item {A} _ _.

Definition ndim {A} (a : ndarray A) : nat := List.length (nd_shape a).

(** What [sess.run] returns for one fetch: an array for a tensor, [None]
    for an operation such as [tf.no_op()]. *)
Inductive fetched (A : Type) : Type :=
| FArray (a : ndarray A)
| FNone.
Arguments FArray {A} a.
Arguments FNone {A}.

(** The place of the axis [d] in [axes]. *)
Fixpoint position (d : nat) (axes : list nat) : nat :=
  match axes with
  | [] => 0%nat
  | a :: rest => if (a =? d)%nat then 0%nat else S (position d rest)
  end.

(** [a.transpose(axes)] for [axes] that name each axis at most once, as
    both calls of this file do: axis [i] of the result is axis [axes[i]] of
    [a].  The number of axes has to be that of the array. *)
Definition np_transpose {A} (axes : list nat) (a : ndarray A) : res (ndarray A) :=
  if (List.length axes =? ndim a)%nat then
    Ok {| nd_shape := map (fun ax => nth ax (nd_shape a) 0%nat) axes;
          nd_item := fun idx =>
            nd_item a (map (fun d => nth (position d axes) idx 0%nat)
                           (seq 0 (ndim a))) |}
  else Raise (ValueError "axes don't match array").

(** [v.transpose()] (the axes reversed) and [v.transpose(axes)] on a
    fetched value; [None] has no such method. *)
Definition transpose_method {A} (axes : option (list nat)) (v : fetched A)
  : M (fetched A) :=
  match v with
  | FNone => raise (AttributeError "transpose")
  | FArray a =>
      let axes := match axes with
                  | Some axes => axes
                  | None => rev (seq 0 (ndim a))
                  end in
      match np_transpose axes a with
      | Ok a' => ret (FArray a')
      | Raise e => raise e
      end
  end.

(** [v.ndim] *)
Definition get_ndim {A} (v : fetched A) : M nat :=
  match v with
  | FArray a => ret (ndim a)
  | FNone => raise (AttributeError "ndim")
  end.

(** [infer], [infer_cross], [decode] and [decode_cross] with the values
    they return.  [sess_run] is [sess.run] on one fetch; what is fetched
    updates no variable. *)
Module Fetching.
Section Fetching.

Context {A : Type} (sess_run : tensor -> fetched A).

Definition fetches : Type := fetched A * fetched A * fetched A * fetched A.

Definition infer : M (fetches * fetches) :=
  mode <- get_mode ;;
  py_assert (mode_eqb mode INFER) ;;;
  infer_logits_src <- get_tensor "infer_logits_src" ;;
  infer_summary_src <- get_tensor "infer_summary_src" ;;
  sample_id_src <- get_tensor "sample_id_src" ;;
  sample_words_src <- get_tensor "sample_words_src" ;;
  infer_logits_tgt <- get_tensor "infer_logits_tgt" ;;
  infer_summary_tgt <- get_tensor "infer_summary_tgt" ;;
  sample_id_tgt <- get_tensor "sample_id_tgt" ;;
  sample_words_tgt <- get_tensor "sample_words_tgt" ;;
  ret ((sess_run infer_logits_src, sess_run infer_summary_src,
        sess_run sample_id_src, sess_run sample_words_src),
       (sess_run infer_logits_tgt, sess_run infer_summary_tgt,
        sess_run sample_id_tgt, sess_run sample_words_tgt)).

Definition infer_cross : M (fetches * fetches) :=
  mode <- get_mode ;;
  py_assert (mode_eqb mode INFER) ;;;
  infer_cross_logits_src <- get_tensor "infer_cross_logits_src" ;;
  infer_summary_src_cross <- get_tensor "infer_summary_src_cross" ;;
  sample_id_cross_src <- get_tensor "sample_id_cross_src" ;;
  sample_words_src_cross <- get_tensor "sample_words_src_cross" ;;
  infer_cross_logits_tgt <- get_tensor "infer_cross_logits_tgt" ;;
  infer_summary_tgt_cross <- get_tensor "infer_summary_tgt_cross" ;;
  sample_id_cross_tgt <- get_tensor "sample_id_cross_tgt" ;;
  sample_words_tgt_cross <- get_tensor "sample_words_tgt_cross" ;;
  ret ((sess_run infer_cross_logits_src, sess_run infer_summary_src_cross,
        sess_run sample_id_cross_src, sess_run sample_words_src_cross),
       (sess_run infer_cross_logits_tgt, sess_run infer_summary_tgt_cross,
        sess_run sample_id_cross_tgt, sess_run sample_words_tgt_cross)).

Definition decode_cross
  : M ((fetched A * fetched A) * (fetched A * fetched A)) :=
  '((_, infer_summary_src, _, sample_words_src),
    (_, infer_summary_tgt, _, sample_words_tgt)) <- infer_cross ;;
  time_major <- get_bool "time_major" ;;
  '(sample_words_src, sample_words_tgt) <-
    (if time_major then
       src <- transpose_method None sample_words_src ;;
       tgt <- transpose_method None sample_words_tgt ;;
       ret (src, tgt)
     else
       n <- get_ndim sample_words_src ;;
       if (n =? 3)%nat then
         src <- transpose_method (Some [2; 0; 1]%nat) sample_words_src ;;
         tgt <- transpose_method (Some [2; 0; 1]%nat) sample_words_tgt ;;
         ret (src, tgt)
       else ret (sample_words_src, sample_words_tgt)) ;;
  ret ((sample_words_src, infer_summary_src), (sample_words_tgt, infer_summary_tgt)).

Definition decode
  : M ((fetched A * fetched A) * (fetched A * fetched A)) :=
  '((_, infer_summary_src, _, sample_words_src),
    (_, infer_summary_tgt, _, sample_words_tgt)) <- infer ;;
  time_major <- get_bool "time_major" ;;
  '(sample_words_src, sample_words_tgt) <-
    (if time_major then
       src <- transpose_method None sample_words_src ;;
       tgt <- transpose_method None sample_words_tgt ;;
       ret (src, tgt)
     else
       n <- get_ndim sample_words_src ;;
       if (n =? 3)%nat then
         src <- transpose_method (Some [2; 0; 1]%nat) sample_words_src ;;
         tgt <- transpose_method (Some [2; 0; 1]%nat) sample_words_tgt ;;
         ret (src, tgt)
       else ret (sample_words_src, sample_words_tgt)) ;;
  ret ((sample_words_src, infer_summary_src), (sample_words_tgt, infer_summary_tgt)).

End Fetching.
End Fetching.

(** [x] is [a] with its axes in the reverse order. *)
Definition axes_reversed {A} (a x : ndarray A) : Prop :=
  nd_shape x = rev (nd_shape a)
  /\ forall idx, List.length idx = ndim a -> nd_item x idx = nd_item a (rev idx).

(** [a] is [batch, time, beam] and [x] is the same array as
    [beam, batch, time]. *)
Definition beam_first {A} (a x : ndarray A) : Prop :=
  exists batch time beam : nat,
    nd_shape a = [batch; time; beam]
    /\ nd_shape x = [beam; batch; time]
    /\ forall w b t, nd_item x [w; b; t] = nd_item a [b; t; w].

(** A run that returns, for every fetch, the same array of the shape
    [shape]. *)
Definition constant_run (shape : list nat) (t : tensor) : fetched Z :=
  FArray {| nd_shape := shape; nd_item := fun _ => 0 |}.

(** ** A training loop *)


(** ** Decoding at inference time *)

(** The sample ids among the three values of a pass. *)
Definition pass_sample_id (r : pass_result) : tensor := snd r.

(** What [_build_decoder] returns as logits and sample ids in INFER mode,
    for the pass fed by [iterator]: with beam search no logits and the
    predicted ids of the beam-search decoder, without it the outputs and the
    sample ids of one basic decoder, which samples when the temperature is
    positive and is greedy otherwise; the decoding is bounded by
    [_get_infer_maximum_iterations] on the source lengths of [iterator]. *)
Definition infer_decoded (hparams : HParams) (iterator : BatchedInput)
  (logits sample_id : tensor) : Prop :=
  exists args : list tensor,
    In (_get_infer_maximum_iterations hparams (Field iterator source_sequence_length))
       args
    /\ if 0 <? beam_width hparams then
         logits = Op "no_op" []
         /\ sample_id
            = Op "predicted_ids" [Op "dynamic_decode/BeamSearchDecoder" args]
       else
         let helper :=
           if Rlt_dec 0 (sampling_temperature hparams)
           then "SampleEmbeddingHelper" else "GreedyEmbeddingHelper" in
         let outputs := Op ("dynamic_decode/BasicDecoder/" ++ helper) args in
         logits = Op "rnn_output" [outputs]
         /\ sample_id = Op "sample_id" [outputs].

(** Hyperparameters of a small model that decodes with beam search. *)
Definition beam_hparams (width : Z) : HParams := {|
  src_vocab_size := 2; tgt_vocab_size := 2; num_gpus := 0; time_major := false;
  num_encoder_layers := 2; num_decoder_layers := 2;
  num_residual_layers := None;
  num_encoder_residual_layers := 0; num_decoder_residual_layers := 0;
  encoder_type := "uni"; attention := false; optimizer := "sgd";
  learning_rate := 1; warmup_steps := 100; warmup_scheme := "t2t";
  decay_scheme := "luong5"; num_train_steps := 1000; beam_width := width;
  sampling_temperature := 0; tgt_max_len_infer := 0;
  sos_2src := "<s2src>"; sos_2tgt := "<s2tgt>"; eos := "</s>"
|}.

(** * Properties *)

(** ** The learning-rate schedule *)

Lemma warmup_factor_power (n : Z) :
  (0 < n)%Z -> Rpower (exp (ln 0.01 / IZR n)) (IZR n) = 0.01%R.
Proof.
  intros Hn. unfold Rpower. rewrite ln_exp.
  replace (IZR n * (ln 0.01 / IZR n))%R with (ln 0.01).
  - apply exp_ln. lra.
  - field. apply not_0_IZR. lia.
Qed.

Lemma luong5_plan (hparams : HParams) :
  decay_scheme hparams = "luong5" ->
  decay_plan_of hparams =
    Ok {| start_decay_step := py_int_div (num_train_steps hparams) 2;
          decay_steps :=
            py_int_div (num_train_steps hparams
                        - py_int_div (num_train_steps hparams) 2) 5;
          decay_factor := 0.5 |}.
Proof. intros H. unfold decay_plan_of. rewrite H. reflexivity. Qed.

(** C6. With warmup scheme "t2t" and 100 warmup steps the warm-up stage gives
    [base_rate * 0.01] at step 0 and [base_rate] at step 100; with decay
    scheme "luong5" and 1000 training steps the decay is a staircase of
    factor 0.5 starting at step 500 with [decay_steps = (1000 - 500) / 5],
    and the whole schedule gives [base_rate * 0.01] at step 0, [base_rate]
    at steps 100 and 500 and [base_rate * 0.5] at step [500 + decay_steps]. *)
Theorem learning_rate_t2t_luong5 (hparams : HParams) :
  warmup_scheme hparams = "t2t" ->
  warmup_steps hparams = 100 ->
  decay_scheme hparams = "luong5" ->
  num_train_steps hparams = 1000 ->
  let base_rate := learning_rate hparams in
  (exists warm : rate,
     _get_learning_rate_warmup hparams (fun _ => Some base_rate) = Ok warm
     /\ warm 0 = Some (base_rate * 0.01)%R
     /\ warm 100 = Some base_rate)
  /\ exists (plan : decay_plan) (lr : rate),
       decay_plan_of hparams = Ok plan
       /\ start_decay_step plan = 500
       /\ decay_steps plan = (num_train_steps hparams - start_decay_step plan) / 5
       /\ decay_factor plan = 0.5%R
       /\ learning_rate_schedule hparams = Ok lr
       /\ lr 0 = Some (base_rate * 0.01)%R
       /\ lr 100 = Some base_rate
       /\ lr 500 = Some base_rate
       /\ lr (500 + decay_steps plan) = Some (base_rate * 0.5)%R
       /\ (forall step, 500 <= step < 500 + 5 * decay_steps plan ->
             lr step = Some (base_rate
                             * powerRZ 0.5 ((step - 500) / decay_steps plan))%R).
Proof.
  intros Hscheme Hsteps Hdecay Hn base_rate.
  assert (Hw0 : (Rpower (exp (ln 0.01 / 100)) 100 * base_rate)%R
                = (base_rate * 0.01)%R).
  { rewrite (warmup_factor_power 100) by lia. ring. }
  split.
  - unfold _get_learning_rate_warmup. rewrite Hscheme, Hsteps. simpl.
    eexists. split; [reflexivity|].
    split; [simpl; f_equal; exact Hw0 | reflexivity].
  - pose proof (luong5_plan hparams Hdecay) as Hplan. rewrite Hn in Hplan.
    change (py_int_div 1000 2) with 500 in Hplan.
    change (py_int_div (1000 - 500) 5) with 100 in Hplan.
    unfold learning_rate_schedule, _get_learning_rate_warmup,
      _get_learning_rate_decay.
    rewrite Hscheme, Hsteps, Hplan. simpl.
    eexists. eexists. split; [reflexivity|]. simpl.
    rewrite Hn.
    repeat split; try reflexivity.
    + simpl. f_equal. exact Hw0.
    + unfold exponential_decay. simpl. f_equal. fold base_rate. lra.
    + unfold exponential_decay. simpl. f_equal. fold base_rate. lra.
    + intros step Hstep.
      replace (step <? 100) with false by (symmetry; apply Z.ltb_ge; lia).
      replace (step <? 500) with false by (symmetry; apply Z.ltb_ge; lia).
      unfold exponential_decay. simpl.
      replace (wrap32 (step - 500)) with (step - 500); [reflexivity|].
      unfold wrap32. rewrite Z.mod_small; lia.
Qed.

Lemma tiny_hparams_learning_rate :
  let hparams := tiny_hparams 1 in
  exists (plan : decay_plan) (lr : rate),
    decay_plan_of hparams = Ok plan
    /\ learning_rate_schedule hparams = Ok lr
    /\ lr 0 = Some (1 * 0.01)%R
    /\ lr (500 + decay_steps plan) = Some (1 * 0.5)%R.
Proof.
  destruct (learning_rate_t2t_luong5 (tiny_hparams 1)
              eq_refl eq_refl eq_refl eq_refl)
    as (_ & plan & lr & H1 & _ & _ & _ & H2 & H3 & _ & _ & H4 & _).
  exists plan, lr. repeat split; assumption.
Defined.

(** ** The two parameter sets *)

Lemma mem_variable_In (v : TfVariable) (l : list TfVariable) :
  mem_variable v l = true <-> In v l.
Proof.
  unfold mem_variable. destruct (in_dec TfVariable_eq_dec v l); split;
    intros; try assumption; try reflexivity; try discriminate; contradiction.
Qed.

Lemma py_set_difference_In (xs ys : list TfVariable) (v : TfVariable) :
  In v (py_set_difference xs ys) <-> In v xs /\ ~ In v ys.
Proof.
  unfold py_set_difference. rewrite nodup_In, filter_In.
  rewrite negb_true_iff, <- not_true_iff_false, mem_variable_In. tauto.
Qed.

Lemma discriminator_params_In (g : Graph) (v : TfVariable) :
  In v (trainable_variables_scope_discriminator g) <->
  In v (trainable_variables g) /\ re_match_dotstar "discriminator" (v_name v) = true.
Proof. unfold trainable_variables_scope_discriminator. apply filter_In. Qed.

(** C4. The discriminator set (trainable variables whose name matches
    [.*discriminator.*]) and the autoencoder set (its complement) partition
    the trainable variables: every trainable variable is in one of them, each
    of them holds trainable variables only, and no variable is in both. *)
Theorem params_partition (g : Graph) :
  let params_D := trainable_variables_scope_discriminator g in
  let params_ae := py_set_difference (trainable_variables g) params_D in
  (forall v, In v (trainable_variables g) <-> In v params_ae \/ In v params_D)
  /\ (forall v, ~ (In v params_ae /\ In v params_D))
  /\ (forall v, In v params_D <->
                In v (trainable_variables g)
                /\ re_match_dotstar "discriminator" (v_name v) = true)
  /\ NoDup params_ae.
Proof.
  intros params_D params_ae. split; [|split; [|split]].
  - intros v. split.
    + intros Hv. destruct (in_dec TfVariable_eq_dec v params_D) as [HD | HD].
      * right. exact HD.
      * left. apply py_set_difference_In. split; assumption.
    + intros [Hv | Hv].
      * apply py_set_difference_In in Hv. tauto.
      * apply discriminator_params_In in Hv. tauto.
  - intros v [Hae HD]. apply py_set_difference_In in Hae. tauto.
  - intros v. apply discriminator_params_In.
  - apply NoDup_nodup.
Qed.

Lemma filter_split_length {A} (p : A -> bool) (l : list A) :
  (List.length (filter (fun x => negb (p x)) l) + List.length (filter p l)
   = List.length l)%nat.
Proof.
  induction l as [| x l IH]; simpl; [reflexivity|].
  destruct (p x); simpl; lia.
Qed.

(** When the collection holds every variable once, the sizes add up:
    [|params_ae| + |params_D| = |trainable variables|]. *)
Lemma params_partition_count (g : Graph) :
  NoDup (trainable_variables g) ->
  let params_D := trainable_variables_scope_discriminator g in
  let params_ae := py_set_difference (trainable_variables g) params_D in
  (List.length params_ae + List.length params_D
   = List.length (trainable_variables g))%nat.
Proof.
  intros Hnd params_D params_ae.
  unfold params_ae, py_set_difference.
  rewrite nodup_fixed_point by (apply NoDup_filter; exact Hnd).
  unfold params_D, trainable_variables_scope_discriminator.
  etransitivity;
    [| apply (filter_split_length
                (fun v => re_match_dotstar "discriminator" (v_name v)))].
  f_equal. f_equal. apply filter_ext_in. intros v Hv. f_equal.
  destruct (re_match_dotstar "discriminator" (v_name v)) eqn:E.
  - apply mem_variable_In, filter_In. split; assumption.
  - apply not_true_iff_false. rewrite mem_variable_In, filter_In.
    rewrite E. intros [_ H]. discriminate.
Qed.

Example re_match_discriminator_inside :
  re_match_dotstar "discriminator"
    "dynamic_seq2seq/auto/discriminator/dense1_D/kernel" = true
  /\ re_match_dotstar "discriminator" "dynamic_seq2seq/auto/encoder/kernel" = false.
Proof. split; reflexivity. Qed.

(** ** Sums over index ranges *)

Lemma rsum_ext (n : nat) (f g : nat -> R) :
  (forall i, (i < n)%nat -> f i = g i) -> rsum n f = rsum n g.
Proof.
  induction n as [| n IH]; intros H; simpl; [reflexivity|].
  rewrite IH by (intros; apply H; lia). rewrite H by lia. reflexivity.
Qed.

Lemma rsum_plus (n : nat) (f g : nat -> R) :
  rsum n (fun i => (f i + g i)%R) = (rsum n f + rsum n g)%R.
Proof. induction n as [| n IH]; simpl; [ring | rewrite IH; ring]. Qed.

Lemma rsum_zero (n : nat) : rsum n (fun _ => 0%R) = 0%R.
Proof. induction n as [| n IH]; simpl; [reflexivity | rewrite IH; ring]. Qed.

Lemma rsum_swap (n m : nat) (f : nat -> nat -> R) :
  rsum n (fun i => rsum m (fun j => f i j))
  = rsum m (fun j => rsum n (fun i => f i j)).
Proof.
  induction n as [| n IH]; simpl.
  - symmetry. apply rsum_zero.
  - rewrite IH. symmetry. apply rsum_plus.
Qed.

Lemma rsum_append (n m : nat) (f : nat -> R) :
  rsum (n + m) f = (rsum n f + rsum m (fun i => f (n + i)%nat))%R.
Proof.
  induction m as [| m IH]; simpl.
  - rewrite Nat.add_0_r. ring.
  - rewrite Nat.add_succ_r. simpl. rewrite IH. ring.
Qed.

Lemma wrap_index_low (n i : nat) : (i < n)%nat -> wrap_index n i = i.
Proof. intros H. unfold wrap_index. apply Nat.ltb_lt in H. rewrite H. reflexivity. Qed.

Lemma wrap_index_high (n i : nat) : wrap_index n (n + i) = i.
Proof.
  unfold wrap_index. replace (n + i <? n)%nat with false.
  - lia.
  - symmetry. apply Nat.ltb_ge. lia.
Qed.

Lemma rsum_tiled (n : nat) (f : nat -> R) :
  rsum (n + n) (fun i => f (wrap_index n i)) = (2 * rsum n f)%R.
Proof.
  rewrite rsum_append.
  rewrite (rsum_ext n (fun i => f (wrap_index n i)) f)
    by (intros; rewrite wrap_index_low; auto).
  rewrite (rsum_ext n (fun i => f (wrap_index n (n + i))) f)
    by (intros; rewrite wrap_index_high; auto).
  ring.
Qed.

Lemma all_below_spec (n : nat) (p : nat -> bool) :
  all_below n p = true <-> forall i, (i < n)%nat -> p i = true.
Proof.
  induction n as [| n IH]; simpl.
  - split; [intros _ i Hi; lia | reflexivity].
  - rewrite andb_true_iff, IH. split.
    + intros [H1 H2] i Hi. destruct (Nat.eq_dec i n) as [-> | Hne];
        [exact H2 | apply H1; lia].
    + intros H. split; [intros i Hi; apply H; lia | apply H; lia].
Qed.

Lemma all_below_tiled (n : nat) (p : nat -> bool) :
  all_below (n + n) (fun i => p (wrap_index n i)) = all_below n p.
Proof.
  apply eq_true_iff_eq. rewrite !all_below_spec. split.
  - intros H i Hi. specialize (H i). rewrite wrap_index_low in H by lia.
    apply H. lia.
  - intros H i Hi. apply H. unfold wrap_index.
    destruct (i <? n)%nat eqn:E.
    + apply Nat.ltb_lt. exact E.
    + apply Nat.ltb_ge in E. lia.
Qed.

Lemma all_below_ext (n : nat) (p q : nat -> bool) :
  (forall i, (i < n)%nat -> p i = q i) -> all_below n p = all_below n q.
Proof.
  induction n as [| n IH]; intros H; simpl; [reflexivity|].
  rewrite IH by (intros; apply H; lia). rewrite H by lia. reflexivity.
Qed.

Lemma all_below_swap (n m : nat) (p : nat -> nat -> bool) :
  all_below n (fun i => all_below m (fun j => p i j))
  = all_below m (fun j => all_below n (fun i => p i j)).
Proof.
  apply eq_true_iff_eq. rewrite !all_below_spec. split.
  - intros H j Hj. apply all_below_spec. intros i Hi.
    specialize (H i Hi). rewrite all_below_spec in H. auto.
  - intros H i Hi. apply all_below_spec. intros j Hj.
    specialize (H j Hj). rewrite all_below_spec in H. auto.
Qed.

(** ** The value of the reconstruction loss *)

Lemma sparse_xent_with_logits_Some (labels : array2 Z) (logits : array2 (list R)) :
  sparse_xent_with_logits labels logits <> None ->
  sparse_xent_with_logits labels logits
  = Some {| dim0 := dim0 labels; dim1 := dim1 labels;
            item := crossent_item labels logits |}.
Proof.
  unfold sparse_xent_with_logits.
  destruct (_ && _); [reflexivity | intros H; contradiction].
Qed.

Lemma loss_tensor_value (feed : Feed) (time_major : bool)
  (batch_size logits : tensor) (iterator : BatchedInput)
  (l : array2 (list R)) (B : Z) :
  value_of feed batch_size = Some (IntScalar B) ->
  B <> 0 ->
  value_of feed logits = Some (Logits l) ->
  sparse_xent_with_logits (oriented_labels time_major (fed_batch feed iterator)) l
    <> None ->
  scalar_value feed (loss_tensor time_major batch_size logits iterator)
  = Some (masked_sum (fed_batch feed iterator)
            (token_crossent time_major (fed_batch feed iterator) l) / IZR B)%R.
Proof.
  intros Hbs HB Hl Hx. apply sparse_xent_with_logits_Some in Hx.
  unfold scalar_value, loss_tensor.
  destruct time_major; simpl; rewrite Hl, Hbs;
    unfold oriented_labels in Hx; simpl in Hx; rewrite Hx; simpl;
    unfold multiply; simpl; rewrite !Nat2Z.id, !Nat.eqb_refl; simpl;
    (destruct (Req_EM_T (IZR B) 0) as [E | _];
       [apply eq_IZR in E; contradiction|]);
    do 3 f_equal; unfold reduce_sum, masked_sum, token_crossent; simpl;
    try reflexivity.
  apply rsum_swap.
Qed.

Lemma sparse_xent_dims (labels : array2 Z) (logits : array2 (list R)) :
  sparse_xent_with_logits labels logits <> None ->
  dim0 labels = dim0 logits /\ dim1 labels = dim1 logits.
Proof.
  unfold sparse_xent_with_logits.
  destruct (dim0 labels =? dim0 logits)%nat eqn:E0;
    destruct (dim1 labels =? dim1 logits)%nat eqn:E1; simpl;
    try (intros H; contradiction).
  intros _. split; apply Nat.eqb_eq; assumption.
Qed.

Lemma token_crossent_tiled (time_major : bool) (b : Batch)
  (l : array2 (list R)) (i t : nat) :
  sparse_xent_with_logits (oriented_labels time_major b) l <> None ->
  token_crossent time_major (tile_batch b) (tile_logits time_major l) i t
  = token_crossent time_major b l (wrap_index (batch b) i) t.
Proof.
  intros H. apply sparse_xent_dims in H. destruct H as [H0 H1].
  destruct time_major; simpl in H0, H1;
    unfold token_crossent, crossent_item; simpl.
  - rewrite <- H1. reflexivity.
  - rewrite <- H0. reflexivity.
Qed.

Lemma masked_sum_tiled (time_major : bool) (b : Batch) (l : array2 (list R)) :
  sparse_xent_with_logits (oriented_labels time_major b) l <> None ->
  masked_sum (tile_batch b)
    (token_crossent time_major (tile_batch b) (tile_logits time_major l))
  = (2 * masked_sum b (token_crossent time_major b l))%R.
Proof.
  intros H. unfold masked_sum. simpl.
  rewrite <- rsum_tiled. apply rsum_ext. intros i _.
  apply rsum_ext. intros t _.
  rewrite token_crossent_tiled by exact H. reflexivity.
Qed.

Lemma sparse_xent_tiled (time_major : bool) (b : Batch) (l : array2 (list R)) :
  sparse_xent_with_logits (oriented_labels time_major b) l <> None ->
  sparse_xent_with_logits (oriented_labels time_major (tile_batch b))
    (tile_logits time_major l) <> None.
Proof.
  intros H. pose proof (sparse_xent_dims _ _ H) as [H0 H1].
  unfold sparse_xent_with_logits in *.
  destruct time_major; simpl in *.
  - rewrite <- H0, <- H1, !Nat.eqb_refl in *. simpl in *.
    destruct (all_below _ _) eqn:E in H; [| contradiction].
    rewrite (all_below_ext _ _ _
               (fun t _ => all_below_tiled (batch b)
                  (fun i => match sparse_softmax_cross_entropy (item l t i)
                                    (b_target_output b i t) with
                            | Some _ => true | None => false end))).
    rewrite E. discriminate.
  - rewrite <- H0, <- H1, !Nat.eqb_refl in *. simpl in *.
    destruct (all_below _ _) eqn:E in H; [| contradiction].
    rewrite (all_below_tiled (batch b)
               (fun i => all_below (tgt_max_time b)
                  (fun t => match sparse_softmax_cross_entropy (item l i t)
                                    (b_target_output b i t) with
                            | Some _ => true | None => false end))).
    rewrite E. discriminate.
Qed.

Lemma getattr_bound (attr : string) (v : pyval) (st : State) :
  lookup attr (self st) = Some v -> getattr attr st = Ok (v, st).
Proof. intros H. unfold getattr. rewrite H. reflexivity. Qed.

Lemma _compute_loss_tensor (st : State) (time_major : bool) (batch_size : tensor)
  (logits : tensor) (iterator : BatchedInput) :
  lookup "time_major" (self st) = Some (VBool time_major) ->
  lookup "batch_size" (self st) = Some (VTensor batch_size) ->
  _compute_loss logits iterator st
  = Ok (loss_tensor time_major batch_size logits iterator, st).
Proof.
  intros Htm Hbs.
  unfold _compute_loss, get_max_time, get_bool, get_tensor, bind.
  rewrite (getattr_bound _ _ _ Htm). simpl.
  rewrite (getattr_bound _ _ _ Htm). simpl.
  rewrite (getattr_bound _ _ _ Hbs). simpl.
  destruct time_major; reflexivity.
Qed.

(** C5. The loss [_compute_loss] builds is the sequence-masked sum of the
    per-token cross-entropy (positions below the true target length) divided
    by the batch size [B] that [self.batch_size] evaluates to; and when the
    same batch is fed twice over (size [2B], logits duplicated alike) the
    loss has the same value. *)
Theorem compute_loss_per_batch (st : State) (time_major : bool)
  (batch_size logits : tensor) (iterator : BatchedInput)
  (feed : Feed) (l : array2 (list R)) (B : Z) :
  lookup "time_major" (self st) = Some (VBool time_major) ->
  lookup "batch_size" (self st) = Some (VTensor batch_size) ->
  value_of feed batch_size = Some (IntScalar B) ->
  B <> 0 ->
  value_of feed logits = Some (Logits l) ->
  sparse_xent_with_logits (oriented_labels time_major (fed_batch feed iterator)) l
    <> None ->
  exists loss : tensor,
    _compute_loss logits iterator st = Ok (loss, st)
    /\ scalar_value feed loss
       = Some (masked_sum (fed_batch feed iterator)
                 (token_crossent time_major (fed_batch feed iterator) l) / IZR B)%R
    /\ forall feed2 : Feed,
         fed_batch feed2 iterator = tile_batch (fed_batch feed iterator) ->
         value_of feed2 logits = Some (Logits (tile_logits time_major l)) ->
         value_of feed2 batch_size = Some (IntScalar (2 * B)) ->
         scalar_value feed2 loss = scalar_value feed loss.
Proof.
  intros Htm Hbs HB HB0 Hl Hx.
  exists (loss_tensor time_major batch_size logits iterator).
  split; [apply _compute_loss_tensor; assumption|].
  split; [apply loss_tensor_value; assumption|].
  intros feed2 Hb2 Hl2 HB2.
  rewrite (loss_tensor_value feed _ _ _ _ l B) by assumption.
  rewrite (loss_tensor_value feed2 _ _ _ _ (tile_logits time_major l) (2 * B));
    try assumption; try lia.
  - rewrite Hb2, masked_sum_tiled by exact Hx. f_equal.
    rewrite mult_IZR. field. apply not_0_IZR. exact HB0.
  - rewrite Hb2. apply sparse_xent_tiled. exact Hx.
Qed.

Lemma tiny_logits_fit :
  sparse_xent_with_logits (oriented_labels false tiny_batch) tiny_logits <> None.
Proof. unfold sparse_xent_with_logits. simpl. discriminate. Qed.

Lemma compute_loss_per_batch_tiny :
  exists loss : tensor,
    _compute_loss (Op "logits" []) (Iterator 0) tiny_state = Ok (loss, tiny_state)
    /\ scalar_value tiny_feed loss
       = Some (masked_sum tiny_batch (token_crossent false tiny_batch tiny_logits)
               / IZR 2)%R
    /\ scalar_value tiny_feed_twice loss = scalar_value tiny_feed loss.
Proof.
  destruct (compute_loss_per_batch tiny_state false
              (Size (Field (Iterator 0) source_sequence_length))
              (Op "logits" []) (Iterator 0) tiny_feed tiny_logits 2
              eq_refl eq_refl eq_refl ltac:(lia) eq_refl tiny_logits_fit)
    as (loss & H1 & H2 & H3).
  exists loss. split; [exact H1|]. split; [exact H2|].
  apply H3; reflexivity.
Defined.

(** The divisor is the batch size, not the number of unmasked tokens: the
    small batch has 2 examples and 3 unmasked tokens. *)
Example tiny_batch_tokens :
  unmasked_tokens tiny_batch = 3%R /\ IZR (Z.of_nat (batch tiny_batch)) = 2%R.
Proof. unfold unmasked_tokens, masked_sum. simpl. split; lra. Qed.

(** ** Reasoning about graph construction *)

Lemma bind_Ok {A B} (m : M A) (k : A -> M B) (st : State) (r : B * State) :
  bind m k st = Ok r -> exists a st1, m st = Ok (a, st1) /\ k a st1 = Ok r.
Proof.
  unfold bind. destruct (m st) as [[a st1] | e]; [| discriminate].
  intros H. exists a, st1. split; [reflexivity | exact H].
Qed.

Lemma frame_refl (st : State) : frame st st.
Proof. unfold frame. repeat split; try reflexivity. apply incl_refl. Qed.

Lemma advances_refl (st : State) : advances st st.
Proof. unfold advances. repeat split; try reflexivity. apply incl_refl. Qed.

Lemma advances_trans (a b c : State) : advances a b -> advances b c -> advances a c.
Proof.
  intros (H1 & H2 & H3 & H4) (K1 & K2 & K3 & K4). unfold advances.
  split; [| split; [| split]].
  - intros x Hs Ht. rewrite K1, H1 by assumption. reflexivity.
  - congruence.
  - congruence.
  - eapply incl_tran; eassumption.
Qed.

Lemma frame_advances (st st' : State) : frame st st' -> advances st st'.
Proof.
  intros (H1 & H2 & H3 & H4). unfold advances. repeat split; try assumption.
  intros. rewrite H1. reflexivity.
Qed.

Lemma getattr_Ok (attr : string) (v : pyval) (st st' : State) :
  getattr attr st = Ok (v, st') -> st' = st /\ lookup attr (self st) = Some v.
Proof.
  unfold getattr. destruct (lookup attr (self st)); [| discriminate].
  intros H. inversion H. subst. split; reflexivity.
Qed.

Ltac reader_Ok as_x :=
  let H := fresh in
  let x := fresh in
  let st1 := fresh in
  let Hg := fresh in
  intros H; apply bind_Ok in H; destruct H as (x & st1 & Hg & H);
  apply getattr_Ok in Hg; destruct Hg as [-> Hg];
  unfold as_x in H; destruct x; try discriminate; unfold ret in H;
  inversion H; subst; split; [reflexivity | exact Hg].

Lemma get_iter_Ok (attr : string) (it : BatchedInput) (st st' : State) :
  get_iter attr st = Ok (it, st') ->
  st' = st /\ lookup attr (self st) = Some (VIter it).
Proof. unfold get_iter. reader_Ok as_iter. Qed.

Lemma get_tensor_Ok (attr : string) (t : tensor) (st st' : State) :
  get_tensor attr st = Ok (t, st') ->
  st' = st /\ lookup attr (self st) = Some (VTensor t).
Proof. unfold get_tensor. reader_Ok as_tensor. Qed.

Lemma get_mode_Ok (m : ModeKeys) (st st' : State) :
  get_mode st = Ok (m, st') -> st' = st /\ lookup "mode" (self st) = Some (VMode m).
Proof. unfold get_mode. reader_Ok as_mode. Qed.

Lemma get_bool_Ok (attr : string) (b : bool) (st st' : State) :
  get_bool attr st = Ok (b, st') ->
  st' = st /\ lookup attr (self st) = Some (VBool b).
Proof. unfold get_bool. reader_Ok as_bool. Qed.

Lemma get_table_Ok (attr : string) (t : string) (st st' : State) :
  (v <- getattr attr ;; as_table v) st = Ok (t, st') ->
  st' = st /\ lookup attr (self st) = Some (VTable t).
Proof. reader_Ok as_table. Qed.

Lemma with_variable_scope_Ok {A} (name : string) (r : option reuse_mode)
  (body : M A) (st st' : State) (a : A) :
  with_variable_scope name r body st = Ok (a, st') ->
  exists st_out,
    body (inside (scope_join (g_scope (graph st)) name)
                 (match r with Some r' => r' | None => g_reuse (graph st) end) st)
    = Ok (a, st_out)
    /\ st' = outside st st_out.
Proof.
  unfold with_variable_scope, bind, get_graph, put_graph, ret. simpl.
  unfold inside.
  destruct (body _) as [[a' st_out] | e]; [| discriminate].
  intros H. inversion H. subst. exists st_out. split; reflexivity.
Qed.

Lemma with_scope_or_Ok {A} (scope : scope_arg) (default : string)
  (body : M A) (st st' : State) (a : A) :
  with_scope_or scope default body st = Ok (a, st') ->
  exists st_out,
    body (inside (entered_scope scope default (g_scope (graph st)))
                 (g_reuse (graph st)) st) = Ok (a, st_out)
    /\ st' = outside st st_out.
Proof.
  destruct scope; simpl.
  - apply (with_variable_scope_Ok default None).
  - apply (with_variable_scope_Ok _ None).
  - unfold bind, get_graph, put_graph, ret, inside. simpl.
    destruct (body _) as [[a' st_out] | e]; [| discriminate].
    intros H. inversion H. subst. exists st_out. split; reflexivity.
Qed.

Lemma advances_block (name : string) (r : reuse_mode) (st st_out : State) :
  advances (inside name r st) st_out -> advances st (outside st st_out).
Proof.
  intros (H1 & _ & _ & H4). unfold advances, outside. simpl in *.
  repeat split; try reflexivity; assumption.
Qed.

Lemma append_assoc (a b c : string) : ((a ++ b) ++ c = a ++ (b ++ c))%string.
Proof. induction a as [| ch a IH]; simpl; [reflexivity | rewrite IH; reflexivity]. Qed.

Lemma append_nonempty (a : string) (ch : ascii) (b : string) :
  ((a ++ String ch b) =? "")%string = false.
Proof. destruct a; reflexivity. Qed.

Lemma scope_join_nonempty (prefix : string) (ch : ascii) (name : string) :
  (scope_join prefix (String ch name) =? "")%string = false.
Proof.
  unfold scope_join. destruct (prefix =? "")%string; [reflexivity|].
  apply append_nonempty.
Qed.

Lemma scope_join_sub (sc : string) (a b : string) :
  (sc =? "")%string = false ->
  scope_join (scope_join sc a) b = (sc ++ "/" ++ a ++ "/" ++ b)%string.
Proof.
  intros H. unfold scope_join. rewrite H. simpl.
  rewrite append_nonempty. rewrite append_assoc. reflexivity.
Qed.

Lemma has_variable_app (name : string) (l l' : list TfVariable) :
  has_variable name (l ++ l') = has_variable name l || has_variable name l'.
Proof. unfold has_variable. apply existsb_app. Qed.

Lemma has_variable_incl (name : string) (l l' : list TfVariable) :
  incl l l' -> has_variable name l = true -> has_variable name l' = true.
Proof.
  unfold has_variable. intros Hi H. apply existsb_exists in H.
  destruct H as (v & Hv & E). apply existsb_exists. exists v. split; auto.
Qed.

(** Under [AUTO_REUSE], [get_variable] succeeds: it finds the variable of
    that name in the current scope or creates it. *)
Lemma get_variable_auto_reuse (name : string) (st : State) :
  g_reuse (graph st) = AUTO_REUSE ->
  exists st',
    get_variable name st = Ok (Var (scope_join (g_scope (graph st)) name), st')
    /\ frame st st'
    /\ has_variable (scope_join (g_scope (graph st)) name) (g_vars (graph st')) = true.
Proof.
  intros Hr. unfold get_variable, bind, get_graph. simpl. rewrite Hr.
  destruct (has_variable _ _) eqn:E.
  - exists st. split; [reflexivity|]. split; [apply frame_refl | exact E].
  - unfold put_graph, ret. simpl. eexists. split; [reflexivity|]. split.
    + unfold frame. simpl.
      split; [reflexivity | split; [reflexivity | split; [congruence|]]].
      apply incl_appl, incl_refl.
    + simpl. rewrite has_variable_app. apply orb_true_iff. right.
      unfold has_variable. simpl. rewrite String.eqb_refl. reflexivity.
Qed.

Lemma frame_trans (a b c : State) : frame a b -> frame b c -> frame a c.
Proof.
  intros (H1 & H2 & H3 & H4) (K1 & K2 & K3 & K4). unfold frame.
  repeat split; try congruence. eapply incl_tran; eassumption.
Qed.

Lemma frame_block (name : string) (r : reuse_mode) (st st_out : State) :
  frame (inside name r st) st_out -> frame st (outside st st_out).
Proof.
  intros (H1 & _ & _ & H4). unfold frame, outside. simpl in *.
  repeat split; try reflexivity; assumption.
Qed.

Lemma bind_run {A B} (m : M A) (k : A -> M B) (st st1 : State) (a : A) :
  m st = Ok (a, st1) -> bind m k st = k a st1.
Proof. intros H. unfold bind. rewrite H. reflexivity. Qed.

Lemma with_variable_scope_run {A} (name : string) (r : option reuse_mode)
  (body : M A) (st st_out : State) (a : A) :
  body (inside (scope_join (g_scope (graph st)) name)
               (match r with Some r' => r' | None => g_reuse (graph st) end) st)
  = Ok (a, st_out) ->
  with_variable_scope name r body st = Ok (a, outside st st_out).
Proof.
  intros H. unfold with_variable_scope, bind, get_graph, put_graph, ret. simpl.
  unfold inside in H. rewrite H. reflexivity.
Qed.

Lemma layers_dense_auto_reuse (inputs : tensor) (units : Z) (ch : ascii)
  (name : string) (st : State) :
  g_reuse (graph st) = AUTO_REUSE ->
  (g_scope (graph st) =? "")%string = false ->
  let sc := g_scope (graph st) in
  let layer := String ch name in
  exists st',
    layers_dense inputs units layer st
    = Ok (Op "dense/tanh" [inputs; Var (sc ++ "/" ++ layer ++ "/kernel");
                           Var (sc ++ "/" ++ layer ++ "/bias")], st')
    /\ frame st st'
    /\ has_variable (sc ++ "/" ++ layer ++ "/kernel") (g_vars (graph st')) = true
    /\ has_variable (sc ++ "/" ++ layer ++ "/bias") (g_vars (graph st')) = true.
Proof.
  intros Hr Hs sc layer.
  set (st1 := inside (scope_join sc layer) (g_reuse (graph st)) st).
  destruct (get_variable_auto_reuse "kernel" st1 Hr) as (st2 & Hk & Fk & Vk).
  assert (Hr2 : g_reuse (graph st2) = AUTO_REUSE)
    by (destruct Fk as (_ & _ & -> & _); exact Hr).
  destruct (get_variable_auto_reuse "bias" st2 Hr2) as (st3 & Hb & Fb & Vb).
  assert (E2 : g_scope (graph st2) = scope_join sc layer)
    by (destruct Fk as (_ & -> & _); reflexivity).
  rewrite E2 in Hb, Vb. simpl in Hk, Vk.
  unfold sc in Hk, Hb, Vk, Vb.
  rewrite (scope_join_sub _ _ "kernel" Hs) in Hk, Vk.
  rewrite (scope_join_sub _ _ "bias" Hs) in Hb, Vb.
  exists (outside st st3). split; [| split; [| split]].
  - unfold layers_dense. apply with_variable_scope_run. fold st1.
    rewrite (bind_run _ _ _ _ _ Hk), (bind_run _ _ _ _ _ Hb). reflexivity.
  - apply (frame_block (scope_join sc layer) (g_reuse (graph st))).
    eapply frame_trans; eassumption.
  - simpl. eapply has_variable_incl; [| exact Vk]. destruct Fb as (_ & _ & _ & H). exact H.
  - exact Vb.
Qed.

Lemma _build_discriminator_spec (outputs : tensor) (st : State) :
  let sc := scope_join (g_scope (graph st)) "discriminator" in
  exists st' probs,
    _build_discriminator outputs st = Ok ((discriminator_net sc outputs, probs), st')
    /\ frame st st'
    /\ Forall (fun n => has_variable n (g_vars (graph st')) = true)
              (discriminator_weights sc).
Proof.
  intros sc.
  set (st0 := inside sc AUTO_REUSE st).
  assert (Hs : (g_scope (graph st0) =? "")%string = false)
    by apply scope_join_nonempty.
  destruct (layers_dense_auto_reuse outputs 1024 "d" "ense1_D" st0 eq_refl Hs)
    as (st1 & H1 & F1 & K1 & B1).
  pose proof F1 as (_ & S1 & R1 & _).
  rewrite <- S1 in Hs.
  destruct (layers_dense_auto_reuse
              (Op "dense/tanh" [outputs; Var (sc ++ "/dense1_D/kernel");
                                Var (sc ++ "/dense1_D/bias")])
              1024 "d" "ense2_D" st1 R1 Hs)
    as (st2 & H2 & F2 & K2 & B2).
  pose proof F2 as (_ & S2 & R2 & I2).
  rewrite <- S2 in Hs. rewrite R1 in R2.
  destruct (layers_dense_auto_reuse
              (Op "dense/tanh"
                 [Op "dense/tanh" [outputs; Var (sc ++ "/dense1_D/kernel");
                                   Var (sc ++ "/dense1_D/bias")];
                  Var (sc ++ "/dense2_D/kernel"); Var (sc ++ "/dense2_D/bias")])
              2 "d" "ense_last_D" st2 R2 Hs)
    as (st3 & H3 & F3 & K3 & B3).
  pose proof F3 as (_ & S3 & R3 & I3).
  rewrite S2, S1 in H3, K3, B3. rewrite S1 in H2, K2, B2.
  simpl in H1, H2, H3, K1, K2, K3, B1, B2, B3.
  exists (outside st st3). eexists. split; [| split].
  - unfold _build_discriminator.
    erewrite bind_run;
      [| apply (with_variable_scope_run "discriminator" (Some AUTO_REUSE));
         fold sc; fold st0;
         rewrite (bind_run _ _ _ _ _ H1), (bind_run _ _ _ _ _ H2); exact H3].
    reflexivity.
  - apply (frame_block sc AUTO_REUSE).
    eapply frame_trans; [exact F1|]. eapply frame_trans; eassumption.
  - assert (I13 : incl (g_vars (graph st1)) (g_vars (graph st3)))
      by (eapply incl_tran; eassumption).
    unfold discriminator_weights. simpl.
    repeat apply Forall_cons; try apply Forall_nil.
    + exact (has_variable_incl _ _ _ I13 K1).
    + exact (has_variable_incl _ _ _ I13 B1).
    + exact (has_variable_incl _ _ _ I3 K2).
    + exact (has_variable_incl _ _ _ I3 B2).
    + exact K3.
    + exact B3.
Qed.

(** ** Computations that only advance the state *)

Create HintDb advancing.

Lemma advancing_ret {A} (a : A) : advancing (ret a).
Proof. intros st x st' H. inversion H. apply advances_refl. Qed.

Lemma advancing_raise {A} (e : exn) : advancing (@raise A e).
Proof. intros st x st' H. discriminate. Qed.

Lemma advancing_bind {A B} (m : M A) (k : A -> M B) :
  advancing m -> (forall a, advancing (k a)) -> advancing (bind m k).
Proof.
  intros Hm Hk st b st' H. apply bind_Ok in H. destruct H as (a & st1 & H1 & H2).
  eapply advances_trans; [eapply Hm | eapply Hk]; eassumption.
Qed.

Lemma advancing_getattr (attr : string) : advancing (getattr attr).
Proof. intros st v st' H. apply getattr_Ok in H. destruct H as [-> _]. apply advances_refl. Qed.

Lemma advancing_framed {A} (m : M A) : framed m -> advancing m.
Proof. intros H st a st' E. apply frame_advances. eapply H. exact E. Qed.

Lemma advancing_get_graph : advancing get_graph.
Proof. intros st g st' H. inversion H. apply advances_refl. Qed.

Lemma advancing_with_variable_scope {A} (name : string) (r : option reuse_mode)
  (body : M A) :
  advancing body -> advancing (with_variable_scope name r body).
Proof.
  intros Hb st a st' H. apply with_variable_scope_Ok in H.
  destruct H as (st_out & H & ->). eapply advances_block. eapply Hb. exact H.
Qed.

Lemma advancing_with_scope_or {A} (scope : scope_arg) (default : string)
  (body : M A) :
  advancing body -> advancing (with_scope_or scope default body).
Proof.
  intros Hb st a st' H. apply with_scope_or_Ok in H.
  destruct H as (st_out & H & ->). eapply advances_block. eapply Hb. exact H.
Qed.

Lemma advancing_get_variable (name : string) : advancing (get_variable name).
Proof.
  intros st t st' H. unfold get_variable, bind, get_graph, put_graph, ret, raise in H.
  simpl in H.
  destruct (g_reuse (graph st)) eqn:Er, (has_variable _ _); inversion H; subst;
    try apply advances_refl;
    (unfold advances; simpl;
     split; [reflexivity | split; [reflexivity | split; [congruence|]]];
     apply incl_appl, incl_refl).
Qed.

Lemma advancing_as {A} (f : pyval -> M A) (v : pyval) :
  (forall v st a st', f v st = Ok (a, st') -> st' = st) -> advancing (f v).
Proof. intros Hf st a st' H. apply Hf in H. subst. apply advances_refl. Qed.

Lemma advancing_as_layer (v : pyval) : advancing (as_layer v).
Proof. destruct v; simpl; (apply advancing_ret || apply advancing_raise). Qed.
Lemma advancing_as_tensor (v : pyval) : advancing (as_tensor v).
Proof. destruct v; simpl; (apply advancing_ret || apply advancing_raise). Qed.
Lemma advancing_as_mode (v : pyval) : advancing (as_mode v).
Proof. destruct v; simpl; (apply advancing_ret || apply advancing_raise). Qed.
Lemma advancing_as_bool (v : pyval) : advancing (as_bool v).
Proof. destruct v; simpl; (apply advancing_ret || apply advancing_raise). Qed.
Lemma advancing_as_iter (v : pyval) : advancing (as_iter v).
Proof. destruct v; simpl; (apply advancing_ret || apply advancing_raise). Qed.
Lemma advancing_as_table (v : pyval) : advancing (as_table v).
Proof. destruct v; simpl; (apply advancing_ret || apply advancing_raise). Qed.

Lemma advancing_setattr_layer (attr : string) (v : pyval) :
  attr = "output_layer_src" \/ attr = "output_layer_tgt" ->
  advancing (setattr attr v).
Proof.
  intros Ha st x st' H. inversion H. subst. unfold advances. simpl.
  repeat split; try reflexivity; try apply incl_refl.
  intros a Hs Ht.
  destruct (String.eqb_spec attr a) as [E | _]; [| reflexivity].
  subst. destruct Ha; contradiction.
Qed.

#[local] Hint Resolve advancing_ret advancing_raise advancing_getattr
  advancing_get_graph advancing_get_variable advancing_as_layer
  advancing_as_tensor advancing_as_mode advancing_as_bool advancing_as_iter
  advancing_as_table : advancing.

Ltac advancing_step :=
  match goal with
  | |- advancing (bind _ _) => apply advancing_bind; [| intros]
  | |- advancing (with_variable_scope _ _ _) => apply advancing_with_variable_scope
  | |- advancing (with_scope_or _ _ _) => apply advancing_with_scope_or
  | |- advancing (match ?x with _ => _ end) => destruct x
  | |- advancing (setattr _ _) =>
      apply advancing_setattr_layer; solve [left; reflexivity | right; reflexivity]
  | |- advancing _ => solve [auto with advancing]
  end.

Lemma advancing_call_output_layer (attr : string) (x : tensor) :
  attr = "output_layer_src" \/ attr = "output_layer_tgt" ->
  advancing (call_output_layer attr x).
Proof.
  intros Ha. unfold call_output_layer.
  apply advancing_bind; [auto with advancing | intros v].
  apply advancing_bind; [auto with advancing | intros l].
  destruct (layer_built l); [auto with advancing|].
  apply advancing_bind; [auto with advancing | intros g].
  apply advancing_bind;
    [apply advancing_with_variable_scope; auto with advancing | intros k].
  apply advancing_bind; [apply advancing_setattr_layer; exact Ha | intros _].
  auto with advancing.
Qed.

Section AdvancingBaseModel.

Context {subclass : Subclass} {model_helper : ModelHelper}
        {disciplined : Disciplined subclass model_helper}.

Lemma advancing_build_decoder (encoder_outputs : tensor) (encoder_state : structure)
  (hparams : HParams) (iterator : BatchedInput) (embedding : tensor)
  (vocab_table output_layer sos : string) :
  output_layer = "output_layer_src" \/ output_layer = "output_layer_tgt" ->
  advancing (_build_decoder encoder_outputs encoder_state hparams iterator
               embedding vocab_table output_layer sos).
Proof.
  intros Ha. unfold _build_decoder, get_mode, get_bool, get_tensor.
  pose proof (advancing_call_output_layer output_layer) as Hc.
  pose proof (fun a b c d => advancing_framed _ (decoder_cell_framed a b c d)) as Hd.
  repeat first [ advancing_step | apply Hc; exact Ha | apply Hd ].
Qed.

Lemma advancing_build_discriminator (outputs : tensor) :
  advancing (_build_discriminator outputs).
Proof.
  unfold _build_discriminator, layers_dense. repeat advancing_step.
Qed.

Lemma advancing_compute_loss (logits : tensor) (iterator : BatchedInput) :
  advancing (_compute_loss logits iterator).
Proof.
  unfold _compute_loss, get_max_time, get_bool, get_tensor. repeat advancing_step.
Qed.

End AdvancingBaseModel.

(** ** What [build_graph] builds *)

Lemma advances_lookup (st st' : State) (a : string) :
  advances st st' -> a <> "output_layer_src" -> a <> "output_layer_tgt" ->
  lookup a (self st') = lookup a (self st).
Proof. intros (H & _) H1 H2. apply H; assumption. Qed.

Lemma advances_scope (st st' : State) :
  advances st st' -> g_scope (graph st') = g_scope (graph st).
Proof. intros (_ & H & _). exact H. Qed.

Lemma advances_vars (st st' : State) (names : list string) :
  advances st st' ->
  Forall (fun n => has_variable n (g_vars (graph st)) = true) names ->
  Forall (fun n => has_variable n (g_vars (graph st')) = true) names.
Proof.
  intros (_ & _ & _ & Hi) H. eapply Forall_impl; [| exact H].
  intros n Hn. eapply has_variable_incl; eassumption.
Qed.

Lemma _build_discriminator_Ok (outputs : tensor) (st st' : State)
  (logits probs : tensor) :
  _build_discriminator outputs st = Ok ((logits, probs), st') ->
  logits = discriminator_net (scope_join (g_scope (graph st)) "discriminator") outputs
  /\ Forall (fun n => has_variable n (g_vars (graph st')) = true)
            (discriminator_weights (scope_join (g_scope (graph st)) "discriminator")).
Proof.
  intros H. destruct (_build_discriminator_spec outputs st) as (st2 & p & E & _ & W).
  rewrite E in H. inversion H. subst. split; [reflexivity | exact W].
Qed.

Section BuildGraph.

Context {subclass : Subclass} {model_helper : ModelHelper}
        {disciplined : Disciplined subclass model_helper}.

Ltac solve_advancing :=
  first
    [ apply advancing_framed; apply encoder_framed
    | apply advancing_build_discriminator
    | apply advancing_build_decoder; solve [left; reflexivity | right; reflexivity]
    | apply advancing_compute_loss
    | unfold get_iter, get_tensor, get_mode, get_bool; repeat advancing_step ].

(** One statement of a block: [H] is the rest of the block run from the
    current state, [Hadv] relates the state the block started in to the
    current one. *)
Ltac step H Hadv :=
  let a := fresh "a" in
  let st1 := fresh "st" in
  let Hm := fresh "Hm" in
  let Hs := fresh "Hs" in
  let Hadv' := fresh "Hadv" in
  apply bind_Ok in H; destruct H as (a & st1 & Hm & H);
  match type of Hm with
  | ?m ?cur = Ok _ =>
      assert (Hs : advances cur st1)
        by (let Ha := fresh in
            assert (Ha : advancing m) by solve_advancing; eapply Ha; exact Hm)
  end;
  pose proof (advances_trans _ _ _ Hadv Hs) as Hadv';
  try match type of a with
      | (_ * _ * _)%type => destruct a as [[? ?] ?]
      | (_ * _)%type => destruct a as [? ?]
      end;
  cbv beta iota in H.

Lemma build_graph_auto_Ok (hparams : HParams) (st st' : State) (b1 b2 : branch) :
  build_graph_auto hparams st = Ok ((b1, b2), st') ->
  let sc := scope_join (g_scope (graph st)) "discriminator" in
  advances st st'
  /\ br_discriminator_logits b1 = discriminator_net sc (br_encoder_outputs b1)
  /\ br_discriminator_logits b2 = discriminator_net sc (br_encoder_outputs b2)
  /\ Forall (fun n => has_variable n (g_vars (graph st')) = true)
            (discriminator_weights sc).
Proof.
  intros H sc. unfold build_graph_auto in H.
  pose proof (advances_refl st) as Hadv0.
  step H Hadv0. step H Hadv. step H Hadv1. step H Hadv2. step H Hadv3.
  step H Hadv4. step H Hadv5. step H Hadv6. step H Hadv7. step H Hadv8.
  step H Hadv9. step H Hadv10.
  inversion H. subst. clear H. simpl.
  apply _build_discriminator_Ok in Hm5, Hm6.
  destruct Hm5 as [E5 W5]. destruct Hm6 as [E6 W6].
  rewrite (advances_scope _ _ Hadv5) in E5, W5.
  rewrite (advances_scope _ _ Hadv6) in E6, W6.
  split; [assumption|]. split; [assumption|]. split; [assumption|].
  eapply advances_vars; [| exact W6].
  repeat (eapply advances_trans; [eassumption|]). apply advances_refl.
Qed.

Lemma build_graph_cross_Ok (hparams : HParams) (st st' : State) (b1 b2 : branch) :
  build_graph_cross hparams st = Ok ((b1, b2), st') ->
  let sc := scope_join (g_scope (graph st)) "discriminator" in
  advances st st'
  /\ br_discriminator_logits b1 = discriminator_net sc (br_encoder_outputs b1)
  /\ br_discriminator_logits b2 = discriminator_net sc (br_encoder_outputs b2)
  /\ Forall (fun n => has_variable n (g_vars (graph st')) = true)
            (discriminator_weights sc).
Proof.
  intros H sc. unfold build_graph_cross in H.
  pose proof (advances_refl st) as Hadv0.
  step H Hadv0. step H Hadv. step H Hadv1. step H Hadv2. step H Hadv3.
  step H Hadv4. step H Hadv5. step H Hadv6. step H Hadv7. step H Hadv8.
  step H Hadv9. step H Hadv10.
  inversion H. subst. clear H. simpl.
  apply _build_discriminator_Ok in Hm5, Hm6.
  destruct Hm5 as [E5 W5]. destruct Hm6 as [E6 W6].
  rewrite (advances_scope _ _ Hadv5) in E5, W5.
  rewrite (advances_scope _ _ Hadv6) in E6, W6.
  split; [assumption|]. split; [assumption|]. split; [assumption|].
  eapply advances_vars; [| exact W6].
  repeat (eapply advances_trans; [eassumption|]). apply advances_refl.
Qed.

Lemma build_graph_loss_run (b1 b2 b3 b4 : branch) (st : State)
  (mode : ModeKeys) (time_major : bool) (batch_size : tensor)
  (its : pass -> BatchedInput) :
  lookup "mode" (self st) = Some (VMode mode) ->
  lookup "time_major" (self st) = Some (VBool time_major) ->
  lookup "batch_size" (self st) = Some (VTensor batch_size) ->
  lookup "iterator_s2s" (self st) = Some (VIter (its s2s)) ->
  lookup "iterator_t2t" (self st) = Some (VIter (its t2t)) ->
  lookup "iterator_s2t" (self st) = Some (VIter (its s2t)) ->
  lookup "iterator_t2s" (self st) = Some (VIter (its t2s)) ->
  let logits := by_pass (br_logits b1) (br_logits b2) (br_logits b3) (br_logits b4) in
  let dlogits :=
    by_pass (br_discriminator_logits b1) (br_discriminator_logits b2)
            (br_discriminator_logits b3) (br_discriminator_logits b4) in
  build_graph_loss b1 b2 b3 b4 st
  = Ok (match mode with
        | INFER => (None, None)
        | _ => (Some (total_loss time_major batch_size its logits dlogits),
                Some (total_loss_adv its dlogits))
        end, st).
Proof.
  intros Hmode Htm Hbs H1 H2 H3 H4 logits dlogits.
  unfold build_graph_loss, get_mode.
  rewrite (bind_run _ _ _ _ _ (bind_run _ _ _ _ _ (getattr_bound _ _ _ Hmode))).
  destruct mode; simpl; try reflexivity;
    unfold get_iter;
    rewrite (bind_run _ _ _ _ _ (bind_run _ _ _ _ _ (getattr_bound _ _ _ H1)));
    simpl;
    rewrite (bind_run _ _ _ _ _ (_compute_loss_tensor _ _ _ _ _ Htm Hbs));
    rewrite (bind_run _ _ _ _ _ (bind_run _ _ _ _ _ (getattr_bound _ _ _ H2)));
    simpl;
    rewrite (bind_run _ _ _ _ _ (_compute_loss_tensor _ _ _ _ _ Htm Hbs));
    rewrite (bind_run _ _ _ _ _ (bind_run _ _ _ _ _ (getattr_bound _ _ _ H3)));
    simpl;
    rewrite (bind_run _ _ _ _ _ (_compute_loss_tensor _ _ _ _ _ Htm Hbs));
    rewrite (bind_run _ _ _ _ _ (bind_run _ _ _ _ _ (getattr_bound _ _ _ H4)));
    simpl;
    rewrite (bind_run _ _ _ _ _ (_compute_loss_tensor _ _ _ _ _ Htm Hbs));
    reflexivity.
Qed.

Lemma build_graph_Ok (hparams : HParams) (scope : scope_arg) (st st' : State)
  (mode : ModeKeys) (time_major : bool) (batch_size : tensor)
  (its : pass -> BatchedInput)
  (r : pass_result * pass_result * pass_result * pass_result
       * option tensor * option tensor) :
  lookup "mode" (self st) = Some (VMode mode) ->
  lookup "time_major" (self st) = Some (VBool time_major) ->
  lookup "batch_size" (self st) = Some (VTensor batch_size) ->
  lookup "iterator_s2s" (self st) = Some (VIter (its s2s)) ->
  lookup "iterator_t2t" (self st) = Some (VIter (its t2t)) ->
  lookup "iterator_s2t" (self st) = Some (VIter (its s2t)) ->
  lookup "iterator_t2s" (self st) = Some (VIter (its t2s)) ->
  build_graph hparams scope st = Ok (r, st') ->
  let top := entered_scope scope "dynamic_seq2seq" (g_scope (graph st)) in
  let auto := scope_join (entered_scope scope "auto" top) "discriminator" in
  let cross := scope_join (entered_scope scope "cross" top) "discriminator" in
  exists b1 b2 b3 b4 : branch,
    let logits := by_pass (br_logits b1) (br_logits b2) (br_logits b3) (br_logits b4) in
    let dlogits :=
      by_pass (discriminator_net auto (br_encoder_outputs b1))
              (discriminator_net auto (br_encoder_outputs b2))
              (discriminator_net cross (br_encoder_outputs b3))
              (discriminator_net cross (br_encoder_outputs b4)) in
    r = ((br_logits b1, br_final_context_state b1, br_sample_id b1),
         (br_logits b2, br_final_context_state b2, br_sample_id b2),
         (br_logits b3, br_final_context_state b3, br_sample_id b3),
         (br_logits b4, br_final_context_state b4, br_sample_id b4),
         match mode with
         | INFER => None
         | _ => Some (total_loss time_major batch_size its logits dlogits)
         end,
         match mode with
         | INFER => None
         | _ => Some (total_loss_adv its dlogits)
         end)
    /\ advances st st'
    /\ Forall (fun n => has_variable n (g_vars (graph st')) = true)
              (discriminator_weights auto ++ discriminator_weights cross).
Proof.
  intros Hmode Htm Hbs H1 H2 H3 H4 H top auto cross.
  unfold build_graph in H.
  apply with_scope_or_Ok in H. destruct H as (st_out & H & ->).
  set (s0 := inside top (g_reuse (graph st)) st) in *.
  apply bind_Ok in H. destruct H as ([b1 b2] & sa & Ha & H).
  apply with_scope_or_Ok in Ha. destruct Ha as (sa_out & Ha & ->).
  apply build_graph_auto_Ok in Ha. destruct Ha as (Aa & Da1 & Da2 & Wa).
  apply advances_block in Aa.
  set (s1 := outside s0 sa_out) in *.
  apply bind_Ok in H. destruct H as ([b3 b4] & sc & Hc & H).
  apply with_scope_or_Ok in Hc. destruct Hc as (sc_out & Hc & ->).
  apply build_graph_cross_Ok in Hc. destruct Hc as (Ac & Dc1 & Dc2 & Wc).
  apply advances_block in Ac.
  set (s2 := outside s1 sc_out) in *.
  assert (A02 : advances s0 s2) by (eapply advances_trans; eassumption).
  assert (L : forall a, a <> "output_layer_src" -> a <> "output_layer_tgt" ->
                        lookup a (self s2) = lookup a (self st)).
  { intros a Hs Ht. rewrite (advances_lookup _ _ a A02) by assumption. reflexivity. }
  rewrite <- L in Hmode, Htm, Hbs, H1, H2, H3, H4 by discriminate.
  rewrite (bind_run _ _ _ _ _
             (build_graph_loss_run b1 b2 b3 b4 s2 mode time_major batch_size its
                Hmode Htm Hbs H1 H2 H3 H4)) in H.
  assert (Hst : st_out = s2) by (destruct mode; inversion H; reflexivity).
  unfold s1, s0, inside, outside in Da1, Da2, Dc1, Dc2, Wa, Wc.
  cbn [g_scope graph g_vars] in Da1, Da2, Dc1, Dc2, Wa, Wc.
  fold top in Da1, Da2, Dc1, Dc2, Wa, Wc.
  fold auto in Da1, Da2, Wa. fold cross in Dc1, Dc2, Wc.
  exists b1, b2, b3, b4. cbv zeta.
  rewrite <- Da1, <- Da2, <- Dc1, <- Dc2.
  split; [| split].
  - destruct mode; inversion H; reflexivity.
  - subst st_out. apply (advances_block top (g_reuse (graph st))). exact A02.
  - subst st_out. apply Forall_app. split.
    + eapply Forall_impl; [| exact Wa]. intros n Hn.
      eapply has_variable_incl; [| exact Hn].
      destruct Ac as (_ & _ & _ & I). exact I.
    + exact Wc.
Qed.

End BuildGraph.

(** ** Attributes the constructor leaves alone *)

Create HintDb keeps.

Lemma keeps_ret (a : string) {A} (x : A) : keeps a (ret x).
Proof. intros st y st' H. inversion H. reflexivity. Qed.

Lemma keeps_raise (a : string) {A} (e : exn) : keeps a (@raise A e).
Proof. intros st y st' H. discriminate. Qed.

Lemma keeps_bind (a : string) {A B} (m : M A) (k : A -> M B) :
  keeps a m -> (forall x, keeps a (k x)) -> keeps a (bind m k).
Proof.
  intros Hm Hk st b st' H. apply bind_Ok in H. destruct H as (x & st1 & H1 & H2).
  rewrite (Hk _ _ _ _ H2). eapply Hm. exact H1.
Qed.

Lemma keeps_getattr (a attr : string) : keeps a (getattr attr).
Proof. intros st v st' H. apply getattr_Ok in H. destruct H as [-> _]. reflexivity. Qed.

Lemma keeps_setattr (a attr : string) (v : pyval) :
  attr <> a -> keeps a (setattr attr v).
Proof.
  intros Hne st x st' H. inversion H. subst. simpl.
  destruct (String.eqb_spec attr a); [contradiction | reflexivity].
Qed.

Lemma keeps_get_graph (a : string) : keeps a get_graph.
Proof. intros st g st' H. inversion H. reflexivity. Qed.

Lemma keeps_put_graph (a : string) (g : Graph) : keeps a (put_graph g).
Proof. intros st x st' H. inversion H. reflexivity. Qed.

Lemma keeps_new_global_step (a : string) : keeps a new_global_step.
Proof. intros st x st' H. inversion H. reflexivity. Qed.

Lemma keeps_py_assert (a : string) (b : bool) : keeps a (py_assert b).
Proof. destruct b; [apply keeps_ret | apply keeps_raise]. Qed.

Lemma keeps_lift (a : string) {A} (r : res A) :
  keeps a (fun st => match r with Ok x => Ok (x, st) | Raise e => Raise e end).
Proof. intros st x st' H. destruct r; inversion H. reflexivity. Qed.

Lemma keeps_as_tensor a v : keeps a (as_tensor v).
Proof. destruct v; simpl; (apply keeps_ret || apply keeps_raise). Qed.
Lemma keeps_as_iter a v : keeps a (as_iter v).
Proof. destruct v; simpl; (apply keeps_ret || apply keeps_raise). Qed.
Lemma keeps_as_mode a v : keeps a (as_mode v).
Proof. destruct v; simpl; (apply keeps_ret || apply keeps_raise). Qed.
Lemma keeps_as_rate a v : keeps a (as_rate v).
Proof. destruct v; simpl; (apply keeps_ret || apply keeps_raise). Qed.
Lemma keeps_as_variable a v : keeps a (as_variable v).
Proof. destruct v; simpl; (apply keeps_ret || apply keeps_raise). Qed.

Lemma keeps_reverse_lookup a table ids : keeps a (reverse_lookup table ids).
Proof. destruct table; simpl; (apply keeps_ret || apply keeps_raise). Qed.

Lemma keeps_train_params a hparams train_vars train_loss :
  keeps a (train_params hparams train_vars train_loss).
Proof.
  unfold train_params.
  destruct (optimizer hparams =? "sgd")%string;
    [| destruct (optimizer hparams =? "adam")%string; [| apply keeps_raise]];
    (apply keeps_bind;
     [apply keeps_bind; [apply keeps_getattr | apply keeps_as_variable]
     | intros gs; destruct train_vars; [apply keeps_raise | apply keeps_ret]]).
Qed.

#[local] Hint Resolve keeps_ret keeps_raise keeps_getattr keeps_get_graph
  keeps_put_graph keeps_new_global_step keeps_py_assert keeps_lift
  keeps_as_tensor keeps_as_iter keeps_as_mode keeps_as_rate keeps_as_variable
  keeps_reverse_lookup keeps_train_params : keeps.

Ltac keeps_step Hnot :=
  match goal with
  | |- keeps _ (bind _ _) => apply keeps_bind; [| intros]
  | |- keeps _ (setattr _ _) =>
      apply keeps_setattr; intros <-; apply Hnot; simpl; tauto
  | |- keeps _ (match ?x with _ => _ end) => destruct x
  | |- keeps _ (if ?x then _ else _) => destruct x
  | |- keeps _ _ => solve [auto with keeps]
  end.

Lemma keeps_init_outputs (a : string) r1 r2 r3 r4 l1 l2 t1 t2 :
  ~ In a outputs_attributes -> keeps a (init_outputs r1 r2 r3 r4 l1 l2 t1 t2).
Proof.
  intros Hnot. unfold init_outputs, get_mode, get_iter.
  repeat keeps_step Hnot.
Qed.

Lemma keeps_init_training (a : string) (hparams : HParams) :
  ~ In a training_attributes -> keeps a (init_training hparams).
Proof.
  intros Hnot.
  unfold init_training, init_learning_rate, init_updates, get_mode, get_tensor.
  repeat keeps_step Hnot.
Qed.

(** ** The constructor *)

Lemma get_iter_bound (attr : string) (it : BatchedInput) (st : State) :
  lookup attr (self st) = Some (VIter it) -> get_iter attr st = Ok (it, st).
Proof.
  intros H. unfold get_iter. rewrite (bind_run _ _ _ _ _ (getattr_bound _ _ _ H)).
  reflexivity.
Qed.

Lemma get_mode_bound (m : ModeKeys) (st : State) :
  lookup "mode" (self st) = Some (VMode m) -> get_mode st = Ok (m, st).
Proof.
  intros H. unfold get_mode. rewrite (bind_run _ _ _ _ _ (getattr_bound _ _ _ H)).
  reflexivity.
Qed.

Lemma get_tensor_bound (attr : string) (t : tensor) (st : State) :
  lookup attr (self st) = Some (VTensor t) -> get_tensor attr st = Ok (t, st).
Proof.
  intros H. unfold get_tensor. rewrite (bind_run _ _ _ _ _ (getattr_bound _ _ _ H)).
  reflexivity.
Qed.

Lemma init_attributes_self {model_helper : ModelHelper} (hparams : HParams) (mode : ModeKeys)
  (it1 it2 it3 it4 : BatchedInput) (tab1 tab2 : string) (scope : scope_arg)
  (g : Graph) (st : State) :
  (forall hp sc, framed (create_emb_for_encoder_and_decoder hp sc)) ->
  init_attributes hparams mode it1 it2 it3 it4 tab1 tab2 scope
    {| graph := g; self := [] |} = Ok (tt, st) ->
  exists (emb_src emb_tgt : tensor) (res_enc res_dec : Z),
    self st =
      [("output_layer_tgt",
        VLayer {| layer_name := "output_projection_tgt";
                  layer_units := tgt_vocab_size hparams; layer_built := None |});
       ("output_layer_src",
        VLayer {| layer_name := "output_projection_src";
                  layer_units := src_vocab_size hparams; layer_built := None |});
       ("batch_size", VTensor (Size (Field it1 source_sequence_length)));
       ("embedding_tgt", VTensor emb_tgt);
       ("embedding_src", VTensor emb_src);
       ("num_decoder_residual_layers", VInt res_dec);
       ("num_encoder_residual_layers", VInt res_enc);
       ("num_decoder_layers", VInt (num_decoder_layers hparams));
       ("num_encoder_layers", VInt (num_encoder_layers hparams));
       ("single_cell_fn", VNone);
       ("time_major", VBool (time_major hparams));
       ("num_gpus", VInt (num_gpus hparams));
       ("tgt_vocab_size", VInt (tgt_vocab_size hparams));
       ("src_vocab_size", VInt (src_vocab_size hparams));
       ("tgt_vocab_table", VTable tab2);
       ("src_vocab_table", VTable tab1);
       ("mode", VMode mode);
       ("iterator_t2s", VIter it4);
       ("iterator_s2t", VIter it3);
       ("iterator_t2t", VIter it2);
       ("iterator_s2s", VIter it1)]
    /\ g_scope (graph st) = g_scope g.
Proof.
  intros Hemb H. unfold init_attributes in H.
  unfold bind at 1 2 3 4 5 6 7 8 9 10 11 12 13 14 in H. simpl in H.
  apply bind_Ok in H. destruct H as ([] & s1 & H1 & H).
  unfold py_assert in H1. destruct (negb _); [| discriminate]. inversion H1. subst s1.
  clear H1.
  apply bind_Ok in H. destruct H as ([] & s1 & H1 & H).
  unfold py_assert in H1. destruct (negb _); [| discriminate]. inversion H1. subst s1.
  clear H1.
  apply bind_Ok in H. destruct H as ([] & s1 & H1 & H).
  assert (exists res_enc res_dec,
             s1 = {| graph := g;
                     self := ("num_decoder_residual_layers", VInt res_dec)
                             :: ("num_encoder_residual_layers", VInt res_enc)
                             :: [("num_decoder_layers", VInt (num_decoder_layers hparams));
                                 ("num_encoder_layers", VInt (num_encoder_layers hparams));
                                 ("single_cell_fn", VNone);
                                 ("time_major", VBool (time_major hparams));
                                 ("num_gpus", VInt (num_gpus hparams));
                                 ("tgt_vocab_size", VInt (tgt_vocab_size hparams));
                                 ("src_vocab_size", VInt (src_vocab_size hparams));
                                 ("tgt_vocab_table", VTable tab2);
                                 ("src_vocab_table", VTable tab1); ("mode", VMode mode);
                                 ("iterator_t2s", VIter it4); ("iterator_s2t", VIter it3);
                                 ("iterator_t2t", VIter it2); ("iterator_s2s", VIter it1)] |})
    as (res_enc & res_dec & ->).
  { destruct (num_residual_layers hparams); inversion H1; eauto. }
  clear H1.
  apply bind_Ok in H. destruct H as ([] & s2 & H2 & H).
  unfold init_embeddings in H2.
  apply bind_Ok in H2. destruct H2 as ([emb_src emb_tgt] & s3 & H3 & H2).
  apply Hemb in H3. destruct H3 as (Fself & Fscope & _).
  simpl in Fself, Fscope.
  inversion H2. subst s2. clear H2.
  rewrite (bind_run _ _ _ _ it1) in H
    by (apply get_iter_bound; simpl; rewrite Fself; reflexivity).
  apply bind_Ok in H. destruct H as ([] & s4 & H4 & H).
  inversion H4. subst s4. clear H4.
  apply with_scope_or_Ok in H. destruct H as (s5 & H & ->).
  apply with_variable_scope_Ok in H. destruct H as (s6 & H & ->).
  inversion H. subst s6. clear H. simpl.
  exists emb_src, emb_tgt, res_enc, res_dec. rewrite Fself, Fscope.
  split; reflexivity.
Qed.

Section Constructor.

Context {subclass : Subclass} {model_helper : ModelHelper}
        {disciplined : Disciplined subclass model_helper}.

Lemma init_attributes_Ok (hparams : HParams) (mode : ModeKeys)
  (it1 it2 it3 it4 : BatchedInput) (tab1 tab2 : string) (scope : scope_arg)
  (g : Graph) (st : State) :
  init_attributes hparams mode it1 it2 it3 it4 tab1 tab2 scope
    {| graph := g; self := [] |} = Ok (tt, st) ->
  exists (emb_src emb_tgt : tensor) (res_enc res_dec : Z),
    self st =
      [("output_layer_tgt",
        VLayer {| layer_name := "output_projection_tgt";
                  layer_units := tgt_vocab_size hparams; layer_built := None |});
       ("output_layer_src",
        VLayer {| layer_name := "output_projection_src";
                  layer_units := src_vocab_size hparams; layer_built := None |});
       ("batch_size", VTensor (Size (Field it1 source_sequence_length)));
       ("embedding_tgt", VTensor emb_tgt);
       ("embedding_src", VTensor emb_src);
       ("num_decoder_residual_layers", VInt res_dec);
       ("num_encoder_residual_layers", VInt res_enc);
       ("num_decoder_layers", VInt (num_decoder_layers hparams));
       ("num_encoder_layers", VInt (num_encoder_layers hparams));
       ("single_cell_fn", VNone);
       ("time_major", VBool (time_major hparams));
       ("num_gpus", VInt (num_gpus hparams));
       ("tgt_vocab_size", VInt (tgt_vocab_size hparams));
       ("src_vocab_size", VInt (src_vocab_size hparams));
       ("tgt_vocab_table", VTable tab2);
       ("src_vocab_table", VTable tab1);
       ("mode", VMode mode);
       ("iterator_t2s", VIter it4);
       ("iterator_s2t", VIter it3);
       ("iterator_t2t", VIter it2);
       ("iterator_s2s", VIter it1)]
    /\ g_scope (graph st) = g_scope g.
Proof. apply init_attributes_self. apply create_emb_framed. Qed.

End Constructor.

Section ConstructedModel.

Context {subclass : Subclass} {model_helper : ModelHelper}
        {disciplined : Disciplined subclass model_helper}.

(** The four stages of a successful construction. *)
Lemma new_model_Ok (g : Graph) (hparams : HParams) (mode : ModeKeys)
  (it1 it2 it3 it4 : BatchedInput) (tab1 tab2 : string)
  (rtab1 rtab2 : option string) (scope : scope_arg) (st : State) :
  new_model g hparams mode it1 it2 it3 it4 tab1 tab2 rtab1 rtab2 scope = Ok st ->
  exists st1 st2 st3 r1 r2 r3 r4 loss loss_adv,
    init_attributes hparams mode it1 it2 it3 it4 tab1 tab2 scope
      {| graph := g; self := [] |} = Ok (tt, st1)
    /\ build_graph hparams scope st1 = Ok ((r1, r2, r3, r4, loss, loss_adv), st2)
    /\ init_outputs r1 r2 r3 r4 loss loss_adv rtab1 rtab2 st2 = Ok (tt, st3)
    /\ init_training hparams st3 = Ok (tt, st).
Proof.
  unfold new_model, __init__. intros H.
  destruct (bind _ _ _) as [[[] st'] | e] eqn:E; [| discriminate].
  inversion H. subst st'. clear H.
  apply bind_Ok in E. destruct E as ([] & st1 & H1 & E).
  apply bind_Ok in E. destruct E as ([[[[[r1 r2] r3] r4] loss] loss_adv] & st2 & H2 & E).
  apply bind_Ok in E. destruct E as ([] & st3 & H3 & E).
  exists st1, st2, st3, r1, r2, r3, r4, loss, loss_adv. repeat split; assumption.
Qed.

(** Attributes bound before the graph is built keep their value to the end
    of the construction, the two projection layers apart. *)
Lemma new_model_early_attributes (g : Graph) (hparams : HParams) (mode : ModeKeys)
  (it1 it2 it3 it4 : BatchedInput) (tab1 tab2 : string)
  (rtab1 rtab2 : option string) (scope : scope_arg) (st : State) :
  new_model g hparams mode it1 it2 it3 it4 tab1 tab2 rtab1 rtab2 scope = Ok st ->
  lookup "mode" (self st) = Some (VMode mode)
  /\ lookup "time_major" (self st) = Some (VBool (time_major hparams))
  /\ lookup "batch_size" (self st)
     = Some (VTensor (Size (Field it1 source_sequence_length)))
  /\ lookup "iterator_s2s" (self st) = Some (VIter it1)
  /\ lookup "iterator_t2t" (self st) = Some (VIter it2)
  /\ lookup "iterator_s2t" (self st) = Some (VIter it3)
  /\ lookup "iterator_t2s" (self st) = Some (VIter it4)
  /\ lookup "iterator_src" (self st) = None
  /\ lookup "iterator_tgt" (self st) = None.
Proof.
  intros H. apply new_model_Ok in H.
  destruct H as (st1 & st2 & st3 & r1 & r2 & r3 & r4 & loss & loss_adv
                 & H1 & H2 & H3 & H4).
  apply init_attributes_Ok in H1.
  destruct H1 as (emb_src & emb_tgt & res_enc & res_dec & Hself & _).
  assert (A : advances st1 st2).
  { eapply (build_graph_Ok hparams scope st1 st2 mode (time_major hparams)
              (Size (Field it1 source_sequence_length)) (by_pass it1 it2 it3 it4))
      in H2; try (rewrite Hself; reflexivity).
    destruct H2 as (b1 & b2 & b3 & b4 & _ & A & _). exact A. }
  assert (L : forall a, ~ In a late_attributes ->
                        a <> "output_layer_src" -> a <> "output_layer_tgt" ->
                        lookup a (self st) = lookup a (self st1)).
  { intros a Hn Hs Ht.
    rewrite (keeps_init_training a hparams) by
      (eassumption || (intros Hi; apply Hn, in_or_app; right; exact Hi)).
    rewrite (keeps_init_outputs a _ _ _ _ _ _ _ _) by
      (eassumption || (intros Hi; apply Hn, in_or_app; left; exact Hi)).
    apply advances_lookup; assumption. }
  repeat split; (rewrite L; [rewrite Hself; reflexivity | | discriminate | discriminate]);
    unfold late_attributes; simpl; intuition discriminate.
Qed.

(** C10 (as the code has it). [infer_and_source] never returns: on a model
    that is not in INFER mode its assertion fails, and on a model in INFER
    mode it raises the attribute error for [iterator_src], an attribute the
    constructor does not bind. *)
Theorem infer_and_source_raises (g : Graph) (hparams : HParams) (mode : ModeKeys)
  (it1 it2 it3 it4 : BatchedInput) (tab1 tab2 : string)
  (rtab1 rtab2 : option string) (scope : scope_arg) (st : State) (sess : Session) :
  new_model g hparams mode it1 it2 it3 it4 tab1 tab2 rtab1 rtab2 scope = Ok st ->
  infer_and_source sess st
  = Raise (match mode with
           | INFER => AttributeError "iterator_src"
           | _ => AssertionError
           end).
Proof.
  intros H. apply new_model_early_attributes in H.
  destruct H as (Hmode & _ & _ & _ & _ & _ & _ & Hsrc & _).
  unfold infer_and_source.
  rewrite (bind_run _ _ _ _ _ (get_mode_bound _ _ Hmode)).
  destruct mode; try reflexivity.
  simpl. unfold bind at 1. simpl. unfold bind, getattr. rewrite Hsrc. reflexivity.
Qed.

End ConstructedModel.

(** ** The small subclass is disciplined *)

Lemma framed_ret {A} (a : A) : framed (ret a).
Proof. intros st x st' H. inversion H. apply frame_refl. Qed.

Lemma framed_bind {A B} (m : M A) (k : A -> M B) :
  framed m -> (forall a, framed (k a)) -> framed (bind m k).
Proof.
  intros Hm Hk st b st' H. apply bind_Ok in H. destruct H as (a & st1 & H1 & H2).
  eapply frame_trans; [eapply Hm | eapply Hk]; eassumption.
Qed.

Lemma framed_get_variable (name : string) : framed (get_variable name).
Proof.
  intros st t st' H. unfold get_variable, bind, get_graph, put_graph, ret, raise in H.
  simpl in H.
  destruct (g_reuse (graph st)) eqn:Er, (has_variable _ _); inversion H; subst;
    try apply frame_refl;
    (unfold frame; simpl;
     split; [reflexivity | split; [reflexivity | split; [congruence|]]];
     apply incl_appl, incl_refl).
Qed.

Lemma framed_with_variable_scope {A} (name : string) (r : option reuse_mode)
  (body : M A) :
  framed body -> framed (with_variable_scope name r body).
Proof.
  intros Hb st a st' H. apply with_variable_scope_Ok in H.
  destruct H as (st_out & H & ->). eapply frame_block. eapply Hb. exact H.
Qed.

Lemma tiny_disciplined : Disciplined tiny_subclass tiny_helper.
Proof.
  split; simpl; intros.
  - apply framed_with_variable_scope.
    apply framed_bind; [apply framed_get_variable | intros; apply framed_ret].
  - apply framed_ret.
  - apply framed_with_variable_scope.
    apply framed_bind; [apply framed_get_variable | intros].
    apply framed_bind; [apply framed_get_variable | intros; apply framed_ret].
Qed.

Lemma tiny_model_is_Ok (mode : ModeKeys) (scope : scope_arg) :
  scope = ScopeNone \/ scope = ScopeStr "m" ->
  is_Ok (tiny_model mode scope) = true.
Proof. intros [-> | ->]; destruct mode; vm_compute; reflexivity. Qed.

Lemma tiny_model_constructed (mode : ModeKeys) :
  exists st, tiny_model mode ScopeNone = Ok st.
Proof.
  pose proof (tiny_model_is_Ok mode ScopeNone (or_introl eq_refl)) as H.
  destruct (tiny_model mode ScopeNone) as [st | e]; [| discriminate].
  exists st. reflexivity.
Qed.

Lemma infer_and_source_raises_tiny :
  exists st,
    tiny_model INFER ScopeNone = Ok st
    /\ infer_and_source fresh_session st = Raise (AttributeError "iterator_src").
Proof.
  destruct (tiny_model_constructed INFER) as [st E].
  exists st. split; [exact E|].
  exact (@infer_and_source_raises tiny_subclass tiny_helper tiny_disciplined
           _ _ INFER _ _ _ _ _ _ _ _ _ st fresh_session E).
Defined.

(** C10 (as stated) fails on a model in TRAIN mode: the call raises an
    assertion error, not an attribute error. *)
Lemma infer_and_source_train_mode_assertion :
  exists st,
    tiny_model TRAIN ScopeNone = Ok st
    /\ infer_and_source fresh_session st = Raise AssertionError
    /\ ~ (exists a, infer_and_source fresh_session st = Raise (AttributeError a)).
Proof.
  destruct (tiny_model_constructed TRAIN) as [st E].
  exists st. split; [exact E|].
  pose proof (@new_model_early_attributes tiny_subclass tiny_helper tiny_disciplined
                _ _ _ _ _ _ _ _ _ _ _ _ _ E) as (Hmode & _).
  assert (H : infer_and_source fresh_session st = Raise AssertionError).
  { unfold infer_and_source.
    rewrite (bind_run _ _ _ _ _ (get_mode_bound _ _ Hmode)). reflexivity. }
  split; [exact H|]. intros [a Ha]. rewrite H in Ha. discriminate.
Qed.

(** ** The attributes bound after the graph is built *)

Lemma init_outputs_TRAIN r1 r2 r3 r4 (loss ladv : option tensor) rt1 rt2
  (st : State) (it1 it2 : BatchedInput) :
  lookup "mode" (self st) = Some (VMode TRAIN) ->
  lookup "iterator_s2s" (self st) = Some (VIter it1) ->
  lookup "iterator_t2t" (self st) = Some (VIter it2) ->
  init_outputs r1 r2 r3 r4 loss ladv rt1 rt2 st
  = Ok (tt, {| graph := graph st;
               self := ("predict_count_t2t",
                        VTensor (ReduceSum (Field it2 target_sequence_length)))
                       :: ("predict_count_s2s",
                           VTensor (ReduceSum (Field it1 target_sequence_length)))
                       :: ("word_count_s2s",
                           VTensor (Add (ReduceSum (Field it1 source_sequence_length))
                                        (ReduceSum (Field it1 target_sequence_length))))
                       :: ("train_loss_D", tensor_or_None ladv)
                       :: ("train_loss_ae", tensor_or_None loss)
                       :: self st |}).
Proof.
  intros Hm H1 H2. unfold init_outputs.
  unfold get_mode, get_iter.
  unfold bind, getattr, setattr, as_mode, as_iter, ret.
  repeat (progress (simpl; rewrite ?Hm, ?H1, ?H2)). reflexivity.
Qed.

Lemma init_outputs_EVAL r1 r2 r3 r4 (loss ladv : option tensor) rt1 rt2
  (st : State) (it1 it2 : BatchedInput) :
  lookup "mode" (self st) = Some (VMode EVAL) ->
  lookup "iterator_s2s" (self st) = Some (VIter it1) ->
  lookup "iterator_t2t" (self st) = Some (VIter it2) ->
  init_outputs r1 r2 r3 r4 loss ladv rt1 rt2 st
  = Ok (tt, {| graph := graph st;
               self := ("predict_count_t2t",
                        VTensor (ReduceSum (Field it2 target_sequence_length)))
                       :: ("predict_count_s2s",
                           VTensor (ReduceSum (Field it1 target_sequence_length)))
                       :: ("eval_loss", tensor_or_None loss)
                       :: self st |}).
Proof.
  intros Hm H1 H2. unfold init_outputs.
  unfold get_mode, get_iter.
  unfold bind, getattr, setattr, as_mode, as_iter, ret.
  repeat (progress (simpl; rewrite ?Hm, ?H1, ?H2)). reflexivity.
Qed.

(** ** Variables stay in the graph *)

Create HintDb growing.

Lemma growing_ret {A} (x : A) : growing (ret x).
Proof. intros st y st' H. inversion H. apply incl_refl. Qed.

Lemma growing_raise {A} (e : exn) : growing (@raise A e).
Proof. intros st y st' H. discriminate. Qed.

Lemma growing_bind {A B} (m : M A) (k : A -> M B) :
  growing m -> (forall x, growing (k x)) -> growing (bind m k).
Proof.
  intros Hm Hk st b st' H. apply bind_Ok in H. destruct H as (x & st1 & H1 & H2).
  eapply incl_tran; [eapply Hm | eapply Hk]; eassumption.
Qed.

Lemma growing_getattr (attr : string) : growing (getattr attr).
Proof. intros st v st' H. apply getattr_Ok in H. destruct H as [-> _]. apply incl_refl. Qed.

Lemma growing_setattr (attr : string) (v : pyval) : growing (setattr attr v).
Proof. intros st x st' H. inversion H. apply incl_refl. Qed.

Lemma growing_get_graph : growing get_graph.
Proof. intros st g st' H. inversion H. apply incl_refl. Qed.

Lemma growing_new_global_step : growing new_global_step.
Proof. intros st x st' H. inversion H. simpl. apply incl_appl, incl_refl. Qed.

Lemma growing_py_assert (b : bool) : growing (py_assert b).
Proof. destruct b; [apply growing_ret | apply growing_raise]. Qed.

Lemma growing_lift {A} (r : res A) :
  growing (fun st => match r with Ok x => Ok (x, st) | Raise e => Raise e end).
Proof. intros st x st' H. destruct r; inversion H. apply incl_refl. Qed.

Lemma growing_as_tensor v : growing (as_tensor v).
Proof. destruct v; simpl; (apply growing_ret || apply growing_raise). Qed.
Lemma growing_as_iter v : growing (as_iter v).
Proof. destruct v; simpl; (apply growing_ret || apply growing_raise). Qed.
Lemma growing_as_mode v : growing (as_mode v).
Proof. destruct v; simpl; (apply growing_ret || apply growing_raise). Qed.
Lemma growing_as_rate v : growing (as_rate v).
Proof. destruct v; simpl; (apply growing_ret || apply growing_raise). Qed.
Lemma growing_as_variable v : growing (as_variable v).
Proof. destruct v; simpl; (apply growing_ret || apply growing_raise). Qed.

Lemma growing_reverse_lookup table ids : growing (reverse_lookup table ids).
Proof. destruct table; simpl; (apply growing_ret || apply growing_raise). Qed.

Lemma growing_train_params hparams train_vars train_loss :
  growing (train_params hparams train_vars train_loss).
Proof.
  unfold train_params.
  destruct (optimizer hparams =? "sgd")%string;
    [| destruct (optimizer hparams =? "adam")%string; [| apply growing_raise]];
    (apply growing_bind;
     [apply growing_bind; [apply growing_getattr | apply growing_as_variable]
     | intros gs; destruct train_vars; [apply growing_raise | apply growing_ret]]).
Qed.

#[local] Hint Resolve growing_ret growing_raise growing_getattr growing_setattr
  growing_get_graph growing_new_global_step growing_py_assert growing_lift
  growing_as_tensor growing_as_iter growing_as_mode growing_as_rate
  growing_as_variable growing_reverse_lookup growing_train_params : growing.

Ltac growing_step :=
  match goal with
  | |- growing (bind _ _) => apply growing_bind; [| intros]
  | |- growing (match ?x with _ => _ end) => destruct x
  | |- growing (if ?x then _ else _) => destruct x
  | |- growing _ => solve [auto with growing]
  end.

Lemma growing_init_outputs r1 r2 r3 r4 l1 l2 t1 t2 :
  growing (init_outputs r1 r2 r3 r4 l1 l2 t1 t2).
Proof. unfold init_outputs, get_mode, get_iter. repeat growing_step. Qed.

Lemma growing_init_training (hparams : HParams) : growing (init_training hparams).
Proof.
  unfold init_training, init_learning_rate, init_updates, get_mode, get_tensor.
  repeat growing_step.
Qed.

(** ** The losses of a constructed model *)

Section ModelLosses.

Context {subclass : Subclass} {model_helper : ModelHelper}
        {disciplined : Disciplined subclass model_helper}.

Lemma new_model_losses (g : Graph) (hparams : HParams) (mode : ModeKeys)
  (it1 it2 it3 it4 : BatchedInput) (tab1 tab2 : string)
  (rtab1 rtab2 : option string) (scope : scope_arg) (st : State) :
  new_model g hparams mode it1 it2 it3 it4 tab1 tab2 rtab1 rtab2 scope = Ok st ->
  exists logits enc : pass -> tensor,
    let its := by_pass it1 it2 it3 it4 in
    let dlogits := fun p =>
      discriminator_net (discriminator_scope scope (g_scope g) p) (enc p) in
    let batch_size := Size (Field it1 source_sequence_length) in
    let loss := total_loss (time_major hparams) batch_size its logits dlogits in
    (mode = TRAIN ->
       lookup "train_loss_ae" (self st) = Some (VTensor loss)
       /\ lookup "train_loss_D" (self st) = Some (VTensor (total_loss_adv its dlogits)))
    /\ (mode = EVAL -> lookup "eval_loss" (self st) = Some (VTensor loss))
    /\ (forall p,
          Forall (fun n => has_variable n (g_vars (graph st)) = true)
                 (discriminator_weights (discriminator_scope scope (g_scope g) p))).
Proof.
  intros H. apply new_model_Ok in H.
  destruct H as (st1 & st2 & st3 & r1 & r2 & r3 & r4 & loss & ladv
                 & H1 & H2 & H3 & H4).
  apply init_attributes_Ok in H1.
  destruct H1 as (emb_src & emb_tgt & res_enc & res_dec & Hself & Hscope).
  eapply (build_graph_Ok hparams scope st1 st2 mode (time_major hparams)
            (Size (Field it1 source_sequence_length)) (by_pass it1 it2 it3 it4))
    in H2; try (rewrite Hself; reflexivity).
  destruct H2 as (b1 & b2 & b3 & b4 & Hr & A & W).
  rewrite Hscope in Hr, W.
  assert (L : forall a, a <> "output_layer_src" -> a <> "output_layer_tgt" ->
                        lookup a (self st2) = lookup a (self st1))
    by (intros; apply advances_lookup; assumption).
  assert (Hm2 : lookup "mode" (self st2) = Some (VMode mode))
    by (rewrite L by discriminate; rewrite Hself; reflexivity).
  assert (Hi1 : lookup "iterator_s2s" (self st2) = Some (VIter it1))
    by (rewrite L by discriminate; rewrite Hself; reflexivity).
  assert (Hi2 : lookup "iterator_t2t" (self st2) = Some (VIter it2))
    by (rewrite L by discriminate; rewrite Hself; reflexivity).
  exists (by_pass (br_logits b1) (br_logits b2) (br_logits b3) (br_logits b4)),
         (by_pass (br_encoder_outputs b1) (br_encoder_outputs b2)
                  (br_encoder_outputs b3) (br_encoder_outputs b4)).
  cbv zeta. inversion Hr. subst. clear Hr.
  split; [| split].
  - intros ->. rewrite (init_outputs_TRAIN _ _ _ _ _ _ _ _ _ it1 it2) in H3
      by assumption.
    inversion H3. subst st3. clear H3.
    split.
    + rewrite (keeps_init_training "train_loss_ae" hparams) by
        (eassumption || (unfold training_attributes; simpl; intuition discriminate)).
      reflexivity.
    + rewrite (keeps_init_training "train_loss_D" hparams) by
        (eassumption || (unfold training_attributes; simpl; intuition discriminate)).
      reflexivity.
  - intros ->. rewrite (init_outputs_EVAL _ _ _ _ _ _ _ _ _ it1 it2) in H3
      by assumption.
    inversion H3. subst st3. clear H3.
    rewrite (keeps_init_training "eval_loss" hparams) by
      (eassumption || (unfold training_attributes; simpl; intuition discriminate)).
    reflexivity.
  - intros p.
    assert (I : incl (g_vars (graph st2)) (g_vars (graph st))).
    { eapply incl_tran; [eapply growing_init_outputs | eapply growing_init_training];
        eassumption. }
    apply Forall_app in W. destruct W as [Wa Wc].
    eapply Forall_impl;
      [intros n Hn; eapply has_variable_incl; [exact I | exact Hn] |].
    destruct p; assumption.
Qed.

End ModelLosses.

(** ** The two objectives *)

Lemma scalar_value_of (feed : Feed) (t : tensor) :
  scalar_value feed t = scalar_of (value_of feed t).
Proof. reflexivity. Qed.

Lemma scalar_of_add (a b : option value) :
  scalar_of (scalar_add a b) = oplus (scalar_of a) (scalar_of b).
Proof. destruct a as [[]|], b as [[]|]; reflexivity. Qed.

Lemma scalar_value_Add (feed : Feed) (a b : tensor) :
  scalar_value feed (Add a b) = oplus (scalar_value feed a) (scalar_value feed b).
Proof. rewrite !scalar_value_of. simpl. apply scalar_of_add. Qed.

Lemma scalar_value_AddN3 (feed : Feed) (a b c : tensor) :
  scalar_value feed (AddN [a; b; c])
  = oplus (oplus (scalar_value feed a) (scalar_value feed b)) (scalar_value feed c).
Proof. rewrite !scalar_value_of. simpl. rewrite !scalar_of_add. reflexivity. Qed.

Lemma scalar_value_AddN4 (feed : Feed) (a b c d : tensor) :
  scalar_value feed (AddN [a; b; c; d])
  = oplus4 (scalar_value feed a) (scalar_value feed b)
           (scalar_value feed c) (scalar_value feed d).
Proof. rewrite !scalar_value_of. simpl. rewrite !scalar_of_add. reflexivity. Qed.

Lemma total_loss_scalar_value (feed : Feed) (time_major : bool) (batch_size : tensor)
  (its : pass -> BatchedInput) (logits dlogits : pass -> tensor) :
  scalar_value feed (total_loss time_major batch_size its logits dlogits)
  = total_loss_value
      (fun p => scalar_value feed (loss_recon time_major batch_size its logits p))
      (fun p => scalar_value feed (loss_D its dlogits p)).
Proof.
  unfold total_loss, total_loss_value.
  rewrite scalar_value_AddN3, !scalar_value_Add, scalar_value_AddN4. reflexivity.
Qed.

Lemma total_loss_adv_scalar_value (feed : Feed)
  (its : pass -> BatchedInput) (dlogits : pass -> tensor) :
  scalar_value feed (total_loss_adv its dlogits)
  = oplus4 (scalar_value feed (loss_adv its dlogits s2s))
           (scalar_value feed (loss_adv its dlogits s2t))
           (scalar_value feed (loss_adv its dlogits t2t))
           (scalar_value feed (loss_adv its dlogits t2s)).
Proof. unfold total_loss_adv. apply scalar_value_AddN4. Qed.

Lemma adversarial_feed_loss_adv (its : pass -> BatchedInput)
  (dlogits : pass -> tensor) (p : pass) :
  scalar_value adversarial_feed (loss_adv its dlogits p) = Some 10%R.
Proof. destruct p; reflexivity. Qed.

Lemma adversarial_feed_loss_D (its : pass -> BatchedInput)
  (dlogits : pass -> tensor) (p : pass) :
  scalar_value adversarial_feed (loss_D its dlogits p) = Some 1%R.
Proof. destruct p; reflexivity. Qed.

Section Objectives.

Context {subclass : Subclass} {model_helper : ModelHelper}
        {disciplined : Disciplined subclass model_helper}.

(** C1 (as the code has it). For a constructed model the first objective
    (bound to [train_loss_ae] in TRAIN mode and to [eval_loss] in EVAL mode)
    is the sum of the two same-language reconstruction losses, the four
    discriminator losses against the plain labels and the two cross
    reconstruction losses; the second objective ([train_loss_D]) is the sum
    of the four discriminator losses against the flipped labels. *)
Theorem objectives_are_sums (g : Graph) (hparams : HParams) (mode : ModeKeys)
  (it1 it2 it3 it4 : BatchedInput) (tab1 tab2 : string)
  (rtab1 rtab2 : option string) (scope : scope_arg) (st : State) :
  new_model g hparams mode it1 it2 it3 it4 tab1 tab2 rtab1 rtab2 scope = Ok st ->
  exists (logits dlogits : pass -> tensor) (loss loss_D_side : tensor),
    let its := by_pass it1 it2 it3 it4 in
    let batch_size := Size (Field it1 source_sequence_length) in
    let recon := loss_recon (time_major hparams) batch_size its logits in
    (mode = TRAIN ->
       lookup "train_loss_ae" (self st) = Some (VTensor loss)
       /\ lookup "train_loss_D" (self st) = Some (VTensor loss_D_side))
    /\ (mode = EVAL -> lookup "eval_loss" (self st) = Some (VTensor loss))
    /\ loss = AddN [Add (recon s2s) (recon t2t);
                    AddN [loss_D its dlogits s2s; loss_D its dlogits s2t;
                          loss_D its dlogits t2t; loss_D its dlogits t2s];
                    Add (recon s2t) (recon t2s)]
    /\ loss_D_side = AddN [loss_adv its dlogits s2s; loss_adv its dlogits s2t;
                           loss_adv its dlogits t2t; loss_adv its dlogits t2s]
    /\ forall feed : Feed,
         scalar_value feed loss
         = total_loss_value (fun p => scalar_value feed (recon p))
                            (fun p => scalar_value feed (loss_D its dlogits p))
         /\ scalar_value feed loss_D_side
            = oplus4 (scalar_value feed (loss_adv its dlogits s2s))
                     (scalar_value feed (loss_adv its dlogits s2t))
                     (scalar_value feed (loss_adv its dlogits t2t))
                     (scalar_value feed (loss_adv its dlogits t2s)).
Proof.
  intros H. apply new_model_losses in H.
  destruct H as (logits & enc & HT & HE & _).
  eexists logits, _, _, _. cbv zeta.
  split; [exact HT|]. split; [exact HE|].
  split; [reflexivity|]. split; [reflexivity|].
  intros feed. split.
  - apply total_loss_scalar_value.
  - apply total_loss_adv_scalar_value.
Qed.

End Objectives.

Lemma objectives_are_sums_tiny :
  exists (st : State) (loss loss_D_side : tensor),
    tiny_model TRAIN ScopeNone = Ok st
    /\ lookup "train_loss_ae" (self st) = Some (VTensor loss)
    /\ lookup "train_loss_D" (self st) = Some (VTensor loss_D_side)
    /\ scalar_value adversarial_feed loss_D_side = Some (10 + 10 + 10 + 10)%R.
Proof.
  destruct (tiny_model_constructed TRAIN) as [st E].
  destruct (@objectives_are_sums tiny_subclass tiny_helper tiny_disciplined
              _ _ _ _ _ _ _ _ _ _ _ _ st E)
    as (logits & dlogits & loss & lD & HT & _ & _ & -> & Hv).
  destruct (HT eq_refl) as [H1 H2].
  eexists st, loss, _. split; [exact E|]. split; [exact H1|]. split; [exact H2|].
  destruct (Hv adversarial_feed) as [_ ->].
  rewrite !adversarial_feed_loss_adv. reflexivity.
Defined.

(** C1 (as stated) fails: in a run where each plain discriminator loss is 1
    and each flipped-label loss is 10, [train_loss_D] is 40, the sum of the
    flipped-label losses, and not 4, the sum of the plain ones; and
    [train_loss_ae] holds the plain ones. *)
Lemma train_loss_D_is_not_the_plain_sum :
  exists (st : State) (its : pass -> BatchedInput) (logits dlogits : pass -> tensor)
         (batch_size : tensor),
    tiny_model TRAIN ScopeNone = Ok st
    /\ lookup "train_loss_ae" (self st)
       = Some (VTensor (total_loss false batch_size its logits dlogits))
    /\ lookup "train_loss_D" (self st) = Some (VTensor (total_loss_adv its dlogits))
    /\ scalar_value adversarial_feed (total_loss_adv its dlogits) = Some 40%R
    /\ oplus4 (scalar_value adversarial_feed (loss_D its dlogits s2s))
              (scalar_value adversarial_feed (loss_D its dlogits s2t))
              (scalar_value adversarial_feed (loss_D its dlogits t2t))
              (scalar_value adversarial_feed (loss_D its dlogits t2s)) = Some 4%R
    /\ Some 40%R <> Some 4%R.
Proof.
  destruct (tiny_model_constructed TRAIN) as [st E].
  destruct (@new_model_losses tiny_subclass tiny_helper tiny_disciplined
              _ _ _ _ _ _ _ _ _ _ _ _ st E) as (logits & enc & HT & _ & _).
  destruct (HT eq_refl) as [H1 H2].
  eexists st, _, logits, _, _. split; [exact E|].
  split; [exact H1|]. split; [exact H2|].
  split; [| split].
  - rewrite total_loss_adv_scalar_value, !adversarial_feed_loss_adv.
    unfold oplus4, oplus. f_equal. lra.
  - rewrite !adversarial_feed_loss_D. unfold oplus4, oplus. f_equal. lra.
  - intros H. inversion H. lra.
Qed.

(** ** One batch size for the four reconstruction losses *)

Section BatchSize.

Context {subclass : Subclass} {model_helper : ModelHelper}
        {disciplined : Disciplined subclass model_helper}.

(** C9. In a constructed model the reconstruction loss of each of the four
    passes is the masked cross-entropy sum over the batch of that pass's own
    iterator divided by the number of examples the iterator of the first
    same-language pass ([iterator_s2s]) yields, whatever the batch size of
    the pass's own iterator. *)
Theorem reconstruction_losses_share_batch_size (g : Graph) (hparams : HParams)
  (mode : ModeKeys) (it1 it2 it3 it4 : BatchedInput) (tab1 tab2 : string)
  (rtab1 rtab2 : option string) (scope : scope_arg) (st : State) :
  new_model g hparams mode it1 it2 it3 it4 tab1 tab2 rtab1 rtab2 scope = Ok st ->
  lookup "batch_size" (self st)
  = Some (VTensor (Size (Field it1 source_sequence_length)))
  /\ exists logits dlogits : pass -> tensor,
       let its := by_pass it1 it2 it3 it4 in
       let batch_size := Size (Field it1 source_sequence_length) in
       let recon := loss_recon (time_major hparams) batch_size its logits in
       let loss := total_loss (time_major hparams) batch_size its logits dlogits in
       (mode = TRAIN -> lookup "train_loss_ae" (self st) = Some (VTensor loss))
       /\ (mode = EVAL -> lookup "eval_loss" (self st) = Some (VTensor loss))
       /\ forall (feed : Feed) (p : pass) (l : array2 (list R)),
            value_of feed (logits p) = Some (Logits l) ->
            sparse_xent_with_logits
              (oriented_labels (time_major hparams) (fed_batch feed (its p))) l
              <> None ->
            batch (fed_batch feed it1) <> 0%nat ->
            scalar_value feed (recon p)
            = Some (masked_sum (fed_batch feed (its p))
                      (token_crossent (time_major hparams)
                         (fed_batch feed (its p)) l)
                    / IZR (Z.of_nat (batch (fed_batch feed it1))))%R.
Proof.
  intros H. split.
  - apply new_model_early_attributes in H. tauto.
  - apply new_model_losses in H. destruct H as (logits & enc & HT & HE & _).
    eexists logits, _. cbv zeta.
    split; [intros Hm; apply (HT Hm) |]. split; [exact HE |].
    intros feed p l Hl Hx HB. unfold loss_recon.
    apply loss_tensor_value; try assumption.
    + reflexivity.
    + lia.
Qed.

End BatchSize.

Lemma reconstruction_losses_share_batch_size_tiny :
  exists st,
    tiny_model EVAL ScopeNone = Ok st
    /\ lookup "batch_size" (self st)
       = Some (VTensor (Size (Field (Iterator 0) source_sequence_length))).
Proof.
  destruct (tiny_model_constructed EVAL) as [st E].
  exists st. split; [exact E|].
  exact (proj1 (@reconstruction_losses_share_batch_size
                  tiny_subclass tiny_helper tiny_disciplined
                  _ _ _ _ _ _ _ _ _ _ _ _ st E)).
Defined.

Lemma single_logits_fit :
  sparse_xent_with_logits (oriented_labels false single_batch) single_logits <> None.
Proof. unfold sparse_xent_with_logits. simpl. discriminate. Qed.

(** With iterators of different batch sizes: the second same-language pass
    has one example of two tokens, the first pass has two examples; the loss
    of the second pass is its masked sum divided by 2, not by 1. *)
Example uneven_batches :
  let batch_size := Size (Field (Iterator 0) source_sequence_length) in
  scalar_value uneven_feed
    (loss_tensor false batch_size (Op "logits" []) (Iterator 1))
  = Some (masked_sum single_batch (token_crossent false single_batch single_logits)
          / 2)%R
  /\ batch (fed_batch uneven_feed (Iterator 1)) = 1%nat.
Proof.
  split; [| reflexivity].
  apply (loss_tensor_value uneven_feed false _ _ (Iterator 1) single_logits 2).
  - reflexivity.
  - lia.
  - reflexivity.
  - exact single_logits_fit.
Qed.

(** ** The discriminator weights *)

Lemma append_inj_l (a b c : string) : (a ++ b = a ++ c)%string -> b = c.
Proof.
  induction a as [| ch a IH]; simpl; intros H; [exact H|].
  inversion H. auto.
Qed.

Lemma discriminator_scope_join (top block : string) :
  (top =? "")%string = false ->
  scope_join (scope_join top block) "discriminator"
  = (top ++ "/" ++ block ++ "/discriminator")%string.
Proof. intros H. apply scope_join_sub. exact H. Qed.

Lemma weights_apart (top : string) (n : string) :
  (top =? "")%string = false ->
  In n (discriminator_weights (scope_join (scope_join top "auto") "discriminator")) ->
  In n (discriminator_weights (scope_join (scope_join top "cross") "discriminator")) ->
  False.
Proof.
  intros Ht. rewrite !discriminator_scope_join by exact Ht.
  unfold discriminator_weights. simpl.
  intros Ha Hc.
  repeat (destruct Ha as [Ha | Ha]; [| try contradiction]);
    subst n;
    repeat (destruct Hc as [Hc | Hc]; [| try contradiction]);
    rewrite !append_assoc in Hc; apply append_inj_l in Hc;
    simpl in Hc; discriminate.
Qed.

Lemma discriminator_scope_given (scope : scope_arg) (current : string) (p q : pass) :
  scope_given scope = true ->
  discriminator_scope scope current p = discriminator_scope scope current q.
Proof.
  unfold discriminator_scope, scope_given, entered_scope.
  destruct scope as [| s | full]; intros H; try discriminate; try reflexivity.
  destruct (s =? "")%string; [discriminate | reflexivity].
Qed.

Lemma discriminator_scope_not_given (scope : scope_arg) (current : string) (n : string) :
  scope_given scope = false ->
  In n (discriminator_weights (discriminator_scope scope current s2s)) ->
  In n (discriminator_weights (discriminator_scope scope current s2t)) ->
  False.
Proof.
  unfold discriminator_scope, scope_given, entered_scope.
  destruct scope as [| s | full]; intros H; try discriminate.
  - apply weights_apart. apply scope_join_nonempty.
  - destruct (s =? "")%string; [| discriminate].
    apply weights_apart. apply scope_join_nonempty.
Qed.

Section DiscriminatorWeights.

Context {subclass : Subclass} {model_helper : ModelHelper}
        {disciplined : Disciplined subclass model_helper}.

(** C3 (as the code has it). The discriminator of a pass is built with the
    six weights (kernel and bias of three dense layers) found under the
    scope of its block: the two same-language passes share one weight set,
    under "auto", and the two cross passes share one, under "cross".  The
    two sets are the same set when the constructor is given a scope, and two
    sets without a common weight when it is not; all of them are variables
    of the graph of the constructed model. *)
Theorem discriminator_weight_sets (g : Graph) (hparams : HParams)
  (mode : ModeKeys) (it1 it2 it3 it4 : BatchedInput) (tab1 tab2 : string)
  (rtab1 rtab2 : option string) (scope : scope_arg) (st : State) :
  new_model g hparams mode it1 it2 it3 it4 tab1 tab2 rtab1 rtab2 scope = Ok st ->
  let sc := discriminator_scope scope (g_scope g) in
  sc s2s = sc t2t
  /\ sc s2t = sc t2s
  /\ (scope_given scope = true -> sc s2s = sc s2t)
  /\ (scope_given scope = false ->
        forall n, In n (discriminator_weights (sc s2s)) ->
                  ~ In n (discriminator_weights (sc s2t)))
  /\ (forall p, Forall (fun n => has_variable n (g_vars (graph st)) = true)
                       (discriminator_weights (sc p)))
  /\ exists logits enc : pass -> tensor,
       let its := by_pass it1 it2 it3 it4 in
       let dlogits := fun p => discriminator_net (sc p) (enc p) in
       let loss :=
         total_loss (time_major hparams) (Size (Field it1 source_sequence_length))
           its logits dlogits in
       (mode = TRAIN ->
          lookup "train_loss_ae" (self st) = Some (VTensor loss)
          /\ lookup "train_loss_D" (self st)
             = Some (VTensor (total_loss_adv its dlogits)))
       /\ (mode = EVAL -> lookup "eval_loss" (self st) = Some (VTensor loss)).
Proof.
  intros H sc.
  split; [reflexivity|]. split; [reflexivity|].
  split; [intros Hg; apply discriminator_scope_given; exact Hg|].
  split; [intros Hg n Ha Hc;
          exact (discriminator_scope_not_given scope (g_scope g) n Hg Ha Hc)|].
  apply new_model_losses in H. destruct H as (logits & enc & HT & HE & W).
  split; [exact W|].
  exists logits, enc. cbv zeta. split; [exact HT | exact HE].
Qed.

End DiscriminatorWeights.

Lemma discriminator_weight_sets_tiny :
  exists st,
    tiny_model TRAIN (ScopeStr "m") = Ok st
    /\ discriminator_scope (ScopeStr "m") "" s2s
       = discriminator_scope (ScopeStr "m") "" s2t
    /\ Forall (fun n => has_variable n (g_vars (graph st)) = true)
              (discriminator_weights "m/m/discriminator").
Proof.
  pose proof (tiny_model_is_Ok TRAIN (ScopeStr "m") (or_intror eq_refl)) as H.
  destruct (tiny_model TRAIN (ScopeStr "m")) as [st | e] eqn:E; [| discriminate].
  exists st. split; [reflexivity|].
  destruct (@discriminator_weight_sets tiny_subclass tiny_helper tiny_disciplined
              _ _ _ _ _ _ _ _ _ _ _ _ st E) as (_ & _ & Hg & _ & W & _).
  split; [exact (Hg eq_refl) | exact (W s2s)].
Defined.

Lemma tiny_discriminator_count :
  match tiny_model TRAIN ScopeNone with
  | Ok st => List.length (trainable_variables_scope_discriminator (graph st))
  | Raise _ => 0%nat
  end = 12%nat.
Proof. vm_compute. reflexivity. Qed.

(** C3 (as stated) fails for a model constructed without a scope: the
    discriminator of the cross passes has weights of its own, under "cross",
    the graph holds two weight sets (twelve discriminator variables), and
    the losses apply the set under "auto" to the same-language passes and
    the set under "cross" to the cross passes. *)
Lemma two_discriminator_weight_sets :
  exists (st : State) (enc : pass -> tensor),
    tiny_model TRAIN ScopeNone = Ok st
    /\ lookup "train_loss_D" (self st)
       = Some (VTensor
                 (total_loss_adv
                    (by_pass (Iterator 0) (Iterator 1) (Iterator 2) (Iterator 3))
                    (fun p =>
                       discriminator_net
                         (match p with
                          | s2s | t2t => "dynamic_seq2seq/auto/discriminator"
                          | s2t | t2s => "dynamic_seq2seq/cross/discriminator"
                          end) (enc p))))
    /\ has_variable "dynamic_seq2seq/auto/discriminator/dense1_D/kernel"
         (g_vars (graph st)) = true
    /\ has_variable "dynamic_seq2seq/cross/discriminator/dense1_D/kernel"
         (g_vars (graph st)) = true
    /\ List.length (trainable_variables_scope_discriminator (graph st)) = 12%nat
    /\ "dynamic_seq2seq/auto/discriminator/dense1_D/kernel"
       <> "dynamic_seq2seq/cross/discriminator/dense1_D/kernel".
Proof.
  pose proof tiny_discriminator_count as C.
  destruct (tiny_model_constructed TRAIN) as [st E]. rewrite E in C.
  destruct (@new_model_losses tiny_subclass tiny_helper tiny_disciplined
              _ _ _ _ _ _ _ _ _ _ _ _ st E) as (logits & enc & HT & _ & W).
  destruct (HT eq_refl) as [_ H2].
  exists st, enc. split; [exact E|].
  split.
  - rewrite H2. unfold total_loss_adv, loss_adv. reflexivity.
  - pose proof (W s2s) as Wa. pose proof (W s2t) as Wc.
    apply Forall_inv in Wa. apply Forall_inv in Wc.
    split; [exact Wa|]. split; [exact Wc|]. split; [exact C | discriminate].
Qed.

(** ** The two updates and the global step *)

Lemma init_learning_rate_eq (hparams : HParams) (st : State) :
  init_learning_rate hparams st
  = match _get_learning_rate_warmup hparams (fun _ => Some (learning_rate hparams)) with
    | Raise e => Raise e
    | Ok lr1 =>
        match _get_learning_rate_decay hparams lr1 with
        | Raise e => Raise e
        | Ok lr =>
            Ok (tt, {| graph := graph st;
                       self := ("learning_rate", VRate lr)
                               :: ("learning_rate", VRate lr1)
                               :: ("learning_rate",
                                   VRate (fun _ => Some (learning_rate hparams)))
                               :: self st |})
        end
    end.
Proof.
  unfold init_learning_rate, bind, getattr, setattr, as_rate, ret. simpl.
  destruct (_get_learning_rate_warmup _ _) as [lr1 | e]; [| reflexivity].
  simpl. destruct (_get_learning_rate_decay _ _) as [lr | e]; reflexivity.
Qed.

(** The optimizer [train_params] picks; [None] leaves [opt] unbound. *)
Lemma train_params_eq (hparams : HParams) (train_vars : list TfVariable)
  (train_loss : tensor) (st : State) (gs : TfVariable) :
  lookup "global_step" (self st) = Some (VVariable gs) ->
  train_params hparams train_vars train_loss st
  = let gradients :=
      Op "gradients" (train_loss :: map (fun v => Var (v_name v)) train_vars) in
    let grad_norm := Op "global_norm" [gradients] in
    match (if (optimizer hparams =? "sgd")%string then Some "GradientDescentOptimizer"
           else if (optimizer hparams =? "adam")%string then Some "AdamOptimizer"
           else None) with
    | None => Raise (UnboundLocalError "opt")
    | Some opt =>
        match train_vars with
        | [] => Raise (ValueError "No variables provided.")
        | _ => Ok ((grad_norm,
                    {| upd_optimizer := opt; upd_loss := train_loss;
                       upd_vars := train_vars;
                       upd_global_step := Some (v_name gs) |},
                    Op "summary/merge" [train_loss; grad_norm]), st)
        end
    end.
Proof.
  intros Hg. unfold train_params.
  set (o := if (optimizer hparams =? "sgd")%string
            then Some "GradientDescentOptimizer"
            else if (optimizer hparams =? "adam")%string
                 then Some "AdamOptimizer" else None).
  destruct o; [| reflexivity].
  unfold bind, getattr. rewrite Hg. simpl.
  destruct train_vars; reflexivity.
Qed.

Lemma init_updates_Ok (hparams : HParams) (params_ae params_D : list TfVariable)
  (st st' : State) (ta tD : tensor) (gs : TfVariable) :
  lookup "global_step" (self st) = Some (VVariable gs) ->
  lookup "train_loss_ae" (self st) = Some (VTensor ta) ->
  lookup "train_loss_D" (self st) = Some (VTensor tD) ->
  init_updates hparams params_ae params_D st = Ok (tt, st') ->
  exists (opt : string) (v1 v2 v3 v4 v5 : tensor),
    st' = {| graph := graph st;
             self := ("train_summary", VTensor v1)
                     :: ("train_summary_D", VTensor v2)
                     :: ("update_D",
                         VUpdate {| upd_optimizer := opt; upd_loss := tD;
                                    upd_vars := params_D;
                                    upd_global_step := Some (v_name gs) |})
                     :: ("grad_norm_D", VTensor v3)
                     :: ("train_summary", VTensor v4)
                     :: ("update_ae",
                         VUpdate {| upd_optimizer := opt; upd_loss := ta;
                                    upd_vars := params_ae;
                                    upd_global_step := Some (v_name gs) |})
                     :: ("grad_norm_ae", VTensor v5)
                     :: self st |}.
Proof.
  intros Hg Ha HD H. unfold init_updates in H.
  remember (if (optimizer hparams =? "sgd")%string
            then Some "GradientDescentOptimizer"
            else if (optimizer hparams =? "adam")%string
                 then Some "AdamOptimizer" else None) as o eqn:Eo.
  rewrite (bind_run _ _ _ _ _ (get_tensor_bound _ _ _ Ha)) in H.
  apply bind_Ok in H. destruct H as ([[gn ua] ts] & s1 & H1 & H).
  rewrite (train_params_eq _ _ _ _ gs Hg) in H1. cbv zeta in H1.
  rewrite <- Eo in H1.
  destruct o as [opt |]; [| simpl in H1; discriminate H1].
  destruct params_ae as [| pa params_ae]; [simpl in H1; discriminate H1|].
  inversion H1. subst gn ua ts s1. clear H1.
  unfold bind at 1 2 3 in H. simpl in H.
  rewrite (bind_run _ _ _ _ tD) in H
    by (apply get_tensor_bound; simpl; exact HD).
  apply bind_Ok in H. destruct H as ([[gn ud] ts] & s1 & H1 & H).
  rewrite (train_params_eq _ _ _ _ gs) in H1 by (simpl; exact Hg).
  cbv zeta in H1. rewrite <- Eo in H1.
  destruct params_D as [| pd params_D]; [simpl in H1; discriminate H1|].
  inversion H1. subst gn ud ts s1. clear H1.
  unfold bind, setattr in H. simpl in H. inversion H.
  do 6 eexists. reflexivity.
Qed.

Section TrainingModel.

Context {subclass : Subclass} {model_helper : ModelHelper}
        {disciplined : Disciplined subclass model_helper}.

Lemma new_model_TRAIN (g : Graph) (hparams : HParams)
  (it1 it2 it3 it4 : BatchedInput) (tab1 tab2 : string)
  (rtab1 rtab2 : option string) (scope : scope_arg) (st : State) :
  new_model g hparams TRAIN it1 it2 it3 it4 tab1 tab2 rtab1 rtab2 scope = Ok st ->
  exists (update_ae update_D : UpdateOp) (lr : rate),
    lookup "update_ae" (self st) = Some (VUpdate update_ae)
    /\ lookup "update_D" (self st) = Some (VUpdate update_D)
    /\ lookup "global_step" (self st)
       = Some (VVariable {| v_name := "Variable"; v_trainable := false |})
    /\ upd_global_step update_ae = Some "Variable"
    /\ upd_global_step update_D = Some "Variable"
    /\ upd_vars update_D = trainable_variables_scope_discriminator (graph st)
    /\ upd_vars update_ae
       = py_set_difference (trainable_variables (graph st))
           (trainable_variables_scope_discriminator (graph st))
    /\ lookup "learning_rate" (self st) = Some (VRate lr)
    /\ learning_rate_schedule hparams = Ok lr
    /\ forall sess : Session,
         train sess st = Ok (run_update update_D (run_update update_ae sess), st).
Proof.
  intros H. apply new_model_Ok in H.
  destruct H as (st1 & st2 & st3 & r1 & r2 & r3 & r4 & loss & ladv
                 & H1 & H2 & H3 & H4).
  apply init_attributes_Ok in H1.
  destruct H1 as (emb_src & emb_tgt & res_enc & res_dec & Hself & Hscope).
  eapply (build_graph_Ok hparams scope st1 st2 TRAIN (time_major hparams)
            (Size (Field it1 source_sequence_length)) (by_pass it1 it2 it3 it4))
    in H2; try (rewrite Hself; reflexivity).
  destruct H2 as (b1 & b2 & b3 & b4 & Hr & A & _).
  assert (L : forall a, a <> "output_layer_src" -> a <> "output_layer_tgt" ->
                        lookup a (self st2) = lookup a (self st1))
    by (intros; apply advances_lookup; assumption).
  assert (Hm2 : lookup "mode" (self st2) = Some (VMode TRAIN))
    by (rewrite L by discriminate; rewrite Hself; reflexivity).
  assert (Hi1 : lookup "iterator_s2s" (self st2) = Some (VIter it1))
    by (rewrite L by discriminate; rewrite Hself; reflexivity).
  assert (Hi2 : lookup "iterator_t2t" (self st2) = Some (VIter it2))
    by (rewrite L by discriminate; rewrite Hself; reflexivity).
  assert (Hb2 : lookup "batch_size" (self st2)
                = Some (VTensor (Size (Field it1 source_sequence_length))))
    by (rewrite L by discriminate; rewrite Hself; reflexivity).
  inversion Hr. subst r1 r2 r3 r4 loss ladv. clear Hr.
  rewrite (init_outputs_TRAIN _ _ _ _ _ _ _ _ _ it1 it2) in H3 by assumption.
  inversion H3. subst st3. clear H3.
  unfold init_training in H4.
  apply bind_Ok in H4. destruct H4 as (gs & s1 & K & H4).
  inversion K. subst gs s1. clear K.
  apply bind_Ok in H4. destruct H4 as ([] & s1 & K & H4).
  inversion K. subst s1. clear K.
  apply bind_Ok in H4. destruct H4 as (g' & s1 & K & H4).
  inversion K. subst g' s1. clear K. cbv zeta in H4.
  rewrite (bind_run _ _ _ _ TRAIN) in H4 by (apply get_mode_bound; exact Hm2).
  apply bind_Ok in H4. destruct H4 as ([] & s4 & K & H4).
  simpl mode_eqb in K. cbv iota in K.
  apply bind_Ok in K. destruct K as ([] & s5 & Klr & K).
  rewrite init_learning_rate_eq in Klr.
  destruct (_get_learning_rate_warmup _ _) as [lr1 | e] eqn:Ew; [| discriminate Klr].
  destruct (_get_learning_rate_decay _ _) as [lr | e] eqn:Ed; [| discriminate Klr].
  inversion Klr. subst s5. clear Klr.
  eapply (init_updates_Ok _ _ _ _ _ _ _
            {| v_name := "Variable"; v_trainable := false |}) in K;
    [| reflexivity | reflexivity | reflexivity].
  destruct K as (opt & v1 & v2 & v3 & v4 & v5 & ->).
  rewrite (bind_run _ _ _ _ TRAIN) in H4 by (apply get_mode_bound; exact Hm2).
  simpl in H4. unfold bind, ret, get_graph, setattr in H4. simpl in H4.
  inversion H4. subst st. clear H4.
  do 2 eexists. exists lr. simpl.
  repeat (split; [reflexivity|]).
  split.
  - unfold learning_rate_schedule. rewrite Ew. exact Ed.
  - intros sess. unfold train, get_mode.
    unfold bind, getattr, as_mode, as_update, py_assert, ret. simpl.
    repeat (progress (simpl; rewrite ?Hm2, ?Hb2)). reflexivity.
Qed.

End TrainingModel.

Lemma run_update_global_step (u : UpdateOp) (sess : Session) (gs : string) :
  upd_global_step u = Some gs ->
  int_value (run_update u sess) gs = wrap32 (int_value sess gs + 1).
Proof.
  intros H. unfold run_update. rewrite H. simpl. rewrite String.eqb_refl. reflexivity.
Qed.

Lemma wrap32_small (x : Z) : - 2147483648 <= x < 2147483648 -> wrap32 x = x.
Proof.
  intros H. unfold wrap32.
  change (2 ^ 31) with 2147483648. change (2 ^ 32) with 4294967296.
  rewrite Z.mod_small; lia.
Qed.

Section GlobalStep.

Context {subclass : Subclass} {model_helper : ModelHelper}
        {disciplined : Disciplined subclass model_helper}.

(** C2 (as the code has it). For a model in TRAIN mode both update
    operations were built by [train_params] with the shared global step:
    running [update_ae] adds one to it and running [update_D] adds one to
    it, so one call to [train] adds two (int32 arithmetic). *)
Theorem train_advances_global_step_by_two (g : Graph) (hparams : HParams)
  (it1 it2 it3 it4 : BatchedInput) (tab1 tab2 : string)
  (rtab1 rtab2 : option string) (scope : scope_arg) (st : State) :
  new_model g hparams TRAIN it1 it2 it3 it4 tab1 tab2 rtab1 rtab2 scope = Ok st ->
  exists (update_ae update_D : UpdateOp) (global_step : TfVariable),
    lookup "update_ae" (self st) = Some (VUpdate update_ae)
    /\ lookup "update_D" (self st) = Some (VUpdate update_D)
    /\ lookup "global_step" (self st) = Some (VVariable global_step)
    /\ upd_global_step update_ae = Some (v_name global_step)
    /\ upd_global_step update_D = Some (v_name global_step)
    /\ forall sess : Session,
         let step s := int_value s (v_name global_step) in
         step (run_update update_ae sess) = wrap32 (step sess + 1)
         /\ step (run_update update_D sess) = wrap32 (step sess + 1)
         /\ exists sess',
              train sess st = Ok (sess', st)
              /\ step sess' = wrap32 (wrap32 (step sess + 1) + 1)
              /\ (0 <= step sess < 2 ^ 31 - 2 -> step sess' = step sess + 2).
Proof.
  intros H. apply new_model_TRAIN in H.
  destruct H as (uae & uD & lr & Ha & HD & Hg & Ga & GD & _ & _ & _ & _ & Ht).
  exists uae, uD, {| v_name := "Variable"; v_trainable := false |}.
  repeat (split; [assumption|]).
  intros sess step. unfold step. simpl.
  split; [apply run_update_global_step; exact Ga|].
  split; [apply run_update_global_step; exact GD|].
  eexists. split; [apply Ht|].
  rewrite (run_update_global_step _ _ _ GD), (run_update_global_step _ _ _ Ga).
  split; [reflexivity|].
  intros Hr. change (2 ^ 31) with 2147483648 in Hr.
  rewrite (wrap32_small (int_value sess "Variable" + 1)) by lia.
  rewrite wrap32_small by lia. lia.
Qed.

End GlobalStep.

Lemma train_advances_global_step_by_two_tiny :
  exists (st : State) (sess' : Session),
    tiny_model TRAIN ScopeNone = Ok st
    /\ train fresh_session st = Ok (sess', st)
    /\ int_value sess' "Variable" = 2.
Proof.
  destruct (tiny_model_constructed TRAIN) as [st E].
  destruct (@train_advances_global_step_by_two
              tiny_subclass tiny_helper tiny_disciplined
              _ _ _ _ _ _ _ _ _ _ _ st E)
    as (uae & uD & gs & _ & _ & Hg & Ga & _ & Ht).
  destruct (Ht fresh_session) as (_ & _ & sess' & Hrun & _ & Hsmall).
  exists st, sess'. split; [exact E|]. split; [exact Hrun|].
  destruct (@new_model_TRAIN tiny_subclass tiny_helper tiny_disciplined
              _ _ _ _ _ _ _ _ _ _ _ st E)
    as (_ & _ & _ & _ & _ & Hg' & _).
  rewrite Hg in Hg'. inversion Hg'. subst gs.
  simpl in Hsmall. apply Hsmall. change (2 ^ 31) with 2147483648. lia.
Defined.

(** C2 (as stated) fails: starting from step 0, one call to [train] leaves
    the global step at 2, and [update_D] run on its own moves it from 0
    to 1. *)
Lemma train_increments_global_step_twice :
  exists (st : State) (update_D : UpdateOp) (sess' : Session),
    tiny_model TRAIN ScopeNone = Ok st
    /\ lookup "update_D" (self st) = Some (VUpdate update_D)
    /\ train fresh_session st = Ok (sess', st)
    /\ int_value fresh_session "Variable" = 0
    /\ int_value sess' "Variable" = 2
    /\ int_value sess' "Variable" <> int_value fresh_session "Variable" + 1
    /\ int_value (run_update update_D fresh_session) "Variable" = 1.
Proof.
  destruct (tiny_model_constructed TRAIN) as [st E].
  destruct (@new_model_TRAIN tiny_subclass tiny_helper tiny_disciplined
              _ _ _ _ _ _ _ _ _ _ _ st E)
    as (uae & uD & lr & _ & HD & _ & Ga & GD & _ & _ & _ & _ & Ht).
  exists st, uD, (run_update uD (run_update uae fresh_session)).
  split; [exact E|]. split; [exact HD|]. split; [apply Ht|].
  split; [reflexivity|].
  rewrite (run_update_global_step _ (run_update uae fresh_session) _ GD),
    (run_update_global_step _ fresh_session _ Ga),
    (run_update_global_step _ fresh_session _ GD).
  split; [reflexivity|]. split; [vm_compute; discriminate | reflexivity].
Qed.

(** ** The encoder of the basic subclass *)

Lemma interleave_from (fw bw : list structure) (m k : nat)
  (acc : list structure) (st : State) :
  List.length fw = (k + m)%nat -> List.length bw = (k + m)%nat ->
  Model.interleave (Tuple [Tuple fw; Tuple bw]) (seq k m) acc st
  = Ok ((acc ++ alternate (skipn k fw) (skipn k bw))%list, st).
Proof.
  revert k acc. induction m as [| m IH]; intros k acc Hf Hb.
  - simpl. rewrite !skipn_all2 by lia. simpl. rewrite app_nil_r. reflexivity.
  - simpl seq. simpl Model.interleave.
    destruct (nth_error fw k) as [f |] eqn:Ef;
      [| apply nth_error_None in Ef; lia].
    destruct (nth_error bw k) as [b |] eqn:Eb;
      [| apply nth_error_None in Eb; lia].
    unfold bind at 1. simpl. unfold bind at 1. simpl. rewrite Ef.
    unfold bind at 1. simpl. unfold bind at 1. simpl. rewrite Eb. simpl.
    rewrite IH by lia.
    rewrite <- app_assoc. simpl.
    assert (Sf : skipn k fw = f :: skipn (S k) fw).
    { clear - Ef. revert fw Ef. induction k; intros [| x fw] E; simpl in *;
        try discriminate; [inversion E; reflexivity | auto]. }
    assert (Sb : skipn k bw = b :: skipn (S k) bw).
    { clear - Eb. revert bw Eb. induction k; intros [| x bw] E; simpl in *;
        try discriminate; [inversion E; reflexivity | auto]. }
    rewrite Sf, Sb. reflexivity.
Qed.

(** The loop of the "bi" branch: with [n] forward and [n] backward layer
    states it returns them in the order fwd_0, bwd_0, fwd_1, bwd_1, ... *)
Lemma interleave_alternates (fw bw : list structure) (n : nat) (st : State) :
  List.length fw = n -> List.length bw = n ->
  Model.interleave (Tuple [Tuple fw; Tuple bw]) (seq 0 n) [] st
  = Ok (alternate fw bw, st).
Proof. intros Hf Hb. apply (interleave_from fw bw n 0 [] st); assumption. Qed.

(** Reached with its embedding bound, the "bi" branch does what it is
    written for: four encoder layers give [fwd0, bwd0, fwd1, bwd1] and two
    give the raw pair of the recurrence. *)
Example bi_encoder_state_when_reached :
  (exists outputs,
     @Model._build_encoder tiny_rnn
       (small_hparams "bi" 4 false "t2t" "luong5" 1) (Iterator 0) (Var "embedding_src")
       (encoder_ready 4)
     = Ok ((outputs,
            Tuple [Leaf (Op "fw" [Const 0]); Leaf (Op "bw" [Const 0]);
                   Leaf (Op "fw" [Const 1]); Leaf (Op "bw" [Const 1])]),
           encoder_ready 4))
  /\ (exists outputs,
        @Model._build_encoder tiny_rnn
          (small_hparams "bi" 2 false "t2t" "luong5" 1) (Iterator 0) (Var "embedding_src")
          (encoder_ready 2)
        = Ok ((outputs, Tuple [Leaf (Op "fw" [Const 0]); Leaf (Op "bw" [Const 0])]),
              encoder_ready 2)).
Proof. split; eexists; vm_compute; reflexivity. Qed.

(** [Model._build_encoder] reads [self.embedding_encoder] (not its
    [embedding] argument) before it looks at [encoder_type]. *)
Lemma Model_build_encoder_unbound {rnn : RNNLibrary} (hparams : HParams)
  (iterator : BatchedInput) (embedding : tensor) (st : State)
  (layers residual : Z) (time_major : bool) :
  lookup "num_encoder_layers" (self st) = Some (VInt layers) ->
  lookup "num_encoder_residual_layers" (self st) = Some (VInt residual) ->
  lookup "time_major" (self st) = Some (VBool time_major) ->
  lookup "embedding_encoder" (self st) = None ->
  Model._build_encoder hparams iterator embedding st
  = Raise (AttributeError "embedding_encoder").
Proof.
  intros Hl Hr Ht He. unfold Model._build_encoder, get_int, get_bool, get_tensor.
  unfold bind at 1. unfold bind at 1. rewrite (getattr_bound _ _ _ Hl). simpl.
  unfold bind at 1. unfold bind at 1. rewrite (getattr_bound _ _ _ Hr). simpl.
  unfold bind at 1. unfold bind at 1. rewrite (getattr_bound _ _ _ Ht). simpl.
  unfold with_variable_scope, bind, get_graph, put_graph, getattr. simpl.
  rewrite He. reflexivity.
Qed.

Lemma bind_raise {A B} (m : M A) (k : A -> M B) (st : State) (e : exn) :
  m st = Raise e -> bind m k st = Raise e.
Proof. intros H. unfold bind. rewrite H. reflexivity. Qed.

Lemma with_scope_or_raise {A} (scope : scope_arg) (default : string)
  (body : M A) (st : State) (e : exn) :
  body (inside (entered_scope scope default (g_scope (graph st)))
               (g_reuse (graph st)) st) = Raise e ->
  with_scope_or scope default body st = Raise e.
Proof.
  intros H. unfold inside in H.
  destruct scope; simpl in *;
    unfold with_variable_scope, bind, get_graph, put_graph; simpl;
    rewrite H; reflexivity.
Qed.

(** No [Model] is ever constructed: whenever the constructor gets as far as
    building the graph, the first encoder raises the attribute error. *)
Lemma Model_never_constructed {rnn : RNNLibrary} {model_helper : ModelHelper}
  (g : Graph) (hparams : HParams) (mode : ModeKeys)
  (it1 it2 it3 it4 : BatchedInput) (tab1 tab2 : string)
  (rtab1 rtab2 : option string) (scope : scope_arg) :
  (forall hp sc, framed (create_emb_for_encoder_and_decoder hp sc)) ->
  match init_attributes hparams mode it1 it2 it3 it4 tab1 tab2 scope
          {| graph := g; self := [] |} with
  | Ok _ =>
      @new_model (@Model_subclass rnn) model_helper g hparams mode
        it1 it2 it3 it4 tab1 tab2 rtab1 rtab2 scope
      = Raise (AttributeError "embedding_encoder")
  | Raise e =>
      @new_model (@Model_subclass rnn) model_helper g hparams mode
        it1 it2 it3 it4 tab1 tab2 rtab1 rtab2 scope
      = Raise e
  end.
Proof.
  intros Hemb. unfold new_model, __init__.
  destruct (init_attributes _ _ _ _ _ _ _ _ _ _) as [[[] st1] | e] eqn:E.
  - rewrite (bind_run _ _ _ _ _ E).
    apply (init_attributes_self _ _ _ _ _ _ _ _ _ _ _ Hemb) in E.
    destruct E as (emb_src & emb_tgt & res_enc & res_dec & Hself & _).
    rewrite bind_raise with (e := AttributeError "embedding_encoder");
      [reflexivity|].
    unfold build_graph. apply with_scope_or_raise. apply bind_raise.
    apply with_scope_or_raise. unfold build_graph_auto.
    rewrite (bind_run _ _ _ _ it1)
      by (apply get_iter_bound; simpl; rewrite Hself; reflexivity).
    rewrite (bind_run _ _ _ _ emb_src)
      by (apply get_tensor_bound; simpl; rewrite Hself; reflexivity).
    apply bind_raise. simpl.
    apply (Model_build_encoder_unbound _ _ _ _ (num_encoder_layers hparams)
             res_enc (time_major hparams));
      simpl; rewrite Hself; reflexivity.
  - rewrite (bind_raise _ _ _ _ E). reflexivity.
Qed.

(** C7 (the code at a failing input). A [Model] with [encoder_type="bi"]
    and four encoder layers is never constructed: the first call of
    [_build_encoder] raises the attribute error for [embedding_encoder],
    which no code binds, so no [finalState] is returned. *)
Theorem Model_bi_encoder_attribute_error :
  @new_model (@Model_subclass tiny_rnn) tiny_helper empty_graph
    (small_hparams "bi" 4 false "t2t" "luong5" 1) TRAIN
    (Iterator 0) (Iterator 1) (Iterator 2) (Iterator 3)
    "src_vocab" "tgt_vocab" (Some "reverse_src_vocab") (Some "reverse_tgt_vocab")
    ScopeNone
  = Raise (AttributeError "embedding_encoder").
Proof. vm_compute. reflexivity. Qed.

(** ** Configuration errors *)

Lemma bad_schedule_raises (hparams : HParams) :
  bad_schedule hparams = true ->
  exists msg, learning_rate_schedule hparams = Raise (ValueError msg).
Proof.
  unfold bad_schedule, learning_rate_schedule, _get_learning_rate_warmup,
    _get_learning_rate_decay, decay_plan_of.
  destruct (warmup_scheme hparams =? "t2t")%string; cbn [negb orb andb];
    [| eauto].
  destruct (existsb (String.eqb (decay_scheme hparams)) _); cbn [negb orb andb];
    [discriminate|].
  destruct (decay_scheme hparams =? "")%string; cbn [negb orb andb];
    [discriminate | eauto].
Qed.

Lemma init_learning_rate_raises (hparams : HParams) (st : State) (e : exn) :
  learning_rate_schedule hparams = Raise e ->
  init_learning_rate hparams st = Raise e.
Proof.
  unfold learning_rate_schedule. rewrite init_learning_rate_eq.
  destruct (_get_learning_rate_warmup _ _) as [lr1 | e1];
    [| intros H; inversion H; reflexivity].
  destruct (_get_learning_rate_decay _ _) as [lr | e2];
    [discriminate | intros H; inversion H; reflexivity].
Qed.

Lemma init_training_raises (hparams : HParams) (st : State) (e : exn) :
  lookup "mode" (self st) = Some (VMode TRAIN) ->
  learning_rate_schedule hparams = Raise e ->
  init_training hparams st = Raise e.
Proof.
  intros Hm Hs. unfold init_training.
  erewrite bind_run
    by (cbv [new_global_step bind get_graph put_graph ret]; reflexivity).
  cbv beta.
  erewrite bind_run by (cbv [setattr]; reflexivity). cbv beta.
  erewrite bind_run by (cbv [get_graph]; reflexivity). cbv beta zeta.
  rewrite (bind_run _ _ _ _ TRAIN) by (apply get_mode_bound; simpl; exact Hm).
  apply bind_raise. simpl mode_eqb. cbv iota.
  apply bind_raise. apply init_learning_rate_raises. exact Hs.
Qed.

Lemma Model_build_decoder_cell_attention {rnn : RNNLibrary} (hparams : HParams)
  (encoder_outputs : tensor) (encoder_state : structure) (lengths : tensor)
  (st : State) :
  attention hparams = true ->
  Model._build_decoder_cell hparams encoder_outputs encoder_state lengths st
  = Raise (ValueError "BasicModel doesn't support attention.").
Proof. intros H. unfold Model._build_decoder_cell. rewrite H. reflexivity. Qed.

Lemma Model_build_encoder_unknown_type {rnn : RNNLibrary} (hparams : HParams)
  (iterator : BatchedInput) (embedding emb : tensor) (st : State)
  (layers residual : Z) (time_major : bool) :
  lookup "num_encoder_layers" (self st) = Some (VInt layers) ->
  lookup "num_encoder_residual_layers" (self st) = Some (VInt residual) ->
  lookup "time_major" (self st) = Some (VBool time_major) ->
  lookup "embedding_encoder" (self st) = Some (VTensor emb) ->
  (encoder_type hparams =? "uni")%string = false ->
  (encoder_type hparams =? "bi")%string = false ->
  Model._build_encoder hparams iterator embedding st
  = Raise (ValueError ("Unknown encoder_type " ++ encoder_type hparams)).
Proof.
  intros Hl Hr Ht He Hu Hb. unfold Model._build_encoder, get_int, get_bool, get_tensor.
  unfold bind at 1. unfold bind at 1. rewrite (getattr_bound _ _ _ Hl). simpl.
  unfold bind at 1. unfold bind at 1. rewrite (getattr_bound _ _ _ Hr). simpl.
  unfold bind at 1. unfold bind at 1. rewrite (getattr_bound _ _ _ Ht). simpl.
  unfold with_variable_scope, bind, get_graph, put_graph, getattr. simpl.
  rewrite He. simpl. rewrite Hu, Hb. reflexivity.
Qed.

Section ConfigurationErrors.

Context {subclass : Subclass} {model_helper : ModelHelper}
        {disciplined : Disciplined subclass model_helper}.

(** C8 (as the code has it). In TRAIN mode a warm-up scheme other than
    "t2t", or a decay scheme that is neither empty nor luong5, luong10 or
    luong234, lets no model be constructed: once the graph is built and its
    results are bound, the constructor raises [ValueError].  (EVAL and INFER
    models build no schedule.)  The decoder cell of the basic subclass
    raises [ValueError] when [attention] is true, and its encoder, once its
    embedding is looked up, raises [ValueError] for an encoder type other
    than "uni" and "bi". *)
Theorem configuration_errors (g : Graph) (hparams : HParams)
  (it1 it2 it3 it4 : BatchedInput) (tab1 tab2 : string)
  (rtab1 rtab2 : option string) (scope : scope_arg) :
  bad_schedule hparams = true ->
  (forall st,
     new_model g hparams TRAIN it1 it2 it3 it4 tab1 tab2 rtab1 rtab2 scope <> Ok st)
  /\ (forall st1 st2 st3 r1 r2 r3 r4 loss ladv,
        init_attributes hparams TRAIN it1 it2 it3 it4 tab1 tab2 scope
          {| graph := g; self := [] |} = Ok (tt, st1) ->
        build_graph hparams scope st1 = Ok ((r1, r2, r3, r4, loss, ladv), st2) ->
        init_outputs r1 r2 r3 r4 loss ladv rtab1 rtab2 st2 = Ok (tt, st3) ->
        exists msg,
          learning_rate_schedule hparams = Raise (ValueError msg)
          /\ new_model g hparams TRAIN it1 it2 it3 it4 tab1 tab2 rtab1 rtab2 scope
             = Raise (ValueError msg))
  /\ (forall (rnn : RNNLibrary) hp outputs state lengths st,
        attention hp = true ->
        is_ValueError (Model._build_decoder_cell hp outputs state lengths st) = true)
  /\ (forall (rnn : RNNLibrary) hp iterator embedding emb st layers residual tm,
        lookup "num_encoder_layers" (self st) = Some (VInt layers) ->
        lookup "num_encoder_residual_layers" (self st) = Some (VInt residual) ->
        lookup "time_major" (self st) = Some (VBool tm) ->
        lookup "embedding_encoder" (self st) = Some (VTensor emb) ->
        (encoder_type hp =? "uni")%string = false ->
        (encoder_type hp =? "bi")%string = false ->
        is_ValueError (Model._build_encoder hp iterator embedding st) = true).
Proof.
  intros Hbad. destruct (bad_schedule_raises hparams Hbad) as [msg Hs].
  split; [| split; [| split]].
  - intros st H. apply new_model_TRAIN in H.
    destruct H as (_ & _ & lr & _ & _ & _ & _ & _ & _ & _ & _ & Hlr & _).
    rewrite Hs in Hlr. discriminate.
  - intros st1 st2 st3 r1 r2 r3 r4 loss ladv H1 H2 H3.
    exists msg. split; [exact Hs|].
    assert (Hm : lookup "mode" (self st3) = Some (VMode TRAIN)).
    { assert (Hnot : ~ In "mode" outputs_attributes)
        by (unfold outputs_attributes; simpl; intuition discriminate).
      rewrite (keeps_init_outputs "mode" r1 r2 r3 r4 loss ladv rtab1 rtab2 Hnot
                 _ _ _ H3).
      pose proof (init_attributes_Ok _ _ _ _ _ _ _ _ _ _ _ H1)
        as (emb_src & emb_tgt & res_enc & res_dec & Hself & _).
      pose proof H2 as H2'.
      eapply (build_graph_Ok hparams scope st1 st2 TRAIN (time_major hparams)
                (Size (Field it1 source_sequence_length)) (by_pass it1 it2 it3 it4))
        in H2'; try (rewrite Hself; reflexivity).
      destruct H2' as (_ & _ & _ & _ & _ & A & _).
      rewrite (advances_lookup _ _ "mode" A) by discriminate.
      rewrite Hself. reflexivity. }
    unfold new_model, __init__.
    rewrite (bind_run _ _ _ _ _ H1). cbv beta iota.
    rewrite (bind_run _ _ _ _ _ H2). cbv beta iota.
    rewrite (bind_run _ _ _ _ _ H3). cbv beta iota.
    rewrite (init_training_raises hparams st3 _ Hm Hs). reflexivity.
  - intros rnn hp outputs state lengths st Ha.
    rewrite Model_build_decoder_cell_attention by exact Ha. reflexivity.
  - intros rnn hp iterator embedding emb st layers residual tm Hl Hr Ht He Hu Hb.
    rewrite (Model_build_encoder_unknown_type hp iterator embedding emb st
               layers residual tm) by assumption.
    reflexivity.
Qed.

End ConfigurationErrors.

Lemma configuration_errors_tiny :
  bad_schedule (small_hparams "uni" 2 false "t2t" "cosine" 1) = true
  /\ is_Ok (@new_model tiny_subclass tiny_helper empty_graph
              (small_hparams "uni" 2 false "t2t" "cosine" 1) TRAIN
              (Iterator 0) (Iterator 1) (Iterator 2) (Iterator 3)
              "src_vocab" "tgt_vocab" None None ScopeNone) = false.
Proof.
  split; [reflexivity|].
  destruct (@new_model tiny_subclass tiny_helper empty_graph
              (small_hparams "uni" 2 false "t2t" "cosine" 1) TRAIN
              (Iterator 0) (Iterator 1) (Iterator 2) (Iterator 3)
              "src_vocab" "tgt_vocab" None None ScopeNone) as [st | e] eqn:E;
    [| reflexivity].
  exfalso.
  exact (proj1 (@configuration_errors tiny_subclass tiny_helper tiny_disciplined
                  empty_graph (small_hparams "uni" 2 false "t2t" "cosine" 1)
                  (Iterator 0) (Iterator 1) (Iterator 2) (Iterator 3)
                  "src_vocab" "tgt_vocab" None None ScopeNone eq_refl) st E).
Defined.

(** C8 (as stated) fails outside TRAIN mode: with an unknown warm-up scheme
    and an unknown decay scheme an EVAL model and an INFER model are
    constructed all the same. *)
Lemma unknown_schemes_accepted_outside_train :
  let hparams := small_hparams "uni" 2 false "linear" "cosine" 1 in
  bad_schedule hparams = true
  /\ (warmup_scheme hparams =? "t2t")%string = false
  /\ is_Ok (@new_model tiny_subclass tiny_helper empty_graph hparams EVAL
              (Iterator 0) (Iterator 1) (Iterator 2) (Iterator 3)
              "src_vocab" "tgt_vocab" None None ScopeNone) = true
  /\ is_Ok (@new_model tiny_subclass tiny_helper empty_graph hparams INFER
              (Iterator 0) (Iterator 1) (Iterator 2) (Iterator 3)
              "src_vocab" "tgt_vocab" (Some "reverse_src_vocab")
              (Some "reverse_tgt_vocab") ScopeNone) = true.
Proof. cbv zeta. repeat split; vm_compute; reflexivity. Qed.

(** The errors as a caller sees them. *)
Example configuration_errors_seen :
  @new_model tiny_subclass tiny_helper empty_graph
    (small_hparams "uni" 2 false "linear" "luong5" 1) TRAIN
    (Iterator 0) (Iterator 1) (Iterator 2) (Iterator 3)
    "src_vocab" "tgt_vocab" None None ScopeNone
  = Raise (ValueError "Unknown warmup scheme linear")
  /\ @new_model tiny_subclass tiny_helper empty_graph
       (small_hparams "uni" 2 false "t2t" "cosine" 1) TRAIN
       (Iterator 0) (Iterator 1) (Iterator 2) (Iterator 3)
       "src_vocab" "tgt_vocab" None None ScopeNone
     = Raise (ValueError "Unknown decay scheme cosine")
  /\ @new_model basic_decoder_subclass tiny_helper empty_graph
       (small_hparams "uni" 2 true "t2t" "luong5" 1) EVAL
       (Iterator 0) (Iterator 1) (Iterator 2) (Iterator 3)
       "src_vocab" "tgt_vocab" None None ScopeNone
     = Raise (ValueError "BasicModel doesn't support attention.")
  /\ @Model._build_encoder tiny_rnn
       (small_hparams "tri" 2 false "t2t" "luong5" 1) (Iterator 0)
       (Var "embedding_src") (encoder_ready 2)
     = Raise (ValueError "Unknown encoder_type tri").
Proof. repeat split; vm_compute; reflexivity. Qed.

(** ** The warm-up ramp and the decay staircase *)

Lemma ln_001_neg : (ln 0.01 < 0)%R.
Proof. rewrite <- ln_1. apply ln_increasing; lra. Qed.

Lemma warmup_factor_closed (w x : R) :
  (w <> 0)%R -> Rpower (exp (ln 0.01 / w)) x = exp (x / w * ln 0.01).
Proof.
  intros Hw. unfold Rpower. rewrite ln_exp. f_equal. field. exact Hw.
Qed.

Lemma warmup_t2t_value (hparams : HParams) (base_rate : R) (step : Z) :
  warmup_scheme hparams = "t2t" ->
  0 < warmup_steps hparams < 2 ^ 31 ->
  0 <= step ->
  exists warm : rate,
    _get_learning_rate_warmup hparams (fun _ => Some base_rate) = Ok warm
    /\ warm step
       = Some (if step <? warmup_steps hparams
               then exp (IZR (warmup_steps hparams - step)
                         / IZR (warmup_steps hparams) * ln 0.01) * base_rate
               else base_rate)%R.
Proof.
  intros Hs Hw Hstep. unfold _get_learning_rate_warmup. rewrite Hs. simpl.
  eexists. split; [reflexivity|]. cbv beta.
  destruct (step <? warmup_steps hparams) eqn:E; [| reflexivity].
  apply Z.ltb_lt in E.
  replace (warmup_steps hparams =? 0) with false by (symmetry; apply Z.eqb_neq; lia).
  simpl. rewrite wrap32_small by (change (2 ^ 31) with 2147483648 in Hw; lia).
  rewrite warmup_factor_closed by (apply not_0_IZR; lia). reflexivity.
Qed.

(** X1. With the "t2t" scheme and [w] warm-up steps the rate at a step
    below [w] is [base_rate * 0.01 ^ ((w - step) / w)]: it starts at
    [base_rate / 100], stays below [base_rate], never decreases from one step
    to a later one, and from step [w] on it is [base_rate]. *)
Theorem warmup_t2t_ramp (hparams : HParams) (base_rate : R) :
  warmup_scheme hparams = "t2t" ->
  0 < warmup_steps hparams < 2 ^ 31 ->
  (0 < base_rate)%R ->
  exists warm : rate,
    _get_learning_rate_warmup hparams (fun _ => Some base_rate) = Ok warm
    /\ warm 0 = Some (0.01 * base_rate)%R
    /\ (forall step, 0 <= step < warmup_steps hparams ->
          warm step
          = Some (Rpower 0.01 (IZR (warmup_steps hparams - step)
                               / IZR (warmup_steps hparams)) * base_rate)%R)
    /\ (forall step, warmup_steps hparams <= step -> warm step = Some base_rate)
    /\ (forall step r, 0 <= step < warmup_steps hparams -> warm step = Some r ->
          (0.01 * base_rate <= r < base_rate)%R)
    /\ (forall s1 s2 r1 r2, 0 <= s1 <= s2 ->
          warm s1 = Some r1 -> warm s2 = Some r2 -> (r1 <= r2)%R).
Proof.
  intros Hs Hw Hb.
  destruct (warmup_t2t_value hparams base_rate 0 Hs Hw ltac:(lia)) as (warm & Hwarm & _).
  assert (V : forall step, 0 <= step ->
            warm step
            = Some (if step <? warmup_steps hparams
                    then exp (IZR (warmup_steps hparams - step)
                              / IZR (warmup_steps hparams) * ln 0.01) * base_rate
                    else base_rate)%R).
  { intros step Hstep.
    destruct (warmup_t2t_value hparams base_rate step Hs Hw Hstep) as (warm' & Hw' & V).
    rewrite Hwarm in Hw'. inversion Hw'. subst warm'. exact V. }
  set (w := warmup_steps hparams) in *.
  assert (HwR : (0 < IZR w)%R) by (apply IZR_lt; lia).
  assert (Below : forall step, 0 <= step < w ->
            (0.01 <= exp (IZR (w - step) / IZR w * ln 0.01) < 1)%R).
  { intros step Hstep.
    assert (Hq : (0 < IZR (w - step) / IZR w <= 1)%R).
    { split.
      - apply Rdiv_lt_0_compat; [apply IZR_lt; lia | exact HwR].
      - apply Rmult_le_reg_r with (IZR w); [exact HwR|].
        unfold Rdiv. rewrite Rmult_assoc, Rinv_l by lra.
        rewrite Rmult_1_r, Rmult_1_l. apply IZR_le. lia. }
    pose proof ln_001_neg as Hln. split.
    - rewrite <- (exp_ln 0.01) at 1 by lra.
      destruct (Req_dec (IZR (w - step) / IZR w) 1) as [E | NE].
      + rewrite E, Rmult_1_l. lra.
      + left. apply exp_increasing. nra.
    - rewrite <- exp_0. apply exp_increasing. nra. }
  exists warm. split; [exact Hwarm|].
  split; [| split; [| split; [| split]]].
  - rewrite V by lia. replace (0 <? w) with true by (symmetry; apply Z.ltb_lt; lia).
    f_equal. rewrite Z.sub_0_r. unfold Rdiv. rewrite Rinv_r by lra.
    rewrite Rmult_1_l, exp_ln by lra. reflexivity.
  - intros step Hstep. rewrite V by lia.
    replace (step <? w) with true by (symmetry; apply Z.ltb_lt; lia).
    reflexivity.
  - intros step Hstep. rewrite V by lia.
    replace (step <? w) with false by (symmetry; apply Z.ltb_ge; lia).
    reflexivity.
  - intros step r Hstep Hr. rewrite V in Hr by lia.
    replace (step <? w) with true in Hr by (symmetry; apply Z.ltb_lt; lia).
    inversion Hr. specialize (Below step Hstep). nra.
  - intros s1 s2 r1 r2 Hs12 H1 H2. rewrite V in H1, H2 by lia.
    inversion H1. inversion H2. clear H1 H2.
    destruct (s2 <? w) eqn:E2.
    + apply Z.ltb_lt in E2.
      replace (s1 <? w) with true by (symmetry; apply Z.ltb_lt; lia).
      apply Rmult_le_compat_r; [lra|].
      destruct (Z.eq_dec s1 s2) as [-> | Hne]; [lra|].
      left. apply exp_increasing.
      assert (Hq : (IZR (w - s2) / IZR w < IZR (w - s1) / IZR w)%R).
      { apply Rmult_lt_compat_r; [apply Rinv_0_lt_compat; exact HwR|].
        apply IZR_lt. lia. }
      pose proof ln_001_neg. nra.
    + destruct (s1 <? w) eqn:E1; [| lra].
      apply Z.ltb_lt in E1.
      assert (0 <= s1 < w) as Hs1 by lia. specialize (Below s1 Hs1). nra.
Qed.

Lemma warmup_t2t_ramp_witness :
  exists warm : rate,
    _get_learning_rate_warmup (schedule_hparams 4 1000 "luong5" 1)
      (fun _ => Some 1%R) = Ok warm
    /\ warm 0 = Some (0.01 * 1)%R
    /\ warm 4 = Some 1%R.
Proof.
  destruct (warmup_t2t_ramp (schedule_hparams 4 1000 "luong5" 1) 1
              eq_refl ltac:(simpl; lia) ltac:(lra))
    as (warm & H & H0 & _ & Hw & _).
  exists warm. split; [exact H|]. split; [exact H0|].
  apply Hw. simpl. lia.
Defined.

Lemma py_int_div_nonneg (a b : Z) : 0 <= a -> 0 < b -> py_int_div a b = a / b.
Proof. intros Ha Hb. unfold py_int_div. apply Z.quot_div_nonneg; lia. Qed.

Lemma luong_plan (hparams : HParams) :
  In (decay_scheme hparams) ["luong5"; "luong10"; "luong234"] ->
  let n := num_train_steps hparams in
  let start := luong_start (decay_scheme hparams) n in
  decay_plan_of hparams
  = Ok {| start_decay_step := start;
          decay_steps :=
            py_int_div (n - start) (luong_decay_times (decay_scheme hparams));
          decay_factor := 0.5 |}.
Proof.
  intros Hin. unfold decay_plan_of, luong_start, luong_decay_times.
  simpl in Hin. destruct Hin as [E | [E | [E | []]]]; rewrite <- E; reflexivity.
Qed.

Lemma luong_schedule (hparams : HParams) :
  warmup_scheme hparams = "t2t" ->
  In (decay_scheme hparams) ["luong5"; "luong10"; "luong234"] ->
  let n := num_train_steps hparams in
  let start := luong_start (decay_scheme hparams) n in
  let ds := py_int_div (n - start) (luong_decay_times (decay_scheme hparams)) in
  exists lr : rate,
    learning_rate_schedule hparams = Ok lr
    /\ forall step, warmup_steps hparams <= step ->
         lr step = if step <? start then Some (learning_rate hparams)
                   else exponential_decay (learning_rate hparams)
                          (wrap32 (step - start)) ds 0.5.
Proof.
  intros Hs Hin n start ds.
  unfold learning_rate_schedule, _get_learning_rate_warmup, _get_learning_rate_decay.
  rewrite Hs, (luong_plan hparams Hin). simpl.
  eexists. split; [reflexivity|]. intros step Hstep. cbv beta.
  replace (step <? warmup_steps hparams) with false
    by (symmetry; apply Z.ltb_ge; lia).
  reflexivity.
Qed.

Lemma luong_start_bounds (scheme : string) (n : Z) :
  0 <= n -> 0 <= luong_start scheme n <= n.
Proof.
  intros Hn. unfold luong_start.
  destruct (scheme =? "luong234")%string.
  - rewrite py_int_div_nonneg by lia. split.
    + apply Z.div_pos; lia.
    + apply Z.div_le_upper_bound; lia.
  - rewrite py_int_div_nonneg by lia. split.
    + apply Z.div_pos; lia.
    + apply Z.div_le_upper_bound; lia.
Qed.

(** X2. The "luong" schemes: the rate keeps its base value from the end of
    the warm-up to [start_decay_step] (half of the training steps, two thirds
    for "luong234"), and from there it is halved once every [decay_steps]
    steps, [decay_steps] being the remaining steps divided by 5, 10 or 4:
    after [k] such periods it is [base_rate / 2^k]. *)
Theorem luong_staircase (hparams : HParams) :
  warmup_scheme hparams = "t2t" ->
  In (decay_scheme hparams) ["luong5"; "luong10"; "luong234"] ->
  let n := num_train_steps hparams in
  let start := luong_start (decay_scheme hparams) n in
  let ds := (n - start) / luong_decay_times (decay_scheme hparams) in
  let base_rate := learning_rate hparams in
  0 <= n ->
  warmup_steps hparams <= start ->
  0 < ds ->
  exists (plan : decay_plan) (lr : rate),
    decay_plan_of hparams = Ok plan
    /\ start_decay_step plan = start
    /\ decay_steps plan = ds
    /\ learning_rate_schedule hparams = Ok lr
    /\ (forall step, warmup_steps hparams <= step < start ->
          lr step = Some base_rate)
    /\ (forall step, start <= step < 2 ^ 31 ->
          lr step = Some (base_rate * powerRZ 0.5 ((step - start) / ds))%R)
    /\ (forall k, 0 <= k -> start + k * ds < 2 ^ 31 ->
          lr (start + k * ds) = Some (base_rate / 2 ^ Z.to_nat k)%R).
Proof.
  intros Hs Hin n start ds base_rate Hn Hw Hds.
  pose proof (luong_start_bounds (decay_scheme hparams) n Hn) as Hst.
  fold start in Hst.
  assert (Ht : 0 < luong_decay_times (decay_scheme hparams)).
  { unfold luong_decay_times.
    destruct (_ =? "luong5")%string; [lia|]. destruct (_ =? "luong10")%string; lia. }
  assert (Eds : py_int_div (n - start) (luong_decay_times (decay_scheme hparams)) = ds)
    by (apply py_int_div_nonneg; lia).
  destruct (luong_schedule hparams Hs Hin) as (lr & Hlr & V).
  fold n in V. fold start in V. rewrite Eds in V.
  assert (Stair : forall step, start <= step < 2 ^ 31 ->
            lr step = Some (base_rate * powerRZ 0.5 ((step - start) / ds))%R).
  { intros step Hstep. rewrite V by lia.
    replace (step <? start) with false by (symmetry; apply Z.ltb_ge; lia).
    unfold exponential_decay.
    replace (ds =? 0) with false by (symmetry; apply Z.eqb_neq; lia).
    rewrite wrap32_small by (change (2 ^ 31) with 2147483648 in Hstep; lia).
    reflexivity. }
  eexists. exists lr. split; [apply (luong_plan hparams Hin)|].
  split; [reflexivity|]. split; [exact Eds|]. split; [exact Hlr|].
  split; [| split].
  - intros step Hstep. rewrite V by lia.
    replace (step <? start) with true by (symmetry; apply Z.ltb_lt; lia).
    reflexivity.
  - exact Stair.
  - intros k Hk Hlim. rewrite Stair by nia. f_equal.
    replace ((start + k * ds - start) / ds) with k
      by (replace (start + k * ds - start) with (k * ds) by lia;
          symmetry; apply Z.div_mul; lia).
    rewrite <- (Z2Nat.id k) at 1 by lia. rewrite <- pow_powerRZ.
    unfold Rdiv. f_equal.
    replace 0.5%R with (/ 2)%R by lra. rewrite pow_inv. reflexivity.
Qed.

Lemma luong_staircase_witness :
  exists lr : rate,
    learning_rate_schedule (schedule_hparams 100 1000 "luong10" 1) = Ok lr
    /\ lr (500 + 10 * 50) = Some (1 / 2 ^ 10)%R.
Proof.
  destruct (luong_staircase (schedule_hparams 100 1000 "luong10" 1)
              eq_refl ltac:(simpl; tauto) ltac:(simpl; lia)
              ltac:(vm_compute; discriminate) ltac:(vm_compute; reflexivity))
    as (plan & lr & _ & _ & _ & Hlr & _ & _ & Hk).
  exists lr. split; [exact Hlr|].
  exact (Hk 10 ltac:(lia) ltac:(vm_compute; reflexivity)).
Defined.

(** X3. Too few training steps for a "luong" scheme (fewer steps left after
    [start_decay_step] than halvings to spread over them) give
    [decay_steps = 0]: the rate then has no finite value (NaN) at
    [start_decay_step] and is 0 at every later step. *)
Theorem luong_too_few_steps (hparams : HParams) :
  warmup_scheme hparams = "t2t" ->
  In (decay_scheme hparams) ["luong5"; "luong10"; "luong234"] ->
  let n := num_train_steps hparams in
  let start := luong_start (decay_scheme hparams) n in
  0 <= n ->
  warmup_steps hparams <= start ->
  n - start < luong_decay_times (decay_scheme hparams) ->
  exists (plan : decay_plan) (lr : rate),
    decay_plan_of hparams = Ok plan
    /\ decay_steps plan = 0
    /\ learning_rate_schedule hparams = Ok lr
    /\ lr start = None
    /\ (forall step, start < step < 2 ^ 31 -> lr step = Some 0%R).
Proof.
  intros Hs Hin n start Hn Hw Hfew.
  pose proof (luong_start_bounds (decay_scheme hparams) n Hn) as Hst.
  fold start in Hst.
  assert (Eds : py_int_div (n - start) (luong_decay_times (decay_scheme hparams)) = 0).
  { rewrite py_int_div_nonneg by lia. apply Z.div_small. lia. }
  destruct (luong_schedule hparams Hs Hin) as (lr & Hlr & V).
  fold n in V. fold start in V. rewrite Eds in V.
  eexists. exists lr. split; [apply (luong_plan hparams Hin)|].
  split; [exact Eds|]. split; [exact Hlr|]. split.
  - rewrite V by lia. rewrite Z.ltb_irrefl, Z.sub_diag.
    unfold exponential_decay. simpl.
    destruct (Req_EM_T 0.5 1) as [E | _]; [lra | reflexivity].
  - intros step Hstep. rewrite V by lia.
    replace (step <? start) with false by (symmetry; apply Z.ltb_ge; lia).
    rewrite wrap32_small by (change (2 ^ 31) with 2147483648 in Hstep; lia).
    unfold exponential_decay. simpl.
    destruct (Req_EM_T 0.5 1) as [E | _]; [lra|].
    replace (0 <? step - start) with true by (symmetry; apply Z.ltb_lt; lia).
    destruct (Rlt_dec 0.5 1) as [_ | N]; [| lra].
    destruct (Rle_dec 0 0.5) as [_ | N]; [| lra].
    simpl. f_equal. ring.
Qed.

Lemma luong_too_few_steps_witness :
  exists lr : rate,
    learning_rate_schedule (schedule_hparams 0 5 "luong5" 1) = Ok lr
    /\ lr 2 = None
    /\ lr 3 = Some 0%R.
Proof.
  destruct (luong_too_few_steps (schedule_hparams 0 5 "luong5" 1)
              eq_refl ltac:(simpl; tauto) ltac:(simpl; lia)
              ltac:(vm_compute; discriminate) ltac:(vm_compute; reflexivity))
    as (plan & lr & _ & _ & Hlr & H2 & H3).
  exists lr. split; [exact Hlr|]. split; [exact H2|].
  exact (H3 3 ltac:(vm_compute; split; reflexivity)).
Defined.

(** ** More on the reconstruction loss *)

Lemma exp_sum_nonneg (l : list R) : (0 <= fold_right Rplus 0 (map exp l))%R.
Proof.
  induction l as [| x l IH]; simpl; [lra|]. pose proof (exp_pos x). lra.
Qed.

Lemma exp_sum_bounds (l : list R) (k : nat) :
  (k < List.length l)%nat ->
  (exp (nth k l 0) <= fold_right Rplus 0 (map exp l))%R.
Proof.
  revert k. induction l as [| x l IH]; intros k Hk; simpl in Hk; [lia|].
  destruct k as [| k]; simpl.
  - pose proof (exp_sum_nonneg l). lra.
  - specialize (IH k ltac:(lia)). pose proof (exp_pos x). lra.
Qed.

Lemma sparse_softmax_cross_entropy_nonneg (logits : list R) (label : Z) (r : R) :
  sparse_softmax_cross_entropy logits label = Some r -> (0 <= r)%R.
Proof.
  unfold sparse_softmax_cross_entropy.
  destruct ((0 <=? label) && (label <? Z.of_nat (List.length logits))) eqn:E;
    [| discriminate].
  intros H. inversion H. clear H.
  apply andb_true_iff in E. destruct E as [E0 E1].
  apply Z.leb_le in E0. apply Z.ltb_lt in E1.
  assert (Hk : (Z.to_nat label < List.length logits)%nat) by lia.
  pose proof (exp_sum_bounds logits (Z.to_nat label) Hk) as Hs.
  pose proof (exp_pos (nth (Z.to_nat label) logits 0%R)) as Hp.
  destruct Hs as [Hs | Hs].
  - apply ln_increasing in Hs; [| exact Hp]. rewrite ln_exp in Hs. lra.
  - rewrite <- Hs, ln_exp. lra.
Qed.

Lemma crossent_item_nonneg (labels : array2 Z) (logits : array2 (list R))
  (i j : nat) : (0 <= crossent_item labels logits i j)%R.
Proof.
  unfold crossent_item.
  destruct (sparse_softmax_cross_entropy _ _) as [r |] eqn:E; [| lra].
  eapply sparse_softmax_cross_entropy_nonneg. exact E.
Qed.

Lemma rsum_nonneg (n : nat) (f : nat -> R) :
  (forall i, (i < n)%nat -> (0 <= f i)%R) -> (0 <= rsum n f)%R.
Proof.
  induction n as [| n IH]; intros H; simpl; [lra|].
  specialize (IH ltac:(intros; apply H; lia)). specialize (H n ltac:(lia)). lra.
Qed.

Lemma token_crossent_nonneg (time_major : bool) (b : Batch)
  (l : array2 (list R)) (i t : nat) :
  (0 <= token_crossent time_major b l i t)%R.
Proof. unfold token_crossent. destruct time_major; apply crossent_item_nonneg. Qed.

Lemma masked_sum_nonneg (b : Batch) (xe : nat -> nat -> R) :
  (forall i t, (0 <= xe i t)%R) -> (0 <= masked_sum b xe)%R.
Proof.
  intros H. unfold masked_sum. apply rsum_nonneg. intros i _.
  apply rsum_nonneg. intros t _. specialize (H i t).
  destruct (Z.of_nat t <? b_target_sequence_length b i); lra.
Qed.

Lemma masked_sum_empty (b : Batch) (xe : nat -> nat -> R) :
  (forall i, (i < batch b)%nat -> b_target_sequence_length b i <= 0) ->
  masked_sum b xe = 0%R.
Proof.
  intros H. unfold masked_sum.
  rewrite (rsum_ext _ _ (fun _ => 0%R)); [apply rsum_zero|].
  intros i Hi. rewrite (rsum_ext _ _ (fun _ => 0%R)); [apply rsum_zero|].
  intros t _. specialize (H i Hi).
  replace (Z.of_nat t <? b_target_sequence_length b i) with false
    by (symmetry; apply Z.ltb_ge; lia).
  ring.
Qed.

(** X4. The reconstruction loss is never negative: each token's
    cross-entropy is at least 0, so the masked sum divided by a positive
    batch size is; and it is 0 for a batch in which every target is empty. *)
Theorem compute_loss_nonneg (st : State) (time_major : bool)
  (batch_size logits : tensor) (iterator : BatchedInput)
  (feed : Feed) (l : array2 (list R)) (B : Z) :
  lookup "time_major" (self st) = Some (VBool time_major) ->
  lookup "batch_size" (self st) = Some (VTensor batch_size) ->
  value_of feed batch_size = Some (IntScalar B) ->
  0 < B ->
  value_of feed logits = Some (Logits l) ->
  sparse_xent_with_logits (oriented_labels time_major (fed_batch feed iterator)) l
    <> None ->
  exists (loss : tensor) (r : R),
    _compute_loss logits iterator st = Ok (loss, st)
    /\ scalar_value feed loss = Some r
    /\ (0 <= r)%R
    /\ ((forall i, (i < batch (fed_batch feed iterator))%nat ->
           b_target_sequence_length (fed_batch feed iterator) i <= 0) ->
        r = 0%R).
Proof.
  intros Htm Hbs HB HB0 Hl Hx.
  exists (loss_tensor time_major batch_size logits iterator). eexists.
  split; [apply _compute_loss_tensor; assumption|].
  split; [apply loss_tensor_value; try eassumption; lia|].
  assert (HBR : (0 < IZR B)%R) by (apply IZR_lt; lia).
  split.
  - apply Rmult_le_pos.
    + apply masked_sum_nonneg. intros i t. apply token_crossent_nonneg.
    + left. apply Rinv_0_lt_compat. exact HBR.
  - intros He. rewrite masked_sum_empty by exact He. unfold Rdiv. ring.
Qed.

Lemma compute_loss_nonneg_tiny :
  exists (loss : tensor) (r : R),
    _compute_loss (Op "logits" []) (Iterator 0) tiny_state = Ok (loss, tiny_state)
    /\ scalar_value tiny_feed loss = Some r
    /\ (0 <= r)%R.
Proof.
  destruct (compute_loss_nonneg tiny_state false
              (Size (Field (Iterator 0) source_sequence_length))
              (Op "logits" []) (Iterator 0) tiny_feed tiny_logits 2
              eq_refl eq_refl eq_refl ltac:(lia) eq_refl tiny_logits_fit)
    as (loss & r & H1 & H2 & H3 & _).
  exists loss, r. split; [exact H1|]. split; [exact H2 | exact H3].
Defined.

(** X5. What stands at the padded positions does not matter: two runs with
    the same batch size, the same target lengths and the same targets and
    logits at the positions below each target length give the same loss,
    whatever the targets and logits are at and after the target length (as
    long as they are class ids). *)
Theorem compute_loss_ignores_padding (st : State) (time_major : bool)
  (batch_size logits : tensor) (iterator : BatchedInput)
  (feed1 feed2 : Feed) (l1 l2 : array2 (list R)) (B : Z) :
  lookup "time_major" (self st) = Some (VBool time_major) ->
  lookup "batch_size" (self st) = Some (VTensor batch_size) ->
  value_of feed1 batch_size = Some (IntScalar B) ->
  value_of feed2 batch_size = Some (IntScalar B) ->
  B <> 0 ->
  value_of feed1 logits = Some (Logits l1) ->
  value_of feed2 logits = Some (Logits l2) ->
  let b1 := fed_batch feed1 iterator in
  let b2 := fed_batch feed2 iterator in
  sparse_xent_with_logits (oriented_labels time_major b1) l1 <> None ->
  sparse_xent_with_logits (oriented_labels time_major b2) l2 <> None ->
  batch b1 = batch b2 ->
  tgt_max_time b1 = tgt_max_time b2 ->
  (forall i, (i < batch b1)%nat ->
     b_target_sequence_length b1 i = b_target_sequence_length b2 i) ->
  (forall i t, (i < batch b1)%nat -> Z.of_nat t < b_target_sequence_length b1 i ->
     b_target_output b1 i t = b_target_output b2 i t
     /\ (if time_major then item l1 t i else item l1 i t)
        = (if time_major then item l2 t i else item l2 i t)) ->
  exists loss : tensor,
    _compute_loss logits iterator st = Ok (loss, st)
    /\ scalar_value feed1 loss = scalar_value feed2 loss.
Proof.
  intros Htm Hbs HB1 HB2 HB0 Hl1 Hl2 b1 b2 Hx1 Hx2 Hb Ht Hlen Hsame.
  exists (loss_tensor time_major batch_size logits iterator).
  split; [apply _compute_loss_tensor; assumption|].
  rewrite (loss_tensor_value feed1 _ _ _ _ l1 B) by assumption.
  rewrite (loss_tensor_value feed2 _ _ _ _ l2 B) by assumption.
  fold b1. fold b2. do 2 f_equal.
  unfold masked_sum. rewrite <- Hb, <- Ht.
  apply rsum_ext. intros i Hi. apply rsum_ext. intros t _.
  rewrite <- (Hlen i Hi).
  destruct (Z.of_nat t <? b_target_sequence_length b1 i) eqn:E; [| ring].
  apply Z.ltb_lt in E. destruct (Hsame i t Hi E) as [Hy Hl].
  f_equal. unfold token_crossent, crossent_item, oriented_labels.
  destruct time_major; simpl; rewrite Hy, Hl; reflexivity.
Qed.

Lemma compute_loss_ignores_padding_tiny :
  exists loss : tensor,
    _compute_loss (Op "logits" []) (Iterator 0) tiny_state = Ok (loss, tiny_state)
    /\ scalar_value tiny_feed loss = scalar_value padded_feed loss.
Proof.
  assert (Hfit : sparse_xent_with_logits (oriented_labels false padded_batch)
                   padded_logits <> None)
    by (unfold sparse_xent_with_logits; simpl; discriminate).
  apply (compute_loss_ignores_padding tiny_state false
           (Size (Field (Iterator 0) source_sequence_length))
           (Op "logits" []) (Iterator 0) tiny_feed padded_feed
           tiny_logits padded_logits 2
           eq_refl eq_refl eq_refl eq_refl ltac:(lia) eq_refl eq_refl
           tiny_logits_fit Hfit eq_refl eq_refl).
  - intros i _. reflexivity.
  - intros [| [| i]] [| [| t]] Hi Hlt; simpl in Hi, Hlt; try lia;
      split; reflexivity.
Defined.

Lemma sparse_xent_transposed (b : Batch) (l : array2 (list R)) :
  sparse_xent_with_logits (oriented_labels false b) l <> None ->
  sparse_xent_with_logits (oriented_labels true b) (transpose l) <> None.
Proof.
  intros H. pose proof (sparse_xent_dims _ _ H) as [H0 H1].
  unfold sparse_xent_with_logits in *. simpl in *.
  rewrite <- H0, <- H1, !Nat.eqb_refl in *. simpl in *.
  destruct (all_below _ _) eqn:E in H; [| contradiction].
  rewrite all_below_swap. rewrite E. discriminate.
Qed.

(** X6. The two layouts agree: built with [time_major] on logits laid out
    [time x batch], the loss has the value it has when built without
    [time_major] on the same logits laid out [batch x time]. *)
Theorem compute_loss_layout (st_tm st_bm : State) (batch_size : tensor)
  (logits_tm logits_bm : tensor) (iterator : BatchedInput)
  (feed : Feed) (l : array2 (list R)) (B : Z) :
  lookup "time_major" (self st_tm) = Some (VBool true) ->
  lookup "time_major" (self st_bm) = Some (VBool false) ->
  lookup "batch_size" (self st_tm) = Some (VTensor batch_size) ->
  lookup "batch_size" (self st_bm) = Some (VTensor batch_size) ->
  value_of feed batch_size = Some (IntScalar B) ->
  B <> 0 ->
  value_of feed logits_bm = Some (Logits l) ->
  value_of feed logits_tm = Some (Logits (transpose l)) ->
  sparse_xent_with_logits (oriented_labels false (fed_batch feed iterator)) l
    <> None ->
  exists (loss_tm loss_bm : tensor) (r : R),
    _compute_loss logits_tm iterator st_tm = Ok (loss_tm, st_tm)
    /\ _compute_loss logits_bm iterator st_bm = Ok (loss_bm, st_bm)
    /\ scalar_value feed loss_tm = Some r
    /\ scalar_value feed loss_bm = Some r.
Proof.
  intros Ht1 Ht2 Hb1 Hb2 HB HB0 Hl Hlt Hx.
  exists (loss_tensor true batch_size logits_tm iterator),
         (loss_tensor false batch_size logits_bm iterator).
  eexists.
  split; [apply _compute_loss_tensor; assumption|].
  split; [apply _compute_loss_tensor; assumption|].
  split.
  - rewrite (loss_tensor_value feed true _ _ _ (transpose l) B);
      try assumption; [| apply sparse_xent_transposed; exact Hx].
    reflexivity.
  - rewrite (loss_tensor_value feed false _ _ _ l B) by assumption.
    reflexivity.
Qed.

Lemma compute_loss_layout_tiny :
  exists (loss_tm loss_bm : tensor) (r : R),
    _compute_loss (Op "logits_tm" []) (Iterator 0) tiny_state_tm
    = Ok (loss_tm, tiny_state_tm)
    /\ _compute_loss (Op "logits" []) (Iterator 0) tiny_state = Ok (loss_bm, tiny_state)
    /\ scalar_value layout_feed loss_tm = Some r
    /\ scalar_value layout_feed loss_bm = Some r.
Proof.
  exact (compute_loss_layout tiny_state_tm tiny_state
           (Size (Field (Iterator 0) source_sequence_length))
           (Op "logits_tm" []) (Op "logits" []) (Iterator 0) layout_feed
           tiny_logits 2
           eq_refl eq_refl eq_refl eq_refl eq_refl ltac:(lia) eq_refl eq_refl
           tiny_logits_fit).
Defined.

(** ** The projection layers through [build_graph] *)

Lemma framed_same {A} (m : M A) :
  (forall st a st', m st = Ok (a, st') -> st' = st) -> framed m.
Proof. intros H st a st' E. apply H in E. subst. apply frame_refl. Qed.

Lemma framed_get_iter (attr : string) : framed (get_iter attr).
Proof. apply framed_same. intros st a st' H. apply get_iter_Ok in H. tauto. Qed.

Lemma framed_get_tensor (attr : string) : framed (get_tensor attr).
Proof. apply framed_same. intros st a st' H. apply get_tensor_Ok in H. tauto. Qed.

Lemma framed_get_table (attr : string) :
  framed (v <- getattr attr ;; as_table v).
Proof. apply framed_same. intros st a st' H. apply get_table_Ok in H. tauto. Qed.

Lemma framed_build_discriminator (outputs : tensor) :
  framed (_build_discriminator outputs).
Proof.
  intros st r st' H.
  destruct (_build_discriminator_spec outputs st) as (st2 & p & E & F & _).
  rewrite E in H. inversion H. subst. exact F.
Qed.

Lemma get_variable_Ok (name : string) (st st' : State) (t : tensor) :
  get_variable name st = Ok (t, st') ->
  t = Var (scope_join (g_scope (graph st)) name) /\ frame st st'.
Proof.
  intros H. split; [| eapply framed_get_variable; exact H].
  unfold get_variable, bind, get_graph, put_graph, ret, raise in H. simpl in H.
  destruct (g_reuse (graph st)), (has_variable _ _); inversion H; reflexivity.
Qed.

Lemma lookup_push_layer_other (attr a cur : string) (l : DenseLayer) (o : object) :
  attr <> a -> lookup a (push_layer attr cur l o) = lookup a o.
Proof.
  intros Hne. unfold push_layer. destruct (layer_built l); [reflexivity|].
  simpl. destruct (String.eqb_spec attr a); [contradiction | reflexivity].
Qed.

Lemma lookup_push_layer_same (attr cur : string) (l : DenseLayer) (o : object) :
  lookup attr o = Some (VLayer l) ->
  lookup attr (push_layer attr cur l o) = Some (VLayer (built_layer cur l)).
Proof.
  intros H. unfold push_layer, built_layer.
  destruct (layer_built l) eqn:E; [exact H|].
  simpl. rewrite String.eqb_refl. reflexivity.
Qed.

Lemma built_layer_built (cur : string) (l : DenseLayer) :
  layer_built (built_layer cur l) <> None.
Proof.
  unfold built_layer. destruct (layer_built l) eqn:E; simpl; congruence.
Qed.

Lemma built_layer_again (cur cur' : string) (l : DenseLayer) :
  built_layer cur' (built_layer cur l) = built_layer cur l.
Proof.
  unfold built_layer at 1.
  destruct (layer_built (built_layer cur l)) eqn:E; [reflexivity|].
  exfalso. exact (built_layer_built cur l E).
Qed.

Lemma push_layer_built (attr cur cur' : string) (l : DenseLayer) (o : object) :
  push_layer attr cur' (built_layer cur l) o = o.
Proof.
  unfold push_layer.
  destruct (layer_built (built_layer cur l)) eqn:E; [reflexivity|].
  exfalso. exact (built_layer_built cur l E).
Qed.

(** A call of a projection layer: the first call creates the kernel under
    the current scope and rebinds the attribute; a later call, from any
    scope, uses that kernel and changes nothing. *)
Lemma call_output_layer_Ok (attr : string) (x t : tensor) (st st' : State)
  (l : DenseLayer) :
  call_output_layer attr x st = Ok (t, st') ->
  lookup attr (self st) = Some (VLayer l) ->
  t = Op "dense" [x; Var (layer_kernel (built_layer (g_scope (graph st)) l))]
  /\ self st' = push_layer attr (g_scope (graph st)) l (self st)
  /\ g_scope (graph st') = g_scope (graph st)
  /\ g_reuse (graph st') = g_reuse (graph st)
  /\ incl (g_vars (graph st)) (g_vars (graph st'))
  /\ (layer_built l <> None -> st' = st).
Proof.
  intros H Hl. unfold call_output_layer in H.
  rewrite (bind_run _ _ _ _ _ (getattr_bound _ _ _ Hl)) in H.
  unfold as_layer in H. unfold bind at 1 in H. unfold ret at 1 in H.
  unfold push_layer, layer_kernel, built_layer.
  destruct (layer_built l) as [s |] eqn:Eb.
  - inversion H. subst. rewrite Eb.
    repeat split; try reflexivity. apply incl_refl.
  - unfold bind at 1 in H. unfold get_graph at 1 in H.
    apply bind_Ok in H. destruct H as (k & s1 & Hk & H).
    apply with_variable_scope_Ok in Hk. destruct Hk as (s2 & Hk & ->).
    apply get_variable_Ok in Hk. destruct Hk as [-> (F1 & F2 & F3 & F4)].
    unfold bind, setattr, ret in H. simpl in H. inversion H. subst. simpl in *.
    split; [reflexivity|]. split; [rewrite F1; reflexivity|].
    split; [reflexivity|]. split; [reflexivity|]. split; [exact F4|].
    intros N. contradiction.
Qed.

Section ProjectionLayers.

Context {subclass : Subclass} {model_helper : ModelHelper}
        {disciplined : Disciplined subclass model_helper}.

Lemma _build_decoder_Ok (encoder_outputs : tensor) (encoder_state : structure)
  (hparams : HParams) (iterator : BatchedInput) (embedding : tensor)
  (vocab_table ol sos : string) (st st' : State)
  (logits sample_id : tensor) (fcs : structure) (l : DenseLayer) :
  _build_decoder encoder_outputs encoder_state hparams iterator embedding
    vocab_table ol sos st = Ok ((logits, sample_id, fcs), st') ->
  lookup ol (self st) = Some (VLayer l) ->
  let cur := scope_join (g_scope (graph st)) "decoder" in
  self st' = push_layer ol cur l (self st)
  /\ g_scope (graph st') = g_scope (graph st)
  /\ g_reuse (graph st') = g_reuse (graph st)
  /\ incl (g_vars (graph st)) (g_vars (graph st'))
  /\ (forall mode, lookup "mode" (self st) = Some (VMode mode) -> mode <> INFER ->
        exists x, logits = Op "dense" [x; Var (layer_kernel (built_layer cur l))]).
Proof.
  intros H Hl cur. unfold _build_decoder in H.
  apply with_variable_scope_Ok in H. destruct H as (s_out & H & ->).
  apply bind_Ok in H. destruct H as ([cell dis] & s1 & Hc & H).
  apply decoder_cell_framed in Hc. destruct Hc as (C1 & C2 & C3 & C4).
  simpl in C1, C2, C3, C4. fold cur in C2.
  apply bind_Ok in H. destruct H as (m & s2 & Hm & H).
  apply get_mode_Ok in Hm. destruct Hm as [-> Hm].
  assert (Hl1 : lookup ol (self s1) = Some (VLayer l)) by (rewrite C1; exact Hl).
  assert (Call : forall x t s4,
            call_output_layer ol x s1 = Ok (t, s4) ->
            t = Op "dense" [x; Var (layer_kernel (built_layer cur l))]
            /\ self s4 = push_layer ol cur l (self st)
            /\ incl (g_vars (graph st)) (g_vars (graph s4))).
  { intros x t s4 Hcall.
    apply (call_output_layer_Ok _ _ _ _ _ l) in Hcall; [| exact Hl1].
    destruct Hcall as (-> & Sf & _ & _ & G3 & _). rewrite C2, C1 in Sf.
    rewrite C2. split; [reflexivity|]. split; [exact Sf|].
    eapply incl_tran; eassumption. }
  destruct (negb (mode_eqb m INFER)) eqn:Em.
  - apply bind_Ok in H. destruct H as (tm & s3 & Ht & H).
    apply get_bool_Ok in Ht. destruct Ht as [-> Ht].
    apply bind_Ok in H. destruct H as (lg & s4 & Hcall & H).
    apply Call in Hcall. destruct Hcall as (-> & Sf & G3).
    inversion H. subst. clear H. simpl.
    split; [exact Sf|]. split; [reflexivity|]. split; [reflexivity|].
    split; [exact G3|]. intros mode _ _. eexists. reflexivity.
  - assert (Em' : m = INFER) by (destruct m; simpl in Em; congruence).
    apply bind_Ok in H. destruct H as (bs & s3 & Ht & H).
    apply get_tensor_Ok in Ht. destruct Ht as [-> Ht].
    assert (Hmode : forall mode, lookup "mode" (self st) = Some (VMode mode) ->
              mode <> INFER -> False).
    { intros mode Hmode Hne. rewrite C1, Hmode in Hm. congruence. }
    destruct (0 <? beam_width hparams).
    + apply bind_Ok in H. destruct H as (lg & s4 & Hcall & H).
      apply Call in Hcall. destruct Hcall as (-> & Sf & G3).
      inversion H. subst. clear H. simpl.
      split; [exact Sf|]. split; [reflexivity|]. split; [reflexivity|].
      split; [exact G3|]. intros mode Hmo Hne. exfalso. eapply Hmode; eassumption.
    + apply bind_Ok in H. destruct H as (lg & s4 & Hcall & H).
      apply Call in Hcall. destruct Hcall as (-> & Sf & G3).
      inversion H. subst. clear H. simpl.
      split; [exact Sf|]. split; [reflexivity|]. split; [reflexivity|].
      split; [exact G3|]. intros mode Hmo Hne. exfalso. eapply Hmode; eassumption.
Qed.

Ltac solve_framed :=
  first [ apply encoder_framed | apply framed_build_discriminator
        | apply framed_get_iter | apply framed_get_tensor | apply framed_get_table ].

(** One statement of a block that leaves [self] alone. *)
Ltac fstep H F :=
  let a := fresh "a" in
  let st1 := fresh "st" in
  let Hm := fresh "Hm" in
  let Hs := fresh "Hs" in
  let F' := fresh "F" in
  apply bind_Ok in H; destruct H as (a & st1 & Hm & H);
  match type of Hm with
  | ?m ?cur = Ok _ =>
      assert (Hs : frame cur st1)
        by (let Ha := fresh in
            assert (Ha : framed m) by solve_framed; eapply Ha; exact Hm)
  end;
  pose proof (frame_trans _ _ _ F Hs) as F'; clear Hs;
  try match type of a with
      | (_ * _)%type => destruct a as [? ?]
      end;
  cbv beta iota in H.

(** The block "auto": the source-language decoder first, then the
    target-language decoder. *)
Lemma build_graph_auto_self (hparams : HParams) (st st' : State) (b1 b2 : branch)
  (ls lt : DenseLayer) :
  build_graph_auto hparams st = Ok ((b1, b2), st') ->
  lookup "output_layer_src" (self st) = Some (VLayer ls) ->
  lookup "output_layer_tgt" (self st) = Some (VLayer lt) ->
  let cur := scope_join (g_scope (graph st)) "decoder" in
  self st' = push_layer "output_layer_tgt" cur lt
               (push_layer "output_layer_src" cur ls (self st))
  /\ (forall mode, lookup "mode" (self st) = Some (VMode mode) -> mode <> INFER ->
        exists x1 x2,
          br_logits b1 = Op "dense" [x1; Var (layer_kernel (built_layer cur ls))]
          /\ br_logits b2 = Op "dense" [x2; Var (layer_kernel (built_layer cur lt))]).
Proof.
  intros H Hs Ht cur. unfold build_graph_auto in H.
  pose proof (frame_refl st) as F0.
  fstep H F0. fstep H F. fstep H F1. fstep H F2. fstep H F3. fstep H F4.
  fstep H F5. fstep H F6. fstep H F7.
  apply bind_Ok in H. destruct H as ([[lg1 sid1] fcs1] & s10 & Hd1 & H).
  cbv beta iota in H.
  destruct F8 as (E1 & E2 & E3 & E4).
  apply (_build_decoder_Ok _ _ _ _ _ _ _ _ _ _ _ _ _ ls) in Hd1;
    [| rewrite E1; exact Hs].
  rewrite E1, E2 in Hd1. fold cur in Hd1.
  destruct Hd1 as (S1 & G1 & G2 & G3 & L1).
  apply bind_Ok in H. destruct H as (tab & s11 & Htab & H).
  apply get_table_Ok in Htab. destruct Htab as [-> Htab].
  apply bind_Ok in H. destruct H as ([[lg2 sid2] fcs2] & s12 & Hd2 & H).
  cbv beta iota in H.
  apply (_build_decoder_Ok _ _ _ _ _ _ _ _ _ _ _ _ _ lt) in Hd2;
    [| rewrite S1, lookup_push_layer_other by discriminate; exact Ht].
  rewrite S1, G1 in Hd2. fold cur in Hd2.
  destruct Hd2 as (S2 & _ & _ & _ & L2).
  inversion H. subst. clear H. simpl.
  split; [exact S2|].
  intros mode Hmode Hne.
  destruct (L1 mode Hmode Hne) as [x1 ->].
  destruct (L2 mode) as [x2 ->]; [| exact Hne |].
  - rewrite lookup_push_layer_other by discriminate. exact Hmode.
  - exists x1, x2. split; reflexivity.
Qed.

(** The block "cross": the target-language decoder first, then the
    source-language decoder. *)
Lemma build_graph_cross_self (hparams : HParams) (st st' : State) (b1 b2 : branch)
  (ls lt : DenseLayer) :
  build_graph_cross hparams st = Ok ((b1, b2), st') ->
  lookup "output_layer_src" (self st) = Some (VLayer ls) ->
  lookup "output_layer_tgt" (self st) = Some (VLayer lt) ->
  let cur := scope_join (g_scope (graph st)) "decoder" in
  self st' = push_layer "output_layer_src" cur ls
               (push_layer "output_layer_tgt" cur lt (self st))
  /\ (forall mode, lookup "mode" (self st) = Some (VMode mode) -> mode <> INFER ->
        exists x1 x2,
          br_logits b1 = Op "dense" [x1; Var (layer_kernel (built_layer cur lt))]
          /\ br_logits b2 = Op "dense" [x2; Var (layer_kernel (built_layer cur ls))]).
Proof.
  intros H Hs Ht cur. unfold build_graph_cross in H.
  pose proof (frame_refl st) as F0.
  fstep H F0. fstep H F. fstep H F1. fstep H F2. fstep H F3. fstep H F4.
  fstep H F5. fstep H F6. fstep H F7.
  apply bind_Ok in H. destruct H as ([[lg1 sid1] fcs1] & s10 & Hd1 & H).
  cbv beta iota in H.
  destruct F8 as (E1 & E2 & E3 & E4).
  apply (_build_decoder_Ok _ _ _ _ _ _ _ _ _ _ _ _ _ lt) in Hd1;
    [| rewrite E1; exact Ht].
  rewrite E1, E2 in Hd1. fold cur in Hd1.
  destruct Hd1 as (S1 & G1 & G2 & G3 & L1).
  apply bind_Ok in H. destruct H as (tab & s11 & Htab & H).
  apply get_table_Ok in Htab. destruct Htab as [-> Htab].
  apply bind_Ok in H. destruct H as ([[lg2 sid2] fcs2] & s12 & Hd2 & H).
  cbv beta iota in H.
  apply (_build_decoder_Ok _ _ _ _ _ _ _ _ _ _ _ _ _ ls) in Hd2;
    [| rewrite S1, lookup_push_layer_other by discriminate; exact Hs].
  rewrite S1, G1 in Hd2. fold cur in Hd2.
  destruct Hd2 as (S2 & _ & _ & _ & L2).
  inversion H. subst. clear H. simpl.
  split; [exact S2|].
  intros mode Hmode Hne.
  destruct (L1 mode Hmode Hne) as [x1 ->].
  destruct (L2 mode) as [x2 ->]; [| exact Hne |].
  - rewrite lookup_push_layer_other by discriminate. exact Hmode.
  - exists x1, x2. split; reflexivity.
Qed.

End ProjectionLayers.

(** ** The constructor, stage by stage *)

Lemma framed_get_bool (attr : string) : framed (get_bool attr).
Proof. apply framed_same. intros st a st' H. apply get_bool_Ok in H. tauto. Qed.

Lemma framed_get_mode : framed get_mode.
Proof. apply framed_same. intros st a st' H. apply get_mode_Ok in H. tauto. Qed.

Lemma framed_compute_loss (logits : tensor) (iterator : BatchedInput) :
  framed (_compute_loss logits iterator).
Proof.
  unfold _compute_loss, get_max_time.
  apply framed_bind; [apply framed_get_bool | intros tm].
  apply framed_bind;
    [apply framed_bind; [apply framed_get_bool | intros; apply framed_ret]
    | intros mt].
  apply framed_bind; [apply framed_get_tensor | intros; apply framed_ret].
Qed.

Lemma framed_build_graph_loss (b1 b2 b3 b4 : branch) :
  framed (build_graph_loss b1 b2 b3 b4).
Proof.
  unfold build_graph_loss. apply framed_bind; [apply framed_get_mode | intros m].
  destruct (negb _); [| apply framed_ret].
  repeat (apply framed_bind;
          [first [apply framed_get_iter | apply framed_compute_loss] | intros]).
  apply framed_ret.
Qed.

Lemma init_attributes_eq {model_helper : ModelHelper} (hparams : HParams)
  (mode : ModeKeys) (it1 it2 it3 it4 : BatchedInput) (tab1 tab2 : string)
  (scope : scope_arg) (g : Graph) (st : State) :
  (forall hp sc, framed (create_emb_for_encoder_and_decoder hp sc)) ->
  init_attributes hparams mode it1 it2 it3 it4 tab1 tab2 scope
    {| graph := g; self := [] |} = Ok (tt, st) ->
  exists emb_src emb_tgt : tensor,
    self st = early_self hparams mode it1 it2 it3 it4 tab1 tab2 emb_src emb_tgt
    /\ g_scope (graph st) = g_scope g
    /\ g_reuse (graph st) = g_reuse g
    /\ incl (g_vars g) (g_vars (graph st))
    /\ num_encoder_layers hparams <> 0
    /\ num_decoder_layers hparams <> 0.
Proof.
  intros Hemb H. unfold init_attributes in H.
  unfold bind at 1 2 3 4 5 6 7 8 9 10 11 12 13 14 in H. simpl in H.
  apply bind_Ok in H. destruct H as ([] & s1 & H1 & H).
  unfold py_assert in H1.
  destruct (num_encoder_layers hparams =? 0) eqn:Ee; simpl in H1; [discriminate|].
  inversion H1. subst s1. clear H1.
  apply bind_Ok in H. destruct H as ([] & s1 & H1 & H).
  unfold py_assert in H1.
  destruct (num_decoder_layers hparams =? 0) eqn:Ed; simpl in H1; [discriminate|].
  inversion H1. subst s1. clear H1.
  apply Z.eqb_neq in Ee, Ed.
  apply bind_Ok in H. destruct H as ([] & s1 & H1 & H).
  assert (s1 = {| graph := g;
                  self := ("num_decoder_residual_layers",
                           VInt (residual_layers hparams
                                   (num_decoder_residual_layers hparams)))
                          :: ("num_encoder_residual_layers",
                              VInt (residual_layers hparams
                                      (num_encoder_residual_layers hparams)))
                          :: [("num_decoder_layers", VInt (num_decoder_layers hparams));
                              ("num_encoder_layers", VInt (num_encoder_layers hparams));
                              ("single_cell_fn", VNone);
                              ("time_major", VBool (time_major hparams));
                              ("num_gpus", VInt (num_gpus hparams));
                              ("tgt_vocab_size", VInt (tgt_vocab_size hparams));
                              ("src_vocab_size", VInt (src_vocab_size hparams));
                              ("tgt_vocab_table", VTable tab2);
                              ("src_vocab_table", VTable tab1); ("mode", VMode mode);
                              ("iterator_t2s", VIter it4); ("iterator_s2t", VIter it3);
                              ("iterator_t2t", VIter it2); ("iterator_s2s", VIter it1)] |})
    as ->.
  { unfold residual_layers.
    destruct (num_residual_layers hparams); inversion H1; reflexivity. }
  clear H1.
  apply bind_Ok in H. destruct H as ([] & s2 & H2 & H).
  unfold init_embeddings in H2.
  apply bind_Ok in H2. destruct H2 as ([emb_src emb_tgt] & s3 & H3 & H2).
  apply Hemb in H3. destruct H3 as (Fself & Fscope & Freuse & Fincl).
  simpl in Fself, Fscope, Freuse, Fincl.
  inversion H2. subst s2. clear H2.
  rewrite (bind_run _ _ _ _ it1) in H
    by (apply get_iter_bound; simpl; rewrite Fself; reflexivity).
  apply bind_Ok in H. destruct H as ([] & s4 & H4 & H).
  inversion H4. subst s4. clear H4.
  apply with_scope_or_Ok in H. destruct H as (s5 & H & ->).
  apply with_variable_scope_Ok in H. destruct H as (s6 & H & ->).
  inversion H. subst s6. clear H. simpl.
  exists emb_src, emb_tgt. rewrite Fself, Fscope, Freuse.
  repeat split; try reflexivity; assumption.
Qed.

Lemma init_outputs_INFER (l1 l2 l3 l4 : tensor) (f1 f2 f3 f4 : structure)
  (s1 s2 s3 s4 : tensor) (loss ladv : option tensor) (rt1 rt2 : option string)
  (st : State) :
  lookup "mode" (self st) = Some (VMode INFER) ->
  init_outputs (l1, f1, s1) (l2, f2, s2) (l3, f3, s3) (l4, f4, s4) loss ladv
    rt1 rt2 st
  = match rt1, rt2 with
    | Some t1, Some t2 =>
        Ok (tt,
            {| graph := graph st;
               self :=
                 ("sample_words_tgt_cross",
                  VTensor (Op "lookup" [Op t2 []; Op "to_int64" [s3]]))
                 :: ("sample_words_src_cross",
                     VTensor (Op "lookup" [Op t1 []; Op "to_int64" [s4]]))
                 :: ("sample_words_tgt",
                     VTensor (Op "lookup" [Op t2 []; Op "to_int64" [s2]]))
                 :: ("sample_words_src",
                     VTensor (Op "lookup" [Op t1 []; Op "to_int64" [s1]]))
                 :: ("sample_id_cross_tgt", VTensor s3)
                 :: ("final_context_state_cross_tgt", VStructure f3)
                 :: ("infer_cross_logits_tgt", VTensor l3)
                 :: ("sample_id_cross_src", VTensor s4)
                 :: ("final_context_state_cross_src", VStructure f4)
                 :: ("infer_cross_logits_src", VTensor l4)
                 :: ("sample_id_tgt", VTensor s2)
                 :: ("final_context_state_tgt", VStructure f2)
                 :: ("infer_logits_tgt", VTensor l2)
                 :: ("sample_id_src", VTensor s1)
                 :: ("final_context_state_src", VStructure f1)
                 :: ("infer_logits_src", VTensor l1)
                 :: self st |})
    | _, _ => Raise (AttributeError "lookup")
    end.
Proof.
  intros Hm. unfold init_outputs.
  rewrite (bind_run _ _ _ _ _ (get_mode_bound _ _ Hm)).
  unfold get_mode, bind, getattr, setattr, as_mode, ret, reverse_lookup, raise.
  destruct rt1 as [t1 |], rt2 as [t2 |]; simpl; rewrite ?Hm; reflexivity.
Qed.

Lemma init_training_not_TRAIN (hparams : HParams) (mode : ModeKeys) (st : State) :
  lookup "mode" (self st) = Some (VMode mode) ->
  mode <> TRAIN ->
  init_training hparams st
  = Ok (tt,
        {| graph := with_global_step (graph st);
           self :=
             ("saver",
              VTensor (Op "Saver" (map (fun v => Var (v_name v))
                                       (g_vars (with_global_step (graph st))))))
             :: (match mode with
                 | INFER =>
                     [("infer_summary_tgt_cross", VTensor (Op "no_op" []));
                      ("infer_summary_src_cross", VTensor (Op "no_op" []));
                      ("infer_summary_tgt", VTensor (Op "no_op" []));
                      ("infer_summary_src", VTensor (Op "no_op" []))]
                 | _ => []
                 end)
             ++ ("global_step", VVariable global_step_variable) :: self st |}).
Proof.
  intros Hm Hne. unfold init_training, new_global_step.
  unfold get_mode, bind, getattr, setattr, as_mode, ret, get_graph, put_graph.
  destruct mode; [contradiction | |]; simpl; rewrite ?Hm; simpl; rewrite ?Hm;
    reflexivity.
Qed.

Lemma init_updates_inv (hparams : HParams) (params_ae params_D : list TfVariable)
  (st st' : State) (ta tD : tensor) (gs : TfVariable) :
  lookup "global_step" (self st) = Some (VVariable gs) ->
  lookup "train_loss_ae" (self st) = Some (VTensor ta) ->
  lookup "train_loss_D" (self st) = Some (VTensor tD) ->
  init_updates hparams params_ae params_D st = Ok (tt, st') ->
  params_ae <> [] /\ params_D <> []
  /\ exists (opt : string) (v1 v2 v3 v4 v5 : tensor),
       (optimizer hparams = "sgd" /\ opt = "GradientDescentOptimizer"
        \/ optimizer hparams = "adam" /\ opt = "AdamOptimizer")
       /\ st' = {| graph := graph st;
                   self := ("train_summary", VTensor v1)
                           :: ("train_summary_D", VTensor v2)
                           :: ("update_D",
                               VUpdate {| upd_optimizer := opt; upd_loss := tD;
                                          upd_vars := params_D;
                                          upd_global_step := Some (v_name gs) |})
                           :: ("grad_norm_D", VTensor v3)
                           :: ("train_summary", VTensor v4)
                           :: ("update_ae",
                               VUpdate {| upd_optimizer := opt; upd_loss := ta;
                                          upd_vars := params_ae;
                                          upd_global_step := Some (v_name gs) |})
                           :: ("grad_norm_ae", VTensor v5)
                           :: self st |}.
Proof.
  intros Hg Ha HD H. unfold init_updates in H.
  remember (if (optimizer hparams =? "sgd")%string
            then Some "GradientDescentOptimizer"
            else if (optimizer hparams =? "adam")%string
                 then Some "AdamOptimizer" else None) as o eqn:Eo.
  rewrite (bind_run _ _ _ _ _ (get_tensor_bound _ _ _ Ha)) in H.
  apply bind_Ok in H. destruct H as ([[gn ua] ts] & s1 & H1 & H).
  rewrite (train_params_eq _ _ _ _ gs Hg) in H1. cbv zeta in H1.
  rewrite <- Eo in H1.
  destruct o as [opt |]; [| simpl in H1; discriminate H1].
  destruct params_ae as [| pa params_ae]; [simpl in H1; discriminate H1|].
  inversion H1. subst gn ua ts s1. clear H1.
  unfold bind at 1 2 3 in H. simpl in H.
  rewrite (bind_run _ _ _ _ tD) in H
    by (apply get_tensor_bound; simpl; exact HD).
  apply bind_Ok in H. destruct H as ([[gn ud] ts] & s1 & H1 & H).
  rewrite (train_params_eq _ _ _ _ gs) in H1 by (simpl; exact Hg).
  cbv zeta in H1. rewrite <- Eo in H1.
  destruct params_D as [| pd params_D]; [simpl in H1; discriminate H1|].
  inversion H1. subst gn ud ts s1. clear H1.
  unfold bind, setattr in H. simpl in H. inversion H.
  split; [discriminate|]. split; [discriminate|].
  exists opt. do 5 eexists. split; [| reflexivity].
  destruct (String.eqb_spec (optimizer hparams) "sgd") as [E | _].
  - left. split; [exact E | congruence].
  - destruct (String.eqb_spec (optimizer hparams) "adam") as [E | _];
      [| discriminate].
    right. split; [exact E | congruence].
Qed.

Lemma lookup_app (a : string) (o1 o2 : object) :
  lookup a (o1 ++ o2)%list
  = match lookup a o1 with Some v => Some v | None => lookup a o2 end.
Proof.
  induction o1 as [| [k v] o1 IH]; simpl; [reflexivity|].
  destruct (k =? a)%string; [reflexivity | exact IH].
Qed.

Lemma lookup_bound (a : string) (o : object) :
  lookup a o <> None <-> In a (map fst o).
Proof.
  induction o as [| [k v] o IH]; simpl.
  - split; [intros H; contradiction | intros []].
  - destruct (String.eqb_spec k a) as [E | NE].
    + split; [intros _; left; exact E | intros _; discriminate].
    + rewrite IH. split; [intros H; right; exact H | intros [H | H]; congruence].
Qed.

Lemma same_names_In (l1 l2 : list string) :
  same_names l1 l2 = true -> forall a, In a l1 <-> In a l2.
Proof.
  unfold same_names. intros H a. apply andb_true_iff in H. destruct H as [H1 H2].
  rewrite forallb_forall in H1, H2.
  split; intros Hin.
  - apply H1 in Hin. apply existsb_exists in Hin. destruct Hin as (x & Hx & E).
    apply String.eqb_eq in E. subst. exact Hx.
  - apply H2 in Hin. apply existsb_exists in Hin. destruct Hin as (x & Hx & E).
    apply String.eqb_eq in E. subst. exact Hx.
Qed.

Section Stages.

Context {subclass : Subclass} {model_helper : ModelHelper}
        {disciplined : Disciplined subclass model_helper}.

(** [build_graph] rebinds the two projection layers, once each, built under
    the scope of the block "auto", and nothing else; the logits of the four
    passes are the projections of the decoder outputs. *)
Lemma build_graph_self (hparams : HParams) (scope : scope_arg) (st st' : State)
  (r1 r2 r3 r4 : pass_result) (loss ladv : option tensor) (ls lt : DenseLayer) :
  build_graph hparams scope st = Ok ((r1, r2, r3, r4, loss, ladv), st') ->
  lookup "output_layer_src" (self st) = Some (VLayer ls) ->
  lookup "output_layer_tgt" (self st) = Some (VLayer lt) ->
  let cur := scope_join (auto_scope scope (g_scope (graph st))) "decoder" in
  self st' = push_layer "output_layer_tgt" cur lt
               (push_layer "output_layer_src" cur ls (self st))
  /\ (forall mode, lookup "mode" (self st) = Some (VMode mode) -> mode <> INFER ->
        exists x : pass -> tensor,
          pass_logits r1 = Op "dense" [x s2s; Var (layer_kernel (built_layer cur ls))]
          /\ pass_logits r2
             = Op "dense" [x t2t; Var (layer_kernel (built_layer cur lt))]
          /\ pass_logits r3
             = Op "dense" [x s2t; Var (layer_kernel (built_layer cur lt))]
          /\ pass_logits r4
             = Op "dense" [x t2s; Var (layer_kernel (built_layer cur ls))]).
Proof.
  intros H Hs Ht cur. unfold build_graph in H.
  apply with_scope_or_Ok in H. destruct H as (s_out & H & ->).
  set (top := entered_scope scope "dynamic_seq2seq" (g_scope (graph st))) in *.
  set (s0 := inside top (g_reuse (graph st)) st) in *.
  apply bind_Ok in H. destruct H as ([b1 b2] & sa & Ha & H).
  apply with_scope_or_Ok in Ha. destruct Ha as (sa_out & Ha & ->).
  apply (build_graph_auto_self _ _ _ _ _ ls lt) in Ha; [| exact Hs | exact Ht].
  cbn [inside graph g_scope self s0] in Ha.
  change (scope_join (entered_scope scope "auto" top) "decoder") with cur in Ha.
  destruct Ha as (Sa & La).
  apply bind_Ok in H. destruct H as ([b3 b4] & sc & Hc & H).
  apply with_scope_or_Ok in Hc. destruct Hc as (sc_out & Hc & ->).
  apply (build_graph_cross_self _ _ _ _ _ (built_layer cur ls) (built_layer cur lt))
    in Hc.
  2: { cbn [inside outside self]. rewrite Sa.
       rewrite lookup_push_layer_other by discriminate.
       apply lookup_push_layer_same. exact Hs. }
  2: { cbn [inside outside self]. rewrite Sa.
       apply lookup_push_layer_same.
       rewrite lookup_push_layer_other by discriminate. exact Ht. }
  destruct Hc as (Sc & Lc).
  rewrite !push_layer_built in Sc. rewrite !built_layer_again in Lc.
  cbn [inside outside self] in Sc, Lc.
  apply bind_Ok in H. destruct H as ([l1 l2] & s3 & Hl & H).
  apply framed_build_graph_loss in Hl. destruct Hl as (Fl & _).
  cbn [inside outside self] in Fl.
  inversion H. subst. clear H. cbn [inside outside self pass_logits fst snd].
  split; [rewrite Fl, Sc, Sa; reflexivity|].
  intros mode Hmode Hne.
  destruct (La mode Hmode Hne) as (x1 & x2 & -> & ->).
  destruct (Lc mode) as (x3 & x4 & -> & ->); [| exact Hne |].
  - rewrite Sa. rewrite !lookup_push_layer_other by discriminate. exact Hmode.
  - exists (by_pass x1 x2 x3 x4). repeat split; reflexivity.
Qed.

(** The stages of a successful construction, with the attributes at each. *)
Lemma new_model_stages (g : Graph) (hparams : HParams) (mode : ModeKeys)
  (it1 it2 it3 it4 : BatchedInput) (tab1 tab2 : string)
  (rtab1 rtab2 : option string) (scope : scope_arg) (st : State) :
  new_model g hparams mode it1 it2 it3 it4 tab1 tab2 rtab1 rtab2 scope = Ok st ->
  exists (st1 st2 st3 : State) (emb_src emb_tgt : tensor)
         (r1 r2 r3 r4 : pass_result) (loss ladv : option tensor),
    self st1 = early_self hparams mode it1 it2 it3 it4 tab1 tab2 emb_src emb_tgt
    /\ self st2
       = ("output_layer_tgt", VLayer (projection_tgt hparams scope (g_scope g)))
         :: ("output_layer_src", VLayer (projection_src hparams scope (g_scope g)))
         :: self st1
    /\ g_scope (graph st2) = g_scope g
    /\ g_reuse (graph st2) = g_reuse g
    /\ incl (g_vars g) (g_vars (graph st2))
    /\ num_encoder_layers hparams <> 0
    /\ num_decoder_layers hparams <> 0
    /\ build_graph hparams scope st1 = Ok ((r1, r2, r3, r4, loss, ladv), st2)
    /\ init_outputs r1 r2 r3 r4 loss ladv rtab1 rtab2 st2 = Ok (tt, st3)
    /\ init_training hparams st3 = Ok (tt, st)
    /\ (mode <> INFER ->
        exists x : pass -> tensor,
          pass_logits r1
          = Op "dense" [x s2s; Var (layer_kernel (projection_src hparams scope (g_scope g)))]
          /\ pass_logits r2
             = Op "dense" [x t2t; Var (layer_kernel (projection_tgt hparams scope (g_scope g)))]
          /\ pass_logits r3
             = Op "dense" [x s2t; Var (layer_kernel (projection_tgt hparams scope (g_scope g)))]
          /\ pass_logits r4
             = Op "dense" [x t2s; Var (layer_kernel (projection_src hparams scope (g_scope g)))])
    /\ exists dlogits : pass -> tensor,
         let logits :=
           by_pass (pass_logits r1) (pass_logits r2) (pass_logits r3) (pass_logits r4) in
         loss = match mode with
                | INFER => None
                | _ => Some (total_loss (time_major hparams)
                               (Size (Field it1 source_sequence_length))
                               (by_pass it1 it2 it3 it4) logits dlogits)
                end
         /\ ladv = match mode with
                   | INFER => None
                   | _ => Some (total_loss_adv (by_pass it1 it2 it3 it4) dlogits)
                   end.
Proof.
  intros H. apply new_model_Ok in H.
  destruct H as (st1 & st2 & st3 & r1 & r2 & r3 & r4 & loss & ladv
                 & H1 & H2 & H3 & H4).
  apply (init_attributes_eq _ _ _ _ _ _ _ _ _ _ _ create_emb_framed) in H1.
  destruct H1 as (emb_src & emb_tgt & Hself & Hscope & Hreuse & Hincl & Ne & Nd).
  pose proof H2 as H2'.
  apply (build_graph_self _ _ _ _ _ _ _ _ _ _
           {| layer_name := "output_projection_src";
              layer_units := src_vocab_size hparams; layer_built := None |}
           {| layer_name := "output_projection_tgt";
              layer_units := tgt_vocab_size hparams; layer_built := None |}) in H2';
    [| rewrite Hself; reflexivity | rewrite Hself; reflexivity].
  rewrite Hscope in H2'. destruct H2' as (S2 & L2).
  pose proof H2 as H2''.
  eapply (build_graph_Ok hparams scope st1 st2 mode (time_major hparams)
            (Size (Field it1 source_sequence_length)) (by_pass it1 it2 it3 it4))
    in H2''; try (rewrite Hself; reflexivity).
  destruct H2'' as (b1 & b2 & b3 & b4 & Hr & (_ & A2 & A3 & A4) & _).
  exists st1, st2, st3, emb_src, emb_tgt, r1, r2, r3, r4, loss, ladv.
  split; [exact Hself|]. split; [exact S2|].
  split; [congruence|]. split; [congruence|].
  split; [eapply incl_tran; eassumption|].
  split; [exact Ne|]. split; [exact Nd|].
  split; [exact H2|]. split; [exact H3|]. split; [exact H4|].
  split; [intros Hm; apply (L2 mode); [rewrite Hself; reflexivity | exact Hm]|].
  eexists. cbv zeta. inversion Hr. subst r1 r2 r3 r4.
  cbn [pass_logits fst]. split; reflexivity.
Qed.

End Stages.

(** ** The constructed model, mode by mode *)

Lemma init_training_TRAIN (hparams : HParams) (st st' : State) (ta tD : tensor) :
  lookup "mode" (self st) = Some (VMode TRAIN) ->
  lookup "train_loss_ae" (self st) = Some (VTensor ta) ->
  lookup "train_loss_D" (self st) = Some (VTensor tD) ->
  init_training hparams st = Ok (tt, st') ->
  let g' := with_global_step (graph st) in
  let params_D := trainable_variables_scope_discriminator g' in
  let params_ae := py_set_difference (trainable_variables g') params_D in
  exists (opt : string) (lr1 lr : rate) (v1 v2 v3 v4 v5 : tensor),
    learning_rate_schedule hparams = Ok lr
    /\ optimizer_class hparams = Some opt
    /\ params_ae <> [] /\ params_D <> []
    /\ st' = {| graph := g';
                self :=
                  ("saver", saver_of g')
                  :: ("train_summary", VTensor v1)
                  :: ("train_summary_D", VTensor v2)
                  :: ("update_D",
                      VUpdate {| upd_optimizer := opt; upd_loss := tD;
                                 upd_vars := params_D;
                                 upd_global_step := Some "Variable" |})
                  :: ("grad_norm_D", VTensor v3)
                  :: ("train_summary", VTensor v4)
                  :: ("update_ae",
                      VUpdate {| upd_optimizer := opt; upd_loss := ta;
                                 upd_vars := params_ae;
                                 upd_global_step := Some "Variable" |})
                  :: ("grad_norm_ae", VTensor v5)
                  :: ("learning_rate", VRate lr)
                  :: ("learning_rate", VRate lr1)
                  :: ("learning_rate", VRate (fun _ => Some (learning_rate hparams)))
                  :: ("global_step", VVariable global_step_variable)
                  :: self st |}.
Proof.
  intros Hm Ha HD H4 g' params_D params_ae. unfold init_training in H4.
  apply bind_Ok in H4. destruct H4 as (gs & s1 & K & H4).
  inversion K. subst gs s1. clear K.
  apply bind_Ok in H4. destruct H4 as ([] & s1 & K & H4).
  inversion K. subst s1. clear K.
  apply bind_Ok in H4. destruct H4 as (g'' & s1 & K & H4).
  inversion K. subst g'' s1. clear K. cbv zeta in H4.
  rewrite (bind_run _ _ _ _ TRAIN) in H4 by (apply get_mode_bound; exact Hm).
  apply bind_Ok in H4. destruct H4 as ([] & s4 & K & H4).
  simpl mode_eqb in K. cbv iota in K.
  apply bind_Ok in K. destruct K as ([] & s5 & Klr & K).
  rewrite init_learning_rate_eq in Klr.
  destruct (_get_learning_rate_warmup _ _) as [lr1 | e] eqn:Ew; [| discriminate Klr].
  destruct (_get_learning_rate_decay _ _) as [lr | e] eqn:Ed; [| discriminate Klr].
  inversion Klr. subst s5. clear Klr.
  eapply (init_updates_inv _ _ _ _ _ ta tD global_step_variable) in K;
    [| reflexivity | simpl; exact Ha | simpl; exact HD].
  destruct K as (Nae & ND & opt & v1 & v2 & v3 & v4 & v5 & Hopt & ->).
  rewrite (bind_run _ _ _ _ TRAIN) in H4 by (apply get_mode_bound; exact Hm).
  simpl in H4. unfold bind, ret, get_graph, setattr in H4. simpl in H4.
  inversion H4. clear H4.
  exists opt, lr1, lr. do 5 eexists.
  split; [unfold learning_rate_schedule; rewrite Ew; exact Ed|].
  split.
  { unfold optimizer_class.
    destruct Hopt as [[E ->] | [E ->]]; rewrite E; reflexivity. }
  split; [exact Nae|]. split; [exact ND|]. reflexivity.
Qed.

Lemma lookup_built_self_mode hparams mode it1 it2 it3 it4 tab1 tab2 scope cur e1 e2 :
  lookup "mode" (built_self hparams mode it1 it2 it3 it4 tab1 tab2 scope cur e1 e2)
  = Some (VMode mode).
Proof. reflexivity. Qed.

Section ModelByMode.

Context {subclass : Subclass} {model_helper : ModelHelper}
        {disciplined : Disciplined subclass model_helper}.

(** What [build_graph] leaves, for every mode. *)
Lemma new_model_built (g : Graph) (hparams : HParams) (mode : ModeKeys)
  (it1 it2 it3 it4 : BatchedInput) (tab1 tab2 : string)
  (rtab1 rtab2 : option string) (scope : scope_arg) (st : State) :
  new_model g hparams mode it1 it2 it3 it4 tab1 tab2 rtab1 rtab2 scope = Ok st ->
  exists (st2 st3 : State) (emb_src emb_tgt : tensor)
         (r1 r2 r3 r4 : pass_result) (x dlogits : pass -> tensor),
    let logits := fun p =>
      Op "dense" [x p; Var (layer_kernel (projection_of hparams scope (g_scope g) p))] in
    self st2 = built_self hparams mode it1 it2 it3 it4 tab1 tab2 scope (g_scope g)
                 emb_src emb_tgt
    /\ g_scope (graph st2) = g_scope g
    /\ g_reuse (graph st2) = g_reuse g
    /\ incl (g_vars g) (g_vars (graph st2))
    /\ num_encoder_layers hparams <> 0
    /\ num_decoder_layers hparams <> 0
    /\ init_outputs r1 r2 r3 r4
         (match mode with
          | INFER => None
          | _ => Some (total_loss (time_major hparams)
                         (Size (Field it1 source_sequence_length))
                         (by_pass it1 it2 it3 it4) logits dlogits)
          end)
         (match mode with
          | INFER => None
          | _ => Some (total_loss_adv (by_pass it1 it2 it3 it4) dlogits)
          end)
         rtab1 rtab2 st2 = Ok (tt, st3)
    /\ init_training hparams st3 = Ok (tt, st).
Proof.
  intros H. apply new_model_stages in H.
  destruct H as (st1 & st2 & st3 & emb_src & emb_tgt & r1 & r2 & r3 & r4
                 & loss & ladv & Hself & S2 & G1 & G2 & G3 & Ne & Nd
                 & _ & H3 & H4 & L & dlogits & Hloss & Hadv).
  cbv zeta in Hloss. rewrite Hself in S2.
  assert (D : mode = INFER \/ mode <> INFER)
    by (destruct mode; (left; reflexivity) || (right; discriminate)).
  destruct D as [-> | Hne].
  - exists st2, st3, emb_src, emb_tgt, r1, r2, r3, r4, (fun _ => Const 0), dlogits.
    cbv zeta. subst loss ladv. unfold built_self.
    split; [exact S2|]. split; [exact G1|]. split; [exact G2|].
    split; [exact G3|]. split; [exact Ne|]. split; [exact Nd|].
    split; [exact H3 | exact H4].
  - destruct (L Hne) as (x & L1 & L2 & L3 & L4).
    exists st2, st3, emb_src, emb_tgt, r1, r2, r3, r4, x, dlogits.
    cbv zeta.
    assert (E : total_loss (time_major hparams)
                  (Size (Field it1 source_sequence_length))
                  (by_pass it1 it2 it3 it4)
                  (by_pass (pass_logits r1) (pass_logits r2) (pass_logits r3)
                           (pass_logits r4)) dlogits
                = total_loss (time_major hparams)
                    (Size (Field it1 source_sequence_length))
                    (by_pass it1 it2 it3 it4)
                    (fun p => Op "dense"
                       [x p; Var (layer_kernel
                                    (projection_of hparams scope (g_scope g) p))])
                    dlogits).
    { unfold total_loss, loss_recon. cbn [by_pass projection_of].
      rewrite L1, L2, L3, L4. reflexivity. }
    rewrite E in Hloss. subst loss ladv. unfold built_self.
    split; [exact S2|]. split; [exact G1|]. split; [exact G2|].
    split; [exact G3|]. split; [exact Ne|]. split; [exact Nd|].
    split; [| exact H4].
    destruct mode; [exact H3 | exact H3 | contradiction].
Qed.

Lemma new_model_EVAL_self (g : Graph) (hparams : HParams)
  (it1 it2 it3 it4 : BatchedInput) (tab1 tab2 : string)
  (rtab1 rtab2 : option string) (scope : scope_arg) (st : State) :
  new_model g hparams EVAL it1 it2 it3 it4 tab1 tab2 rtab1 rtab2 scope = Ok st ->
  exists (st2 : State) (emb_src emb_tgt : tensor) (x dlogits : pass -> tensor),
    let logits := fun p =>
      Op "dense" [x p; Var (layer_kernel (projection_of hparams scope (g_scope g) p))] in
    self st2 = built_self hparams EVAL it1 it2 it3 it4 tab1 tab2 scope (g_scope g)
                 emb_src emb_tgt
    /\ g_scope (graph st2) = g_scope g
    /\ g_reuse (graph st2) = g_reuse g
    /\ incl (g_vars g) (g_vars (graph st2))
    /\ st = {| graph := with_global_step (graph st2);
               self :=
                 ("saver", saver_of (with_global_step (graph st2)))
                 :: ("global_step", VVariable global_step_variable)
                 :: ("predict_count_t2t",
                     VTensor (ReduceSum (Field it2 target_sequence_length)))
                 :: ("predict_count_s2s",
                     VTensor (ReduceSum (Field it1 target_sequence_length)))
                 :: ("eval_loss",
                     VTensor (total_loss (time_major hparams)
                                (Size (Field it1 source_sequence_length))
                                (by_pass it1 it2 it3 it4) logits dlogits))
                 :: self st2 |}.
Proof.
  intros H. apply new_model_built in H.
  destruct H as (st2 & st3 & emb_src & emb_tgt & r1 & r2 & r3 & r4 & x & dlogits
                 & S2 & G1 & G2 & G3 & _ & _ & H3 & H4).
  cbv zeta in H3.
  rewrite (init_outputs_EVAL _ _ _ _ _ _ _ _ _ it1 it2) in H3
    by (rewrite S2; reflexivity).
  inversion H3. subst st3. clear H3.
  rewrite (init_training_not_TRAIN hparams EVAL) in H4;
    [| cbn [self]; simpl; rewrite S2; reflexivity | discriminate].
  inversion H4. clear H4.
  exists st2, emb_src, emb_tgt, x, dlogits. cbv zeta.
  repeat (split; [assumption|]). reflexivity.
Qed.

Lemma new_model_INFER_self (g : Graph) (hparams : HParams)
  (it1 it2 it3 it4 : BatchedInput) (tab1 tab2 : string)
  (rtab1 rtab2 : option string) (scope : scope_arg) (st : State) :
  new_model g hparams INFER it1 it2 it3 it4 tab1 tab2 rtab1 rtab2 scope = Ok st ->
  exists (st2 : State) (emb_src emb_tgt : tensor) (t1 t2 : string)
         (l1 l2 l3 l4 s1 s2 s3 s4 : tensor) (f1 f2 f3 f4 : structure),
    rtab1 = Some t1 /\ rtab2 = Some t2
    /\ self st2 = built_self hparams INFER it1 it2 it3 it4 tab1 tab2 scope (g_scope g)
                    emb_src emb_tgt
    /\ g_scope (graph st2) = g_scope g
    /\ g_reuse (graph st2) = g_reuse g
    /\ incl (g_vars g) (g_vars (graph st2))
    /\ st = {| graph := with_global_step (graph st2);
               self :=
                 ("saver", saver_of (with_global_step (graph st2)))
                 :: ("infer_summary_tgt_cross", VTensor (Op "no_op" []))
                 :: ("infer_summary_src_cross", VTensor (Op "no_op" []))
                 :: ("infer_summary_tgt", VTensor (Op "no_op" []))
                 :: ("infer_summary_src", VTensor (Op "no_op" []))
                 :: ("global_step", VVariable global_step_variable)
                 :: ("sample_words_tgt_cross",
                     VTensor (Op "lookup" [Op t2 []; Op "to_int64" [s3]]))
                 :: ("sample_words_src_cross",
                     VTensor (Op "lookup" [Op t1 []; Op "to_int64" [s4]]))
                 :: ("sample_words_tgt",
                     VTensor (Op "lookup" [Op t2 []; Op "to_int64" [s2]]))
                 :: ("sample_words_src",
                     VTensor (Op "lookup" [Op t1 []; Op "to_int64" [s1]]))
                 :: ("sample_id_cross_tgt", VTensor s3)
                 :: ("final_context_state_cross_tgt", VStructure f3)
                 :: ("infer_cross_logits_tgt", VTensor l3)
                 :: ("sample_id_cross_src", VTensor s4)
                 :: ("final_context_state_cross_src", VStructure f4)
                 :: ("infer_cross_logits_src", VTensor l4)
                 :: ("sample_id_tgt", VTensor s2)
                 :: ("final_context_state_tgt", VStructure f2)
                 :: ("infer_logits_tgt", VTensor l2)
                 :: ("sample_id_src", VTensor s1)
                 :: ("final_context_state_src", VStructure f1)
                 :: ("infer_logits_src", VTensor l1)
                 :: self st2 |}.
Proof.
  intros H. apply new_model_built in H.
  destruct H as (st2 & st3 & emb_src & emb_tgt & r1 & r2 & r3 & r4 & x & dlogits
                 & S2 & G1 & G2 & G3 & _ & _ & H3 & H4).
  cbv zeta in H3.
  destruct r1 as [[l1 f1] s1], r2 as [[l2 f2] s2],
           r3 as [[l3 f3] s3], r4 as [[l4 f4] s4].
  rewrite init_outputs_INFER in H3 by (rewrite S2; reflexivity).
  destruct rtab1 as [t1 |]; [| discriminate H3].
  destruct rtab2 as [t2 |]; [| discriminate H3].
  inversion H3. subst st3. clear H3.
  rewrite (init_training_not_TRAIN hparams INFER) in H4;
    [| cbn [self]; simpl; rewrite S2; reflexivity | discriminate].
  inversion H4. clear H4.
  exists st2, emb_src, emb_tgt, t1, t2, l1, l2, l3, l4, s1, s2, s3, s4, f1, f2, f3, f4.
  split; [reflexivity|]. split; [reflexivity|].
  repeat (split; [assumption|]). reflexivity.
Qed.

Lemma new_model_TRAIN_self (g : Graph) (hparams : HParams)
  (it1 it2 it3 it4 : BatchedInput) (tab1 tab2 : string)
  (rtab1 rtab2 : option string) (scope : scope_arg) (st : State) :
  new_model g hparams TRAIN it1 it2 it3 it4 tab1 tab2 rtab1 rtab2 scope = Ok st ->
  exists (st2 : State) (emb_src emb_tgt : tensor) (x dlogits : pass -> tensor)
         (opt : string) (lr1 lr : rate) (v1 v2 v3 v4 v5 : tensor),
    let logits := fun p =>
      Op "dense" [x p; Var (layer_kernel (projection_of hparams scope (g_scope g) p))] in
    let g' := with_global_step (graph st2) in
    let params_D := trainable_variables_scope_discriminator g' in
    let params_ae := py_set_difference (trainable_variables g') params_D in
    let ta := total_loss (time_major hparams)
                (Size (Field it1 source_sequence_length))
                (by_pass it1 it2 it3 it4) logits dlogits in
    let tD := total_loss_adv (by_pass it1 it2 it3 it4) dlogits in
    self st2 = built_self hparams TRAIN it1 it2 it3 it4 tab1 tab2 scope (g_scope g)
                 emb_src emb_tgt
    /\ g_scope (graph st2) = g_scope g
    /\ g_reuse (graph st2) = g_reuse g
    /\ incl (g_vars g) (g_vars (graph st2))
    /\ learning_rate_schedule hparams = Ok lr
    /\ optimizer_class hparams = Some opt
    /\ params_ae <> [] /\ params_D <> []
    /\ st = {| graph := g';
               self :=
                 ("saver", saver_of g')
                 :: ("train_summary", VTensor v1)
                 :: ("train_summary_D", VTensor v2)
                 :: ("update_D",
                     VUpdate {| upd_optimizer := opt; upd_loss := tD;
                                upd_vars := params_D;
                                upd_global_step := Some "Variable" |})
                 :: ("grad_norm_D", VTensor v3)
                 :: ("train_summary", VTensor v4)
                 :: ("update_ae",
                     VUpdate {| upd_optimizer := opt; upd_loss := ta;
                                upd_vars := params_ae;
                                upd_global_step := Some "Variable" |})
                 :: ("grad_norm_ae", VTensor v5)
                 :: ("learning_rate", VRate lr)
                 :: ("learning_rate", VRate lr1)
                 :: ("learning_rate", VRate (fun _ => Some (learning_rate hparams)))
                 :: ("global_step", VVariable global_step_variable)
                 :: ("predict_count_t2t",
                     VTensor (ReduceSum (Field it2 target_sequence_length)))
                 :: ("predict_count_s2s",
                     VTensor (ReduceSum (Field it1 target_sequence_length)))
                 :: ("word_count_s2s",
                     VTensor (Add (ReduceSum (Field it1 source_sequence_length))
                                  (ReduceSum (Field it1 target_sequence_length))))
                 :: ("train_loss_D", VTensor tD)
                 :: ("train_loss_ae", VTensor ta)
                 :: self st2 |}.
Proof.
  intros H. apply new_model_built in H.
  destruct H as (st2 & st3 & emb_src & emb_tgt & r1 & r2 & r3 & r4 & x & dlogits
                 & S2 & G1 & G2 & G3 & _ & _ & H3 & H4).
  cbv zeta in H3.
  rewrite (init_outputs_TRAIN _ _ _ _ _ _ _ _ _ it1 it2) in H3
    by (rewrite S2; reflexivity).
  inversion H3. subst st3. clear H3.
  eapply init_training_TRAIN in H4;
    [| cbn [self]; simpl; rewrite S2; reflexivity | reflexivity | reflexivity].
  cbv zeta in H4. cbn [graph self tensor_or_None] in H4.
  destruct H4 as (opt & lr1 & lr & v1 & v2 & v3 & v4 & v5 & Hlr & Hopt & Nae & ND & ->).
  exists st2, emb_src, emb_tgt, x, dlogits, opt, lr1, lr, v1, v2, v3, v4, v5.
  cbv zeta. repeat (split; [assumption|]). reflexivity.
Qed.

End ModelByMode.

(** ** Properties of every constructed model *)

Lemma train_wrong_mode (sess : Session) (st : State) (mode : ModeKeys) :
  lookup "mode" (self st) = Some (VMode mode) -> mode <> TRAIN ->
  train sess st = Raise AssertionError.
Proof.
  intros Hm Hne. unfold train.
  rewrite (bind_run _ _ _ _ _ (get_mode_bound _ _ Hm)).
  destruct mode; [contradiction | reflexivity | reflexivity].
Qed.

Lemma eval_wrong_mode (sess : Session) (st : State) (mode : ModeKeys) :
  lookup "mode" (self st) = Some (VMode mode) -> mode <> EVAL ->
  eval sess st = Raise AssertionError.
Proof.
  intros Hm Hne. unfold eval.
  rewrite (bind_run _ _ _ _ _ (get_mode_bound _ _ Hm)).
  destruct mode; [reflexivity | contradiction | reflexivity].
Qed.

Lemma infer_wrong_mode (sess : Session) (st : State) (mode : ModeKeys) :
  lookup "mode" (self st) = Some (VMode mode) -> mode <> INFER ->
  infer sess st = Raise AssertionError
  /\ infer_cross sess st = Raise AssertionError.
Proof.
  intros Hm Hne. unfold infer, infer_cross.
  rewrite !(bind_run _ _ _ _ _ (get_mode_bound _ _ Hm)).
  destruct mode; [split; reflexivity | split; reflexivity | contradiction].
Qed.

Section ConstructedModels.

Context {subclass : Subclass} {model_helper : ModelHelper}
        {disciplined : Disciplined subclass model_helper}.

(** X7. The attributes of a constructed model are those of
    [model_attributes]: the ones bound before the graph is built, the
    global step and the saver in every mode; the two training losses, the
    learning rate and the update operations in TRAIN mode only; [eval_loss]
    in EVAL mode only; the logits, sample ids, sample words and summaries
    in INFER mode only. *)
Theorem model_attributes_bound (g : Graph) (hparams : HParams) (mode : ModeKeys)
  (it1 it2 it3 it4 : BatchedInput) (tab1 tab2 : string)
  (rtab1 rtab2 : option string) (scope : scope_arg) (st : State) :
  new_model g hparams mode it1 it2 it3 it4 tab1 tab2 rtab1 rtab2 scope = Ok st ->
  forall a, lookup a (self st) <> None <-> In a (model_attributes mode).
Proof.
  intros H a. rewrite lookup_bound. destruct mode.
  - apply new_model_TRAIN_self in H.
    destruct H as (st2 & e1 & e2 & x & dl & opt & lr1 & lr & v1 & v2 & v3 & v4 & v5
                   & H).
    cbv zeta in H. destruct H as (S2 & _ & _ & _ & _ & _ & _ & _ & ->).
    cbn [self map fst]. rewrite S2. unfold built_self, early_self.
    cbn [self map fst]. apply same_names_In. reflexivity.
  - apply new_model_EVAL_self in H.
    destruct H as (st2 & e1 & e2 & x & dl & H).
    cbv zeta in H. destruct H as (S2 & _ & _ & _ & ->).
    cbn [self map fst]. rewrite S2. unfold built_self, early_self.
    cbn [self map fst]. apply same_names_In. reflexivity.
  - apply new_model_INFER_self in H.
    destruct H as (st2 & e1 & e2 & t1 & t2 & l1 & l2 & l3 & l4 & s1 & s2 & s3 & s4
                   & f1 & f2 & f3 & f4 & _ & _ & S2 & _ & _ & _ & ->).
    cbn [self map fst]. rewrite S2. unfold built_self, early_self.
    cbn [self map fst]. apply same_names_In. reflexivity.
Qed.

(** X8. Each method runs on a model of its own mode and only there: [train]
    returns on a TRAIN model, [eval] on an EVAL model, [infer] and
    [infer_cross] on an INFER model (every attribute they fetch is bound),
    and on a model of another mode each fails its assertion.  [eval],
    [infer] and [infer_cross] run no update: they leave the session as it
    was. *)
Theorem methods_by_mode (g : Graph) (hparams : HParams) (mode : ModeKeys)
  (it1 it2 it3 it4 : BatchedInput) (tab1 tab2 : string)
  (rtab1 rtab2 : option string) (scope : scope_arg) (st : State) :
  new_model g hparams mode it1 it2 it3 it4 tab1 tab2 rtab1 rtab2 scope = Ok st ->
  forall sess : Session,
    (mode = TRAIN -> exists sess', train sess st = Ok (sess', st))
    /\ (mode <> TRAIN -> train sess st = Raise AssertionError)
    /\ (mode = EVAL -> eval sess st = Ok (sess, st))
    /\ (mode <> EVAL -> eval sess st = Raise AssertionError)
    /\ (mode = INFER ->
        infer sess st = Ok (sess, st) /\ infer_cross sess st = Ok (sess, st))
    /\ (mode <> INFER ->
        infer sess st = Raise AssertionError
        /\ infer_cross sess st = Raise AssertionError).
Proof.
  intros H sess.
  pose proof (new_model_early_attributes _ _ _ _ _ _ _ _ _ _ _ _ _ H) as (Hm & _).
  split; [| split; [| split; [| split; [| split]]]].
  - intros ->. apply new_model_TRAIN in H.
    destruct H as (uae & uD & lr & _ & _ & _ & _ & _ & _ & _ & _ & _ & Ht).
    eexists. apply Ht.
  - intros Hne. exact (train_wrong_mode sess st mode Hm Hne).
  - intros ->. apply new_model_EVAL_self in H.
    destruct H as (st2 & e1 & e2 & x & dl & H).
    cbv zeta in H. destruct H as (S2 & _ & _ & _ & ->).
    unfold eval, get_mode, bind, getattr, as_mode, py_assert, ret.
    cbn [self lookup String.eqb Ascii.eqb Bool.eqb]. rewrite S2. reflexivity.
  - intros Hne. exact (eval_wrong_mode sess st mode Hm Hne).
  - intros ->. apply new_model_INFER_self in H.
    destruct H as (st2 & e1 & e2 & t1 & t2 & l1 & l2 & l3 & l4 & s1 & s2 & s3 & s4
                   & f1 & f2 & f3 & f4 & _ & _ & S2 & _ & _ & _ & ->).
    split.
    + unfold infer, get_mode, bind, getattr, as_mode, py_assert, ret.
      cbn [self lookup String.eqb Ascii.eqb Bool.eqb]. rewrite S2. reflexivity.
    + unfold infer_cross, get_mode, bind, getattr, as_mode, py_assert, ret.
      cbn [self lookup String.eqb Ascii.eqb Bool.eqb]. rewrite S2. reflexivity.
  - intros Hne. exact (infer_wrong_mode sess st mode Hm Hne).
Qed.

(** X9. The constructor keeps what it is given: the four iterators, the
    mode, the vocabulary tables and the sizes and layer counts of [hparams]
    are bound unchanged on the constructed model; the two residual counts
    are [num_residual_layers] when [hparams] has it and the encoder's and
    the decoder's own counts otherwise; [single_cell_fn] is [None] (no
    [extra_args] are given); and both layer counts are non-zero. *)
Theorem constructor_arguments_stored (g : Graph) (hparams : HParams)
  (mode : ModeKeys) (it1 it2 it3 it4 : BatchedInput) (tab1 tab2 : string)
  (rtab1 rtab2 : option string) (scope : scope_arg) (st : State) :
  new_model g hparams mode it1 it2 it3 it4 tab1 tab2 rtab1 rtab2 scope = Ok st ->
  lookup "iterator_s2s" (self st) = Some (VIter it1)
  /\ lookup "iterator_t2t" (self st) = Some (VIter it2)
  /\ lookup "iterator_s2t" (self st) = Some (VIter it3)
  /\ lookup "iterator_t2s" (self st) = Some (VIter it4)
  /\ lookup "mode" (self st) = Some (VMode mode)
  /\ lookup "src_vocab_table" (self st) = Some (VTable tab1)
  /\ lookup "tgt_vocab_table" (self st) = Some (VTable tab2)
  /\ lookup "src_vocab_size" (self st) = Some (VInt (src_vocab_size hparams))
  /\ lookup "tgt_vocab_size" (self st) = Some (VInt (tgt_vocab_size hparams))
  /\ lookup "num_gpus" (self st) = Some (VInt (num_gpus hparams))
  /\ lookup "time_major" (self st) = Some (VBool (time_major hparams))
  /\ lookup "single_cell_fn" (self st) = Some VNone
  /\ lookup "num_encoder_layers" (self st) = Some (VInt (num_encoder_layers hparams))
  /\ lookup "num_decoder_layers" (self st) = Some (VInt (num_decoder_layers hparams))
  /\ lookup "num_encoder_residual_layers" (self st)
     = Some (VInt (match num_residual_layers hparams with
                   | Some n => n
                   | None => num_encoder_residual_layers hparams
                   end))
  /\ lookup "num_decoder_residual_layers" (self st)
     = Some (VInt (match num_residual_layers hparams with
                   | Some n => n
                   | None => num_decoder_residual_layers hparams
                   end))
  /\ num_encoder_layers hparams <> 0
  /\ num_decoder_layers hparams <> 0.
Proof.
  intros H.
  pose proof (new_model_built _ _ _ _ _ _ _ _ _ _ _ _ _ H)
    as (st2' & st3' & e1' & e2' & r1 & r2 & r3 & r4 & x' & dl' & Hb).
  cbv zeta in Hb. destruct Hb as (_ & _ & _ & _ & Ne & Nd & _).
  destruct mode.
  - apply new_model_TRAIN_self in H.
    destruct H as (st2 & e1 & e2 & x & dl & opt & lr1 & lr & v1 & v2 & v3 & v4 & v5
                   & H).
    cbv zeta in H. destruct H as (S2 & _ & _ & _ & _ & _ & _ & _ & ->).
    cbn [self lookup String.eqb Ascii.eqb Bool.eqb]. rewrite S2.
    repeat (split; [reflexivity|]). split; assumption.
  - apply new_model_EVAL_self in H.
    destruct H as (st2 & e1 & e2 & x & dl & H).
    cbv zeta in H. destruct H as (S2 & _ & _ & _ & ->).
    cbn [self lookup String.eqb Ascii.eqb Bool.eqb]. rewrite S2.
    repeat (split; [reflexivity|]). split; assumption.
  - apply new_model_INFER_self in H.
    destruct H as (st2 & e1 & e2 & t1 & t2 & l1 & l2 & l3 & l4 & s1 & s2 & s3 & s4
                   & f1 & f2 & f3 & f4 & _ & _ & S2 & _ & _ & _ & ->).
    cbn [self lookup String.eqb Ascii.eqb Bool.eqb]. rewrite S2.
    repeat (split; [reflexivity|]). split; assumption.
Qed.

(** X10. Each language has one output projection for both of its passes:
    the source-language layer is built by the decoder of the first
    same-language pass, under the scope of the block "auto", and the cross
    pass that produces the source language projects with the same kernel
    (and likewise for the target language); it is these logits that the
    reconstruction losses of the model are computed from. *)
Theorem projection_layers_shared (g : Graph) (hparams : HParams)
  (mode : ModeKeys) (it1 it2 it3 it4 : BatchedInput) (tab1 tab2 : string)
  (rtab1 rtab2 : option string) (scope : scope_arg) (st : State) :
  new_model g hparams mode it1 it2 it3 it4 tab1 tab2 rtab1 rtab2 scope = Ok st ->
  let decoder := scope_join (auto_scope scope (g_scope g)) "decoder" in
  let projection := projection_of hparams scope (g_scope g) in
  lookup "output_layer_src" (self st) = Some (VLayer (projection s2s))
  /\ lookup "output_layer_tgt" (self st) = Some (VLayer (projection t2t))
  /\ projection t2s = projection s2s
  /\ projection s2t = projection t2t
  /\ layer_built (projection s2s)
     = Some (scope_join decoder "output_projection_src")
  /\ layer_built (projection t2t)
     = Some (scope_join decoder "output_projection_tgt")
  /\ layer_units (projection s2s) = src_vocab_size hparams
  /\ layer_units (projection t2t) = tgt_vocab_size hparams
  /\ (mode <> INFER ->
      exists x dlogits : pass -> tensor,
        let loss :=
          total_loss (time_major hparams) (Size (Field it1 source_sequence_length))
            (by_pass it1 it2 it3 it4)
            (fun p => Op "dense" [x p; Var (layer_kernel (projection p))]) dlogits in
        (mode = TRAIN -> lookup "train_loss_ae" (self st) = Some (VTensor loss))
        /\ (mode = EVAL -> lookup "eval_loss" (self st) = Some (VTensor loss))).
Proof.
  intros H decoder projection.
  destruct mode.
  - apply new_model_TRAIN_self in H.
    destruct H as (st2 & e1 & e2 & x & dl & opt & lr1 & lr & v1 & v2 & v3 & v4 & v5
                   & H).
    cbv zeta in H. destruct H as (S2 & _ & _ & _ & _ & _ & _ & _ & ->).
    cbn [self lookup String.eqb Ascii.eqb Bool.eqb]. rewrite S2.
    do 8 (split; [reflexivity|]).
    intros _. exists x, dl. cbv zeta. split; [intros _; reflexivity|].
    intros E. discriminate E.
  - apply new_model_EVAL_self in H.
    destruct H as (st2 & e1 & e2 & x & dl & H).
    cbv zeta in H. destruct H as (S2 & _ & _ & _ & ->).
    cbn [self lookup String.eqb Ascii.eqb Bool.eqb]. rewrite S2.
    do 8 (split; [reflexivity|]).
    intros _. exists x, dl. cbv zeta. split; [intros E; discriminate E|].
    intros _. reflexivity.
  - apply new_model_INFER_self in H.
    destruct H as (st2 & e1 & e2 & t1 & t2 & l1 & l2 & l3 & l4 & s1 & s2 & s3 & s4
                   & f1 & f2 & f3 & f4 & _ & _ & S2 & _ & _ & _ & ->).
    cbn [self lookup String.eqb Ascii.eqb Bool.eqb]. rewrite S2.
    do 8 (split; [reflexivity|]).
    intros N. contradiction.
Qed.


(** X12. The reverse vocabulary tables are needed in INFER mode and only
    there: an INFER model is constructed only when both are given (with one
    missing the constructor fails once the graph is built), and in TRAIN and
    EVAL mode the constructor does the same with and without them. *)
Theorem reverse_tables_by_mode (g : Graph) (hparams : HParams) (mode : ModeKeys)
  (it1 it2 it3 it4 : BatchedInput) (tab1 tab2 : string)
  (rtab1 rtab2 : option string) (scope : scope_arg) :
  (forall st,
     new_model g hparams INFER it1 it2 it3 it4 tab1 tab2 rtab1 rtab2 scope = Ok st ->
     rtab1 <> None /\ rtab2 <> None)
  /\ (mode <> INFER ->
      new_model g hparams mode it1 it2 it3 it4 tab1 tab2 rtab1 rtab2 scope
      = new_model g hparams mode it1 it2 it3 it4 tab1 tab2 None None scope).
Proof.
  split.
  - intros st H. apply new_model_INFER_self in H.
    destruct H as (st2 & e1 & e2 & t1 & t2 & l1 & l2 & l3 & l4 & s1 & s2 & s3 & s4
                   & f1 & f2 & f3 & f4 & -> & -> & _).
    split; discriminate.
  - intros Hne. unfold new_model, __init__.
    destruct (init_attributes hparams mode it1 it2 it3 it4 tab1 tab2 scope
                {| graph := g; self := [] |}) as [[[] st1] | e] eqn:E1.
    + rewrite !(bind_run _ _ _ _ _ E1).
      apply (init_attributes_eq _ _ _ _ _ _ _ _ _ _ _ create_emb_framed) in E1.
      destruct E1 as (emb_src & emb_tgt & Hself & _).
      destruct (build_graph hparams scope st1)
        as [[[[[[[r1 r2] r3] r4] loss] ladv] st2] | e] eqn:E2.
      * rewrite !(bind_run _ _ _ _ _ E2). cbv beta iota.
        eapply (build_graph_Ok hparams scope st1 st2 mode (time_major hparams)
                  (Size (Field it1 source_sequence_length))
                  (by_pass it1 it2 it3 it4))
          in E2; try (rewrite Hself; reflexivity).
        destruct E2 as (_ & _ & _ & _ & _ & A & _).
        assert (L : forall a, a <> "output_layer_src" -> a <> "output_layer_tgt" ->
                              lookup a (self st2) = lookup a (self st1))
          by (intros; apply advances_lookup; assumption).
        assert (Hm2 : lookup "mode" (self st2) = Some (VMode mode))
          by (rewrite L by discriminate; rewrite Hself; reflexivity).
        assert (Hi1 : lookup "iterator_s2s" (self st2) = Some (VIter it1))
          by (rewrite L by discriminate; rewrite Hself; reflexivity).
        assert (Hi2 : lookup "iterator_t2t" (self st2) = Some (VIter it2))
          by (rewrite L by discriminate; rewrite Hself; reflexivity).
        unfold bind.
        destruct mode; [| | contradiction].
        -- rewrite !(init_outputs_TRAIN _ _ _ _ _ _ _ _ _ it1 it2) by assumption.
           reflexivity.
        -- rewrite !(init_outputs_EVAL _ _ _ _ _ _ _ _ _ it1 it2) by assumption.
           reflexivity.
      * rewrite !(bind_raise _ _ _ _ E2). reflexivity.
    + rewrite !(bind_raise _ _ _ _ E1). reflexivity.
Qed.

(** X14. In a TRAIN model each update operation minimises its own loss
    over its own, non-empty, set of variables with the optimizer [hparams]
    names ("sgd" or "adam", nothing else lets a model be constructed):
    [update_ae] the loss bound to [train_loss_ae] over the trainable
    variables outside the discriminator, [update_D] the loss bound to
    [train_loss_D] over the discriminator's; the global step is in neither
    set. *)
Theorem update_operations (g : Graph) (hparams : HParams)
  (it1 it2 it3 it4 : BatchedInput) (tab1 tab2 : string)
  (rtab1 rtab2 : option string) (scope : scope_arg) (st : State) :
  new_model g hparams TRAIN it1 it2 it3 it4 tab1 tab2 rtab1 rtab2 scope = Ok st ->
  exists (update_ae update_D : UpdateOp) (loss_ae loss_D : tensor) (opt : string),
    lookup "update_ae" (self st) = Some (VUpdate update_ae)
    /\ lookup "update_D" (self st) = Some (VUpdate update_D)
    /\ lookup "train_loss_ae" (self st) = Some (VTensor loss_ae)
    /\ lookup "train_loss_D" (self st) = Some (VTensor loss_D)
    /\ upd_loss update_ae = loss_ae
    /\ upd_loss update_D = loss_D
    /\ (optimizer hparams = "sgd" /\ opt = "GradientDescentOptimizer"
        \/ optimizer hparams = "adam" /\ opt = "AdamOptimizer")
    /\ upd_optimizer update_ae = opt
    /\ upd_optimizer update_D = opt
    /\ upd_vars update_ae <> []
    /\ upd_vars update_D <> []
    /\ (forall v, In v (upd_vars update_D) <->
                  In v (g_vars (graph st)) /\ v_trainable v = true
                  /\ re_match_dotstar "discriminator" (v_name v) = true)
    /\ (forall v, In v (upd_vars update_ae) <->
                  In v (g_vars (graph st)) /\ v_trainable v = true
                  /\ re_match_dotstar "discriminator" (v_name v) = false)
    /\ ~ In global_step_variable (upd_vars update_ae)
    /\ ~ In global_step_variable (upd_vars update_D).
Proof.
  intros H. apply new_model_TRAIN_self in H.
  destruct H as (st2 & e1 & e2 & x & dl & opt & lr1 & lr & v1 & v2 & v3 & v4 & v5
                 & H).
  cbv zeta in H. destruct H as (S2 & _ & _ & _ & _ & Hopt & Nae & ND & ->).
  set (g' := with_global_step (graph st2)) in *.
  assert (HD : forall v, In v (trainable_variables_scope_discriminator g') <->
                 In v (g_vars g') /\ v_trainable v = true
                 /\ re_match_dotstar "discriminator" (v_name v) = true).
  { intros v. rewrite discriminator_params_In. unfold trainable_variables.
    rewrite filter_In. tauto. }
  assert (Hae : forall v,
             In v (py_set_difference (trainable_variables g')
                     (trainable_variables_scope_discriminator g')) <->
             In v (g_vars g') /\ v_trainable v = true
             /\ re_match_dotstar "discriminator" (v_name v) = false).
  { intros v. rewrite py_set_difference_In, HD. unfold trainable_variables.
    rewrite filter_In.
    destruct (re_match_dotstar "discriminator" (v_name v)); intuition congruence. }
  do 4 eexists. exists opt.
  cbn [self lookup String.eqb Ascii.eqb Bool.eqb graph upd_loss upd_optimizer upd_vars].
  split; [reflexivity|]. split; [reflexivity|].
  split; [reflexivity|]. split; [reflexivity|].
  split; [reflexivity|]. split; [reflexivity|].
  split.
  { unfold optimizer_class in Hopt.
    destruct (String.eqb_spec (optimizer hparams) "sgd") as [E | _].
    - left. split; [exact E | congruence].
    - destruct (String.eqb_spec (optimizer hparams) "adam") as [E | _];
        [| discriminate].
      right. split; [exact E | congruence]. }
  split; [reflexivity|]. split; [reflexivity|].
  split; [exact Nae|]. split; [exact ND|].
  split; [exact HD|]. split; [exact Hae|].
  split.
  - intros Hin. apply Hae in Hin. destruct Hin as (_ & Ht & _). discriminate Ht.
  - intros Hin. apply HD in Hin. destruct Hin as (_ & Ht & _). discriminate Ht.
Qed.

End ConstructedModels.

(** X13. A model needs at least one encoder layer and one decoder layer:
    with either count 0 the constructor fails its assertion, whatever the
    subclass, the mode and the other arguments. *)
Theorem layer_counts_asserted {subclass : Subclass} {model_helper : ModelHelper}
  (g : Graph) (hparams : HParams) (mode : ModeKeys)
  (it1 it2 it3 it4 : BatchedInput) (tab1 tab2 : string)
  (rtab1 rtab2 : option string) (scope : scope_arg) :
  num_encoder_layers hparams = 0 \/ num_decoder_layers hparams = 0 ->
  new_model g hparams mode it1 it2 it3 it4 tab1 tab2 rtab1 rtab2 scope
  = Raise AssertionError.
Proof.
  intros H. unfold new_model, __init__.
  rewrite bind_raise with (e := AssertionError); [reflexivity|].
  unfold init_attributes.
  cbv beta iota delta [bind setattr py_assert ret raise graph self].
  destruct H as [E | E].
  - apply Z.eqb_eq in E. rewrite E. reflexivity.
  - destruct (num_encoder_layers hparams =? 0); [reflexivity|].
    apply Z.eqb_eq in E. rewrite E. reflexivity.
Qed.

(** ** Decoding *)

Lemma get_bool_bound (attr : string) (b : bool) (st : State) :
  lookup attr (self st) = Some (VBool b) -> get_bool attr st = Ok (b, st).
Proof.
  intros H. unfold get_bool. rewrite (bind_run _ _ _ _ _ (getattr_bound _ _ _ H)).
  reflexivity.
Qed.

Lemma position_rev_seq (n d : nat) :
  (d < n)%nat -> position d (rev (seq 0 n)) = (n - 1 - d)%nat.
Proof.
  induction n as [| n IH]; intros H; [lia|].
  rewrite seq_S, rev_app_distr. simpl.
  destruct (Nat.eqb_spec n d) as [E | NE]; [lia|].
  rewrite IH by lia. lia.
Qed.

Lemma map_nth_seq {B} (l : list B) (d : B) :
  map (fun i => nth i l d) (seq 0 (List.length l)) = l.
Proof.
  apply (nth_ext _ _ d d).
  - rewrite length_map, length_seq. reflexivity.
  - intros i Hi. rewrite length_map, length_seq in Hi.
    rewrite (nth_indep _ d (nth 0 l d)) by (rewrite length_map, length_seq; exact Hi).
    rewrite (map_nth (fun i => nth i l d) (seq 0 (List.length l)) 0%nat i).
    rewrite seq_nth by exact Hi. reflexivity.
Qed.

Lemma reversed_index (idx : list nat) (n : nat) :
  List.length idx = n ->
  map (fun d => nth (position d (rev (seq 0 n))) idx 0%nat) (seq 0 n) = rev idx.
Proof.
  intros H. apply (nth_ext _ _ 0%nat 0%nat).
  - rewrite length_map, length_seq, length_rev. symmetry. exact H.
  - intros i Hi. rewrite length_map, length_seq in Hi.
    rewrite (nth_indep _ 0%nat
               (nth (position 0 (rev (seq 0 n))) idx 0%nat))
      by (rewrite length_map, length_seq; exact Hi).
    rewrite (map_nth (fun d => nth (position d (rev (seq 0 n))) idx 0%nat)
               (seq 0 n) 0%nat i).
    rewrite seq_nth by exact Hi. simpl.
    rewrite position_rev_seq by exact Hi.
    rewrite rev_nth by lia. f_equal. lia.
Qed.

Lemma np_transpose_reverse {A} (a : ndarray A) :
  exists x, np_transpose (rev (seq 0 (ndim a))) a = Ok x /\ axes_reversed a x.
Proof.
  unfold np_transpose. rewrite length_rev, length_seq, Nat.eqb_refl.
  eexists. split; [reflexivity|]. split.
  - cbn [nd_shape]. rewrite map_rev. unfold ndim. rewrite map_nth_seq. reflexivity.
  - intros idx H. cbn [nd_item]. rewrite reversed_index by exact H. reflexivity.
Qed.

Lemma np_transpose_beam {A} (a : ndarray A) :
  ndim a = 3%nat ->
  exists x, np_transpose [2; 0; 1]%nat a = Ok x /\ beam_first a x.
Proof.
  intros H. unfold np_transpose, beam_first. rewrite H. cbn [List.length Nat.eqb].
  unfold ndim in H. destruct a as [shape item]. cbn [nd_shape nd_item] in *.
  destruct shape as [| b [| t [| w [| ? ?]]]]; try discriminate H.
  eexists. split; [reflexivity|].
  exists b, t, w. split; [reflexivity|]. split; [reflexivity|].
  intros i j k. reflexivity.
Qed.

Lemma np_transpose_beam_error {A} (a : ndarray A) :
  ndim a <> 3%nat ->
  np_transpose [2; 0; 1]%nat a = Raise (ValueError "axes don't match array").
Proof.
  intros H. unfold np_transpose. cbn [List.length].
  destruct (Nat.eqb_spec 3 (ndim a)) as [E | _]; [| reflexivity].
  exfalso. apply H. symmetry. exact E.
Qed.

(** The four layouts of the two arrays a decoding returns. *)
Section Layout.

Context {A : Type}.

Lemma layout_time_major (a b : ndarray A) (s1 s2 : fetched A) (st : State) :
  exists x y,
    (' (src, tgt) <-
       (src <- transpose_method None (FArray a) ;;
        tgt <- transpose_method None (FArray b) ;;
        ret (src, tgt)) ;;
     ret ((src, s1), (tgt, s2))) st
    = Ok (((FArray x, s1), (FArray y, s2)), st)
    /\ axes_reversed a x /\ axes_reversed b y.
Proof.
  destruct (np_transpose_reverse a) as (x & Ex & Hx).
  destruct (np_transpose_reverse b) as (y & Ey & Hy).
  exists x, y. split; [| split; assumption].
  unfold bind, transpose_method, ret. rewrite Ex, Ey. reflexivity.
Qed.

Lemma layout_batch_major (a b : ndarray A) (s1 s2 : fetched A) (st : State) :
  let m :=
    (' (src, tgt) <-
       (n <- get_ndim (FArray a) ;;
        if (n =? 3)%nat then
          src <- transpose_method (Some [2; 0; 1]%nat) (FArray a) ;;
          tgt <- transpose_method (Some [2; 0; 1]%nat) (FArray b) ;;
          ret (src, tgt)
        else ret (FArray a, FArray b)) ;;
     ret ((src, s1), (tgt, s2))) st in
  (ndim a = 3%nat -> ndim b = 3%nat ->
   exists x y, m = Ok (((FArray x, s1), (FArray y, s2)), st)
               /\ beam_first a x /\ beam_first b y)
  /\ (ndim a = 3%nat -> ndim b <> 3%nat ->
      m = Raise (ValueError "axes don't match array"))
  /\ (ndim a <> 3%nat -> m = Ok (((FArray a, s1), (FArray b, s2)), st)).
Proof.
  intros m. unfold m. clear m. split; [| split].
  - intros Ha Hb.
    destruct (np_transpose_beam a Ha) as (x & Ex & Hx).
    destruct (np_transpose_beam b Hb) as (y & Ey & Hy).
    exists x, y. split; [| split; assumption].
    unfold bind, get_ndim, transpose_method, ret. rewrite Ha. cbn [Nat.eqb].
    rewrite Ex, Ey. reflexivity.
  - intros Ha Hb.
    destruct (np_transpose_beam a Ha) as (x & Ex & Hx).
    unfold bind, get_ndim, transpose_method, ret, raise. rewrite Ha. cbn [Nat.eqb].
    rewrite Ex, (np_transpose_beam_error b Hb). reflexivity.
  - intros Ha. unfold bind, get_ndim, ret.
    destruct (Nat.eqb_spec (ndim a) 3) as [E | _]; [contradiction | reflexivity].
Qed.

End Layout.

Lemma Fetching_infer_run {A} (sess_run : tensor -> fetched A) (st : State)
  (l1 u1 i1 w1 l2 u2 i2 w2 : tensor) :
  lookup "mode" (self st) = Some (VMode INFER) ->
  lookup "infer_logits_src" (self st) = Some (VTensor l1) ->
  lookup "infer_summary_src" (self st) = Some (VTensor u1) ->
  lookup "sample_id_src" (self st) = Some (VTensor i1) ->
  lookup "sample_words_src" (self st) = Some (VTensor w1) ->
  lookup "infer_logits_tgt" (self st) = Some (VTensor l2) ->
  lookup "infer_summary_tgt" (self st) = Some (VTensor u2) ->
  lookup "sample_id_tgt" (self st) = Some (VTensor i2) ->
  lookup "sample_words_tgt" (self st) = Some (VTensor w2) ->
  Fetching.infer sess_run st
  = Ok (((sess_run l1, sess_run u1, sess_run i1, sess_run w1),
         (sess_run l2, sess_run u2, sess_run i2, sess_run w2)), st).
Proof.
  intros Hm H1 H2 H3 H4 H5 H6 H7 H8. unfold Fetching.infer.
  rewrite (bind_run _ _ _ _ _ (get_mode_bound _ _ Hm)).
  cbn [mode_eqb py_assert]. rewrite (bind_run _ _ st st tt) by reflexivity.
  rewrite (bind_run _ _ _ _ _ (get_tensor_bound _ _ _ H1)).
  rewrite (bind_run _ _ _ _ _ (get_tensor_bound _ _ _ H2)).
  rewrite (bind_run _ _ _ _ _ (get_tensor_bound _ _ _ H3)).
  rewrite (bind_run _ _ _ _ _ (get_tensor_bound _ _ _ H4)).
  rewrite (bind_run _ _ _ _ _ (get_tensor_bound _ _ _ H5)).
  rewrite (bind_run _ _ _ _ _ (get_tensor_bound _ _ _ H6)).
  rewrite (bind_run _ _ _ _ _ (get_tensor_bound _ _ _ H7)).
  rewrite (bind_run _ _ _ _ _ (get_tensor_bound _ _ _ H8)).
  reflexivity.
Qed.

Lemma Fetching_infer_cross_run {A} (sess_run : tensor -> fetched A) (st : State)
  (l1 u1 i1 w1 l2 u2 i2 w2 : tensor) :
  lookup "mode" (self st) = Some (VMode INFER) ->
  lookup "infer_cross_logits_src" (self st) = Some (VTensor l1) ->
  lookup "infer_summary_src_cross" (self st) = Some (VTensor u1) ->
  lookup "sample_id_cross_src" (self st) = Some (VTensor i1) ->
  lookup "sample_words_src_cross" (self st) = Some (VTensor w1) ->
  lookup "infer_cross_logits_tgt" (self st) = Some (VTensor l2) ->
  lookup "infer_summary_tgt_cross" (self st) = Some (VTensor u2) ->
  lookup "sample_id_cross_tgt" (self st) = Some (VTensor i2) ->
  lookup "sample_words_tgt_cross" (self st) = Some (VTensor w2) ->
  Fetching.infer_cross sess_run st
  = Ok (((sess_run l1, sess_run u1, sess_run i1, sess_run w1),
         (sess_run l2, sess_run u2, sess_run i2, sess_run w2)), st).
Proof.
  intros Hm H1 H2 H3 H4 H5 H6 H7 H8. unfold Fetching.infer_cross.
  rewrite (bind_run _ _ _ _ _ (get_mode_bound _ _ Hm)).
  cbn [mode_eqb py_assert]. rewrite (bind_run _ _ st st tt) by reflexivity.
  rewrite (bind_run _ _ _ _ _ (get_tensor_bound _ _ _ H1)).
  rewrite (bind_run _ _ _ _ _ (get_tensor_bound _ _ _ H2)).
  rewrite (bind_run _ _ _ _ _ (get_tensor_bound _ _ _ H3)).
  rewrite (bind_run _ _ _ _ _ (get_tensor_bound _ _ _ H4)).
  rewrite (bind_run _ _ _ _ _ (get_tensor_bound _ _ _ H5)).
  rewrite (bind_run _ _ _ _ _ (get_tensor_bound _ _ _ H6)).
  rewrite (bind_run _ _ _ _ _ (get_tensor_bound _ _ _ H7)).
  rewrite (bind_run _ _ _ _ _ (get_tensor_bound _ _ _ H8)).
  reflexivity.
Qed.

Lemma Fetching_wrong_mode {A} (sess_run : tensor -> fetched A) (st : State)
  (mode : ModeKeys) :
  lookup "mode" (self st) = Some (VMode mode) -> mode <> INFER ->
  Fetching.decode sess_run st = Raise AssertionError
  /\ Fetching.decode_cross sess_run st = Raise AssertionError.
Proof.
  intros Hm Hne.
  unfold Fetching.decode, Fetching.decode_cross, Fetching.infer, Fetching.infer_cross.
  split.
  - apply bind_raise. rewrite (bind_run _ _ _ _ _ (get_mode_bound _ _ Hm)).
    destruct mode; [reflexivity | reflexivity | contradiction].
  - apply bind_raise. rewrite (bind_run _ _ _ _ _ (get_mode_bound _ _ Hm)).
    destruct mode; [reflexivity | reflexivity | contradiction].
Qed.

Section DecodedModels.

Context {subclass : Subclass} {model_helper : ModelHelper}
        {disciplined : Disciplined subclass model_helper}.

(** X15. [decode] returns the sampled words of the two same-language passes
    with the batch before the time: in a time-major model the fetched
    arrays come back with their axes reversed ([time, batch] as
    [batch, time], [time, batch, beam] as [beam, batch, time]); in a
    batch-major model an array of three axes [batch, time, beam] comes back
    as [beam, batch, time] and any other array as it is.  Whether the second
    array is rolled is decided by the rank of the first alone, so two arrays
    of different ranks end in a [ValueError].  The two summaries are passed
    on, the model is left as it was, and on a model of another mode the
    call fails the assertion of [infer]. *)
Theorem decode_layout (g : Graph) (hparams : HParams) (mode : ModeKeys)
  (it1 it2 it3 it4 : BatchedInput) (tab1 tab2 : string)
  (rtab1 rtab2 : option string) (scope : scope_arg) (st : State) :
  new_model g hparams mode it1 it2 it3 it4 tab1 tab2 rtab1 rtab2 scope = Ok st ->
  forall (A : Type) (sess_run : tensor -> fetched A),
    (mode <> INFER -> Fetching.decode sess_run st = Raise AssertionError)
    /\ (mode = INFER ->
        exists words_src words_tgt : tensor,
          lookup "sample_words_src" (self st) = Some (VTensor words_src)
          /\ lookup "sample_words_tgt" (self st) = Some (VTensor words_tgt)
          /\ forall a b : ndarray A,
               sess_run words_src = FArray a ->
               sess_run words_tgt = FArray b ->
               let summary := sess_run (Op "no_op" []) in
               let returns x y :=
                 Fetching.decode sess_run st
                 = Ok (((FArray x, summary), (FArray y, summary)), st) in
               (time_major hparams = true ->
                exists x y, returns x y /\ axes_reversed a x /\ axes_reversed b y)
               /\ (time_major hparams = false -> ndim a = 3%nat -> ndim b = 3%nat ->
                   exists x y, returns x y /\ beam_first a x /\ beam_first b y)
               /\ (time_major hparams = false -> ndim a = 3%nat -> ndim b <> 3%nat ->
                   Fetching.decode sess_run st
                   = Raise (ValueError "axes don't match array"))
               /\ (time_major hparams = false -> ndim a <> 3%nat -> returns a b)).
Proof.
  intros H A sess_run.
  pose proof (new_model_early_attributes _ _ _ _ _ _ _ _ _ _ _ _ _ H)
    as (Hm & Htm & _).
  split.
  { intros Hne. exact (proj1 (Fetching_wrong_mode sess_run st mode Hm Hne)). }
  intros ->.
  apply new_model_INFER_self in H.
  destruct H as (st2 & e1 & e2 & t1 & t2 & l1 & l2 & l3 & l4 & s1 & s2 & s3 & s4
                 & f1 & f2 & f3 & f4 & _ & _ & S2 & _ & _ & _ & Hst).
  assert (Hi : Fetching.infer sess_run st
               = Ok (((sess_run l1, sess_run (Op "no_op" []), sess_run s1,
                       sess_run (Op "lookup" [Op t1 []; Op "to_int64" [s1]])),
                      (sess_run l2, sess_run (Op "no_op" []), sess_run s2,
                       sess_run (Op "lookup" [Op t2 []; Op "to_int64" [s2]]))), st)).
  { apply Fetching_infer_run; try exact Hm; rewrite Hst; reflexivity. }
  eexists _, _.
  split; [rewrite Hst; reflexivity|]. split; [rewrite Hst; reflexivity|].
  clear Hst. intros a b Ha Hb summary returns. unfold returns. clear returns.
  unfold Fetching.decode.
  rewrite (bind_run _ _ _ _ _ Hi). cbv beta iota.
  rewrite (bind_run _ _ _ _ _ (get_bool_bound _ _ _ Htm)).
  rewrite Ha, Hb. fold summary.
  split; [| split; [| split]].
  - intros ->. apply layout_time_major.
  - intros ->. apply (proj1 (layout_batch_major a b summary summary st)).
  - intros ->. apply (proj1 (proj2 (layout_batch_major a b summary summary st))).
  - intros ->. apply (proj2 (proj2 (layout_batch_major a b summary summary st))).
Qed.

(** X16. [decode_cross] lays out the sampled words of the two cross passes
    as [decode] does those of the same-language passes: axes reversed in a
    time-major model, [batch, time, beam] rolled to [beam, batch, time] in a
    batch-major one, anything else as it is; a [ValueError] when only the
    first array has three axes; the assertion of [infer_cross] on a model of
    another mode. *)
Theorem decode_cross_layout (g : Graph) (hparams : HParams) (mode : ModeKeys)
  (it1 it2 it3 it4 : BatchedInput) (tab1 tab2 : string)
  (rtab1 rtab2 : option string) (scope : scope_arg) (st : State) :
  new_model g hparams mode it1 it2 it3 it4 tab1 tab2 rtab1 rtab2 scope = Ok st ->
  forall (A : Type) (sess_run : tensor -> fetched A),
    (mode <> INFER -> Fetching.decode_cross sess_run st = Raise AssertionError)
    /\ (mode = INFER ->
        exists words_src words_tgt : tensor,
          lookup "sample_words_src_cross" (self st) = Some (VTensor words_src)
          /\ lookup "sample_words_tgt_cross" (self st) = Some (VTensor words_tgt)
          /\ forall a b : ndarray A,
               sess_run words_src = FArray a ->
               sess_run words_tgt = FArray b ->
               let summary := sess_run (Op "no_op" []) in
               let returns x y :=
                 Fetching.decode_cross sess_run st
                 = Ok (((FArray x, summary), (FArray y, summary)), st) in
               (time_major hparams = true ->
                exists x y, returns x y /\ axes_reversed a x /\ axes_reversed b y)
               /\ (time_major hparams = false -> ndim a = 3%nat -> ndim b = 3%nat ->
                   exists x y, returns x y /\ beam_first a x /\ beam_first b y)
               /\ (time_major hparams = false -> ndim a = 3%nat -> ndim b <> 3%nat ->
                   Fetching.decode_cross sess_run st
                   = Raise (ValueError "axes don't match array"))
               /\ (time_major hparams = false -> ndim a <> 3%nat -> returns a b)).
Proof.
  intros H A sess_run.
  pose proof (new_model_early_attributes _ _ _ _ _ _ _ _ _ _ _ _ _ H)
    as (Hm & Htm & _).
  split.
  { intros Hne. exact (proj2 (Fetching_wrong_mode sess_run st mode Hm Hne)). }
  intros ->.
  apply new_model_INFER_self in H.
  destruct H as (st2 & e1 & e2 & t1 & t2 & l1 & l2 & l3 & l4 & s1 & s2 & s3 & s4
                 & f1 & f2 & f3 & f4 & _ & _ & S2 & _ & _ & _ & Hst).
  assert (Hi : Fetching.infer_cross sess_run st
               = Ok (((sess_run l4, sess_run (Op "no_op" []), sess_run s4,
                       sess_run (Op "lookup" [Op t1 []; Op "to_int64" [s4]])),
                      (sess_run l3, sess_run (Op "no_op" []), sess_run s3,
                       sess_run (Op "lookup" [Op t2 []; Op "to_int64" [s3]]))), st)).
  { apply Fetching_infer_cross_run; try exact Hm; rewrite Hst; reflexivity. }
  eexists _, _.
  split; [rewrite Hst; reflexivity|]. split; [rewrite Hst; reflexivity|].
  clear Hst. intros a b Ha Hb summary returns. unfold returns. clear returns.
  unfold Fetching.decode_cross.
  rewrite (bind_run _ _ _ _ _ Hi). cbv beta iota.
  rewrite (bind_run _ _ _ _ _ (get_bool_bound _ _ _ Htm)).
  rewrite Ha, Hb. fold summary.
  split; [| split; [| split]].
  - intros ->. apply layout_time_major.
  - intros ->. apply (proj1 (layout_batch_major a b summary summary st)).
  - intros ->. apply (proj1 (proj2 (layout_batch_major a b summary summary st))).
  - intros ->. apply (proj2 (proj2 (layout_batch_major a b summary summary st))).
Qed.

End DecodedModels.

(** ** The small model, in each mode *)

(** An EVAL model has [eval_loss] and no [train_loss_ae]. *)
Lemma model_attributes_bound_tiny :
  exists st,
    tiny_model EVAL ScopeNone = Ok st
    /\ lookup "eval_loss" (self st) <> None
    /\ lookup "train_loss_ae" (self st) = None.
Proof.
  destruct (tiny_model_constructed EVAL) as [st E].
  exists st. split; [exact E|].
  pose proof (@model_attributes_bound tiny_subclass tiny_helper tiny_disciplined
                _ _ _ _ _ _ _ _ _ _ _ _ st E) as H.
  split.
  - apply H. cbn. tauto.
  - destruct (lookup "train_loss_ae" (self st)) as [v |] eqn:L; [| reflexivity].
    exfalso.
    assert (I : In "train_loss_ae"%string (model_attributes EVAL))
      by (apply H; rewrite L; discriminate).
    cbn in I.
    repeat (destruct I as [I | I]; [discriminate I|]). exact I.
Defined.

Lemma methods_by_mode_tiny :
  exists st,
    tiny_model EVAL ScopeNone = Ok st
    /\ eval fresh_session st = Ok (fresh_session, st)
    /\ infer fresh_session st = Raise AssertionError.
Proof.
  destruct (tiny_model_constructed EVAL) as [st E].
  exists st. split; [exact E|].
  destruct (@methods_by_mode tiny_subclass tiny_helper tiny_disciplined
              _ _ _ _ _ _ _ _ _ _ _ _ st E fresh_session)
    as (_ & _ & He & _ & _ & Hi).
  split; [exact (He eq_refl)|].
  apply Hi. discriminate.
Defined.

Lemma constructor_arguments_stored_tiny :
  exists st,
    tiny_model INFER ScopeNone = Ok st
    /\ lookup "iterator_s2t" (self st) = Some (VIter (Iterator 2))
    /\ lookup "num_decoder_layers" (self st) = Some (VInt 2).
Proof.
  destruct (tiny_model_constructed INFER) as [st E].
  exists st. split; [exact E|].
  destruct (@constructor_arguments_stored tiny_subclass tiny_helper tiny_disciplined
              _ _ _ _ _ _ _ _ _ _ _ _ st E)
    as (_ & _ & H3 & _ & _ & _ & _ & _ & _ & _ & _ & _ & _ & Hd & _).
  split; [exact H3 | exact Hd].
Defined.

(** The source-language projection of the small model is built under the
    decoder of the block "auto". *)
Lemma projection_layers_shared_tiny :
  exists st,
    tiny_model TRAIN ScopeNone = Ok st
    /\ lookup "output_layer_src" (self st)
       = Some (VLayer {| layer_name := "output_projection_src";
                         layer_units := 2;
                         layer_built :=
                           Some "dynamic_seq2seq/auto/decoder/output_projection_src"
                       |}).
Proof.
  destruct (tiny_model_constructed TRAIN) as [st E].
  exists st. split; [exact E|].
  destruct (@projection_layers_shared tiny_subclass tiny_helper tiny_disciplined
              _ _ _ _ _ _ _ _ _ _ _ _ st E) as (H & _).
  exact H.
Defined.


Lemma reverse_tables_by_mode_tiny :
  @new_model tiny_subclass tiny_helper empty_graph (tiny_hparams 1) EVAL
    (Iterator 0) (Iterator 1) (Iterator 2) (Iterator 3)
    "src_vocab" "tgt_vocab" (Some "reverse_src_vocab") (Some "reverse_tgt_vocab")
    ScopeNone
  = @new_model tiny_subclass tiny_helper empty_graph (tiny_hparams 1) EVAL
      (Iterator 0) (Iterator 1) (Iterator 2) (Iterator 3)
      "src_vocab" "tgt_vocab" None None ScopeNone.
Proof.
  apply (proj2 (@reverse_tables_by_mode tiny_subclass tiny_helper tiny_disciplined
                  empty_graph (tiny_hparams 1) EVAL
                  (Iterator 0) (Iterator 1) (Iterator 2) (Iterator 3)
                  "src_vocab" "tgt_vocab"
                  (Some "reverse_src_vocab"%string) (Some "reverse_tgt_vocab"%string)
                  ScopeNone)).
  discriminate.
Defined.

Lemma layer_counts_asserted_tiny :
  @new_model tiny_subclass tiny_helper empty_graph
    (small_hparams "uni" 0 false "t2t" "luong5" 1) TRAIN
    (Iterator 0) (Iterator 1) (Iterator 2) (Iterator 3)
    "src_vocab" "tgt_vocab" None None ScopeNone
  = Raise AssertionError.
Proof.
  apply (@layer_counts_asserted tiny_subclass tiny_helper).
  left. reflexivity.
Defined.

Lemma update_operations_tiny :
  exists st update_ae update_D,
    tiny_model TRAIN ScopeNone = Ok st
    /\ lookup "update_ae" (self st) = Some (VUpdate update_ae)
    /\ lookup "update_D" (self st) = Some (VUpdate update_D)
    /\ upd_optimizer update_ae = "GradientDescentOptimizer"%string
    /\ upd_vars update_ae <> []
    /\ upd_vars update_D <> [].
Proof.
  destruct (tiny_model_constructed TRAIN) as [st E].
  destruct (@update_operations tiny_subclass tiny_helper tiny_disciplined
              _ _ _ _ _ _ _ _ _ _ _ st E)
    as (uae & uD & lae & lD & opt & H1 & H2 & _ & _ & _ & _ & Ho & Hoa & _
        & Na & ND & _).
  exists st, uae, uD. split; [exact E|]. split; [exact H1|]. split; [exact H2|].
  split; [| split; [exact Na | exact ND]].
  rewrite Hoa. destruct Ho as [[_ ->] | [C _]]; [reflexivity | discriminate C].
Defined.

(** A beam-search output of the batch-major small model, [2, 3, 4] as
    [batch, time, beam], is decoded as [4, 2, 3]. *)
Lemma decode_layout_tiny :
  exists st x y,
    tiny_model INFER ScopeNone = Ok st
    /\ Fetching.decode (constant_run [2; 3; 4]%nat) st
       = Ok (((FArray x, constant_run [2; 3; 4]%nat (Op "no_op" [])),
              (FArray y, constant_run [2; 3; 4]%nat (Op "no_op" []))), st)
    /\ nd_shape x = [4; 2; 3]%nat
    /\ nd_shape y = [4; 2; 3]%nat.
Proof.
  destruct (tiny_model_constructed INFER) as [st E].
  destruct (@decode_layout tiny_subclass tiny_helper tiny_disciplined
              _ _ _ _ _ _ _ _ _ _ _ _ st E Z (constant_run [2; 3; 4]%nat))
    as (_ & H).
  destruct (H eq_refl) as (ws & wt & _ & _ & K).
  destruct (K _ _ eq_refl eq_refl) as (_ & B & _).
  destruct (B eq_refl eq_refl eq_refl)
    as (x & y & R & (b1 & t1 & w1 & A1 & X1 & _) & (b2 & t2 & w2 & A2 & X2 & _)).
  exists st, x, y. split; [exact E|]. split; [exact R|].
  cbn in A1, A2. inversion A1. inversion A2. subst.
  split; [exact X1 | exact X2].
Defined.

(** A greedy output of the batch-major small model, [2, 3] as
    [batch, time], is returned as it is. *)
Lemma decode_cross_layout_tiny :
  exists st,
    tiny_model INFER ScopeNone = Ok st
    /\ Fetching.decode_cross (constant_run [2; 3]%nat) st
       = Ok (((constant_run [2; 3]%nat (Op "words" []),
               constant_run [2; 3]%nat (Op "no_op" [])),
              (constant_run [2; 3]%nat (Op "words" []),
               constant_run [2; 3]%nat (Op "no_op" []))), st).
Proof.
  destruct (tiny_model_constructed INFER) as [st E].
  destruct (@decode_cross_layout tiny_subclass tiny_helper tiny_disciplined
              _ _ _ _ _ _ _ _ _ _ _ _ st E Z (constant_run [2; 3]%nat))
    as (_ & H).
  destruct (H eq_refl) as (ws & wt & _ & _ & K).
  destruct (K _ _ eq_refl eq_refl) as (_ & _ & _ & U).
  exists st. split; [exact E|].
  apply U; [reflexivity | cbn; discriminate].
Defined.

(** ** A training loop *)

Lemma wrap32_range (x : Z) : - 2147483648 <= wrap32 x < 2147483648.
Proof.
  unfold wrap32. change (2 ^ 31) with 2147483648. change (2 ^ 32) with 4294967296.
  pose proof (Z.mod_pos_bound (x + 2147483648) 4294967296). lia.
Qed.




Section TrainingLoop.

Context {subclass : Subclass} {model_helper : ModelHelper}
        {disciplined : Disciplined subclass model_helper}.


End TrainingLoop.


(** ** The schedule without decay *)

(** X18. With the "t2t" warm-up and an empty decay scheme the schedule is
    accepted and, once the warm-up is over, the learning rate is the one of
    [hparams] at every step, also past [num_train_steps], where the
    exponential decay is applied with a rate of 1 over 0 steps. *)
Theorem no_decay_schedule (hparams : HParams) :
  warmup_scheme hparams = "t2t"%string ->
  decay_scheme hparams = ""%string ->
  exists lr : rate,
    learning_rate_schedule hparams = Ok lr
    /\ forall step : Z,
         warmup_steps hparams <= step -> lr step = Some (learning_rate hparams).
Proof.
  intros Hw Hd.
  unfold learning_rate_schedule, _get_learning_rate_warmup, _get_learning_rate_decay,
    decay_plan_of.
  rewrite Hw, Hd. cbn [String.eqb Ascii.eqb Bool.eqb existsb orb].
  eexists. split; [reflexivity|].
  intros step Hs. cbn [start_decay_step decay_steps decay_factor].
  assert (E : (step <? warmup_steps hparams) = false) by (apply Z.ltb_ge; exact Hs).
  rewrite E.
  destruct (step <? num_train_steps hparams); [reflexivity|].
  unfold exponential_decay. cbn [Z.eqb].
  destruct (Req_EM_T 1 1) as [_ | N]; [reflexivity | contradiction N; reflexivity].
Qed.

Lemma no_decay_schedule_witness :
  exists lr : rate,
    learning_rate_schedule (schedule_hparams 100 1000 "" 1) = Ok lr
    /\ lr 5000 = Some 1%R.
Proof.
  destruct (no_decay_schedule (schedule_hparams 100 1000 "" 1) eq_refl eq_refl)
    as (lr & E & H).
  exists lr. split; [exact E|].
  apply (H 5000). cbn. lia.
Defined.

(** ** The basic subclass *)

(** X19. No [Model] can be constructed, whatever the hyperparameters, the
    mode and the recurrent library: once the attributes of [__init__] are
    bound, the first encoder reads [self.embedding_encoder], which nothing
    binds, and the constructor ends in that attribute error; when the
    attributes are not bound it ends in the error that stopped them. *)
Theorem Model_cannot_be_constructed {rnn : RNNLibrary} {model_helper : ModelHelper}
  (g : Graph) (hparams : HParams) (mode : ModeKeys)
  (it1 it2 it3 it4 : BatchedInput) (tab1 tab2 : string)
  (rtab1 rtab2 : option string) (scope : scope_arg) :
  (forall hp sc, framed (create_emb_for_encoder_and_decoder hp sc)) ->
  let model :=
    @new_model (@Model_subclass rnn) model_helper g hparams mode
      it1 it2 it3 it4 tab1 tab2 rtab1 rtab2 scope in
  is_Ok model = false
  /\ (is_Ok (init_attributes hparams mode it1 it2 it3 it4 tab1 tab2 scope
               {| graph := g; self := [] |}) = true ->
      model = Raise (AttributeError "embedding_encoder"))
  /\ (forall e,
        init_attributes hparams mode it1 it2 it3 it4 tab1 tab2 scope
          {| graph := g; self := [] |} = Raise e ->
        model = Raise e).
Proof.
  intros Hemb model.
  pose proof (@Model_never_constructed rnn model_helper g hparams mode
                it1 it2 it3 it4 tab1 tab2 rtab1 rtab2 scope Hemb) as H.
  fold model in H.
  destruct (init_attributes hparams mode it1 it2 it3 it4 tab1 tab2 scope
              {| graph := g; self := [] |}) as [r | e].
  - rewrite H. split; [reflexivity|]. split; [reflexivity|].
    intros e E. discriminate E.
  - rewrite H. split; [reflexivity|]. split; [intros E; discriminate E|].
    intros e' E. inversion E. reflexivity.
Qed.

Lemma Model_cannot_be_constructed_tiny :
  @new_model (@Model_subclass tiny_rnn) tiny_helper empty_graph
    (small_hparams "uni" 2 false "t2t" "luong5" 1) EVAL
    (Iterator 0) (Iterator 1) (Iterator 2) (Iterator 3)
    "src_vocab" "tgt_vocab" None None ScopeNone
  = Raise (AttributeError "embedding_encoder").
Proof.
  destruct (@Model_cannot_be_constructed tiny_rnn tiny_helper empty_graph
              (small_hparams "uni" 2 false "t2t" "luong5" 1) EVAL
              (Iterator 0) (Iterator 1) (Iterator 2) (Iterator 3)
              "src_vocab" "tgt_vocab" None None ScopeNone
              (@create_emb_framed _ _ tiny_disciplined)) as (_ & H & _).
  apply H. vm_compute. reflexivity.
Defined.

(** The loop of the "bi" branch, from any layer on. *)
Lemma interleave_prefix (fw bw : list structure) (m k : nat)
  (acc : list structure) (st : State) :
  (k + m <= List.length fw)%nat -> (k + m <= List.length bw)%nat ->
  Model.interleave (Tuple [Tuple fw; Tuple bw]) (seq k m) acc st
  = Ok ((acc ++ alternate (firstn m (skipn k fw)) (firstn m (skipn k bw)))%list, st).
Proof.
  revert k acc. induction m as [| m IH]; intros k acc Hf Hb.
  - simpl. rewrite app_nil_r. reflexivity.
  - simpl seq. simpl Model.interleave.
    destruct (nth_error fw k) as [f |] eqn:Ef;
      [| apply nth_error_None in Ef; lia].
    destruct (nth_error bw k) as [b |] eqn:Eb;
      [| apply nth_error_None in Eb; lia].
    unfold bind at 1. simpl. unfold bind at 1. simpl. rewrite Ef.
    unfold bind at 1. simpl. unfold bind at 1. simpl. rewrite Eb. simpl.
    rewrite IH by lia.
    rewrite <- app_assoc. simpl.
    assert (Sf : skipn k fw = f :: skipn (S k) fw).
    { clear - Ef. revert fw Ef. induction k; intros [| x fw] E; simpl in *;
        try discriminate; [inversion E; reflexivity | auto]. }
    assert (Sb : skipn k bw = b :: skipn (S k) bw).
    { clear - Eb. revert bw Eb. induction k; intros [| x bw] E; simpl in *;
        try discriminate; [inversion E; reflexivity | auto]. }
    rewrite Sf, Sb. reflexivity.
Qed.

Lemma interleave_short (fw bw : list structure) (m k : nat)
  (acc : list structure) (st : State) :
  (k <= List.length fw)%nat -> (k <= List.length bw)%nat ->
  (List.length fw < k + m)%nat \/ (List.length bw < k + m)%nat ->
  Model.interleave (Tuple [Tuple fw; Tuple bw]) (seq k m) acc st = Raise IndexError.
Proof.
  revert k acc. induction m as [| m IH]; intros k acc Hf Hb H; [lia|].
  simpl seq. simpl Model.interleave.
  unfold bind at 1. simpl. unfold bind at 1. simpl.
  destruct (nth_error fw k) as [f |] eqn:Ef; [| reflexivity].
  unfold bind at 1. simpl. unfold bind at 1. simpl.
  destruct (nth_error bw k) as [b |] eqn:Eb; [| reflexivity]. simpl.
  assert (k < List.length fw)%nat by (apply nth_error_Some; congruence).
  assert (k < List.length bw)%nat by (apply nth_error_Some; congruence).
  apply IH; lia.
Qed.

Lemma alternate_length (fw bw : list structure) :
  List.length (alternate fw bw)
  = (2 * Nat.min (List.length fw) (List.length bw))%nat.
Proof.
  revert bw. induction fw as [| f fw IH]; intros [| b bw]; simpl; try reflexivity.
  rewrite IH. lia.
Qed.

Lemma alternate_nth (fw bw : list structure) (i : nat) :
  (i < List.length fw)%nat -> (i < List.length bw)%nat ->
  nth_error (alternate fw bw) (2 * i) = nth_error fw i
  /\ nth_error (alternate fw bw) (2 * i + 1) = nth_error bw i.
Proof.
  revert bw i. induction fw as [| f fw IH]; intros [| b bw] i Hf Hb;
    simpl in Hf, Hb; try lia.
  destruct i as [| i]; [split; reflexivity|].
  replace (2 * S i)%nat with (S (S (2 * i))) by lia.
  replace (S (S (2 * i)) + 1)%nat with (S (S (2 * i + 1))) by lia.
  simpl alternate. cbn [nth_error]. apply IH; lia.
Qed.

(** X20. The loop that builds the state of a deep bidirectional encoder
    takes, for each of the [n] layers in turn, the forward state and then
    the backward state of that layer: the result has [2 * n] states, the
    forward state of layer [i] at place [2 * i] and its backward state at
    place [2 * i + 1]; states beyond the first [n] are not used, and with
    fewer than [n] forward or backward states the loop ends in an
    [IndexError]. *)
Theorem interleave_layout (fw bw : list structure) (n : nat) (st : State) :
  ((n <= List.length fw)%nat -> (n <= List.length bw)%nat ->
   exists states,
     Model.interleave (Tuple [Tuple fw; Tuple bw]) (seq 0 n) [] st = Ok (states, st)
     /\ List.length states = (2 * n)%nat
     /\ forall i, (i < n)%nat ->
          nth_error states (2 * i) = nth_error fw i
          /\ nth_error states (2 * i + 1) = nth_error bw i)
  /\ ((List.length fw < n)%nat \/ (List.length bw < n)%nat ->
      Model.interleave (Tuple [Tuple fw; Tuple bw]) (seq 0 n) [] st
      = Raise IndexError).
Proof.
  split.
  - intros Hf Hb. eexists. split; [apply interleave_prefix; simpl; assumption|].
    cbn [skipn app]. split.
    + rewrite alternate_length, !length_firstn. lia.
    + intros i Hi.
      destruct (alternate_nth (firstn n fw) (firstn n bw) i) as [E1 E2];
        try (rewrite length_firstn; lia).
      rewrite E1, E2. rewrite !nth_error_firstn.
      destruct (Nat.ltb_spec i n) as [_ | C]; [split; reflexivity | lia].
  - intros H. apply interleave_short; simpl; lia.
Qed.

Lemma interleave_layout_witness :
  exists states,
    Model.interleave
      (Tuple [Tuple [Leaf (Var "f0"); Leaf (Var "f1"); Leaf (Var "f2")];
              Tuple [Leaf (Var "b0"); Leaf (Var "b1")]])
      (seq 0 2) [] tiny_state
    = Ok (states, tiny_state)
    /\ nth_error states 2 = Some (Leaf (Var "f1"))
    /\ nth_error states 3 = Some (Leaf (Var "b1")).
Proof.
  destruct (proj1 (interleave_layout
                     [Leaf (Var "f0"); Leaf (Var "f1"); Leaf (Var "f2")]
                     [Leaf (Var "b0"); Leaf (Var "b1")] 2 tiny_state))
    as (states & E & _ & H).
  - simpl. lia.
  - simpl. lia.
  - exists states. split; [exact E|]. exact (H 1%nat ltac:(lia)).
Defined.

(** ** The discriminator, called again *)

Lemma state_eta (st st' : State) :
  self st' = self st ->
  g_scope (graph st') = g_scope (graph st) ->
  g_reuse (graph st') = g_reuse (graph st) ->
  g_vars (graph st') = g_vars (graph st) ->
  st' = st.
Proof.
  destruct st as [[s r v] o], st' as [[s' r' v'] o']. simpl.
  intros -> -> -> ->. reflexivity.
Qed.

Lemma layers_dense_existing (inputs : tensor) (units : Z) (ch : ascii)
  (name : string) (st : State) :
  g_reuse (graph st) = AUTO_REUSE ->
  (g_scope (graph st) =? "")%string = false ->
  let sc := g_scope (graph st) in
  let layer := String ch name in
  has_variable (sc ++ "/" ++ layer ++ "/kernel") (g_vars (graph st)) = true ->
  has_variable (sc ++ "/" ++ layer ++ "/bias") (g_vars (graph st)) = true ->
  layers_dense inputs units layer st
  = Ok (Op "dense/tanh" [inputs; Var (sc ++ "/" ++ layer ++ "/kernel");
                         Var (sc ++ "/" ++ layer ++ "/bias")], st).
Proof.
  intros Hr Hs sc layer Hk Hb.
  set (st1 := inside (scope_join sc layer) (g_reuse (graph st)) st).
  assert (Gk : get_variable "kernel" st1
               = Ok (Var (sc ++ "/" ++ layer ++ "/kernel"), st1)).
  { unfold get_variable, bind, get_graph. cbn [st1 inside graph g_scope g_reuse g_vars].
    rewrite Hr. fold sc.
    replace (scope_join (scope_join sc layer) "kernel")
      with (sc ++ "/" ++ layer ++ "/kernel")%string
      by (symmetry; apply (scope_join_sub _ _ "kernel" Hs)).
    rewrite Hk. reflexivity. }
  assert (Gb : get_variable "bias" st1
               = Ok (Var (sc ++ "/" ++ layer ++ "/bias"), st1)).
  { unfold get_variable, bind, get_graph. cbn [st1 inside graph g_scope g_reuse g_vars].
    rewrite Hr. fold sc.
    replace (scope_join (scope_join sc layer) "bias")
      with (sc ++ "/" ++ layer ++ "/bias")%string
      by (symmetry; apply (scope_join_sub _ _ "bias" Hs)).
    rewrite Hb. reflexivity. }
  unfold layers_dense.
  rewrite (with_variable_scope_run layer None _ st st1
             (Op "dense/tanh" [inputs; Var (sc ++ "/" ++ layer ++ "/kernel");
                               Var (sc ++ "/" ++ layer ++ "/bias")])).
  - f_equal. f_equal. apply state_eta; reflexivity.
  - fold sc. fold st1.
    rewrite (bind_run _ _ _ _ _ Gk), (bind_run _ _ _ _ _ Gb). reflexivity.
Qed.

Lemma _build_discriminator_again (outputs : tensor) (st : State) :
  let sc := scope_join (g_scope (graph st)) "discriminator" in
  Forall (fun n => has_variable n (g_vars (graph st)) = true)
         (discriminator_weights sc) ->
  _build_discriminator outputs st
  = Ok ((discriminator_net sc outputs,
         Op "softmax" [discriminator_net sc outputs]), st).
Proof.
  intros sc W.
  unfold discriminator_weights in W.
  inversion W as [| ? ? K1 W1]. subst. inversion W1 as [| ? ? B1 W2]. subst.
  inversion W2 as [| ? ? K2 W3]. subst. inversion W3 as [| ? ? B2 W4]. subst.
  inversion W4 as [| ? ? K3 W5]. subst. inversion W5 as [| ? ? B3 _]. subst.
  clear W W1 W2 W3 W4 W5.
  set (st0 := inside sc AUTO_REUSE st).
  assert (Hs : (g_scope (graph st0) =? "")%string = false)
    by apply scope_join_nonempty.
  pose proof (layers_dense_existing outputs 1024 "d" "ense1_D" st0 eq_refl Hs K1 B1)
    as H1.
  pose proof (layers_dense_existing
                (Op "dense/tanh" [outputs; Var (sc ++ "/dense1_D/kernel");
                                  Var (sc ++ "/dense1_D/bias")])
                1024 "d" "ense2_D" st0 eq_refl Hs K2 B2) as H2.
  pose proof (layers_dense_existing
                (Op "dense/tanh"
                   [Op "dense/tanh" [outputs; Var (sc ++ "/dense1_D/kernel");
                                     Var (sc ++ "/dense1_D/bias")];
                    Var (sc ++ "/dense2_D/kernel"); Var (sc ++ "/dense2_D/bias")])
                2 "d" "ense_last_D" st0 eq_refl Hs K3 B3) as H3.
  cbn [st0 inside graph g_scope] in H1, H2, H3. fold st0 in H1, H2, H3.
  unfold _build_discriminator.
  erewrite bind_run;
    [| apply (with_variable_scope_run "discriminator" (Some AUTO_REUSE));
       fold sc; fold st0;
       rewrite (bind_run _ _ _ _ _ H1), (bind_run _ _ _ _ _ H2); exact H3].
  unfold ret. f_equal. f_equal. apply state_eta; reflexivity.
Qed.

(** X21. The discriminator is built once in a scope: a call never fails,
    whatever the scope and its reuse flag; it keeps the attributes, the
    scope, the reuse flag and the variables that were there, and leaves its
    six weights in the graph; a second call in the same scope, on any
    input, adds nothing and applies the same six weights. *)
Theorem discriminator_built_once (x y : tensor) (st : State) :
  let sc := scope_join (g_scope (graph st)) "discriminator" in
  exists st1 : State,
    _build_discriminator x st
    = Ok ((discriminator_net sc x, Op "softmax" [discriminator_net sc x]), st1)
    /\ _build_discriminator y st1
       = Ok ((discriminator_net sc y, Op "softmax" [discriminator_net sc y]), st1)
    /\ self st1 = self st
    /\ g_scope (graph st1) = g_scope (graph st)
    /\ g_reuse (graph st1) = g_reuse (graph st)
    /\ incl (g_vars (graph st)) (g_vars (graph st1))
    /\ Forall (fun n => has_variable n (g_vars (graph st1)) = true)
              (discriminator_weights sc).
Proof.
  intros sc.
  destruct (_build_discriminator_spec x st) as (st1 & p & E & F & W).
  fold sc in E, W.
  assert (Ep : p = Op "softmax" [discriminator_net sc x]).
  { unfold _build_discriminator in E.
    apply bind_Ok in E. destruct E as (o & s & _ & E).
    unfold ret in E. inversion E. reflexivity. }
  subst p. destruct F as (F1 & F2 & F3 & F4).
  exists st1. split; [exact E|]. split.
  - pose proof (_build_discriminator_again y st1) as H. cbv zeta in H.
    rewrite F2 in H. fold sc in H. apply H. exact W.
  - repeat (split; [assumption|]). exact W.
Qed.

(** ** Decoding at inference time *)

Section InferenceDecoder.

Context {subclass : Subclass} {model_helper : ModelHelper}
        {disciplined : Disciplined subclass model_helper}.

Ltac framed_hook :=
  first [ apply encoder_framed | apply framed_build_discriminator
        | apply framed_get_iter | apply framed_get_tensor | apply framed_get_table ].

(** One statement that leaves [self] alone. *)
Ltac frame_step H F :=
  let a := fresh "a" in
  let st1 := fresh "st" in
  let Hm := fresh "Hm" in
  let Hs := fresh "Hs" in
  let F' := fresh "F" in
  apply bind_Ok in H; destruct H as (a & st1 & Hm & H);
  match type of Hm with
  | ?m ?cur = Ok _ =>
      assert (Hs : frame cur st1)
        by (let Ha := fresh in
            assert (Ha : framed m) by framed_hook; eapply Ha; exact Hm)
  end;
  pose proof (frame_trans _ _ _ F Hs) as F'; clear Hs;
  try match type of a with
      | (_ * _)%type => destruct a as [? ?]
      end;
  cbv beta iota in H.

Lemma _build_decoder_INFER (encoder_outputs : tensor) (encoder_state : structure)
  (hparams : HParams) (iterator : BatchedInput) (embedding : tensor)
  (vocab_table ol sos : string) (st st' : State)
  (logits sample_id : tensor) (fcs : structure) :
  lookup "mode" (self st) = Some (VMode INFER) ->
  _build_decoder encoder_outputs encoder_state hparams iterator embedding
    vocab_table ol sos st = Ok ((logits, sample_id, fcs), st') ->
  infer_decoded hparams iterator logits sample_id.
Proof.
  intros Hmode H. unfold _build_decoder in H.
  apply with_variable_scope_Ok in H. destruct H as (s_out & H & ->).
  apply bind_Ok in H. destruct H as ([cell dis] & s1 & Hc & H).
  apply decoder_cell_framed in Hc. destruct Hc as (C1 & _). simpl in C1.
  apply bind_Ok in H. destruct H as (m & s2 & Hm & H).
  apply get_mode_Ok in Hm. destruct Hm as [-> Hm].
  rewrite C1, Hmode in Hm. inversion Hm. subst m. cbn [mode_eqb negb] in H.
  apply bind_Ok in H. destruct H as (bs & s3 & _ & H).
  unfold infer_decoded.
  destruct (0 <? beam_width hparams).
  - apply bind_Ok in H. destruct H as (lg & s4 & _ & H).
    inversion H. subst. eexists. split; [| split; reflexivity].
    simpl. tauto.
  - apply bind_Ok in H. destruct H as (lg & s4 & _ & H).
    inversion H. subst. eexists. split; [| split; reflexivity].
    simpl. tauto.
Qed.

Lemma build_graph_auto_INFER (hparams : HParams) (st st' : State) (b1 b2 : branch)
  (it1 it2 : BatchedInput) :
  lookup "mode" (self st) = Some (VMode INFER) ->
  lookup "iterator_s2s" (self st) = Some (VIter it1) ->
  lookup "iterator_t2t" (self st) = Some (VIter it2) ->
  build_graph_auto hparams st = Ok ((b1, b2), st') ->
  infer_decoded hparams it1 (br_logits b1) (br_sample_id b1)
  /\ infer_decoded hparams it2 (br_logits b2) (br_sample_id b2).
Proof.
  intros Hmode Hi1 Hi2 H. unfold build_graph_auto in H.
  apply bind_Ok in H. destruct H as (i1 & s1 & Hg & H).
  apply get_iter_Ok in Hg. destruct Hg as [-> Hg].
  rewrite Hi1 in Hg. inversion Hg. subst i1. clear Hg.
  pose proof (frame_refl st) as F0.
  frame_step H F0. frame_step H F.
  apply bind_Ok in H. destruct H as (i2 & s4 & Hg & H).
  apply get_iter_Ok in Hg. destruct Hg as [-> Hg].
  pose proof F1 as (E1 & _). rewrite E1, Hi2 in Hg. inversion Hg. subst i2. clear Hg.
  frame_step H F1. frame_step H F2. frame_step H F3. frame_step H F4. frame_step H F5.
  apply bind_Ok in H. destruct H as ([[lg1 sid1] fcs1] & s10 & Hd1 & H).
  cbv beta iota in H.
  pose proof F6 as (E6 & _).
  pose proof (advancing_build_decoder _ _ _ _ _ _ "output_layer_src" _
                (or_introl eq_refl) _ _ _ Hd1) as A1.
  apply _build_decoder_INFER in Hd1; [| rewrite E6; exact Hmode].
  apply bind_Ok in H. destruct H as (tab & s11 & Htab & H).
  apply get_table_Ok in Htab. destruct Htab as [-> Htab].
  apply bind_Ok in H. destruct H as ([[lg2 sid2] fcs2] & s12 & Hd2 & H).
  cbv beta iota in H.
  apply _build_decoder_INFER in Hd2.
  2: { rewrite (advances_lookup _ _ "mode" A1) by discriminate.
       rewrite E6. exact Hmode. }
  inversion H. subst. clear H. simpl. split; assumption.
Qed.

Lemma build_graph_cross_INFER (hparams : HParams) (st st' : State) (b1 b2 : branch)
  (it3 it4 : BatchedInput) :
  lookup "mode" (self st) = Some (VMode INFER) ->
  lookup "iterator_s2t" (self st) = Some (VIter it3) ->
  lookup "iterator_t2s" (self st) = Some (VIter it4) ->
  build_graph_cross hparams st = Ok ((b1, b2), st') ->
  infer_decoded hparams it3 (br_logits b1) (br_sample_id b1)
  /\ infer_decoded hparams it4 (br_logits b2) (br_sample_id b2).
Proof.
  intros Hmode Hi1 Hi2 H. unfold build_graph_cross in H.
  apply bind_Ok in H. destruct H as (i1 & s1 & Hg & H).
  apply get_iter_Ok in Hg. destruct Hg as [-> Hg].
  rewrite Hi1 in Hg. inversion Hg. subst i1. clear Hg.
  pose proof (frame_refl st) as F0.
  frame_step H F0. frame_step H F.
  apply bind_Ok in H. destruct H as (i2 & s4 & Hg & H).
  apply get_iter_Ok in Hg. destruct Hg as [-> Hg].
  pose proof F1 as (E1 & _). rewrite E1, Hi2 in Hg. inversion Hg. subst i2. clear Hg.
  frame_step H F1. frame_step H F2. frame_step H F3. frame_step H F4. frame_step H F5.
  apply bind_Ok in H. destruct H as ([[lg1 sid1] fcs1] & s10 & Hd1 & H).
  cbv beta iota in H.
  pose proof F6 as (E6 & _).
  pose proof (advancing_build_decoder _ _ _ _ _ _ "output_layer_tgt" _
                (or_intror eq_refl) _ _ _ Hd1) as A1.
  apply _build_decoder_INFER in Hd1; [| rewrite E6; exact Hmode].
  apply bind_Ok in H. destruct H as (tab & s11 & Htab & H).
  apply get_table_Ok in Htab. destruct Htab as [-> Htab].
  apply bind_Ok in H. destruct H as ([[lg2 sid2] fcs2] & s12 & Hd2 & H).
  cbv beta iota in H.
  apply _build_decoder_INFER in Hd2.
  2: { rewrite (advances_lookup _ _ "mode" A1) by discriminate.
       rewrite E6. exact Hmode. }
  inversion H. subst. clear H. simpl. split; assumption.
Qed.

Lemma build_graph_INFER (hparams : HParams) (scope : scope_arg) (st st' : State)
  (r1 r2 r3 r4 : pass_result) (loss ladv : option tensor)
  (it1 it2 it3 it4 : BatchedInput) :
  lookup "mode" (self st) = Some (VMode INFER) ->
  lookup "iterator_s2s" (self st) = Some (VIter it1) ->
  lookup "iterator_t2t" (self st) = Some (VIter it2) ->
  lookup "iterator_s2t" (self st) = Some (VIter it3) ->
  lookup "iterator_t2s" (self st) = Some (VIter it4) ->
  build_graph hparams scope st = Ok ((r1, r2, r3, r4, loss, ladv), st') ->
  infer_decoded hparams it1 (pass_logits r1) (pass_sample_id r1)
  /\ infer_decoded hparams it2 (pass_logits r2) (pass_sample_id r2)
  /\ infer_decoded hparams it3 (pass_logits r3) (pass_sample_id r3)
  /\ infer_decoded hparams it4 (pass_logits r4) (pass_sample_id r4).
Proof.
  intros Hmode H1 H2 H3 H4 H. unfold build_graph in H.
  apply with_scope_or_Ok in H. destruct H as (s_out & H & ->).
  apply bind_Ok in H. destruct H as ([b1 b2] & sa & Ha & H).
  apply with_scope_or_Ok in Ha. destruct Ha as (sa_out & Ha & ->).
  pose proof (build_graph_auto_Ok _ _ _ _ _ Ha) as (Aa & _).
  apply (build_graph_auto_INFER _ _ _ _ _ it1 it2) in Ha;
    [| exact Hmode | exact H1 | exact H2].
  destruct Ha as (D1 & D2).
  apply bind_Ok in H. destruct H as ([b3 b4] & sc & Hc & H).
  apply with_scope_or_Ok in Hc. destruct Hc as (sc_out & Hc & ->).
  assert (L : forall a, a <> "output_layer_src"%string ->
                        a <> "output_layer_tgt"%string ->
                        lookup a (self sa_out) = lookup a (self st)).
  { intros a N1 N2. rewrite (advances_lookup _ _ a Aa N1 N2). reflexivity. }
  apply (build_graph_cross_INFER _ _ _ _ _ it3 it4) in Hc.
  2: { cbn [inside outside self]. rewrite L by discriminate. exact Hmode. }
  2: { cbn [inside outside self]. rewrite L by discriminate. exact H3. }
  2: { cbn [inside outside self]. rewrite L by discriminate. exact H4. }
  destruct Hc as (D3 & D4).
  apply bind_Ok in H. destruct H as ([l1 l2] & s3 & _ & H).
  inversion H. subst. clear H.
  cbn [pass_logits pass_sample_id fst snd].
  repeat split; assumption.
Qed.

(** X22. What an INFER model decodes.  The attributes of each direction
    hold the results of its own pass ([..._src] the source-to-source pass,
    [..._tgt] the target-to-target pass, [..._cross_src] the
    target-to-source pass and [..._cross_tgt] the source-to-target pass);
    the sample words are the sample ids of that pass looked up in the
    reverse table of the language it produces.  With beam search
    ([beam_width > 0]) the logits of every pass are [tf.no_op()] and the
    sample ids are the predicted ids of a beam-search decoder; without it
    they are the outputs and the sample ids of one basic decoder, sampling
    when [sampling_temperature > 0] and greedy otherwise.  Each decoding is
    bounded by [_get_infer_maximum_iterations] on the source lengths of the
    iterator of its pass. *)
Theorem infer_outputs (g : Graph) (hparams : HParams)
  (it1 it2 it3 it4 : BatchedInput) (tab1 tab2 : string)
  (rtab1 rtab2 : option string) (scope : scope_arg) (st : State) :
  new_model g hparams INFER it1 it2 it3 it4 tab1 tab2 rtab1 rtab2 scope = Ok st ->
  exists (logits sample_id : pass -> tensor) (rev_src rev_tgt : string),
    let words table p := VTensor (Op "lookup" [Op table []; Op "to_int64" [sample_id p]]) in
    rtab1 = Some rev_src /\ rtab2 = Some rev_tgt
    /\ lookup "infer_logits_src" (self st) = Some (VTensor (logits s2s))
    /\ lookup "infer_logits_tgt" (self st) = Some (VTensor (logits t2t))
    /\ lookup "infer_cross_logits_src" (self st) = Some (VTensor (logits t2s))
    /\ lookup "infer_cross_logits_tgt" (self st) = Some (VTensor (logits s2t))
    /\ lookup "sample_id_src" (self st) = Some (VTensor (sample_id s2s))
    /\ lookup "sample_id_tgt" (self st) = Some (VTensor (sample_id t2t))
    /\ lookup "sample_id_cross_src" (self st) = Some (VTensor (sample_id t2s))
    /\ lookup "sample_id_cross_tgt" (self st) = Some (VTensor (sample_id s2t))
    /\ lookup "sample_words_src" (self st) = Some (words rev_src s2s)
    /\ lookup "sample_words_tgt" (self st) = Some (words rev_tgt t2t)
    /\ lookup "sample_words_src_cross" (self st) = Some (words rev_src t2s)
    /\ lookup "sample_words_tgt_cross" (self st) = Some (words rev_tgt s2t)
    /\ forall p,
         infer_decoded hparams (by_pass it1 it2 it3 it4 p) (logits p) (sample_id p).
Proof.
  intros H. apply new_model_stages in H.
  destruct H as (st1 & st2 & st3 & emb_src & emb_tgt & r1 & r2 & r3 & r4
                 & loss & ladv & Hself & S2 & _ & _ & _ & _ & _
                 & Hb & H3 & H4 & _).
  apply (build_graph_INFER _ _ _ _ _ _ _ _ _ _ it1 it2 it3 it4) in Hb;
    try (rewrite Hself; reflexivity).
  destruct Hb as (D1 & D2 & D3 & D4).
  destruct r1 as [[l1 f1] s1], r2 as [[l2 f2] s2],
           r3 as [[l3 f3] s3], r4 as [[l4 f4] s4].
  cbn [pass_logits pass_sample_id fst snd] in D1, D2, D3, D4.
  assert (Hm2 : lookup "mode" (self st2) = Some (VMode INFER))
    by (rewrite S2, Hself; reflexivity).
  rewrite init_outputs_INFER in H3 by exact Hm2.
  destruct rtab1 as [t1 |]; [| discriminate H3].
  destruct rtab2 as [t2 |]; [| discriminate H3].
  inversion H3. subst st3. clear H3.
  rewrite (init_training_not_TRAIN hparams INFER) in H4;
    [| cbn [self lookup String.eqb Ascii.eqb Bool.eqb]; exact Hm2 | discriminate].
  inversion H4. clear H4.
  exists (by_pass l1 l2 l3 l4), (by_pass s1 s2 s3 s4), t1, t2.
  cbv zeta. cbn [self by_pass].
  split; [reflexivity|]. split; [reflexivity|].
  do 12 (split; [reflexivity|]).
  intros p. destruct p; assumption.
Qed.

End InferenceDecoder.

(** With a beam of width 3 the small model has no logits to return. *)
Lemma infer_outputs_beam :
  exists st,
    @new_model tiny_subclass tiny_helper empty_graph (beam_hparams 3) INFER
      (Iterator 0) (Iterator 1) (Iterator 2) (Iterator 3)
      "src_vocab" "tgt_vocab" (Some "reverse_src_vocab") (Some "reverse_tgt_vocab")
      ScopeNone = Ok st
    /\ lookup "infer_logits_src" (self st) = Some (VTensor (Op "no_op" []))
    /\ lookup "infer_cross_logits_tgt" (self st) = Some (VTensor (Op "no_op" [])).
Proof.
  destruct (@new_model tiny_subclass tiny_helper empty_graph (beam_hparams 3) INFER
              (Iterator 0) (Iterator 1) (Iterator 2) (Iterator 3)
              "src_vocab" "tgt_vocab"
              (Some "reverse_src_vocab"%string) (Some "reverse_tgt_vocab"%string)
              ScopeNone) as [st | e] eqn:E.
  - exists st. split; [reflexivity|].
    destruct (@infer_outputs tiny_subclass tiny_helper tiny_disciplined
                _ _ _ _ _ _ _ _ _ _ _ st E)
      as (logits & sample_id & t1 & t2 & _ & _ & L1 & _ & _ & L4 & _ & _ & _ & _
          & _ & _ & _ & _ & D).
    destruct (D s2s) as (a1 & _ & B1). destruct (D s2t) as (a2 & _ & B2).
    cbn in B1, B2. destruct B1 as [B1 _]. destruct B2 as [B2 _].
    rewrite L1, L4, B1, B2. split; reflexivity.
  - exfalso. revert E. vm_compute. discriminate.
Defined.
